(** * Catalog.cpp: system catalog and per-database catalog

    A shallow embedding of [Catalog/Catalog.cpp]: the system-wide registry of
    users, roles and object privileges ([SysCatalog]) and the per-database
    registry of tables, columns and string dictionaries ([Catalog]).

    Stateful member functions become functions in a state-and-exception
    monad over the object's fields.  The SQLite connection is part of that
    state: its tables are lists of rows, and a transaction is the snapshot
    taken at [BEGIN TRANSACTION]. *)

From Stdlib Require Import ZArith String List Lia.
From stdpp Require Import base tactics option list gmap strings pretty.

Local Open Scope Z_scope.
Local Open Scope string_scope.
Local Open Scope list_scope.

#[local] Set Warnings "-clear-no-such-hyp".

(** ** Outcomes of a call

    A member function either returns, throws a [std::runtime_error] that the
    caller may catch, or terminates the process (a failed [CHECK], or a
    dereference the source performs without a test).  A thrown exception
    keeps the state as it was at the throw: nothing in the source undoes
    in-memory writes on unwinding. *)

Inductive outcome (S A : Type) : Type :=
| Ok (a : A) (s : S)
| Throw (msg : string) (s : S)
| Fatal.
Arguments Ok {S A} a s.
Arguments Throw {S A} msg s.
Arguments Fatal {S A}.

Definition M (S A : Type) : Type := S -> outcome S A.

Definition ret {S A} (a : A) : M S A := fun s => Ok a s.

Definition bind {S A B} (m : M S A) (f : A -> M S B) : M S B :=
  fun s =>
    match m s with
    | Ok a s' => f a s'
    | Throw e s' => Throw e s'
    | Fatal => Fatal
    end.

Definition throw {S A} (msg : string) : M S A := fun s => Throw msg s.

Definition fatal {S A} : M S A := fun _ => Fatal.

Definition gets {S A} (f : S -> A) : M S A := fun s => Ok (f s) s.

Definition modify {S} (f : S -> S) : M S unit := fun s => Ok tt (f s).

(** [CHECK(cond)]: fatal when the condition is false. *)
Definition CHECK {S} (cond : bool) : M S unit :=
  if cond then ret tt else fatal.

(** [try { m } catch (std::exception& e) { h e }]. *)
Definition try_catch {S A} (m : M S A) (h : string -> M S A) : M S A :=
  fun s =>
    match m s with
    | Throw e s' => h e s'
    | r => r
    end.

(** A value of [option] where [None] is dereferenced by the source without
    a test. *)
Definition deref {S A} (o : option A) : M S A :=
  match o with
  | Some a => ret a
  | None => fatal
  end.

Declare Scope cat_scope.
Delimit Scope cat_scope with cat.
Notation "x <- m ;; k" := (bind m (fun x => k))
  (at level 100, m at next level, right associativity) : cat_scope.
Notation "m ;; k" := (bind m (fun _ => k))
  (at level 100, right associativity) : cat_scope.
Local Open Scope cat_scope.

(** [for (auto x : l) body(x)], threading an accumulator. *)
Fixpoint foldM {S A B} (f : B -> A -> M S B) (l : list A) (b : B) : M S B :=
  match l with
  | [] => ret b
  | x :: l' => b' <- f b x ;; foldM f l' b'
  end.

(** ** The SQLite connection

    [db] holds the tables as the connection currently sees them, [txn] the
    snapshot taken by [BEGIN TRANSACTION] while a transaction is open.
    SQLite itself is outside the repository; what is modelled is its
    contract: a statement that changes data either applies or raises, a
    rollback restores the snapshot.  [fuse] injects a failure of the
    storage layer: [Some n] makes the statement after the next [n] changing
    statements raise.  Statements that only read do not fail. *)

Record SqliteConnector (T : Type) : Type := mkConn {
  db : T;
  txn : option T;
  fuse : option nat
}.
Arguments mkConn {T} db txn fuse.
Arguments db {T} s.
Arguments txn {T} s.
Arguments fuse {T} s.

Definition sqlite_error : string := "SQLite3 error".

Definition conn_begin {T} (c : SqliteConnector T) : option (SqliteConnector T) :=
  match txn c with
  | None => Some (mkConn (db c) (Some (db c)) (fuse c))
  | Some _ => None
  end.

Definition conn_rollback {T} (c : SqliteConnector T) : option (SqliteConnector T) :=
  match txn c with
  | Some t => Some (mkConn t None (fuse c))
  | None => None
  end.

Definition conn_end {T} (c : SqliteConnector T) : option (SqliteConnector T) :=
  match txn c with
  | Some _ => Some (mkConn (db c) None (fuse c))
  | None => None
  end.

(** A statement that changes data; [stmt] returns [None] when a constraint
    of the schema rejects it. *)
Definition conn_exec {T} (stmt : T -> option T) (c : SqliteConnector T)
  : option (SqliteConnector T) :=
  match fuse c with
  | Some O => None
  | f =>
      match stmt (db c) with
      | Some d => Some (mkConn d (txn c) (pred <$> f))
      | None => None
      end
  end.

(** ** Types declared in headers outside [Catalog.cpp]

    The structs below are declared in headers of the repository that are
    not part of this file ([sqltypes.h], [TableDescriptor.h],
    [ColumnDescriptor.h], [DictDescriptor.h], [ParserNode.h]); their fields
    are the ones [Catalog.cpp] reads and writes. *)

Inductive SQLTypes : Type :=
| kBOOLEAN | kTINYINT | kINT | kBIGINT | kTEXT | kARRAY
| kPOINT | kLINESTRING | kPOLYGON | kMULTIPOLYGON
| kNULLT
| kOtherType (code : Z).

Inductive EncodingType : Type :=
| kENCODING_NONE
| kENCODING_DICT
| kENCODING_OTHER (code : Z).

#[global] Instance SQLTypes_eq_dec : EqDecision SQLTypes.
Proof. solve_decision. Defined.
#[global] Instance EncodingType_eq_dec : EqDecision EncodingType.
Proof. solve_decision. Defined.

Record SQLTypeInfo : Type := mkTypeInfo {
  ti_type : SQLTypes;
  ti_subtype : SQLTypes;
  ti_dimension : Z;
  ti_scale : Z;
  ti_notnull : bool;
  ti_compression : EncodingType;
  ti_comp_param : Z;
  ti_size : Z
}.

Definition set_subtype (st : SQLTypes) (ti : SQLTypeInfo) : SQLTypeInfo :=
  mkTypeInfo (ti_type ti) st (ti_dimension ti) (ti_scale ti) (ti_notnull ti)
             (ti_compression ti) (ti_comp_param ti) (ti_size ti).
Definition set_comp_param (p : Z) (ti : SQLTypeInfo) : SQLTypeInfo :=
  mkTypeInfo (ti_type ti) (ti_subtype ti) (ti_dimension ti) (ti_scale ti)
             (ti_notnull ti) (ti_compression ti) p (ti_size ti).
Definition set_size (n : Z) (ti : SQLTypeInfo) : SQLTypeInfo :=
  mkTypeInfo (ti_type ti) (ti_subtype ti) (ti_dimension ti) (ti_scale ti)
             (ti_notnull ti) (ti_compression ti) (ti_comp_param ti) n.

Record ColumnDescriptor : Type := mkColumn {
  cd_tableId : Z;
  cd_columnId : Z;
  cd_columnName : string;
  cd_columnType : SQLTypeInfo;
  cd_isSystemCol : bool;
  cd_isVirtualCol : bool;
  cd_virtualExpr : string;
  cd_isDeletedCol : bool
}.

Definition cd_set_ids (tid cid : Z) (cd : ColumnDescriptor) : ColumnDescriptor :=
  mkColumn tid cid (cd_columnName cd) (cd_columnType cd) (cd_isSystemCol cd)
           (cd_isVirtualCol cd) (cd_virtualExpr cd) (cd_isDeletedCol cd).
Definition cd_set_columnType (ti : SQLTypeInfo) (cd : ColumnDescriptor)
  : ColumnDescriptor :=
  mkColumn (cd_tableId cd) (cd_columnId cd) (cd_columnName cd) ti
           (cd_isSystemCol cd) (cd_isVirtualCol cd) (cd_virtualExpr cd)
           (cd_isDeletedCol cd).

Inductive MemoryLevel : Type := DISK_LEVEL | CPU_LEVEL | GPU_LEVEL.
#[global] Instance MemoryLevel_eq_dec : EqDecision MemoryLevel.
Proof. solve_decision. Defined.

(** The fragmenter handle of a [TableDescriptor] belongs to the storage
    engine and is left out. *)
Record TableDescriptor : Type := mkTable {
  td_tableId : Z;
  td_shard : Z;
  td_tableName : string;
  td_userId : Z;
  td_nColumns : Z;
  td_isView : bool;
  td_viewSQL : string;
  td_fragType : Z;
  td_maxFragRows : Z;
  td_maxChunkSize : Z;
  td_fragPageSize : Z;
  td_maxRows : Z;
  td_partitions : string;
  td_keyMetainfo : string;
  td_shardedColumnId : Z;
  td_nShards : Z;
  td_hasDeletedCol : bool;
  td_persistenceLevel : MemoryLevel
}.

Definition td_with (tid shard : Z) (name : string) (ncols : Z)
  (td : TableDescriptor) : TableDescriptor :=
  mkTable tid shard name (td_userId td) ncols (td_isView td) (td_viewSQL td)
          (td_fragType td) (td_maxFragRows td) (td_maxChunkSize td)
          (td_fragPageSize td) (td_maxRows td) (td_partitions td)
          (td_keyMetainfo td) (td_shardedColumnId td) (td_nShards td)
          (td_hasDeletedCol td) (td_persistenceLevel td).
Definition td_set_tableId (tid : Z) (td : TableDescriptor) :=
  td_with tid (td_shard td) (td_tableName td) (td_nColumns td) td.
Definition td_set_shard (sh : Z) (td : TableDescriptor) :=
  td_with (td_tableId td) sh (td_tableName td) (td_nColumns td) td.
Definition td_set_tableName (n : string) (td : TableDescriptor) :=
  td_with (td_tableId td) (td_shard td) n (td_nColumns td) td.
Definition td_set_nColumns (n : Z) (td : TableDescriptor) :=
  td_with (td_tableId td) (td_shard td) (td_tableName td) n td.

(** [DictRef] is the pair (dbId, dictId). *)
Abbreviation DictRef := (Z * Z)%type (only parsing).

Record DictDescriptor : Type := mkDict {
  dd_dictRef : DictRef;
  dd_dictName : string;
  dd_dictNBits : Z;
  dd_dictIsShared : bool;
  dd_refcount : Z;
  dd_dictFolderPath : string;
  dd_dictIsTemp : bool;
  dd_stringDict : bool   (* whether the dictionary handle is loaded *)
}.

Definition dd_set_refcount (n : Z) (dd : DictDescriptor) : DictDescriptor :=
  mkDict (dd_dictRef dd) (dd_dictName dd) (dd_dictNBits dd) (dd_dictIsShared dd)
         n (dd_dictFolderPath dd) (dd_dictIsTemp dd) (dd_stringDict dd).
Definition dd_reset_stringDict (dd : DictDescriptor) : DictDescriptor :=
  mkDict (dd_dictRef dd) (dd_dictName dd) (dd_dictNBits dd) (dd_dictIsShared dd)
         (dd_refcount dd) (dd_dictFolderPath dd) (dd_dictIsTemp dd) false.

(** [Parser::SharedDictionaryDef], through its three getters. *)
Record SharedDictionaryDef : Type := mkSharedDict {
  get_column : string;
  get_foreign_table : string;
  get_foreign_column : string
}.

Record DBMetadata : Type := mkDB {
  dbId : Z;
  dbName : string;
  dbOwner : Z
}.

(** What [Catalog.cpp] takes from headers and libraries without defining
    it: the case folding of [Shared/StringTransform.h], the [IS_GEO] macro,
    the two-argument constructor and [is_array] of [SQLTypeInfo],
    [compress_reference_path] of [SharedDictionaryValidator.h], and the
    name of the root user. *)
Class Headers : Type := {
  to_upper : string -> string;
  IS_GEO : SQLTypes -> bool;
  SQLTypeInfo2 : SQLTypes -> bool -> SQLTypeInfo;
  is_array : SQLTypeInfo -> bool;
  compress_reference_path :
    SharedDictionaryDef -> list SharedDictionaryDef -> SharedDictionaryDef;
  MAPD_ROOT_USER : string
}.

(** ** The per-database catalog *)

Module Catalog.

(** Rows of the catalog database, columns as in the [CREATE TABLE]
    statements of [SysCatalog::createDatabase] and the later
    [ALTER TABLE ... ADD] migrations. *)

Record TableRow : Type := mkTableRow {
  tr_tableid : Z;
  tr_name : string;
  tr_userid : Z;
  tr_ncolumns : Z;
  tr_isview : bool;
  tr_frag_type : Z;
  tr_max_frag_rows : Z;
  tr_max_chunk_size : Z;
  tr_frag_page_size : Z;
  tr_max_rows : Z;
  tr_partitions : string;
  tr_shard_column_id : Z;
  tr_shard : Z;
  tr_num_shards : Z;
  tr_key_metainfo : string
}.

Record ColumnRow : Type := mkColumnRow {
  cr_tableid : Z;
  cr_columnid : Z;
  cr_name : string;
  cr_type : SQLTypeInfo;
  cr_is_systemcol : bool;
  cr_is_virtualcol : bool;
  cr_virtual_expr : string;
  cr_is_deletedcol : bool
}.

Record DictRow : Type := mkDictRow {
  dr_dictid : Z;
  dr_name : string;
  dr_nbits : Z;
  dr_is_shared : bool;
  dr_refcount : Z
}.

Record Store : Type := mkStore {
  mapd_tables : list TableRow;
  mapd_columns : list ColumnRow;
  mapd_dictionaries : list DictRow;
  mapd_views : list (Z * string);
  mapd_logical_to_physical : list (Z * Z)
}.

(** The row id SQLite gives to a row inserted without one into a table
    with an [integer primary key]: one more than the largest in use. *)
Definition next_rowid (ids : list Z) : Z := 1 + foldr Z.max 0 ids.

(** [INSERT INTO mapd_tables (name, userid, ncolumns, ...) VALUES (...)];
    [name] is [unique]. *)
Definition insert_table (td : TableDescriptor) (s : Store) : option Store :=
  if decide (td_tableName td ∈ tr_name <$> mapd_tables s) then None
  else
    let row :=
      mkTableRow (next_rowid (tr_tableid <$> mapd_tables s)) (td_tableName td)
                 (td_userId td) (td_nColumns td) (td_isView td) (td_fragType td)
                 (td_maxFragRows td) (td_maxChunkSize td) (td_fragPageSize td)
                 (td_maxRows td) (td_partitions td) (td_shardedColumnId td)
                 (td_shard td) (td_nShards td) (td_keyMetainfo td) in
    Some (mkStore (mapd_tables s ++ [row]) (mapd_columns s)
                  (mapd_dictionaries s) (mapd_views s)
                  (mapd_logical_to_physical s)).

(** [SELECT tableid FROM mapd_tables WHERE name = ?], first row. *)
Definition select_tableid (name : string) (s : Store) : option Z :=
  tr_tableid <$> head (filter (fun r => tr_name r = name) (mapd_tables s)).

(** [INSERT INTO mapd_columns (...)], with [primary key(tableid, columnid)]
    and [unique(tableid, name)]. *)
Definition insert_column (row : ColumnRow) (s : Store) : option Store :=
  if decide (Exists (fun r => cr_tableid r = cr_tableid row
                            ∧ (cr_columnid r = cr_columnid row
                               ∨ cr_name r = cr_name row))
                    (mapd_columns s))
  then None
  else Some (mkStore (mapd_tables s) (mapd_columns s ++ [row])
                     (mapd_dictionaries s) (mapd_views s)
                     (mapd_logical_to_physical s)).

(** [INSERT INTO mapd_dictionaries (name, nbits, is_shared, refcount)
    VALUES (?, ?, ?, 1)]; [name] is [unique]. *)
Definition insert_dictionary (name : string) (nbits : Z) (shared : bool)
  (s : Store) : option Store :=
  if decide (name ∈ dr_name <$> mapd_dictionaries s) then None
  else
    let row := mkDictRow (next_rowid (dr_dictid <$> mapd_dictionaries s))
                         name nbits shared 1 in
    Some (mkStore (mapd_tables s) (mapd_columns s)
                  (mapd_dictionaries s ++ [row]) (mapd_views s)
                  (mapd_logical_to_physical s)).

(** [SELECT dictid FROM mapd_dictionaries WHERE name = ?], first row. *)
Definition select_dictid (name : string) (s : Store) : option Z :=
  dr_dictid <$> head (filter (fun r => dr_name r = name) (mapd_dictionaries s)).

(** [UPDATE mapd_dictionaries SET name = ? WHERE name = 'Initial_key']. *)
Definition rename_initial_key (name : string) (s : Store) : option Store :=
  let hit := filter (fun r => dr_name r = "Initial_key") (mapd_dictionaries s) in
  let rest := filter (fun r => dr_name r ≠ "Initial_key") (mapd_dictionaries s) in
  if decide (hit = []) then Some s
  else if decide (name ∈ dr_name <$> rest ∨ (1 < length hit)%nat) then None
  else
    Some (mkStore (mapd_tables s) (mapd_columns s)
            ((fun r => if decide (dr_name r = "Initial_key")
                       then mkDictRow (dr_dictid r) name (dr_nbits r)
                                      (dr_is_shared r) (dr_refcount r)
                       else r) <$> mapd_dictionaries s)
            (mapd_views s) (mapd_logical_to_physical s)).

(** [UPDATE mapd_dictionaries SET refcount = refcount + 1 WHERE dictid = ?]. *)
Definition bump_refcount (dict_id : Z) (s : Store) : option Store :=
  Some (mkStore (mapd_tables s) (mapd_columns s)
          ((fun r => if decide (dr_dictid r = dict_id)
                     then mkDictRow (dr_dictid r) (dr_name r) (dr_nbits r)
                                    (dr_is_shared r) (dr_refcount r + 1)
                     else r) <$> mapd_dictionaries s)
          (mapd_views s) (mapd_logical_to_physical s)).

(** [SELECT dictid FROM mapd_dictionaries WHERE dictid in (select comp_param
    from mapd_columns where compression = ? and tableid = ? and
    columnid = ?)], first row. *)
Definition select_column_dictid (tid cid : Z) (s : Store) : option Z :=
  let params :=
    (fun r => ti_comp_param (cr_type r)) <$>
      filter (fun r => ti_compression (cr_type r) = kENCODING_DICT
                       ∧ cr_tableid r = tid ∧ cr_columnid r = cid)
             (mapd_columns s) in
  dr_dictid <$> head (filter (fun r => dr_dictid r ∈ params) (mapd_dictionaries s)).

(** [INSERT INTO mapd_views (tableid, sql) VALUES (?,?)]. *)
Definition insert_view (tid : Z) (sql : string) (s : Store) : option Store :=
  Some (mkStore (mapd_tables s) (mapd_columns s) (mapd_dictionaries s)
                (mapd_views s ++ [(tid, sql)]) (mapd_logical_to_physical s)).

(** [INSERT OR REPLACE INTO mapd_logical_to_physical (logical_table_id,
    physical_table_id) VALUES (?1, ?2)]; the table has no key, so nothing
    is ever replaced. *)
Definition insert_logical_to_physical (l p : Z) (s : Store) : option Store :=
  Some (mkStore (mapd_tables s) (mapd_columns s) (mapd_dictionaries s)
                (mapd_views s) (mapd_logical_to_physical s ++ [(l, p)])).

(** The fields of [class Catalog] that [Catalog.cpp] works on.  The two
    indices of tables and of columns point to the same descriptors in the
    source; each index holds the descriptor's value here, and the two
    functions that write to a registered descriptor ([renamePhysicalTable],
    [renameColumn]) show the write in both indices.
    [deletedColumnPerTable_] is keyed by descriptor address in the source;
    a registered descriptor is identified here by its table id.

    The collaborators are kept to what the catalog does to them:
    [dict_folders] are the dictionary directories on disk, [remote_dicts]
    the entries of the string-dictionary service, [calcite_down] makes
    [calciteMgr_->updateMetadata] throw. *)
Record t : Type := mkCatalog {
  sqliteConnector_ : SqliteConnector Store;
  tableDescriptorMap_ : gmap string TableDescriptor;
  tableDescriptorMapById_ : gmap Z TableDescriptor;
  columnDescriptorMap_ : gmap (Z * string) ColumnDescriptor;
  columnDescriptorMapById_ : gmap (Z * Z) ColumnDescriptor;
  dictDescriptorMapByRef_ : gmap DictRef DictDescriptor;
  logicalToPhysicalTableMapById_ : gmap Z (list Z);
  deletedColumnPerTable_ : gmap Z ColumnDescriptor;
  nextTempTableId_ : Z;
  nextTempDictId_ : Z;
  dict_folders : gset string;
  remote_dicts : gset DictRef;
  currentDB_ : DBMetadata;
  basePath_ : string;
  string_dict_hosts_ : list string;
  g_aggregator : bool;
  calcite_down : bool
}.

Definition set_conn (x : SqliteConnector Store) (c : t) : t :=
  mkCatalog x (tableDescriptorMap_ c) (tableDescriptorMapById_ c)
    (columnDescriptorMap_ c) (columnDescriptorMapById_ c)
    (dictDescriptorMapByRef_ c) (logicalToPhysicalTableMapById_ c)
    (deletedColumnPerTable_ c) (nextTempTableId_ c) (nextTempDictId_ c)
    (dict_folders c) (remote_dicts c) (currentDB_ c) (basePath_ c)
    (string_dict_hosts_ c) (g_aggregator c) (calcite_down c).
Definition set_tables (byName : gmap string TableDescriptor)
  (byId : gmap Z TableDescriptor) (c : t) : t :=
  mkCatalog (sqliteConnector_ c) byName byId
    (columnDescriptorMap_ c) (columnDescriptorMapById_ c)
    (dictDescriptorMapByRef_ c) (logicalToPhysicalTableMapById_ c)
    (deletedColumnPerTable_ c) (nextTempTableId_ c) (nextTempDictId_ c)
    (dict_folders c) (remote_dicts c) (currentDB_ c) (basePath_ c)
    (string_dict_hosts_ c) (g_aggregator c) (calcite_down c).
Definition set_columns (byName : gmap (Z * string) ColumnDescriptor)
  (byId : gmap (Z * Z) ColumnDescriptor) (c : t) : t :=
  mkCatalog (sqliteConnector_ c) (tableDescriptorMap_ c)
    (tableDescriptorMapById_ c) byName byId
    (dictDescriptorMapByRef_ c) (logicalToPhysicalTableMapById_ c)
    (deletedColumnPerTable_ c) (nextTempTableId_ c) (nextTempDictId_ c)
    (dict_folders c) (remote_dicts c) (currentDB_ c) (basePath_ c)
    (string_dict_hosts_ c) (g_aggregator c) (calcite_down c).
Definition set_dicts (m : gmap DictRef DictDescriptor) (c : t) : t :=
  mkCatalog (sqliteConnector_ c) (tableDescriptorMap_ c)
    (tableDescriptorMapById_ c) (columnDescriptorMap_ c)
    (columnDescriptorMapById_ c) m (logicalToPhysicalTableMapById_ c)
    (deletedColumnPerTable_ c) (nextTempTableId_ c) (nextTempDictId_ c)
    (dict_folders c) (remote_dicts c) (currentDB_ c) (basePath_ c)
    (string_dict_hosts_ c) (g_aggregator c) (calcite_down c).
Definition set_logicalToPhysical (m : gmap Z (list Z)) (c : t) : t :=
  mkCatalog (sqliteConnector_ c) (tableDescriptorMap_ c)
    (tableDescriptorMapById_ c) (columnDescriptorMap_ c)
    (columnDescriptorMapById_ c) (dictDescriptorMapByRef_ c) m
    (deletedColumnPerTable_ c) (nextTempTableId_ c) (nextTempDictId_ c)
    (dict_folders c) (remote_dicts c) (currentDB_ c) (basePath_ c)
    (string_dict_hosts_ c) (g_aggregator c) (calcite_down c).
Definition set_deletedColumns (m : gmap Z ColumnDescriptor) (c : t) : t :=
  mkCatalog (sqliteConnector_ c) (tableDescriptorMap_ c)
    (tableDescriptorMapById_ c) (columnDescriptorMap_ c)
    (columnDescriptorMapById_ c) (dictDescriptorMapByRef_ c)
    (logicalToPhysicalTableMapById_ c) m (nextTempTableId_ c)
    (nextTempDictId_ c) (dict_folders c) (remote_dicts c) (currentDB_ c)
    (basePath_ c) (string_dict_hosts_ c) (g_aggregator c) (calcite_down c).
Definition set_nextTemp (tid did : Z) (c : t) : t :=
  mkCatalog (sqliteConnector_ c) (tableDescriptorMap_ c)
    (tableDescriptorMapById_ c) (columnDescriptorMap_ c)
    (columnDescriptorMapById_ c) (dictDescriptorMapByRef_ c)
    (logicalToPhysicalTableMapById_ c) (deletedColumnPerTable_ c) tid did
    (dict_folders c) (remote_dicts c) (currentDB_ c) (basePath_ c)
    (string_dict_hosts_ c) (g_aggregator c) (calcite_down c).
Definition set_collab (folders : gset string) (remote : gset DictRef) (c : t) : t :=
  mkCatalog (sqliteConnector_ c) (tableDescriptorMap_ c)
    (tableDescriptorMapById_ c) (columnDescriptorMap_ c)
    (columnDescriptorMapById_ c) (dictDescriptorMapByRef_ c)
    (logicalToPhysicalTableMapById_ c) (deletedColumnPerTable_ c)
    (nextTempTableId_ c) (nextTempDictId_ c) folders remote (currentDB_ c)
    (basePath_ c) (string_dict_hosts_ c) (g_aggregator c) (calcite_down c).

Definition Cat (A : Type) : Type := M t A.

(** [sqliteConnector_.query(...)] and [query_with_text_params(...)]. *)
Definition on_conn (f : SqliteConnector Store -> option (SqliteConnector Store))
  : Cat unit :=
  fun c =>
    match f (sqliteConnector_ c) with
    | Some x => Ok tt (set_conn x c)
    | None => Throw sqlite_error c
    end.
Definition BEGIN_TRANSACTION : Cat unit := on_conn conn_begin.
Definition ROLLBACK_TRANSACTION : Cat unit := on_conn conn_rollback.
Definition END_TRANSACTION : Cat unit := on_conn conn_end.
Definition query (stmt : Store -> option Store) : Cat unit :=
  on_conn (conn_exec stmt).
Definition select {A} (q : Store -> A) : Cat A :=
  gets (fun c => q (db (sqliteConnector_ c))).

Section Functions.
Context `{Headers}.

(** [std::to_string] of an [int]. *)
Definition to_string (n : Z) : string := pretty n.

Definition physicalTableNameTag_ : string := "_shard_#".

Definition generatePhysicalTableName (logicalTableName : string)
  (shardNumber : Z) : string :=
  logicalTableName +:+ physicalTableNameTag_ +:+ to_string shardNumber.

(** *** Lookups *)

(** [getMetadataForTable(const string&)]; instantiating the fragmenter on
    the way is the storage engine's business. *)
Definition getMetadataForTable (tableName : string) (c : t)
  : option TableDescriptor :=
  tableDescriptorMap_ c !! to_upper tableName.

Definition getMetadataForTableById (tableId : Z) (c : t) : option TableDescriptor :=
  tableDescriptorMapById_ c !! tableId.

Definition getMetadataForColumn (tableId : Z) (columnName : string) (c : t)
  : option ColumnDescriptor :=
  columnDescriptorMap_ c !! (tableId, to_upper columnName).

Definition getMetadataForColumnById (tableId columnId : Z) (c : t)
  : option ColumnDescriptor :=
  columnDescriptorMapById_ c !! (tableId, columnId).

Definition getMetadataForDict (dictId : Z) (c : t) : option DictDescriptor :=
  dictDescriptorMapByRef_ c !! (dbId (currentDB_ c), dictId).

(** [calciteMgr_->updateMetadata(dbName, tableName)]. *)
Definition updateMetadata : Cat unit :=
  down <- gets calcite_down ;;
  if down : bool then throw "Calcite" else ret tt.

(** *** [Catalog::createTable], first loop: the physical columns *)

(** A default-constructed [ColumnDescriptor] with a name and a type; its
    table and column ids are assigned before it is registered. *)
Definition physical_cd (name : string) (ti : SQLTypeInfo) : ColumnDescriptor :=
  mkColumn 0 0 name ti false false "" false.

Definition physical_cd_coords (cd : ColumnDescriptor) : ColumnDescriptor :=
  physical_cd (cd_columnName cd +:+ "_coords")
              (set_subtype kTINYINT (SQLTypeInfo2 kARRAY true)).
Definition physical_cd_ring_sizes (cd : ColumnDescriptor) : ColumnDescriptor :=
  physical_cd (cd_columnName cd +:+ "_ring_sizes")
              (set_subtype kINT (SQLTypeInfo2 kARRAY true)).
Definition physical_cd_poly_rings (cd : ColumnDescriptor) : ColumnDescriptor :=
  physical_cd (cd_columnName cd +:+ "_poly_rings")
              (set_subtype kINT (SQLTypeInfo2 kARRAY true)).
Definition physical_cd_render_group (cd : ColumnDescriptor) : ColumnDescriptor :=
  physical_cd (cd_columnName cd +:+ "_render_group") (SQLTypeInfo2 kINT true).

(** The [switch] on the geometry type; [None] is its [default] branch. *)
Definition geo_columns (cd : ColumnDescriptor) : option (list ColumnDescriptor) :=
  match ti_type (cd_columnType cd) with
  | kPOINT | kLINESTRING => Some [cd; physical_cd_coords cd]
  | kPOLYGON =>
      Some [cd; physical_cd_coords cd; physical_cd_ring_sizes cd;
            physical_cd_render_group cd]
  | kMULTIPOLYGON =>
      Some [cd; physical_cd_coords cd; physical_cd_ring_sizes cd;
            physical_cd_poly_rings cd; physical_cd_render_group cd]
  | _ => None
  end.

Definition rowid_error : string :=
  "Cannot create column with name rowid. rowid is a system defined column.".

Fixpoint expand_columns (cols columns : list ColumnDescriptor)
  : string + list ColumnDescriptor :=
  match cols with
  | [] => inr columns
  | cd :: rest =>
      if decide (cd_columnName cd = "rowid") then inl rowid_error
      else if IS_GEO (ti_type (cd_columnType cd)) then
        match geo_columns cd with
        | Some l => expand_columns rest (columns ++ l)
        | None => inl "Unrecognized geometry type."
        end
      else expand_columns rest (columns ++ [cd])
  end.

(** The system columns appended after the declared ones ([rowid] is
    virtual: [MATERIALIZED_ROWID] is not defined). *)
Definition rowid_cd : ColumnDescriptor :=
  mkColumn 0 0 "rowid" (SQLTypeInfo2 kBIGINT true) true true
           "MAPD_FRAG_ID * MAPD_ROWS_PER_FRAG + MAPD_FRAG_ROW_ID" false.
Definition deleted_cd : ColumnDescriptor :=
  mkColumn 0 0 "$deleted$" (SQLTypeInfo2 kBOOLEAN true) true false "" true.

Definition system_columns (td : TableDescriptor) : list ColumnDescriptor :=
  rowid_cd :: (if td_hasDeletedCol td then [deleted_cd] else []).

(** *** Dictionaries of dictionary-encoded columns *)

(** [get_foreign_col], with the [CHECK]s of it and of its caller. *)
Definition get_foreign_col (shared_dict_def : SharedDictionaryDef)
  : Cat ColumnDescriptor :=
  td <- gets (getMetadataForTable (get_foreign_table shared_dict_def)) ;;
  td <- deref td ;;
  cd <- gets (getMetadataForColumn (td_tableId td)
                                   (get_foreign_column shared_dict_def)) ;;
  deref cd.

Definition addReferenceToForeignDict (referencing_column : ColumnDescriptor)
  (shared_dict_def : SharedDictionaryDef) : Cat ColumnDescriptor :=
  foreign_ref_col <- get_foreign_col shared_dict_def ;;
  let referencing_column :=
    cd_set_columnType (cd_columnType foreign_ref_col) referencing_column in
  let dict_id := ti_comp_param (cd_columnType referencing_column) in
  dict_ref <- gets (fun c => (dbId (currentDB_ c), dict_id)) ;;
  dd <- gets (fun c => dictDescriptorMapByRef_ c !! dict_ref) ;;
  dd <- deref dd ;;
  CHECK (bool_decide (1 <= dd_refcount dd)) ;;
  modify (fun c => set_dicts
            (<[dict_ref := dd_set_refcount (dd_refcount dd + 1) dd]>
               (dictDescriptorMapByRef_ c)) c) ;;
  query (bump_refcount dict_id) ;;
  ret referencing_column.

Definition setColumnSharedDictionary (cd : ColumnDescriptor)
  (cdd : list ColumnDescriptor) (dds : list DictDescriptor)
  (td : TableDescriptor) (shared_dict_defs : list SharedDictionaryDef)
  : Cat (bool * ColumnDescriptor * list DictDescriptor) :=
  match list_find (fun d => cd_columnName cd = get_column d) shared_dict_defs with
  | None => ret (false, cd, dds)
  | Some (_, shared_dict_def) =>
      if decide (get_foreign_table shared_dict_def = td_tableName td) then
        let ref_column := get_foreign_column shared_dict_def in
        colIt <- deref (snd <$> list_find (fun it => ref_column = cd_columnName it) cdd) ;;
        let cd := cd_set_columnType (cd_columnType colIt) cd in
        dict_id <- select (select_column_dictid (td_tableId td) (cd_columnId colIt)) ;;
        dict_id <- deref dict_id ;;
        db_id <- gets (fun c => dbId (currentDB_ c)) ;;
        match list_find (fun it => dd_dictRef it = (db_id, dict_id)) dds with
        | Some (i, dictIt) =>
            CHECK (bool_decide (1 <= dd_refcount dictIt)) ;;
            let dds := <[i := dd_set_refcount (dd_refcount dictIt + 1) dictIt]> dds in
            query (bump_refcount dict_id) ;;
            ret (true, cd, dds)
        | None =>
            let root_dict_def :=
              compress_reference_path shared_dict_def shared_dict_defs in
            cd <- addReferenceToForeignDict cd root_dict_def ;;
            ret (true, cd, dds)
        end
      else
        cd <- addReferenceToForeignDict cd shared_dict_def ;;
        ret (true, cd, dds)
  end.

(** The size of a dictionary-encoded column that is not an array, and its
    dictionary id. *)
Definition with_dictionary (dictId : Z) (cd : ColumnDescriptor) : ColumnDescriptor :=
  let ti := cd_columnType cd in
  let ti := if is_array ti then ti else set_size (ti_comp_param ti `quot` 8) ti in
  cd_set_columnType (set_comp_param dictId ti) cd.

Definition dictFolder (basePath : string) (db_id dictId : Z) : string :=
  basePath +:+ "/mapd_data/DB_" +:+ to_string db_id +:+ "_DICT_" +:+ to_string dictId.

Definition setColumnDictionary (cd : ColumnDescriptor) (dds : list DictDescriptor)
  (td : TableDescriptor) (isLogicalTable : bool)
  : Cat (ColumnDescriptor * list DictDescriptor) :=
  let nbits := ti_comp_param (cd_columnType cd) in
  db_id <- gets (fun c => dbId (currentDB_ c)) ;;
  named <-
    (if isLogicalTable then
       query (insert_dictionary "Initial_key" nbits false) ;;
       dictId <- select (select_dictid "Initial_key") ;;
       dictId <- deref dictId ;;
       let dictName :=
         td_tableName td +:+ "_" +:+ cd_columnName cd +:+ "_dict" +:+ to_string dictId in
       query (rename_initial_key dictName) ;;
       basePath <- gets basePath_ ;;
       ret (dictId, dictName, dictFolder basePath db_id dictId)
     else ret (0, "Initial_key", "")) ;;
  let '(dictId, dictName, folderPath) := named in
  let dd := mkDict (db_id, dictId) dictName nbits false 1 folderPath false false in
  ret (with_dictionary dictId cd, dds ++ [dd]).

(** *** [Catalog::addTableToMap] and [Catalog::removeTableFromMap] *)

(** [setDeletedColumnUnlocked]: [emplace], then [CHECK] that it inserted. *)
Definition setDeletedColumnUnlocked (tableId : Z) (cd : ColumnDescriptor)
  : Cat unit :=
  present <- gets (fun c => bool_decide (is_Some (deletedColumnPerTable_ c !! tableId))) ;;
  CHECK (negb present) ;;
  modify (fun c => set_deletedColumns (<[tableId := cd]> (deletedColumnPerTable_ c)) c).

(** The two indices of columns take the descriptor. *)
Definition register_column (cd : ColumnDescriptor) (c : t) : t :=
  set_columns
    (<[(cd_tableId cd, to_upper (cd_columnName cd)) := cd]> (columnDescriptorMap_ c))
    (<[(cd_tableId cd, cd_columnId cd) := cd]> (columnDescriptorMapById_ c)) c.

Definition add_column (td : TableDescriptor) (cd : ColumnDescriptor) : Cat unit :=
  modify (register_column cd) ;;
  if cd_isDeletedCol cd then
    CHECK (td_hasDeletedCol td) ;;
    setDeletedColumnUnlocked (td_tableId td) cd
  else ret tt.

Definition add_dict (dd : DictDescriptor) : Cat unit :=
  if decide (snd (dd_dictRef dd) = 0) then
    (* Dummy entry created for a shard of a logical table, nothing to do. *)
    ret tt
  else
    modify (fun c =>
      let dict_ref := (dbId (currentDB_ c), snd (dd_dictRef dd)) in
      let remote :=
        match string_dict_hosts_ c with
        | [] => remote_dicts c
        | _ :: _ => {[dict_ref]} ∪ remote_dicts c
        end in
      let folders :=
        if dd_dictIsTemp dd then dict_folders c
        else {[dd_dictFolderPath dd]} ∪ dict_folders c in
      set_collab folders remote
        (set_dicts (<[dict_ref := dd]> (dictDescriptorMapByRef_ c)) c)).

Definition addTableToMap (td : TableDescriptor) (columns : list ColumnDescriptor)
  (dicts : list DictDescriptor) : Cat unit :=
  modify (fun c => set_tables
            (<[to_upper (td_tableName td) := td]> (tableDescriptorMap_ c))
            (<[td_tableId td := td]> (tableDescriptorMapById_ c)) c) ;;
  foldM (fun _ cd => add_column td cd) columns tt ;;
  foldM (fun _ dd => add_dict dd) dicts tt.

(** One turn of the loop that deletes the column descriptors of a table.
    The iterator returned by [find] is dereferenced without a test. *)
Definition remove_column (tableId : Z) (isTemp : bool) (i : Z) : Cat unit :=
  cd <- gets (fun c => columnDescriptorMapById_ c !! (tableId, i)) ;;
  cd <- deref cd ;;
  modify (fun c => set_columns
            (delete (tableId, to_upper (cd_columnName cd)) (columnDescriptorMap_ c))
            (delete (tableId, i) (columnDescriptorMapById_ c)) c) ;;
  let dictId := ti_comp_param (cd_columnType cd) in
  if decide (ti_compression (cd_columnType cd) = kENCODING_DICT ∧ dictId ≠ 0) then
    dict_ref <- gets (fun c => (dbId (currentDB_ c), dictId)) ;;
    dd <- gets (fun c => dictDescriptorMapByRef_ c !! dict_ref) ;;
    dd <- deref dd ;;
    CHECK (bool_decide (1 <= dd_refcount dd)) ;;
    let dd := dd_set_refcount (dd_refcount dd - 1) dd in
    if decide (dd_refcount dd = 0) then
      modify (fun c =>
        let folders :=
          if isTemp then dict_folders c
          else dict_folders c ∖ {[dd_dictFolderPath dd]} in
        let remote :=
          if g_aggregator c then remote_dicts c ∖ {[dict_ref]}
          else remote_dicts c in
        set_collab folders remote
          (set_dicts (delete dict_ref (dictDescriptorMapByRef_ c)) c))
    else
      modify (fun c => set_dicts (<[dict_ref := dd]> (dictDescriptorMapByRef_ c)) c)
  else ret tt.

Definition removeTableFromMap (tableName : string) (tableId : Z) : Cat unit :=
  tableDescIt <- gets (fun c => tableDescriptorMapById_ c !! tableId) ;;
  match tableDescIt with
  | None => throw ("Table " +:+ tableName +:+ " does not exist.")
  | Some td =>
      (if td_hasDeletedCol td then
         present <- gets (fun c => bool_decide (is_Some (deletedColumnPerTable_ c !! tableId))) ;;
         modify (fun c => set_deletedColumns (delete tableId (deletedColumnPerTable_ c)) c) ;;
         CHECK present
       else ret tt) ;;
      let ncolumns := td_nColumns td in
      modify (fun c => set_tables
                (delete (to_upper tableName) (tableDescriptorMap_ c))
                (delete tableId (tableDescriptorMapById_ c)) c) ;;
      let isTemp := bool_decide (td_persistenceLevel td = CPU_LEVEL) in
      agg <- gets g_aggregator ;;
      hosts <- gets string_dict_hosts_ ;;
      CHECK (negb agg || negb (bool_decide (hosts = []))) ;;
      foldM (fun _ i => remove_column tableId isTemp i) (seqZ 1 ncolumns) tt
  end.

(** *** [Catalog::createTable], second part *)

Definition column_row (tableId colId : Z) (cd : ColumnDescriptor) : ColumnRow :=
  mkColumnRow tableId colId (cd_columnName cd) (cd_columnType cd)
              (cd_isSystemCol cd) (cd_isVirtualCol cd) (cd_virtualExpr cd)
              (cd_isDeletedCol cd).

(** The state of the loops over [columns]: [colId], [cds] and [dds]. *)
Definition loop_state : Type := Z * list ColumnDescriptor * list DictDescriptor.

(** One turn of the loop of the [DISK_LEVEL] branch. *)
Definition persist_column (td : TableDescriptor)
  (shared_dict_defs : list SharedDictionaryDef) (isLogicalTable : bool)
  (st : loop_state) (cd : ColumnDescriptor) : Cat loop_state :=
  let '(colId, cds, dds) := st in
  r <-
    (if decide (ti_compression (cd_columnType cd) = kENCODING_DICT) then
       r <- setColumnSharedDictionary cd cds dds td shared_dict_defs ;;
       let '(is_foreign_col, cd, dds) := r in
       if is_foreign_col : bool then ret (cd, dds)
       else setColumnDictionary cd dds td isLogicalTable
     else ret (cd, dds)) ;;
  let '(cd, dds) := r in
  query (insert_column (column_row (td_tableId td) colId cd)) ;;
  ret (colId + 1, cds ++ [cd_set_ids (td_tableId td) colId cd], dds).

(** The exception object of [catch (std::exception& e) { ...; throw e; }]
    is a copy of static type [std::exception]; its message is lost. *)
Definition sliced : string := "std::exception".

Definition persist_table (td : TableDescriptor) (columns : list ColumnDescriptor)
  (shared_dict_defs : list SharedDictionaryDef) (isLogicalTable : bool)
  : Cat (TableDescriptor * list ColumnDescriptor * list DictDescriptor) :=
  try_catch
    (query (insert_table td) ;;
     (* now get the auto generated tableid *)
     tid <- select (select_tableid (td_tableName td)) ;;
     tid <- deref tid ;;
     let td := td_set_tableId tid td in
     st <- foldM (persist_column td shared_dict_defs isLogicalTable) columns (1, [], []) ;;
     let '(_, cds, dds) := st in
     (if td_isView td then query (insert_view (td_tableId td) (td_viewSQL td))
      else ret tt) ;;
     ret (td, cds, dds))
    (fun _ => ROLLBACK_TRANSACTION ;; throw sliced).

(** One turn of the loop of the temporary-table branch. *)
Definition temp_column (td : TableDescriptor) (st : loop_state)
  (cd : ColumnDescriptor) : Cat loop_state :=
  let '(colId, cds, dds) := st in
  if IS_GEO (ti_type (cd_columnType cd)) then
    throw "Geometry types in temporary tables are not supported."
  else
    r <-
      (if decide (ti_compression (cd_columnType cd) = kENCODING_DICT) then
         db_id <- gets (fun c => dbId (currentDB_ c)) ;;
         dictId <- gets nextTempDictId_ ;;
         modify (fun c => set_nextTemp (nextTempTableId_ c) (nextTempDictId_ c + 1) c) ;;
         let dd := mkDict (db_id, dictId) "" (ti_comp_param (cd_columnType cd))
                          false 1 "" true false in
         ret (with_dictionary dictId cd, dds ++ [dd])
       else ret (cd, dds)) ;;
    let '(cd, dds) := r in
    ret (colId + 1, cds ++ [cd_set_ids (td_tableId td) colId cd], dds).

Definition temp_table (td : TableDescriptor) (columns : list ColumnDescriptor)
  : Cat (TableDescriptor * list ColumnDescriptor * list DictDescriptor) :=
  tid <- gets nextTempTableId_ ;;
  modify (fun c => set_nextTemp (nextTempTableId_ c + 1) (nextTempDictId_ c) c) ;;
  let td := td_set_tableId tid td in
  st <- foldM (temp_column td) columns (1, [], []) ;;
  let '(_, cds, dds) := st in
  ret (td, cds, dds).

(** [td] is passed by reference: the descriptor with its column count and
    table id filled in is returned. *)
Definition createTable (td : TableDescriptor) (cols : list ColumnDescriptor)
  (shared_dict_defs : list SharedDictionaryDef) (isLogicalTable : bool)
  : Cat TableDescriptor :=
  match expand_columns cols [] with
  | inl msg => throw msg
  | inr columns =>
      let columns := columns ++ system_columns td in
      let td := td_set_nColumns (Z.of_nat (length columns)) td in
      BEGIN_TRANSACTION ;;
      r <-
        (if decide (td_persistenceLevel td = DISK_LEVEL)
         then persist_table td columns shared_dict_defs isLogicalTable
         else temp_table td columns) ;;
      let '(td, cds, dds) := r in
      try_catch
        (addTableToMap td cds dds ;; updateMetadata)
        (fun _ =>
           ROLLBACK_TRANSACTION ;;
           removeTableFromMap (td_tableName td) (td_tableId td) ;;
           throw sliced) ;;
      END_TRANSACTION ;;
      ret td
  end.

(** *** Sharded tables *)

Definition updateLogicalToPhysicalTableMap (logical_tb_id : Z) : Cat unit :=
  BEGIN_TRANSACTION ;;
  try_catch
    (physicalTableIt <- gets (fun c => logicalToPhysicalTableMapById_ c !! logical_tb_id) ;;
     match physicalTableIt with
     | Some physicalTables =>
         CHECK (negb (bool_decide (physicalTables = []))) ;;
         foldM (fun _ physical_tb_id =>
                  query (insert_logical_to_physical logical_tb_id physical_tb_id))
               physicalTables tt
     | None => ret tt
     end)
    (fun e => ROLLBACK_TRANSACTION ;; throw e) ;;
  END_TRANSACTION.

Definition create_shard (td : TableDescriptor) (cols : list ColumnDescriptor)
  (shared_dict_defs : list SharedDictionaryDef)
  (physicalTables : list Z) (i : Z) : Cat (list Z) :=
  let tdp := td_set_shard (i - 1)
               (td_set_tableName (generatePhysicalTableName (td_tableName td) i) td) in
  tdp <- createTable tdp cols shared_dict_defs false ;;
  ret (physicalTables ++ [td_tableId tdp]).

Definition createShardedTable (td : TableDescriptor) (cols : list ColumnDescriptor)
  (shared_dict_defs : list SharedDictionaryDef) : Cat unit :=
  if decide (0 < td_nShards td
             ∧ (td_shardedColumnId td <= 0
                ∨ Z.of_nat (length cols) < td_shardedColumnId td)) then
    db_name <- gets (fun c => dbName (currentDB_ c)) ;;
    throw ("Invalid sharding column for table " +:+ td_tableName td +:+
           " of database " +:+ db_name)
  else
    (* create logical table *)
    tdl <- createTable td cols shared_dict_defs true ;;
    let logical_tb_id := td_tableId tdl in
    (* create physical tables and link them to the logical table *)
    physicalTables <-
      foldM (create_shard td cols shared_dict_defs) (seqZ 1 (td_nShards td)) [] ;;
    if decide (physicalTables = []) then ret tt
    else
      present <- gets (fun c => bool_decide
                         (is_Some (logicalToPhysicalTableMapById_ c !! logical_tb_id))) ;;
      modify (fun c =>
                if present then c
                else set_logicalToPhysical
                       (<[logical_tb_id := physicalTables]>
                          (logicalToPhysicalTableMapById_ c)) c) ;;
      CHECK (negb present) ;;
      updateLogicalToPhysicalTableMap logical_tb_id.

(** *** Further lookups *)

(** [getDeletedColumn]; [td] points to a registered descriptor, which its
    table id identifies. *)
Definition getDeletedColumn (td : TableDescriptor) (c : t) : option ColumnDescriptor :=
  deletedColumnPerTable_ c !! td_tableId td.

(** [getPhysicalTablesDescriptors]: the descriptor itself when the table has
    no shards, else what [getMetadataForTable] finds for each physical
    table id, a null pointer included. *)
Definition getPhysicalTablesDescriptors (logicalTableDesc : TableDescriptor)
  : Cat (list (option TableDescriptor)) :=
  physicalTableIt <-
    gets (fun c => logicalToPhysicalTableMapById_ c !! td_tableId logicalTableDesc) ;;
  match physicalTableIt with
  | None => ret [Some logicalTableDesc]
  | Some physicalTablesIds =>
      CHECK (negb (bool_decide (physicalTablesIds = []))) ;;
      c <- gets id ;;
      ret ((fun i => getMetadataForTableById i c) <$> physicalTablesIds)
  end.

(** The loop of [getAllColumnMetadataForTable] over the column ids [ids],
    with its counter [skip_physical_cols].  [get_physical_cols] is the
    member of [SQLTypeInfo] of that name, declared in [sqltypes.h]; the
    [assert] that the column is registered is taken to stop the run. *)
Fixpoint fetch_columns (get_physical_cols : SQLTypeInfo -> Z) (tableId : Z)
  (fetchSystemColumns fetchVirtualColumns fetchPhysicalColumns : bool)
  (ids : list Z) (skip_physical_cols : Z) (columnDescriptors : list ColumnDescriptor)
  : Cat (list ColumnDescriptor) :=
  match ids with
  | [] => ret columnDescriptors
  | i :: rest =>
      if negb fetchPhysicalColumns && bool_decide (0 < skip_physical_cols) then
        fetch_columns get_physical_cols tableId fetchSystemColumns fetchVirtualColumns
                      fetchPhysicalColumns rest (skip_physical_cols - 1)
                      columnDescriptors
      else
        cd <- gets (getMetadataForColumnById tableId i) ;;
        cd <- deref cd ;;
        if negb fetchSystemColumns && cd_isSystemCol cd then
          fetch_columns get_physical_cols tableId fetchSystemColumns
                        fetchVirtualColumns fetchPhysicalColumns rest
                        skip_physical_cols columnDescriptors
        else if negb fetchVirtualColumns && cd_isVirtualCol cd then
          fetch_columns get_physical_cols tableId fetchSystemColumns
                        fetchVirtualColumns fetchPhysicalColumns rest
                        skip_physical_cols columnDescriptors
        else
          let skip :=
            if fetchPhysicalColumns then skip_physical_cols
            else get_physical_cols (cd_columnType cd) in
          fetch_columns get_physical_cols tableId fetchSystemColumns
                        fetchVirtualColumns fetchPhysicalColumns rest skip
                        (columnDescriptors ++ [cd])
  end.

(** [getAllColumnMetadataForTable(const TableDescriptor*, list&, ...)];
    the list passed by reference is returned. *)
Definition getAllColumnMetadataForTable (get_physical_cols : SQLTypeInfo -> Z)
  (td : TableDescriptor) (columnDescriptors : list ColumnDescriptor)
  (fetchSystemColumns fetchVirtualColumns fetchPhysicalColumns : bool)
  : Cat (list ColumnDescriptor) :=
  fetch_columns get_physical_cols (td_tableId td) fetchSystemColumns
                fetchVirtualColumns fetchPhysicalColumns
                (seqZ 1 (td_nColumns td)) 0 columnDescriptors.

(** *** Renaming *)

(** [UPDATE mapd_tables SET name = ? WHERE tableid = ?]; [name] is
    [unique] and [tableid] the primary key. *)
Definition rename_table_row (newTableName : string) (tableId : Z) (s : Store)
  : option Store :=
  let hit := filter (fun r => tr_tableid r = tableId) (mapd_tables s) in
  let rest := filter (fun r => tr_tableid r ≠ tableId) (mapd_tables s) in
  if decide (hit = []) then Some s
  else if decide (newTableName ∈ tr_name <$> rest ∨ (1 < length hit)%nat) then None
  else
    Some (mkStore
            ((fun r => if decide (tr_tableid r = tableId)
                       then mkTableRow (tr_tableid r) newTableName (tr_userid r)
                              (tr_ncolumns r) (tr_isview r) (tr_frag_type r)
                              (tr_max_frag_rows r) (tr_max_chunk_size r)
                              (tr_frag_page_size r) (tr_max_rows r)
                              (tr_partitions r) (tr_shard_column_id r)
                              (tr_shard r) (tr_num_shards r) (tr_key_metainfo r)
                       else r) <$> mapd_tables s)
            (mapd_columns s) (mapd_dictionaries s) (mapd_views s)
            (mapd_logical_to_physical s)).

(** [UPDATE mapd_columns SET name = ? WHERE tableid = ? AND columnid = ?],
    with [primary key(tableid, columnid)] and [unique(tableid, name)]. *)
Definition rename_column_row (newColumnName : string) (tableId columnId : Z)
  (s : Store) : option Store :=
  let hit := filter (fun r => cr_tableid r = tableId ∧ cr_columnid r = columnId)
                    (mapd_columns s) in
  let rest := filter (fun r => cr_tableid r = tableId ∧ cr_columnid r ≠ columnId)
                     (mapd_columns s) in
  if decide (hit = []) then Some s
  else if decide (newColumnName ∈ cr_name <$> rest ∨ (1 < length hit)%nat) then None
  else
    Some (mkStore (mapd_tables s)
            ((fun r => if decide (cr_tableid r = tableId ∧ cr_columnid r = columnId)
                       then mkColumnRow (cr_tableid r) (cr_columnid r) newColumnName
                              (cr_type r) (cr_is_systemcol r) (cr_is_virtualcol r)
                              (cr_virtual_expr r) (cr_is_deletedcol r)
                       else r) <$> mapd_columns s)
            (mapd_dictionaries s) (mapd_views s) (mapd_logical_to_physical s)).

Definition cd_set_columnName (n : string) (cd : ColumnDescriptor) : ColumnDescriptor :=
  mkColumn (cd_tableId cd) (cd_columnId cd) n (cd_columnType cd) (cd_isSystemCol cd)
           (cd_isVirtualCol cd) (cd_virtualExpr cd) (cd_isDeletedCol cd).

(** [renamePhysicalTable].  The descriptor found under the old name is the
    object the index by id points to as well: the write of its name shows
    under its id, and the index by name is re-keyed. *)
Definition renamePhysicalTable (td : TableDescriptor) (newTableName : string)
  : Cat unit :=
  BEGIN_TRANSACTION ;;
  try_catch
    (query (rename_table_row newTableName (td_tableId td)))
    (fun e => ROLLBACK_TRANSACTION ;; throw e) ;;
  END_TRANSACTION ;;
  tableDescIt <- gets (fun c => tableDescriptorMap_ c !! to_upper (td_tableName td)) ;;
  CHECK (bool_decide (is_Some tableDescIt)) ;;
  updateMetadata ;;
  (* Get table descriptor to change it *)
  changeTd <- deref tableDescIt ;;
  let renamed := td_set_tableName newTableName changeTd in
  modify (fun c => set_tables
            (<[to_upper newTableName := renamed]>
               (delete (to_upper (td_tableName td)) (tableDescriptorMap_ c)))
            (alter (fun _ => renamed) (td_tableId changeTd) (tableDescriptorMapById_ c))
            c) ;;
  updateMetadata.

(** One turn of the loop of [renameTable] over the physical tables. *)
Definition rename_shard (newTableName : string) (i : Z) (physical_tb_id : Z)
  : Cat Z :=
  phys_td <- gets (getMetadataForTableById physical_tb_id) ;;
  phys_td <- deref phys_td ;;
  renamePhysicalTable phys_td (generatePhysicalTableName newTableName (i + 1)) ;;
  ret (i + 1).

Definition renameTable (td : TableDescriptor) (newTableName : string) : Cat unit :=
  (* rename all corresponding physical tables if this is a logical table *)
  physicalTableIt <- gets (fun c => logicalToPhysicalTableMapById_ c !! td_tableId td) ;;
  match physicalTableIt with
  | Some physicalTables =>
      CHECK (negb (bool_decide (physicalTables = []))) ;;
      foldM (rename_shard newTableName) physicalTables 0 ;;
      ret tt
  | None => ret tt
  end ;;
  renamePhysicalTable td newTableName.

(** [renameColumn]; as for a table, the descriptor found under the old
    name is the one the index by id points to. *)
Definition renameColumn (td : TableDescriptor) (cd : ColumnDescriptor)
  (newColumnName : string) : Cat unit :=
  BEGIN_TRANSACTION ;;
  try_catch
    (query (rename_column_row newColumnName (td_tableId td) (cd_columnId cd)))
    (fun e => ROLLBACK_TRANSACTION ;; throw e) ;;
  END_TRANSACTION ;;
  columnDescIt <-
    gets (fun c => columnDescriptorMap_ c !! (td_tableId td, to_upper (cd_columnName cd))) ;;
  CHECK (bool_decide (is_Some columnDescIt)) ;;
  updateMetadata ;;
  changeCd <- deref columnDescIt ;;
  let renamed := cd_set_columnName newColumnName changeCd in
  modify (fun c => set_columns
            (<[(td_tableId td, to_upper newColumnName) := renamed]>
               (delete (td_tableId td, to_upper (cd_columnName cd))
                       (columnDescriptorMap_ c)))
            (alter (fun _ => renamed) (cd_tableId changeCd, cd_columnId changeCd)
                   (columnDescriptorMapById_ c))
            c) ;;
  updateMetadata.

End Functions.
End Catalog.

(** ** The privilege model

    [DBObject.h] and [Role.h] are outside [Catalog.cpp]; the types are the
    ones of the specification's data model. *)

(** [AccessPrivileges]: a bit set, stored in its field [privileges]. *)
Definition AccessPrivileges : Type := Z.
Definition NONE : AccessPrivileges := 0.
Definition hasAny (p : AccessPrivileges) : bool := negb (Z.eqb p 0).

Record DBObjectKey : Type := mkKey {
  permissionType : Z;
  key_dbId : Z;
  objectId : Z
}.

#[global] Instance DBObjectKey_eq_dec : EqDecision DBObjectKey.
Proof. solve_decision. Defined.
#[global] Instance DBObjectKey_countable : Countable DBObjectKey.
Proof.
  refine (inj_countable' (fun k => (permissionType k, key_dbId k, objectId k))
                         (fun p => mkKey p.1.1 p.1.2 p.2) _).
  intros []; reflexivity.
Defined.

Record DBObject : Type := mkObject {
  objectName_ : string;
  objectType_ : Z;
  objectKey_ : DBObjectKey;
  objectPrivs_ : AccessPrivileges;
  ownerId_ : Z
}.

Definition setObjectKey (k : DBObjectKey) (o : DBObject) : DBObject :=
  mkObject (objectName_ o) (objectType_ o) k (objectPrivs_ o) (ownerId_ o).
Definition setPrivileges (p : AccessPrivileges) (o : DBObject) : DBObject :=
  mkObject (objectName_ o) (objectType_ o) (objectKey_ o) p (ownerId_ o).
Definition resetPrivileges (o : DBObject) : DBObject := setPrivileges NONE o.

(** [DBObject(name, type)]: no privileges yet, and a key whose object id is
    -1, the id that denotes the database itself. *)
Definition DBObject_named (name : string) (type : Z) : DBObject :=
  mkObject name type (mkKey (-1) (-1) (-1)) NONE 0.

(** Modelled from the spec: [GroupRole] of [Role.h], which is not in
    [Catalog.cpp]: a named role, or a user's private role, holding a map
    from [DBObjectKey] to the [DBObject] with the privileges granted. *)
Record GroupRole : Type := mkGroupRole {
  roleName_ : string;
  userPrivateRole_ : bool;
  dbObjectMap_ : gmap DBObjectKey DBObject
}.

(** Modelled from the spec: [UserRole] of [Role.h]: a per-user handle that
    references the [GroupRole]s granted to the user and owns none of them.
    A reference is the key of the role in [roleMap_]. *)
Record UserRole : Type := mkUserRole {
  userId_ : Z;
  userName_ : string;
  groupRole_ : gset string
}.

(** Modelled from the spec: [Role::findDbObject], look up by key. *)
Definition findDbObject (key : DBObjectKey) (rl : GroupRole) : option DBObject :=
  dbObjectMap_ rl !! key.

(** Modelled from the spec: [GroupRole::grantPrivileges(object)] merges the
    object's privilege bits into the role's stored [DBObject] for that key,
    creating the entry if absent (owner is taken from the object on first
    grant). *)
Definition grantPrivileges (object : DBObject) (rl : GroupRole) : GroupRole :=
  let key := objectKey_ object in
  let stored :=
    match findDbObject key rl with
    | Some o => setPrivileges (Z.lor (objectPrivs_ o) (objectPrivs_ object)) o
    | None => object
    end in
  mkGroupRole (roleName_ rl) (userPrivateRole_ rl) (<[key := stored]> (dbObjectMap_ rl)).

(** Modelled from the spec: [GroupRole::revokePrivileges(object)] clears
    the object's bits from the stored entry and returns the resulting
    (possibly empty) [DBObject].  The spec leaves a revoke without a stored
    entry open; [None] stands for it. *)
Definition revokePrivileges (object : DBObject) (rl : GroupRole)
  : option (DBObject * GroupRole) :=
  let key := objectKey_ object in
  match findDbObject key rl with
  | Some o =>
      let o' := setPrivileges (Z.ldiff (objectPrivs_ o) (objectPrivs_ object)) o in
      Some (o', mkGroupRole (roleName_ rl) (userPrivateRole_ rl)
                            (<[key := o']> (dbObjectMap_ rl)))
  | None => None
  end.

(** Modelled from the spec: [Role::getPrivileges(object)] reads the role's
    stored privileges for the object's key into the object, on top of the
    bits the object carries (its caller resets them first). *)
Definition getPrivileges (object : DBObject) (rl : GroupRole) : DBObject :=
  match findDbObject (objectKey_ object) rl with
  | Some o => setPrivileges (Z.lor (objectPrivs_ object) (objectPrivs_ o)) object
  | None => object
  end.

(** Modelled from the spec: the membership operations of [UserRole]
    ([hasRole], [grantRole], [revokeRole], [getMembershipSize]) treat the
    granted roles as a set; a freshly constructed [UserRole] holds none. *)
Definition UserRole_hasRole (role_key : string) (user_rl : UserRole) : bool :=
  bool_decide (role_key ∈ groupRole_ user_rl).
Definition UserRole_grantRole (role_key : string) (user_rl : UserRole) : UserRole :=
  mkUserRole (userId_ user_rl) (userName_ user_rl) ({[role_key]} ∪ groupRole_ user_rl).
Definition UserRole_revokeRole (role_key : string) (user_rl : UserRole) : UserRole :=
  mkUserRole (userId_ user_rl) (userName_ user_rl) (groupRole_ user_rl ∖ {[role_key]}).
Definition UserRole_getMembershipSize (user_rl : UserRole) : nat :=
  size (groupRole_ user_rl).

(** The privilege bits a role stores under a key, none if it has no entry. *)
Definition stored_privileges (key : DBObjectKey) (rl : GroupRole) : AccessPrivileges :=
  default NONE (objectPrivs_ <$> findDbObject key rl).

(** What the system catalog takes from headers without defining it: the
    enumerator [DatabaseDBObjectType], and [DBObject::loadKey], which
    resolves the key of an object against a database catalog from the
    object's name, type and current key, or throws. *)
Class ObjectHeaders : Type := {
  DatabaseDBObjectType : Z;
  resolveKey : Catalog.t -> string -> Z -> DBObjectKey -> option DBObjectKey
}.

(** ** The system catalog *)

Module SysCatalog.

Record UserMetadata : Type := mkUser {
  userId : Z;
  userName : string;
  passwd : string;
  isSuper : bool;
  isReallySuper : bool
}.

(** Rows of the system database, columns as in [SysCatalog::initDB] and
    [SysCatalog::migratePrivileges]. *)
Record UserRow : Type := mkUserRow {
  ur_userid : Z;
  ur_name : string;
  ur_passwd : string;
  ur_issuper : bool
}.

Record PermRow : Type := mkPermRow {
  pr_roleName : string;
  pr_roleType : bool;
  pr_key : DBObjectKey;   (* objectPermissionsType, dbId, objectId *)
  pr_objectPermissions : Z;
  pr_objectOwnerId : Z;
  pr_objectName : string
}.

Record Store : Type := mkStore {
  mapd_users : list UserRow;
  mapd_roles : list (string * string);   (* roleName, userName *)
  mapd_object_permissions : list PermRow
}.

(** [INSERT INTO mapd_users (name, passwd, issuper) VALUES (?, ?, ?)];
    [userid] is the [integer primary key], [name] is [unique]. *)
Definition insert_user (name pw : string) (issuper : bool) (s : Store)
  : option Store :=
  if decide (name ∈ ur_name <$> mapd_users s) then None
  else
    let row := mkUserRow (Catalog.next_rowid (ur_userid <$> mapd_users s))
                         name pw issuper in
    Some (mkStore (mapd_users s ++ [row]) (mapd_roles s)
                  (mapd_object_permissions s)).

(** [SELECT userid, name, passwd, issuper FROM mapd_users WHERE name = ?],
    first row. *)
Definition select_user (name : string) (s : Store) : option UserRow :=
  head (filter (fun r => ur_name r = name) (mapd_users s)).

(** [INSERT INTO mapd_roles(roleName, userName) VALUES (?, ?)], with
    [UNIQUE(roleName, userName)]. *)
Definition insert_role (roleName userName : string) (s : Store) : option Store :=
  if decide ((roleName, userName) ∈ mapd_roles s) then None
  else Some (mkStore (mapd_users s) (mapd_roles s ++ [(roleName, userName)])
                     (mapd_object_permissions s)).

(** [DELETE FROM mapd_roles WHERE roleName = ? AND userName = ?]. *)
Definition delete_role (roleName userName : string) (s : Store) : option Store :=
  Some (mkStore (mapd_users s)
                (filter (fun r => r ≠ (roleName, userName)) (mapd_roles s))
                (mapd_object_permissions s)).

(** [INSERT OR REPLACE INTO mapd_object_permissions(...)], with
    [UNIQUE(roleName, objectPermissionsType, dbId, objectId)]: a row with
    the same role name and key is replaced. *)
Definition upsert_permission (row : PermRow) (s : Store) : option Store :=
  Some (mkStore (mapd_users s) (mapd_roles s)
          (filter (fun r => ¬ (pr_roleName r = pr_roleName row
                               ∧ pr_key r = pr_key row))
                  (mapd_object_permissions s) ++ [row])).

(** [DELETE FROM mapd_object_permissions WHERE roleName = ?1 and
    roleType = ?2 and objectPermissionsType = ?3 and dbId = ?4 and
    objectId = ?5]. *)
Definition delete_permission (roleName : string) (userRole : bool)
  (key : DBObjectKey) (s : Store) : option Store :=
  Some (mkStore (mapd_users s) (mapd_roles s)
          (filter (fun r => ¬ (pr_roleName r = roleName
                               ∧ pr_roleType r = userRole
                               ∧ pr_key r = key))
                  (mapd_object_permissions s))).

(** The fields of [class SysCatalog] that [Catalog.cpp] works on, and the
    static registry [Catalog::mapd_cat_map_] that [Catalog::get] reads. *)
Record t : Type := mkSys {
  sqliteConnector_ : SqliteConnector Store;
  roleMap_ : gmap string GroupRole;
  userRoleMap_ : gmap Z UserRole;
  check_privileges_ : bool;
  currentDB_ : DBMetadata;
  mapd_cat_map_ : gmap string Catalog.t
}.

Definition set_conn (x : SqliteConnector Store) (s : t) : t :=
  mkSys x (roleMap_ s) (userRoleMap_ s) (check_privileges_ s) (currentDB_ s)
        (mapd_cat_map_ s).
Definition set_roleMap (m : gmap string GroupRole) (s : t) : t :=
  mkSys (sqliteConnector_ s) m (userRoleMap_ s) (check_privileges_ s)
        (currentDB_ s) (mapd_cat_map_ s).
Definition set_userRoleMap (m : gmap Z UserRole) (s : t) : t :=
  mkSys (sqliteConnector_ s) (roleMap_ s) m (check_privileges_ s)
        (currentDB_ s) (mapd_cat_map_ s).

Definition Sys (A : Type) : Type := M t A.

Definition on_conn (f : SqliteConnector Store -> option (SqliteConnector Store))
  : Sys unit :=
  fun s =>
    match f (sqliteConnector_ s) with
    | Some x => Ok tt (set_conn x s)
    | None => Throw sqlite_error s
    end.
Definition BEGIN_TRANSACTION : Sys unit := on_conn conn_begin.
Definition ROLLBACK_TRANSACTION : Sys unit := on_conn conn_rollback.
Definition END_TRANSACTION : Sys unit := on_conn conn_end.
Definition query (stmt : Store -> option Store) : Sys unit :=
  on_conn (conn_exec stmt).

Section Functions.
Context `{Headers} `{ObjectHeaders}.

Definition arePrivilegesOn (s : t) : bool := check_privileges_ s.

Definition getMetadataForUser (name : string) (s : t) : option UserMetadata :=
  (fun r => mkUser (ur_userid r) (ur_name r) (ur_passwd r) (ur_issuper r)
                   (ur_issuper r))
    <$> select_user name (db (sqliteConnector_ s)).

Definition getMetadataForRole (roleName : string) (s : t) : option GroupRole :=
  roleMap_ s !! to_upper roleName.

Definition getMetadataForUserRole (user_id : Z) (s : t) : option UserRole :=
  userRoleMap_ s !! user_id.

(** [Catalog::get(dbName)]. *)
Definition Catalog_get (name : string) (s : t) : option Catalog.t :=
  mapd_cat_map_ s !! name.

(** [object.loadKey(catalog)]. *)
Definition loadKey (catalog : Catalog.t) (object : DBObject) : Sys DBObject :=
  match resolveKey catalog (objectName_ object) (objectType_ object)
                   (objectKey_ object) with
  | Some key => ret (setObjectKey key object)
  | None => throw "Failure generating DB object key."
  end.

Definition insertOrUpdateObjectPrivileges (roleName : string) (userRole : bool)
  (object : DBObject) : Sys unit :=
  query (upsert_permission
           (mkPermRow roleName userRole (objectKey_ object) (objectPrivs_ object)
                      (ownerId_ object) (objectName_ object))).

Definition deleteObjectPrivileges (roleName : string) (userRole : bool)
  (object : DBObject) : Sys unit :=
  query (delete_permission roleName userRole (objectKey_ object)).

(** *** Privileges of a role on an object *)

Definition set_role (roleName : string) (rl : GroupRole) : Sys unit :=
  modify (fun s => set_roleMap (<[to_upper roleName := rl]> (roleMap_ s)) s).

(** [object] is passed by reference: it is returned as the call leaves it. *)
Definition grantDBObjectPrivileges_unsafe (roleName : string) (object : DBObject)
  (catalog : Catalog.t) : Sys DBObject :=
  if decide (roleName = MAPD_ROOT_USER) then
    throw ("Request to grant privileges to " +:+ roleName +:+
           " failed because mapd root user has all privileges by default.")
  else
    rl <- gets (getMetadataForRole roleName) ;;
    match rl with
    | None =>
        throw ("Request to grant privileges to " +:+ roleName +:+
               " failed because role or user with this name does not exist.")
    | Some rl =>
        object <- loadKey catalog object ;;
        let rl := grantPrivileges object rl in
        set_role roleName rl ;;
        (* apply grant privileges statement to sqlite DB *)
        let object := getPrivileges (resetPrivileges object) rl in
        insertOrUpdateObjectPrivileges roleName (userPrivateRole_ rl) object ;;
        ret object
    end.

(** A revoke for which the role stores no entry is taken to throw; the
    one caller in this file that may meet the case,
    [revokeDBObjectPrivilegesFromAllRoles_unsafe], tests [findDbObject]
    before it revokes. *)
Definition revokeDBObjectPrivileges_unsafe (roleName : string) (object : DBObject)
  (catalog : Catalog.t) : Sys unit :=
  if decide (roleName = MAPD_ROOT_USER) then
    throw ("Request to revoke privileges from " +:+ roleName +:+
           " failed because privileges can not be revoked from mapd root user.")
  else
    rl <- gets (getMetadataForRole roleName) ;;
    match rl with
    | None =>
        throw ("Request to revoke privileges from " +:+ roleName +:+
               " failed because role or user with this name does not exist.")
    | Some rl =>
        object <- loadKey catalog object ;;
        match revokePrivileges object rl with
        | None => throw "Can not revoke privileges."
        | Some (object, rl) =>
            set_role roleName rl ;;
            if hasAny (objectPrivs_ object) then
              insertOrUpdateObjectPrivileges roleName (userPrivateRole_ rl) object
            else
              deleteObjectPrivileges roleName (userPrivateRole_ rl) object
        end
    end.

(** *** Roles *)

Definition createRole_unsafe (roleName : string) (userPrivateRole : bool)
  : Sys unit :=
  user <- gets (getMetadataForUser roleName) ;;
  if negb userPrivateRole && bool_decide (is_Some user) then
    throw ("Role name " +:+ roleName +:+
           " is same as one of user names. Role and user names should be unique.")
  else
    rl <- gets (getMetadataForRole roleName) ;;
    if bool_decide (is_Some rl) then
      throw ("CREATE ROLE " +:+ roleName +:+
             " failed because role with this name already exists.")
    else
      rl <- gets (getMetadataForRole roleName) ;;
      CHECK (negb (bool_decide (is_Some rl))) ;;
      let rl := mkGroupRole roleName userPrivateRole ∅ in
      set_role roleName rl ;;
      (* grant none privileges to this role and add it to sqlite DB *)
      db_name <- gets (fun s => dbName (currentDB_ s)) ;;
      let dbObject := DBObject_named db_name DatabaseDBObjectType in
      catalog <- gets (Catalog_get db_name) ;;
      CHECK (bool_decide (is_Some catalog)) ;;
      (* 0 is an id that does not exist *)
      let objKey := mkKey DatabaseDBObjectType 0 (-1) in
      let dbObject := setObjectKey objKey dbObject in
      set_role roleName (grantPrivileges dbObject rl) ;;
      insertOrUpdateObjectPrivileges roleName userPrivateRole dbObject.

Definition grantDefaultPrivilegesToRole_unsafe (name : string) (issuper : bool)
  : Sys unit :=
  db_name <- gets (fun s => dbName (currentDB_ s)) ;;
  let dbObject := DBObject_named db_name DatabaseDBObjectType in
  catalog <- gets (Catalog_get db_name) ;;
  catalog <- deref catalog ;;
  dbObject <- loadKey catalog dbObject ;;
  grantDBObjectPrivileges_unsafe name dbObject catalog ;;
  ret tt.

Definition set_userRole (user_id : Z) (user_rl : UserRole) : Sys unit :=
  modify (fun s => set_userRoleMap (<[user_id := user_rl]> (userRoleMap_ s)) s).

Definition grantRole_unsafe (roleName userName : string) : Sys unit :=
  rl <- gets (getMetadataForRole roleName) ;;
  if negb (bool_decide (is_Some rl)) then
    throw ("Request to grant role " +:+ roleName +:+
           " failed because role with this name does not exist.")
  else
    user <- gets (getMetadataForUser userName) ;;
    match user with
    | None =>
        throw ("Request to grant role to user " +:+ userName +:+
               " failed because user with this name does not exist.")
    | Some user =>
        user_rl <- gets (getMetadataForUserRole (SysCatalog.userId user)) ;;
        user_rl <-
          match user_rl with
          | Some user_rl => ret user_rl
          | None =>
              (* this user has never been granted roles before, so create new object *)
              let user_rl := mkUserRole (SysCatalog.userId user) userName ∅ in
              set_userRole (SysCatalog.userId user) user_rl ;;
              ret user_rl
          end ;;
        if UserRole_hasRole (to_upper roleName) user_rl then ret tt
        else
          set_userRole (SysCatalog.userId user) (UserRole_grantRole (to_upper roleName) user_rl) ;;
          query (insert_role roleName userName)
    end.

Definition revokeRole_unsafe (roleName userName : string) : Sys unit :=
  rl <- gets (getMetadataForRole roleName) ;;
  if negb (bool_decide (is_Some rl)) then
    throw ("Request to revoke role " +:+ roleName +:+
           " failed because role with this name does not exist.")
  else
    user <- gets (getMetadataForUser userName) ;;
    match user with
    | None =>
        throw ("Request to revoke role from user " +:+ userName +:+
               " failed because user with this name does not exist.")
    | Some user =>
        user_rl <- gets (getMetadataForUserRole (SysCatalog.userId user)) ;;
        match user_rl with
        | Some user_rl =>
            if UserRole_hasRole (to_upper roleName) user_rl then
              let user_rl := UserRole_revokeRole (to_upper roleName) user_rl in
              (if decide (UserRole_getMembershipSize user_rl = 0%nat) then
                 modify (fun s => set_userRoleMap
                           (delete (SysCatalog.userId user) (userRoleMap_ s)) s)
               else set_userRole (SysCatalog.userId user) user_rl) ;;
              query (delete_role roleName userName)
            else
              throw ("Request to revoke role " +:+ roleName +:+ " from user " +:+
                     userName +:+
                     " failed because this role has not been granted to the user.")
        | None =>
            throw ("Request to revoke role " +:+ roleName +:+ " from user " +:+
                   userName +:+
                   " failed because this role has not been granted to the user.")
        end
    end.

(** *** Users *)

Definition createUser (name passwd : string) (issuper : bool) : Sys unit :=
  user <- gets (getMetadataForUser name) ;;
  if bool_decide (is_Some user) then
    throw ("User " +:+ name +:+ " already exists.")
  else
    on <- gets arePrivilegesOn ;;
    rl <- gets (getMetadataForRole name) ;;
    if on && bool_decide (is_Some rl) then
      throw ("User name " +:+ name +:+
             " is same as one of role names. User and role names should be unique.")
    else
      BEGIN_TRANSACTION ;;
      try_catch
        (query (insert_user name passwd issuper) ;;
         if on then
           createRole_unsafe name true ;;
           grantDefaultPrivilegesToRole_unsafe name issuper ;;
           grantRole_unsafe name name
         else ret tt)
        (fun e => ROLLBACK_TRANSACTION ;; throw e) ;;
      END_TRANSACTION.

(** *** Transactional wrappers *)

(** Modelled from the spec: [SysCatalog::execInTransaction], a template of
    [Catalog.h]; the wrappers run the unsafe primitives transactionally, in
    the pattern every transaction of this file follows. *)
Definition execInTransaction (m : Sys unit) : Sys unit :=
  BEGIN_TRANSACTION ;;
  try_catch m (fun e => ROLLBACK_TRANSACTION ;; throw e) ;;
  END_TRANSACTION.

Definition createRole (roleName : string) (userPrivateRole : bool) : Sys unit :=
  execInTransaction (createRole_unsafe roleName userPrivateRole).
Definition grantRole (roleName userName : string) : Sys unit :=
  execInTransaction (grantRole_unsafe roleName userName).
Definition revokeRole (roleName userName : string) : Sys unit :=
  execInTransaction (revokeRole_unsafe roleName userName).
Definition grantDBObjectPrivileges (roleName : string) (object : DBObject)
  (catalog : Catalog.t) : Sys unit :=
  execInTransaction (grantDBObjectPrivileges_unsafe roleName object catalog ;; ret tt).
Definition revokeDBObjectPrivileges (roleName : string) (object : DBObject)
  (catalog : Catalog.t) : Sys unit :=
  execInTransaction (revokeDBObjectPrivileges_unsafe roleName object catalog).

(** *** Privilege checks *)

(** The roles a [UserRole] references, as [roleMap_] holds them now. *)
Definition granted_roles (s : t) (user_rl : UserRole) : list GroupRole :=
  omap (fun k => roleMap_ s !! k) (elements (groupRole_ user_rl)).

(** Modelled from the spec: the privilege closure of a [UserRole] for a
    key is the union, across all granted [GroupRole]s, of the privileges
    stored under that key; the key is absent from the closure when no
    granted role has an entry for it. *)
Definition closure (key : DBObjectKey) (roles : list GroupRole)
  : option AccessPrivileges :=
  foldr (fun rl acc =>
           match findDbObject key rl with
           | Some o => Some (Z.lor (objectPrivs_ o) (default NONE acc))
           | None => acc
           end) None roles.

(** Modelled from the spec: [UserRole::checkPrivileges(object)] looks the
    object's key up in the closure, fails closed if the key is absent, and
    otherwise requires every bit the object asks for. *)
Definition UserRole_checkPrivileges (s : t) (user_rl : UserRole)
  (object : DBObject) : bool :=
  match closure (objectKey_ object) (granted_roles s user_rl) with
  | Some have => Z.eqb (Z.land (objectPrivs_ object) have) (objectPrivs_ object)
  | None => false
  end.

(** The loop of [checkPrivileges], leaving at the first object that fails. *)
Fixpoint check_each (check : DBObject -> bool) (privObjects : list DBObject) : bool :=
  match privObjects with
  | [] => true
  | object :: rest => if negb (check object) then false else check_each check rest
  end.

Definition checkPrivileges (user : UserMetadata) (privObjects : list DBObject)
  : Sys bool :=
  if isSuper user then ret true
  else
    user_rl <- gets (getMetadataForUserRole (SysCatalog.userId user)) ;;
    match user_rl with
    | None => fatal   (* CHECK(user_rl) *)
    | Some user_rl =>
        s <- gets id ;;
        ret (check_each (UserRole_checkPrivileges s user_rl) privObjects)
    end.

Definition checkPrivileges_byName (userName : string) (privObjects : list DBObject)
  : Sys bool :=
  user <- gets (getMetadataForUser userName) ;;
  match user with
  | None =>
      throw ("Request to check privileges for user " +:+ userName +:+
             " failed because user with this name does not exist.")
  | Some user => checkPrivileges user privObjects
  end.

(** *** Dropping roles and users, altering users *)

(** [DELETE FROM mapd_roles WHERE roleName = ?]. *)
Definition delete_roles_of_role (roleName : string) (s : Store) : option Store :=
  Some (mkStore (mapd_users s)
                (filter (fun r => r.1 ≠ roleName) (mapd_roles s))
                (mapd_object_permissions s)).

(** [DELETE FROM mapd_object_permissions WHERE roleName = ?]. *)
Definition delete_permissions_of_role (roleName : string) (s : Store)
  : option Store :=
  Some (mkStore (mapd_users s) (mapd_roles s)
                (filter (fun r => pr_roleName r ≠ roleName)
                        (mapd_object_permissions s))).

(** [DELETE FROM mapd_roles WHERE userName = ?]. *)
Definition delete_roles_of_user (userName : string) (s : Store) : option Store :=
  Some (mkStore (mapd_users s)
                (filter (fun r => r.2 ≠ userName) (mapd_roles s))
                (mapd_object_permissions s)).

(** [DELETE FROM mapd_users WHERE userid = ...]. *)
Definition delete_user (user_id : Z) (s : Store) : option Store :=
  Some (mkStore (filter (fun r => ur_userid r ≠ user_id) (mapd_users s))
                (mapd_roles s) (mapd_object_permissions s)).

(** [DELETE FROM mapd_privileges WHERE userid = ...]: the table of the
    privileges per database is none of the three tables kept here; the
    statement changes none of them, and can fail as any statement can. *)
Definition delete_privileges (user_id : Z) (s : Store) : option Store := Some s.

(** [UPDATE mapd_users SET passwd = ?, issuper = ? WHERE userid = ?], and
    the two statements that set one of the columns. *)
Definition update_user (user_id : Z) (pw : option string) (issuper : option bool)
  (s : Store) : option Store :=
  Some (mkStore
          ((fun r => if decide (ur_userid r = user_id)
                     then mkUserRow (ur_userid r) (ur_name r)
                                    (default (ur_passwd r) pw)
                                    (default (ur_issuper r) issuper)
                     else r) <$> mapd_users s)
          (mapd_roles s) (mapd_object_permissions s)).

(** [dropRole_unsafe].  [delete rl] runs the destructor of [GroupRole],
    which is in [Role.h]; the [UserRole]s refer to a role by its key in
    [roleMap_], which finds no role once the entry is erased. *)
Definition dropRole_unsafe (roleName : string) : Sys unit :=
  rl <- gets (getMetadataForRole roleName) ;;
  CHECK (bool_decide (is_Some rl)) ;;
  modify (fun s => set_roleMap (delete (to_upper roleName) (roleMap_ s)) s) ;;
  query (delete_roles_of_role roleName) ;;
  query (delete_permissions_of_role roleName).

Definition dropUserRole (userName : string) : Sys unit :=
  user <- gets (getMetadataForUser userName) ;;
  match user with
  | None =>
      throw ("Request to revoke roles from user " +:+ userName +:+
             " failed because user with this name does not exist.")
  | Some user =>
      user_rl <- gets (getMetadataForUserRole (SysCatalog.userId user)) ;;
      if bool_decide (is_Some user_rl) then
        modify (fun s => set_userRoleMap
                  (delete (SysCatalog.userId user) (userRoleMap_ s)) s)
      else
        (* do nothing if userName was not found in userRoleMap_ *)
        ret tt
  end.

Definition dropUser (name : string) : Sys unit :=
  BEGIN_TRANSACTION ;;
  try_catch
    (on <- gets arePrivilegesOn ;;
     (if on : bool then
        user <- gets (getMetadataForUser name) ;;
        if bool_decide (is_Some user) then
          dropRole_unsafe name ;;
          dropUserRole name ;;
          query (delete_roles_of_user name)
        else ret tt
      else ret tt) ;;
     user <- gets (getMetadataForUser name) ;;
     match user with
     | None => throw ("User " +:+ name +:+ " does not exist.")
     | Some user =>
         query (delete_user (SysCatalog.userId user)) ;;
         query (delete_privileges (SysCatalog.userId user))
     end)
    (fun e => ROLLBACK_TRANSACTION ;; throw e) ;;
  END_TRANSACTION.

(** [alterUser]; a null pointer is [None]. *)
Definition alterUser (userid : Z) (passwd : option string) (is_superp : option bool)
  : Sys unit :=
  match passwd, is_superp with
  | Some _, Some _ => query (update_user userid passwd is_superp)
  | Some _, None => query (update_user userid passwd None)
  | None, Some _ => query (update_user userid None is_superp)
  | None, None => ret tt
  end.

Definition checkPasswordForUser (pw : string) (user : UserMetadata) : bool :=
  if decide (SysCatalog.passwd user ≠ pw) then false else true.

(** *** Questions about roles *)

Definition isRoleGrantedToUser (user_id : Z) (roleName : string) (s : t) : bool :=
  match getMetadataForUserRole user_id s with
  | Some user_rl =>
      match getMetadataForRole roleName s with
      | Some _ => UserRole_hasRole (to_upper roleName) user_rl
      | None => false
      end
  | None => false
  end.

Definition hasRole (roleName : string) (userPrivateRole : bool) (s : t) : bool :=
  match getMetadataForRole roleName s with
  | Some rl => bool_decide (userPrivateRole = userPrivateRole_ rl)
  | None => false
  end.

End Functions.
End SysCatalog.

(** ** An instance of the header parameters and sample states

    Used to run the model on concrete inputs. *)

Definition ascii_to_upper (a : Ascii.ascii) : Ascii.ascii :=
  let n := Ascii.nat_of_ascii a in
  if ((97 <=? n) && (n <=? 122))%nat then Ascii.ascii_of_nat (n - 32) else a.

Fixpoint string_to_upper (s : string) : string :=
  match s with
  | EmptyString => EmptyString
  | String a s' => String (ascii_to_upper a) (string_to_upper s')
  end.

Definition sample_headers : Headers := {|
  to_upper := string_to_upper;
  IS_GEO := fun ty =>
    match ty with
    | kPOINT | kLINESTRING | kPOLYGON | kMULTIPOLYGON => true
    | _ => false
    end;
  SQLTypeInfo2 := fun ty notnull =>
    mkTypeInfo ty kNULLT 0 0 notnull kENCODING_NONE 0 0;
  is_array := fun ti => bool_decide (ti_type ti = kARRAY);
  compress_reference_path := fun def _ => def;
  MAPD_ROOT_USER := "mapd"
|}.

Definition sample_object_headers : ObjectHeaders := {|
  DatabaseDBObjectType := 1;
  resolveKey := fun cat name type key =>
    if decide (type = 1) then
      Some (mkKey type (dbId (Catalog.currentDB_ cat)) (-1))
    else
      (fun td => mkKey type (dbId (Catalog.currentDB_ cat)) (td_tableId td))
        <$> Catalog.tableDescriptorMap_ cat !! string_to_upper name
|}.

Definition empty_conn {T} (d : T) : SqliteConnector T := mkConn d None None.

Definition sample_catalog : Catalog.t :=
  Catalog.mkCatalog (empty_conn (Catalog.mkStore [] [] [] [] []))
    ∅ ∅ ∅ ∅ ∅ ∅ ∅ 1073741824 1073741824 ∅ ∅ (mkDB 1 "mapd" 0) "/data" [] false false.

Definition int_type : SQLTypeInfo := mkTypeInfo kINT kNULLT 0 0 false kENCODING_NONE 0 4.
Definition dict_text_type : SQLTypeInfo :=
  mkTypeInfo kTEXT kNULLT 0 0 false kENCODING_DICT 32 4.

Definition column (name : string) (ti : SQLTypeInfo) : ColumnDescriptor :=
  mkColumn 0 0 name ti false false "" false.

Definition sample_table (name : string) (nShards : Z) (versioned : bool)
  (level : MemoryLevel) : TableDescriptor :=
  mkTable 0 (-1) name 0 0 false "" 0 32000000 1073741824 2097152 4611686018427387904
          "" "[]" (if decide (0 < nShards) then 1 else 0) nShards versioned level.

Definition sample_sys : SysCatalog.t :=
  SysCatalog.mkSys
    (empty_conn (SysCatalog.mkStore [SysCatalog.mkUserRow 0 "mapd" "HyperInteractive" true] [] []))
    ∅ ∅ true (mkDB 1 "mapd" 0) {["mapd" := sample_catalog]}.

(** The state an operation leaves, whether it returns or throws. *)
Definition state_after {S A} (r : outcome S A) (otherwise : S) : S :=
  match r with
  | Ok _ s | Throw _ s => s
  | Fatal => otherwise
  end.

Definition two_columns : list ColumnDescriptor :=
  [column "a" int_type; column "b" dict_text_type].

(** The sample catalog with a versioned table [t(a int, b text)] on disk. *)
Definition catalog_with_table : Catalog.t :=
  state_after
    (@Catalog.createTable sample_headers (sample_table "t" 0 true DISK_LEVEL)
                          two_columns [] true sample_catalog)
    sample_catalog.

(** The sample system catalog when its storage fails at the statement
    after the next [n]. *)
Definition failing_sys (n : nat) : SysCatalog.t :=
  SysCatalog.set_conn
    (mkConn (db (SysCatalog.sqliteConnector_ sample_sys)) None (Some n)) sample_sys.

(** The sample system catalog with a second user, [bob], who holds the
    private role of that name, and a request of privileges on the database. *)
Definition bob : SysCatalog.UserMetadata := SysCatalog.mkUser 1 "bob" "pw" false false.

Definition sys_with_bob : SysCatalog.t :=
  state_after
    (@SysCatalog.createUser sample_headers sample_object_headers "bob" "pw" false
                            sample_sys)
    sample_sys.

Definition database_privilege (bits : Z) : DBObject :=
  mkObject "mapd" 1 (mkKey (-1) (-1) (-1)) bits 0.

(** A request of [bits] on the database, its key loaded. *)
Definition on_database (bits : Z) : DBObject :=
  setObjectKey (mkKey 1 1 (-1)) (database_privilege bits).

Definition sys_with_grant : SysCatalog.t :=
  state_after
    (@SysCatalog.grantDBObjectPrivileges_unsafe sample_headers sample_object_headers
       "bob" (database_privilege 3) sample_catalog sys_with_bob)
    sys_with_bob.

Definition point_type : SQLTypeInfo := mkTypeInfo kPOINT kNULLT 0 0 false kENCODING_NONE 0 0.

(** The catalog with the table [t] and a second table [u(a int)] on disk. *)
Definition catalog_with_two_tables : Catalog.t :=
  state_after
    (@Catalog.createTable sample_headers (sample_table "u" 0 false DISK_LEVEL)
                          [column "a" int_type] [] true catalog_with_table)
    catalog_with_table.

(** The descriptors under which [t] and its column [a] are registered. *)
Definition registered_t : TableDescriptor :=
  Eval vm_compute in
    default (sample_table "t" 0 true DISK_LEVEL)
            (@Catalog.getMetadataForTable sample_headers "t" catalog_with_table).
Definition registered_a : ColumnDescriptor :=
  Eval vm_compute in
    default (column "a" int_type)
            (@Catalog.getMetadataForColumn sample_headers 1 "a" catalog_with_table).

(** The system catalog with [bob] and a role [analyst]. *)
Definition sys_with_role : SysCatalog.t :=
  state_after
    (@SysCatalog.createRole_unsafe sample_headers sample_object_headers "analyst" false
                                   sys_with_bob)
    sys_with_bob.

(** The sample catalog with the table [t] in two shards, and the
    descriptor under which the logical table is registered. *)
Definition catalog_with_shards : Catalog.t :=
  state_after
    (@Catalog.createShardedTable sample_headers (sample_table "t" 2 true DISK_LEVEL)
                                 two_columns [] sample_catalog)
    sample_catalog.
Definition registered_sharded_t : TableDescriptor :=
  Eval vm_compute in
    default (sample_table "t" 2 true DISK_LEVEL)
            (@Catalog.getMetadataForTable sample_headers "t" catalog_with_shards).

(** The catalog [c] when its storage fails at the statement after the
    next [n]. *)
Definition failing_catalog (n : nat) (c : Catalog.t) : Catalog.t :=
  Catalog.set_conn (mkConn (db (Catalog.sqliteConnector_ c)) None (Some n)) c.

(** The catalog [c] when [calciteMgr_->updateMetadata] throws. *)
Definition without_calcite (c : Catalog.t) : Catalog.t :=
  Catalog.mkCatalog (Catalog.sqliteConnector_ c) (Catalog.tableDescriptorMap_ c)
    (Catalog.tableDescriptorMapById_ c) (Catalog.columnDescriptorMap_ c)
    (Catalog.columnDescriptorMapById_ c) (Catalog.dictDescriptorMapByRef_ c)
    (Catalog.logicalToPhysicalTableMapById_ c) (Catalog.deletedColumnPerTable_ c)
    (Catalog.nextTempTableId_ c) (Catalog.nextTempDictId_ c)
    (Catalog.dict_folders c) (Catalog.remote_dicts c) (Catalog.currentDB_ c)
    (Catalog.basePath_ c) (Catalog.string_dict_hosts_ c) (Catalog.g_aggregator c)
    true.

(** The shared dictionary of a table with a column [x] that takes the
    dictionary of the column [b] of the table [t]. *)
Definition shares_b : list SharedDictionaryDef := [mkSharedDict "x" "t" "b"].

(** The catalog with the table [t] and a table [v(x text)] on disk whose
    column [x] shares the dictionary of [t.b]. *)
Definition catalog_with_shared_dict : Catalog.t :=
  state_after
    (@Catalog.createTable sample_headers (sample_table "v" 0 false DISK_LEVEL)
                          [column "x" dict_text_type] shares_b true catalog_with_table)
    catalog_with_table.

(** ** Vocabulary of the statements *)

(** [m] does not change the part [part] of the state, whether it returns
    or throws. *)
Definition keeps {S A B} (part : S -> B) (m : M S A) : Prop :=
  forall s,
    match m s with
    | Ok _ s' | Throw _ s' => part s' = part s
    | Fatal => True
    end.

(** What the loops over the columns of a new table leave alone: the
    registries of tables and of columns, and the rows of tables and
    shards. *)
Definition table_registry (c : Catalog.t) :=
  (Catalog.tableDescriptorMap_ c, Catalog.tableDescriptorMapById_ c,
   Catalog.logicalToPhysicalTableMapById_ c, Catalog.nextTempTableId_ c,
   Catalog.columnDescriptorMap_ c, Catalog.columnDescriptorMapById_ c,
   Catalog.deletedColumnPerTable_ c).

Definition table_rows (d : Catalog.Store) :=
  (Catalog.mapd_tables d, Catalog.mapd_logical_to_physical d).

(** [cd'] is the column [cd] up to its type. *)
Definition retyped (cd cd' : ColumnDescriptor) : Prop :=
  cd' = cd_set_columnType (cd_columnType cd') cd.

(** [cd'] is the column [cd] as [createTable] registers it for table [tid]
    under the column id [cid]: the encoding may have been completed in its
    type, everything else is as declared. *)
Definition registered_as (tid cid : Z) (cd cd' : ColumnDescriptor) : Prop :=
  cd' = cd_set_ids tid cid (cd_set_columnType (cd_columnType cd') cd).

(** [new] registers the columns [columns], in order, under consecutive
    column ids from [k]. *)
Fixpoint numbered (tid k : Z) (columns new : list ColumnDescriptor) : Prop :=
  match columns, new with
  | [], [] => True
  | cd :: columns, cd' :: new =>
      registered_as tid k cd cd' /\ numbered tid (k + 1) columns new
  | _, _ => False
  end.

(** The index of columns by id after the columns [cds] are registered. *)
Definition register_columns (m : gmap (Z * Z) ColumnDescriptor)
  (cds : list ColumnDescriptor) : gmap (Z * Z) ColumnDescriptor :=
  foldl (fun m cd => <[(cd_tableId cd, cd_columnId cd) := cd]> m) m cds.

(** The largest table id handed out so far to tables of a persistence
    level: by SQLite for the tables on disk, by the counter of the catalog
    for the temporary ones. *)
Definition table_watermark (level : MemoryLevel) (c : Catalog.t) : Z :=
  if decide (level = DISK_LEVEL) then
    foldr Z.max 0 (Catalog.tr_tableid <$> Catalog.mapd_tables (db (Catalog.sqliteConnector_ c)))
  else Catalog.nextTempTableId_ c - 1.

(** The column [cd] is dictionary-encoded with the dictionary [dictId]. *)
Definition references (dictId : Z) (cd : ColumnDescriptor) : Prop :=
  ti_compression (cd_columnType cd) = kENCODING_DICT
  /\ ti_comp_param (cd_columnType cd) = dictId.

#[global] Instance references_dec dictId cd : Decision (references dictId cd).
Proof. unfold references. apply _. Defined.

(** The number of registered columns that reference the dictionary. *)
Definition referencing_columns (dictId : Z) (m : gmap (Z * Z) ColumnDescriptor) : nat :=
  size (filter (fun kv => references dictId kv.2) m).

(** The refcount of every dictionary of the database (id 0 is the dummy
    of the shards and names no dictionary) is the number of registered
    columns that reference it. *)
Definition refcounts_exact (c : Catalog.t) : Prop :=
  map_Forall
    (fun (ref : DictRef) dd =>
       ref.1 = dbId (Catalog.currentDB_ c) -> ref.2 <> 0 ->
       dd_refcount dd
       = Z.of_nat (referencing_columns ref.2 (Catalog.columnDescriptorMapById_ c)))
    (Catalog.dictDescriptorMapByRef_ c).

(** The entry of a dictionary once [k] of the columns that referenced it
    are gone: it is erased when that takes the last reference. *)
Definition after_release (k : Z) (dd : DictDescriptor) : option DictDescriptor :=
  if decide (0 < k /\ dd_refcount dd - k = 0) then None
  else Some (dd_set_refcount (dd_refcount dd - k) dd).

(** [UPDATE mapd_dictionaries SET refcount = refcount + 1 WHERE dictid = ?]
    as it shows in the rows. *)
Definition bumped (dictId : Z) (rows : list Catalog.DictRow) : list Catalog.DictRow :=
  (fun r => if decide (Catalog.dr_dictid r = dictId)
            then Catalog.mkDictRow (Catalog.dr_dictid r) (Catalog.dr_name r)
                   (Catalog.dr_nbits r) (Catalog.dr_is_shared r)
                   (Catalog.dr_refcount r + 1)
            else r) <$> rows.

(** [c] is reached from [c0] by removing registered columns with
    [remove_column]: each dictionary of [c0] has lost as many references
    as it has lost referencing columns, and the folder of an erased one is
    gone unless the table removed is temporary. *)
Definition released (isTemp : bool) (c0 c : Catalog.t) : Prop :=
  Catalog.currentDB_ c = Catalog.currentDB_ c0
  /\ Catalog.dict_folders c ⊆ Catalog.dict_folders c0
  /\ forall d, d <> 0 ->
       let ref := (dbId (Catalog.currentDB_ c0), d) in
       let n0 := referencing_columns d (Catalog.columnDescriptorMapById_ c0) in
       let n := referencing_columns d (Catalog.columnDescriptorMapById_ c) in
       (n <= n0)%nat
       /\ match Catalog.dictDescriptorMapByRef_ c0 !! ref with
          | Some dd =>
              Catalog.dictDescriptorMapByRef_ c !! ref
              = after_release (Z.of_nat n0 - Z.of_nat n) dd
              /\ (Catalog.dictDescriptorMapByRef_ c !! ref = None ->
                  isTemp = false ->
                  dd_dictFolderPath dd ∉ Catalog.dict_folders c)
          | None => Catalog.dictDescriptorMapByRef_ c !! ref = None
          end.

(** The state of the system catalog right after [BEGIN TRANSACTION]. *)
Definition begun (s : SysCatalog.t) : SysCatalog.t :=
  let c := SysCatalog.sqliteConnector_ s in
  SysCatalog.set_conn (mkConn (db c) (Some (db c)) (fuse c)) s.

(** The privileges [object] asks for are granted to the holder of
    [user_rl]: some role granted to the user stores an entry under the
    key of the object, and each privilege bit the object asks for is set
    in the entry that some role granted to the user stores under that
    key. *)
Definition granted (s : SysCatalog.t) (user_rl : UserRole) (object : DBObject) : Prop :=
  (exists k rl, k ∈ groupRole_ user_rl /\ SysCatalog.roleMap_ s !! k = Some rl
                /\ is_Some (findDbObject (objectKey_ object) rl))
  /\ forall i, Z.testbit (objectPrivs_ object) i = true ->
       exists k rl o, k ∈ groupRole_ user_rl /\ SysCatalog.roleMap_ s !! k = Some rl
                      /\ findDbObject (objectKey_ object) rl = Some o
                      /\ Z.testbit (objectPrivs_ o) i = true.

(** The rows of [mapd_object_permissions] that record privileges of the
    role [roleName] on the object with key [key]. *)
Definition permission_rows (roleName : string) (key : DBObjectKey) (s : SysCatalog.t)
  : list SysCatalog.PermRow :=
  filter (fun r => SysCatalog.pr_roleName r = roleName /\ SysCatalog.pr_key r = key)
         (SysCatalog.mapd_object_permissions (db (SysCatalog.sqliteConnector_ s))).

(** The row [r] of [mapd_tables] with the name [name]. *)
Definition renamed_row (name : string) (r : Catalog.TableRow) : Catalog.TableRow :=
  Catalog.mkTableRow (Catalog.tr_tableid r) name (Catalog.tr_userid r)
    (Catalog.tr_ncolumns r) (Catalog.tr_isview r) (Catalog.tr_frag_type r)
    (Catalog.tr_max_frag_rows r) (Catalog.tr_max_chunk_size r)
    (Catalog.tr_frag_page_size r) (Catalog.tr_max_rows r) (Catalog.tr_partitions r)
    (Catalog.tr_shard_column_id r) (Catalog.tr_shard r) (Catalog.tr_num_shards r)
    (Catalog.tr_key_metainfo r).

(** * Properties *)

(** ** The monad *)

Section Monad.
Context {S : Type}.
Implicit Types s : S.

Lemma bind_Ok {A B} (m : M S A) (f : A -> M S B) s b s' :
  bind m f s = Ok b s' <-> exists a s1, m s = Ok a s1 /\ f a s1 = Ok b s'.
Proof.
  unfold bind. destruct (m s) as [a0 s0|e0 s0|]; split;
    try (intros (a & s1 & E & _); discriminate E); try discriminate.
  - eauto 10.
  - intros (a & s1 & [= -> ->] & E). exact E.
Qed.

Lemma bind_Throw {A B} (m : M S A) (f : A -> M S B) s e s' :
  bind m f s = Throw e s' <->
  m s = Throw e s' \/ exists a s1, m s = Ok a s1 /\ f a s1 = Throw e s'.
Proof.
  unfold bind. destruct (m s) as [a0 s0|e0 s0|]; split; try discriminate.
  - eauto 10.
  - intros [E|(a & s1 & [= -> ->] & E)]; [discriminate E|exact E].
  - intros [= -> ->]; left; reflexivity.
  - intros [[= -> ->]|(a & s1 & E & _)]; [reflexivity|discriminate E].
  - intros [E|(a & s1 & E & _)]; discriminate E.
Qed.

Lemma try_catch_Ok {A} (m : M S A) h s a s' :
  try_catch m h s = Ok a s' <->
  m s = Ok a s' \/ exists e s1, m s = Throw e s1 /\ h e s1 = Ok a s'.
Proof.
  unfold try_catch. destruct (m s) as [a0 s0|e0 s0|]; split; try discriminate.
  - intros E; left; exact E.
  - intros [E|(e & s1 & E & _)]; [exact E|discriminate E].
  - eauto 10.
  - intros [E|(e & s1 & [= -> ->] & E)]; [discriminate E|exact E].
  - intros [E|(e & s1 & E & _)]; discriminate E.
Qed.

Lemma try_catch_Throw {A} (m : M S A) h s e s' :
  try_catch m h s = Throw e s' <->
  exists e1 s1, m s = Throw e1 s1 /\ h e1 s1 = Throw e s'.
Proof.
  unfold try_catch. destruct (m s) as [a0 s0|e0 s0|]; split;
    try (intros (e1 & s1 & E & _); discriminate E); try discriminate.
  - eauto 10.
  - intros (e1 & s1 & [= -> ->] & E). exact E.
Qed.

Lemma CHECK_Ok (b : bool) s u s' : CHECK b s = Ok u s' <-> b = true /\ s' = s.
Proof.
  destruct b, u; unfold CHECK, ret, fatal; split;
    try discriminate; try (intros [E _]; discriminate E).
  - intros [= ->]. auto.
  - intros [_ ->]. reflexivity.
Qed.

Lemma deref_Ok {A} (o : option A) s a s' :
  deref o s = Ok a s' <-> o = Some a /\ s' = s.
Proof.
  destruct o; unfold deref, ret, fatal; split;
    try discriminate; try (intros [E _]; discriminate E).
  - intros [= -> ->]. auto.
  - intros [[= ->] ->]. reflexivity.
Qed.

Lemma bind_run {A B} (m : M S A) (k : A -> M S B) s a s1 :
  m s = Ok a s1 -> bind m k s = k a s1.
Proof. intros E. unfold bind. rewrite E. reflexivity. Qed.

End Monad.

(** ** Frame reasoning: what a computation keeps *)

Section Keeps.
Context {S B : Type} (part : S -> B).

Lemma keeps_Ok {A} (m : M S A) s a s' : keeps part m -> m s = Ok a s' -> part s' = part s.
Proof. intros K E. specialize (K s). rewrite E in K. exact K. Qed.

Lemma keeps_Throw {A} (m : M S A) s e s' :
  keeps part m -> m s = Throw e s' -> part s' = part s.
Proof. intros K E. specialize (K s). rewrite E in K. exact K. Qed.

Lemma keeps_ret {A} (a : A) : keeps part (ret a).
Proof. intros s. reflexivity. Qed.

Lemma keeps_throw {A} e : keeps part (@throw S A e).
Proof. intros s. reflexivity. Qed.

Lemma keeps_fatal {A} : keeps part (@fatal S A).
Proof. intros s. exact I. Qed.

Lemma keeps_gets {A} (f : S -> A) : keeps part (gets f).
Proof. intros s. reflexivity. Qed.

Lemma keeps_modify (f : S -> S) : (forall s, part (f s) = part s) -> keeps part (modify f).
Proof. intros E s. apply E. Qed.

Lemma keeps_CHECK b : keeps part (CHECK b).
Proof. destruct b; [apply keeps_ret|apply keeps_fatal]. Qed.

Lemma keeps_deref {A} (o : option A) : keeps part (deref o).
Proof. destruct o; [apply keeps_ret|apply keeps_fatal]. Qed.

Lemma keeps_bind {A C} (m : M S A) (f : A -> M S C) :
  keeps part m -> (forall a, keeps part (f a)) -> keeps part (bind m f).
Proof.
  intros Km Kf s. unfold bind. specialize (Km s).
  destruct (m s) as [a s1|e s1|]; [|exact Km|exact I].
  specialize (Kf a s1). destruct (f a s1); try exact I; congruence.
Qed.

Lemma keeps_try_catch {A} (m : M S A) h :
  keeps part m -> (forall e, keeps part (h e)) -> keeps part (try_catch m h).
Proof.
  intros Km Kh s. unfold try_catch. specialize (Km s).
  destruct (m s) as [a s1|e s1|]; [exact Km| |exact I].
  specialize (Kh e s1). destruct (h e s1); try exact I; congruence.
Qed.

Lemma keeps_foldM {A C} (f : C -> A -> M S C) l b :
  (forall b x, keeps part (f b x)) -> keeps part (foldM f l b).
Proof.
  intros K. revert b. induction l as [|x l IH]; intros b; simpl.
  - apply keeps_ret.
  - apply keeps_bind; [apply K|exact IH].
Qed.

End Keeps.

Create HintDb keeps discriminated.

(** Descend into a monadic term; calls of functions already treated are
    closed from the hint database [keeps]. *)
Ltac keeps_step :=
  lazymatch goal with
  | |- keeps _ (bind _ _) => apply keeps_bind; [|intros ?]
  | |- keeps _ (ret _) => apply keeps_ret
  | |- keeps _ (throw _) => apply keeps_throw
  | |- keeps _ fatal => apply keeps_fatal
  | |- keeps _ (gets _) => apply keeps_gets
  | |- keeps _ (CHECK _) => apply keeps_CHECK
  | |- keeps _ (deref _) => apply keeps_deref
  | |- keeps _ (try_catch _ _) => apply keeps_try_catch; [|intros ?]
  | |- keeps _ (foldM _ _ _) => apply keeps_foldM; intros ? ?
  | |- keeps _ (modify _) => apply keeps_modify; intros ?; reflexivity
  | |- keeps _ (match ?x with _ => _ end) => destruct x
  | |- keeps _ _ => solve [eauto with keeps]
  end.
Ltac solve_keeps := repeat keeps_step.

(** Take the returning runs among the hypotheses apart, bind by bind. *)
Ltac inv_step :=
  match goal with
  | H : bind _ _ _ = Ok _ _ |- _ =>
      let a := fresh "a" in
      let s := fresh "s" in
      let R := fresh "R" in
      apply bind_Ok in H; destruct H as (a & s & R & H); cbv beta in R, H
  | H : ret _ _ = Ok _ _ |- _ => unfold ret in H; simplify_eq
  | H : gets _ _ = Ok _ _ |- _ => unfold gets in H; simplify_eq
  | H : modify _ _ = Ok _ _ |- _ => unfold modify in H; simplify_eq
  | H : CHECK _ _ = Ok _ _ |- _ => apply CHECK_Ok in H; destruct H as [? ?]; subst
  | H : deref _ _ = Ok _ _ |- _ => apply deref_Ok in H; destruct H as [? ?]; subst
  | H : throw _ _ = Ok _ _ |- _ => discriminate H
  | H : fatal _ = Ok _ _ |- _ => discriminate H
  | H : (match ?x with _ => _ end) _ = Ok _ _ |- _ => destruct x eqn:?
  end.
Ltac inv_all := repeat inv_step.

(** ** The catalog: what the helpers keep *)

Section CatalogFrames.
Context `{Headers}.
Import Catalog.

Lemma keeps_on_conn {B} (part : t -> B) f :
  (forall x c, part (set_conn x c) = part c) -> keeps part (on_conn f).
Proof.
  intros E c. unfold on_conn. destruct (f (sqliteConnector_ c)); [apply E|reflexivity].
Qed.

Lemma keeps_query_rows {B} (g : Store -> B) stmt :
  (forall d d', stmt d = Some d' -> g d' = g d) ->
  keeps (fun c => g (db (sqliteConnector_ c))) (query stmt).
Proof.
  intros E c. unfold query, on_conn, conn_exec.
  destruct (sqliteConnector_ c) as [d tx fu] eqn:Ec; simpl.
  destruct fu as [[|n]|]; simpl; rewrite ?Ec; try reflexivity;
    destruct (stmt d) eqn:Es; simpl; rewrite ?Ec; simpl; try reflexivity; eauto.
Qed.

Lemma keeps_query_txn stmt : keeps (fun c => txn (sqliteConnector_ c)) (query stmt).
Proof.
  intros c. unfold query, on_conn, conn_exec.
  destruct (sqliteConnector_ c) as [d tx fu] eqn:Ec; simpl.
  destruct fu as [[|n]|]; simpl; rewrite ?Ec; try reflexivity;
    destruct (stmt d) eqn:Es; simpl; rewrite ?Ec; reflexivity.
Qed.

End CatalogFrames.

#[export] Hint Resolve keeps_query_txn : keeps.
#[export] Hint Extern 2 (keeps _ (Catalog.on_conn _)) =>
  apply keeps_on_conn; intros; reflexivity : keeps.
#[export] Hint Extern 2 (keeps _ (Catalog.query _)) =>
  apply keeps_on_conn; intros; reflexivity : keeps.
#[export] Hint Extern 1 (keeps _ (Catalog.select _)) => apply keeps_gets : keeps.
#[export] Hint Extern 2 (keeps _ Catalog.BEGIN_TRANSACTION) =>
  apply keeps_on_conn; intros; reflexivity : keeps.
#[export] Hint Extern 2 (keeps _ Catalog.ROLLBACK_TRANSACTION) =>
  apply keeps_on_conn; intros; reflexivity : keeps.
#[export] Hint Extern 2 (keeps _ Catalog.END_TRANSACTION) =>
  apply keeps_on_conn; intros; reflexivity : keeps.
#[export] Hint Extern 3 (keeps (fun c => _ (db (Catalog.sqliteConnector_ c))) (Catalog.query _)) =>
  apply keeps_query_rows;
  let d := fresh "d" in let d' := fresh "d" in let E := fresh "E" in
  intros d d' E;
  unfold Catalog.insert_column, Catalog.insert_dictionary, Catalog.rename_initial_key,
         Catalog.bump_refcount, Catalog.insert_view in E;
  repeat case_decide; simplify_eq; reflexivity : keeps.

Section CatalogHelpers.
Context `{Headers}.
Import Catalog.

Lemma addReferenceToForeignDict_registry cd def :
  keeps table_registry (addReferenceToForeignDict cd def).
Proof. unfold addReferenceToForeignDict, get_foreign_col. solve_keeps. Qed.

Lemma addReferenceToForeignDict_rows cd def :
  keeps (fun c => table_rows (db (sqliteConnector_ c))) (addReferenceToForeignDict cd def).
Proof. unfold addReferenceToForeignDict, get_foreign_col. solve_keeps. Qed.

Lemma addReferenceToForeignDict_txn cd def :
  keeps (fun c => txn (sqliteConnector_ c)) (addReferenceToForeignDict cd def).
Proof. unfold addReferenceToForeignDict, get_foreign_col. solve_keeps. Qed.

#[local] Hint Resolve addReferenceToForeignDict_registry
  addReferenceToForeignDict_rows addReferenceToForeignDict_txn : keeps.

Lemma setColumnSharedDictionary_registry cd cdd dds td defs :
  keeps table_registry (setColumnSharedDictionary cd cdd dds td defs).
Proof. unfold setColumnSharedDictionary, select. solve_keeps. Qed.

Lemma setColumnSharedDictionary_rows cd cdd dds td defs :
  keeps (fun c => table_rows (db (sqliteConnector_ c)))
        (setColumnSharedDictionary cd cdd dds td defs).
Proof. unfold setColumnSharedDictionary, select. solve_keeps. Qed.

Lemma setColumnSharedDictionary_txn cd cdd dds td defs :
  keeps (fun c => txn (sqliteConnector_ c)) (setColumnSharedDictionary cd cdd dds td defs).
Proof. unfold setColumnSharedDictionary, select. solve_keeps. Qed.

Lemma setColumnDictionary_registry cd dds td isL :
  keeps table_registry (setColumnDictionary cd dds td isL).
Proof. unfold setColumnDictionary, select. solve_keeps. Qed.

Lemma setColumnDictionary_rows cd dds td isL :
  keeps (fun c => table_rows (db (sqliteConnector_ c))) (setColumnDictionary cd dds td isL).
Proof. unfold setColumnDictionary, select. solve_keeps. Qed.

Lemma setColumnDictionary_txn cd dds td isL :
  keeps (fun c => txn (sqliteConnector_ c)) (setColumnDictionary cd dds td isL).
Proof. unfold setColumnDictionary, select. solve_keeps. Qed.

#[local] Hint Resolve setColumnSharedDictionary_registry
  setColumnSharedDictionary_rows setColumnSharedDictionary_txn
  setColumnDictionary_registry setColumnDictionary_rows
  setColumnDictionary_txn : keeps.

Lemma persist_column_registry td defs isL st cd :
  keeps table_registry (persist_column td defs isL st cd).
Proof. unfold persist_column. destruct st as [[k cds] dds]. solve_keeps. Qed.

Lemma persist_column_rows td defs isL st cd :
  keeps (fun c => table_rows (db (sqliteConnector_ c))) (persist_column td defs isL st cd).
Proof. unfold persist_column. destruct st as [[k cds] dds]. solve_keeps. Qed.

Lemma persist_column_txn td defs isL st cd :
  keeps (fun c => txn (sqliteConnector_ c)) (persist_column td defs isL st cd).
Proof. unfold persist_column. destruct st as [[k cds] dds]. solve_keeps. Qed.

Lemma temp_column_registry td st cd : keeps table_registry (temp_column td st cd).
Proof. unfold temp_column. destruct st as [[k cds] dds]. solve_keeps. Qed.

Lemma temp_column_conn td st cd : keeps sqliteConnector_ (temp_column td st cd).
Proof. unfold temp_column. destruct st as [[k cds] dds]. solve_keeps. Qed.

Lemma add_column_tables td cd :
  keeps (fun c => (tableDescriptorMap_ c, tableDescriptorMapById_ c,
                   logicalToPhysicalTableMapById_ c, nextTempTableId_ c,
                   sqliteConnector_ c, dictDescriptorMapByRef_ c))
        (add_column td cd).
Proof. unfold add_column, setDeletedColumnUnlocked. solve_keeps. Qed.

Lemma add_dict_tables dd :
  keeps (fun c => (tableDescriptorMap_ c, tableDescriptorMapById_ c,
                   logicalToPhysicalTableMapById_ c, nextTempTableId_ c,
                   sqliteConnector_ c, columnDescriptorMapById_ c))
        (add_dict dd).
Proof. unfold add_dict. solve_keeps. Qed.

(** *** The shape of what the helpers return *)

Lemma retyped_refl cd : retyped cd cd.
Proof. destruct cd; reflexivity. Qed.

Lemma retyped_set ti cd : retyped cd (cd_set_columnType ti cd).
Proof. reflexivity. Qed.

Lemma retyped_trans cd1 cd2 cd3 : retyped cd1 cd2 -> retyped cd2 cd3 -> retyped cd1 cd3.
Proof. unfold retyped. intros -> ->. reflexivity. Qed.

Lemma addReferenceToForeignDict_retyped cd def c cd' c' :
  addReferenceToForeignDict cd def c = Ok cd' c' -> retyped cd cd'.
Proof. unfold addReferenceToForeignDict. intros R. inv_all. apply retyped_set. Qed.

Lemma setColumnSharedDictionary_retyped cd cdd dds td defs c b cd' dds' c' :
  setColumnSharedDictionary cd cdd dds td defs c = Ok (b, cd', dds') c' -> retyped cd cd'.
Proof.
  unfold setColumnSharedDictionary. intros R. inv_all;
    first [ apply retyped_refl
          | apply retyped_set
          | eapply addReferenceToForeignDict_retyped; eassumption
          | eapply retyped_trans;
            [apply retyped_set
            |eapply addReferenceToForeignDict_retyped; eassumption] ].
Qed.

Lemma setColumnDictionary_retyped cd dds td isL c cd' dds' c' :
  setColumnDictionary cd dds td isL c = Ok (cd', dds') c' -> retyped cd cd'.
Proof.
  unfold setColumnDictionary. intros R. inv_all; apply retyped_set.
Qed.

Lemma registered_of_retyped tid k cd cd1 :
  retyped cd cd1 -> registered_as tid k cd (cd_set_ids tid k cd1).
Proof. unfold retyped, registered_as. intros E. simpl. rewrite <- E. reflexivity. Qed.

Lemma registered_ids tid k cd cd' :
  registered_as tid k cd cd' -> cd_tableId cd' = tid /\ cd_columnId cd' = k.
Proof. unfold registered_as. intros ->. split; reflexivity. Qed.

Lemma registered_fields tid k cd cd' :
  registered_as tid k cd cd' ->
  cd_columnName cd' = cd_columnName cd /\ cd_isSystemCol cd' = cd_isSystemCol cd
  /\ cd_isVirtualCol cd' = cd_isVirtualCol cd /\ cd_isDeletedCol cd' = cd_isDeletedCol cd.
Proof. unfold registered_as. intros ->. repeat split; reflexivity. Qed.

Lemma persist_column_Ok td defs isL k cds dds cd c st' c' :
  persist_column td defs isL (k, cds, dds) cd c = Ok st' c' ->
  exists cd' dds', st' = (k + 1, cds ++ [cd'], dds')
                   /\ registered_as (td_tableId td) k cd cd'.
Proof.
  unfold persist_column. intros R. inv_all; do 2 eexists; (split; [reflexivity|]);
    apply registered_of_retyped;
    first [ apply retyped_refl
          | eapply setColumnSharedDictionary_retyped; eassumption
          | eapply retyped_trans;
            [eapply setColumnSharedDictionary_retyped; eassumption
            |eapply setColumnDictionary_retyped; eassumption] ].
Qed.

Lemma temp_column_Ok td k cds dds cd c st' c' :
  temp_column td (k, cds, dds) cd c = Ok st' c' ->
  exists cd' dds', st' = (k + 1, cds ++ [cd'], dds')
                   /\ registered_as (td_tableId td) k cd cd'.
Proof.
  unfold temp_column. intros R. inv_all; do 2 eexists; (split; [reflexivity|]);
    apply registered_of_retyped; first [apply retyped_refl|apply retyped_set].
Qed.

(** A loop whose turns register one column each numbers the columns. *)
Lemma numbered_loop (step : loop_state -> ColumnDescriptor -> Cat loop_state) tid :
  (forall k cds dds cd c st' c',
     step (k, cds, dds) cd c = Ok st' c' ->
     exists cd' dds', st' = (k + 1, cds ++ [cd'], dds') /\ registered_as tid k cd cd') ->
  forall columns k cds dds c k' cds' dds' c',
    foldM step columns (k, cds, dds) c = Ok (k', cds', dds') c' ->
    exists new, cds' = cds ++ new /\ numbered tid k columns new.
Proof.
  intros Hstep columns. induction columns as [|cd columns IH];
    intros k cds dds c k' cds' dds' c' R; simpl in R.
  - inv_all. exists []. split; [symmetry; apply app_nil_r|exact I].
  - inv_all. destruct (Hstep _ _ _ _ _ _ _ R0) as (cd' & dds1 & -> & Hreg).
    destruct (IH _ _ _ _ _ _ _ _ R) as (new & -> & Hnum).
    exists (cd' :: new). split; [rewrite <- app_assoc; reflexivity|].
    split; assumption.
Qed.

Lemma numbered_length tid k columns new :
  numbered tid k columns new -> length new = length columns.
Proof.
  revert k new. induction columns as [|cd columns IH]; intros k [|cd' new] N;
    simpl in *; try contradiction; [reflexivity|].
  f_equal. apply (IH (k + 1)). apply N.
Qed.

Lemma numbered_lookup tid k columns new i cd :
  numbered tid k columns new -> columns !! i = Some cd ->
  exists cd', new !! i = Some cd' /\ registered_as tid (k + Z.of_nat i) cd cd'.
Proof.
  revert k new i. induction columns as [|cd0 columns IH]; intros k [|cd' new] i N L;
    simpl in *; try contradiction; try discriminate.
  destruct N as [Hreg N]. destruct i as [|i]; simpl in *.
  - injection L as <-. exists cd'. split; [reflexivity|].
    rewrite Z.add_0_r. exact Hreg.
  - destruct (IH _ _ _ N L) as (cd1 & L1 & Hreg1). exists cd1. split; [exact L1|].
    replace (k + Z.of_nat (S i)) with (k + 1 + Z.of_nat i) by lia. exact Hreg1.
Qed.

Lemma register_columns_other m cds key :
  Forall (fun cd => (cd_tableId cd, cd_columnId cd) <> key) cds ->
  register_columns m cds !! key = m !! key.
Proof.
  revert m. induction cds as [|cd cds IH]; intros m F; simpl; [reflexivity|].
  inversion F as [|? ? Hne F']; subst.
  unfold register_columns in *. simpl. rewrite IH by assumption.
  apply lookup_insert_ne. exact Hne.
Qed.

Lemma numbered_keys tid k columns new :
  numbered tid k columns new ->
  Forall (fun cd => cd_tableId cd = tid /\ k <= cd_columnId cd
                    < k + Z.of_nat (length new)) new.
Proof.
  revert k new. induction columns as [|cd columns IH]; intros k [|cd' new] N;
    simpl in *; try contradiction; [constructor|].
  destruct N as [Hreg N]. apply registered_ids in Hreg as [E1 E2].
  constructor; [split; [exact E1|lia]|].
  eapply Forall_impl; [apply (IH _ _ N)|]. simpl. intros cd1 [? ?]. split; [assumption|lia].
Qed.

Lemma register_columns_lookup m tid k columns new i cd' :
  numbered tid k columns new -> new !! i = Some cd' ->
  register_columns m new !! (tid, k + Z.of_nat i) = Some cd'.
Proof.
  revert m k new i. induction columns as [|cd columns IH]; intros m k [|cd1 new] i N L;
    simpl in *; try contradiction; try discriminate.
  destruct N as [Hreg N]. destruct i as [|i]; simpl in *.
  - injection L as ->. apply registered_ids in Hreg as [E1 E2].
    unfold register_columns. simpl. fold (register_columns
      (<[(cd_tableId cd', cd_columnId cd'):=cd']> m) new).
    rewrite register_columns_other.
    + rewrite E1, E2, Z.add_0_r. apply lookup_insert_eq.
    + eapply Forall_impl; [apply (numbered_keys _ _ _ _ N)|].
      simpl. intros cd2 [? ?] [= ? ?]. lia.
  - unfold register_columns. simpl.
    replace (k + Z.of_nat (S i)) with (k + 1 + Z.of_nat i) by lia.
    apply (IH _ _ _ _ N L).
Qed.

Lemma add_column_byId td cd c c' :
  add_column td cd c = Ok tt c' ->
  columnDescriptorMapById_ c'
  = <[(cd_tableId cd, cd_columnId cd) := cd]> (columnDescriptorMapById_ c).
Proof.
  unfold add_column, setDeletedColumnUnlocked. intros R. inv_all; reflexivity.
Qed.

Lemma add_columns_byId td cds c c' :
  foldM (fun _ cd => add_column td cd) cds tt c = Ok tt c' ->
  columnDescriptorMapById_ c' = register_columns (columnDescriptorMapById_ c) cds.
Proof.
  revert c. induction cds as [|cd cds IH]; intros c R; simpl in R.
  - inv_all. reflexivity.
  - inv_all. destruct a. rewrite (IH _ R). simpl.
    unfold register_columns. simpl. f_equal. eapply add_column_byId. eassumption.
Qed.

(** *** Statements and transactions that return *)

Lemma query_Ok stmt c u c' :
  query stmt c = Ok u c' ->
  exists d' f', stmt (db (sqliteConnector_ c)) = Some d'
                /\ c' = set_conn (mkConn d' (txn (sqliteConnector_ c)) f') c.
Proof.
  unfold query, on_conn, conn_exec. intros R.
  destruct (fuse (sqliteConnector_ c)) as [[|n]|]; try discriminate;
    destruct (stmt (db (sqliteConnector_ c))) as [d'|]; try discriminate;
    injection R as _ <-; eauto.
Qed.

Lemma BEGIN_Ok c u c' :
  BEGIN_TRANSACTION c = Ok u c' ->
  txn (sqliteConnector_ c) = None
  /\ c' = set_conn (mkConn (db (sqliteConnector_ c)) (Some (db (sqliteConnector_ c)))
                           (fuse (sqliteConnector_ c))) c.
Proof.
  unfold BEGIN_TRANSACTION, on_conn, conn_begin. intros R.
  destruct (txn (sqliteConnector_ c)); [discriminate|]. injection R as _ <-. auto.
Qed.

Lemma END_Ok c u c' :
  END_TRANSACTION c = Ok u c' ->
  c' = set_conn (mkConn (db (sqliteConnector_ c)) None (fuse (sqliteConnector_ c))) c.
Proof.
  unfold END_TRANSACTION, on_conn, conn_end. intros R.
  destruct (txn (sqliteConnector_ c)); [|discriminate]. injection R as _ <-. auto.
Qed.

Lemma filter_name_absent {A} (name : A -> string) n (l : list A) :
  n ∉ name <$> l -> filter (fun r => name r = n) l = [].
Proof.
  induction l as [|x l IH]; intros Hn; [reflexivity|].
  rewrite fmap_cons, not_elem_of_cons in Hn. destruct Hn as [Hx Hl].
  rewrite filter_cons. destruct (decide (name x = n)) as [E|_]; [congruence|auto].
Qed.

Lemma insert_table_Some td d d' :
  insert_table td d = Some d' ->
  let tid := next_rowid (tr_tableid <$> mapd_tables d) in
  select_tableid (td_tableName td) d' = Some tid
  /\ tr_tableid <$> mapd_tables d' = (tr_tableid <$> mapd_tables d) ++ [tid]
  /\ mapd_logical_to_physical d' = mapd_logical_to_physical d.
Proof.
  unfold insert_table. case_decide as Hn; [discriminate|]. intros [= <-]. simpl.
  split; [|split; [|reflexivity]].
  - unfold select_tableid. simpl. rewrite filter_app, filter_name_absent by exact Hn.
    simpl. rewrite filter_cons. simpl. case_decide; [reflexivity|congruence].
  - rewrite fmap_app. reflexivity.
Qed.

End CatalogHelpers.

Section CreateTable.
Context `{Headers}.
Import Catalog.

#[local] Hint Resolve persist_column_registry persist_column_rows
  persist_column_txn temp_column_registry temp_column_conn : keeps.

Lemma persist_table_Ok td columns defs isL c td' cds dds c' :
  persist_table td columns defs isL c = Ok (td', cds, dds) c' ->
  let tid := next_rowid (tr_tableid <$> mapd_tables (db (sqliteConnector_ c))) in
  td' = td_set_tableId tid td
  /\ numbered tid 1 columns cds
  /\ table_registry c' = table_registry c
  /\ txn (sqliteConnector_ c') = txn (sqliteConnector_ c)
  /\ tr_tableid <$> mapd_tables (db (sqliteConnector_ c'))
     = (tr_tableid <$> mapd_tables (db (sqliteConnector_ c))) ++ [tid]
  /\ mapd_logical_to_physical (db (sqliteConnector_ c'))
     = mapd_logical_to_physical (db (sqliteConnector_ c)).
Proof.
  unfold persist_table, select. intros R.
  apply try_catch_Ok in R as [R|(e & s1 & _ & R)]; [|inv_all].
  apply bind_Ok in R as (u & c1 & Rins & R).
  apply query_Ok in Rins as (d1 & f1 & Eins & ->).
  apply insert_table_Some in Eins as (Esel & Eids & El2p).
  inv_all;
    match goal with
    | Hl : foldM _ _ _ ?s = Ok _ ?s' |- _ =>
        assert (Hreg : table_registry s' = table_registry s)
          by (eapply keeps_Ok; [|exact Hl]; solve_keeps);
        assert (Hrows : table_rows (db (sqliteConnector_ s'))
                        = table_rows (db (sqliteConnector_ s)))
          by (eapply (keeps_Ok (fun c => table_rows (db (sqliteConnector_ c))));
              [|exact Hl]; solve_keeps);
        assert (Htxn : txn (sqliteConnector_ s') = txn (sqliteConnector_ s))
          by (eapply (keeps_Ok (fun c => txn (sqliteConnector_ c)));
              [|exact Hl]; solve_keeps);
        destruct (numbered_loop _ _
                    (fun k cds dds cd c st' c' =>
                       persist_column_Ok _ defs isL k cds dds cd c st' c')
                    _ _ _ _ _ _ _ _ _ Hl) as (new & -> & Hnum)
    end;
    try match goal with
    | Hq : query (insert_view _ _) _ = Ok _ _ |- _ =>
        apply query_Ok in Hq as (d3 & f3 & [= <-] & ->)
    end;
    unfold table_rows in Hrows; simpl in *; injection Hrows as Ht Hl2p;
    repeat split; try assumption; try congruence.
Qed.

Lemma temp_table_Ok td columns c td' cds dds c' :
  temp_table td columns c = Ok (td', cds, dds) c' ->
  let tid := nextTempTableId_ c in
  td' = td_set_tableId tid td
  /\ numbered tid 1 columns cds
  /\ sqliteConnector_ c' = sqliteConnector_ c
  /\ tableDescriptorMap_ c' = tableDescriptorMap_ c
  /\ tableDescriptorMapById_ c' = tableDescriptorMapById_ c
  /\ logicalToPhysicalTableMapById_ c' = logicalToPhysicalTableMapById_ c
  /\ columnDescriptorMapById_ c' = columnDescriptorMapById_ c
  /\ nextTempTableId_ c' = tid + 1.
Proof.
  unfold temp_table. intros R. inv_all.
  match goal with
  | Hl : foldM _ _ _ ?s = Ok _ ?s' |- _ =>
      assert (Hreg : table_registry s' = table_registry s)
        by (eapply keeps_Ok; [|exact Hl]; solve_keeps);
      assert (Hconn : sqliteConnector_ s' = sqliteConnector_ s)
        by (eapply (keeps_Ok sqliteConnector_); [|exact Hl]; solve_keeps);
      destruct (numbered_loop _ _
                  (fun k cds dds cd c st' c' => temp_column_Ok _ k cds dds cd c st' c')
                  _ _ _ _ _ _ _ _ _ Hl) as (new & -> & Hnum)
  end.
  unfold table_registry in Hreg. simpl in *. injection Hreg as ? ? ? ? ? ? ?.
  repeat split; assumption.
Qed.

Lemma updateMetadata_Ok c u c' : updateMetadata c = Ok u c' -> c' = c.
Proof. unfold updateMetadata. intros R. inv_all. reflexivity. Qed.

Lemma addTableToMap_Ok td cds dds c u c' :
  addTableToMap td cds dds c = Ok u c' ->
  tableDescriptorMap_ c' = <[to_upper (td_tableName td) := td]> (tableDescriptorMap_ c)
  /\ tableDescriptorMapById_ c' = <[td_tableId td := td]> (tableDescriptorMapById_ c)
  /\ logicalToPhysicalTableMapById_ c' = logicalToPhysicalTableMapById_ c
  /\ nextTempTableId_ c' = nextTempTableId_ c
  /\ sqliteConnector_ c' = sqliteConnector_ c
  /\ columnDescriptorMapById_ c'
     = register_columns (columnDescriptorMapById_ c) cds.
Proof.
  unfold addTableToMap. intros R.
  apply bind_Ok in R as (u0 & c0 & R0 & R).
  apply bind_Ok in R as ([] & c1 & Rcols & Rdicts).
  unfold modify in R0. injection R0 as _ <-.
  pose proof (add_columns_byId _ _ _ _ Rcols) as Hcols.
  assert (K1 := keeps_Ok _ _ _ _ _
                  (keeps_foldM _ _ cds tt (fun _ cd => add_column_tables td cd)) Rcols).
  assert (K2 := keeps_Ok _ _ _ _ _
                  (keeps_foldM _ _ dds tt (fun _ dd => add_dict_tables dd)) Rdicts).
  simpl in *. injection K1 as ? ? ? ? ? ?. injection K2 as ? ? ? ? ? ?.
  repeat split; congruence.
Qed.

(** [createTable] returns only along one path: the columns expand, the
    transaction opens, the table is persisted or numbered as a temporary
    table, it is registered, and the transaction closes. *)
Lemma createTable_Ok td cols defs isL c td' c' :
  createTable td cols defs isL c = Ok td' c' ->
  exists columns cds dds c1 c2 c3,
    expand_columns cols [] = inr columns
    /\ BEGIN_TRANSACTION c = Ok tt c1
    /\ (let all := columns ++ system_columns td in
        let td0 := td_set_nColumns (Z.of_nat (length all)) td in
        (if decide (td_persistenceLevel td = DISK_LEVEL)
         then persist_table td0 all defs isL
         else temp_table td0 all) c1 = Ok (td', cds, dds) c2)
    /\ addTableToMap td' cds dds c2 = Ok tt c3
    /\ END_TRANSACTION c3 = Ok tt c'.
Proof.
  unfold createTable. intros R.
  destruct (expand_columns cols []) as [msg|columns]; [discriminate|].
  exists columns.
  apply bind_Ok in R as ([] & c1 & Rb & R).
  apply bind_Ok in R as ([[td1 cds] dds] & c2 & Rp & R).
  apply bind_Ok in R as ([] & c3 & Rt & R).
  apply bind_Ok in R as ([] & c4 & Re & R). unfold ret in R. injection R as <- <-.
  apply try_catch_Ok in Rt as [Rt|(e & s1 & _ & Rt)]; [|inv_all].
  apply bind_Ok in Rt as ([] & c3' & Ra & Ru). apply updateMetadata_Ok in Ru as ->.
  exists cds, dds, c1, c2, c3'. repeat split; assumption.
Qed.

End CreateTable.

(** ** Claims on [Catalog::createTable] *)

Section CreateTableClaims.
Context `{Headers}.
Import Catalog.

Lemma expand_columns_rowid cols acc :
  Exists (fun cd => cd_columnName cd = "rowid") cols ->
  expand_columns cols acc = inl rowid_error
  \/ expand_columns cols acc = inl "Unrecognized geometry type.".
Proof.
  intros E. revert acc. induction E as [cd cols E|cd cols E IH]; intros acc; simpl.
  - rewrite decide_True by exact E. left. reflexivity.
  - destruct (decide (cd_columnName cd = "rowid")); [left; reflexivity|].
    destruct (IS_GEO _); [|apply IH].
    destruct (geo_columns cd); [apply IH|right; reflexivity].
Qed.

(** C10: if any declared column is named "rowid", [createTable] throws
    before any persistent or in-memory state is modified: the exception
    leaves in the very state the call started from.  (The message is the
    one about the reserved name, unless an earlier column has a geometry
    type the first loop does not recognise.) *)
Theorem createTable_rowid_reserved td cols defs isLogicalTable c :
  Exists (fun cd => cd_columnName cd = "rowid") cols ->
  exists msg,
    createTable td cols defs isLogicalTable c = Throw msg c
    /\ (msg = rowid_error \/ msg = "Unrecognized geometry type.").
Proof.
  intros E. unfold createTable.
  destruct (expand_columns_rowid cols [] E) as [-> | ->]; eexists; split;
    try reflexivity; auto.
Qed.

(** C4: for every table built by [createTable], the columns are registered
    under the column ids 1, 2, ... in declared order (the declared columns
    with the physical columns of the geometry types, then [rowid], then the
    delete marker when the table is versioned), and no other column id of
    the table is touched.  [rowid] is the last column, but for the delete
    marker that follows it in a versioned table. *)
Theorem createTable_column_ids td cols defs isLogicalTable c td' c' :
  createTable td cols defs isLogicalTable c = Ok td' c' ->
  exists columns,
    expand_columns cols [] = inr columns
    /\ let declared := columns ++ system_columns td in
       let tid := td_tableId td' in
       let n := Z.of_nat (length columns) in
       td_nColumns td' = Z.of_nat (length declared)
       /\ (forall i cd, declared !! i = Some cd ->
             exists cd',
               getMetadataForColumnById tid (Z.of_nat i + 1) c' = Some cd'
               /\ cd_columnId cd' = Z.of_nat i + 1
               /\ cd_tableId cd' = tid
               /\ cd_columnName cd' = cd_columnName cd
               /\ cd_isSystemCol cd' = cd_isSystemCol cd
               /\ cd_isDeletedCol cd' = cd_isDeletedCol cd)
       /\ (forall j, ~ (1 <= j <= td_nColumns td') ->
             getMetadataForColumnById tid j c' = getMetadataForColumnById tid j c)
       /\ (exists rowid,
             getMetadataForColumnById tid (n + 1) c' = Some rowid
             /\ cd_columnName rowid = "rowid" /\ cd_isSystemCol rowid = true)
       /\ (if td_hasDeletedCol td then
             td_nColumns td' = n + 2
             /\ exists deleted,
                  getMetadataForColumnById tid (n + 2) c' = Some deleted
                  /\ cd_columnName deleted = "$deleted$"
                  /\ cd_isDeletedCol deleted = true
           else td_nColumns td' = n + 1).
Proof.
  intros R.
  apply createTable_Ok in R as (columns & cds & dds & c1 & c2 & c3 & Ex & Rb & Rp & Ra & Re).
  exists columns. split; [exact Ex|]. cbv zeta in *.
  set (declared := columns ++ system_columns td) in *.
  apply BEGIN_Ok in Rb as [_ ->]. apply END_Ok in Re as ->.
  apply addTableToMap_Ok in Ra as (_ & _ & _ & _ & _ & Hcols).
  assert (Hnum : td_nColumns td' = Z.of_nat (length declared)
                 /\ numbered (td_tableId td') 1 declared cds
                 /\ columnDescriptorMapById_ c2 = columnDescriptorMapById_ c).
  { destruct (decide (td_persistenceLevel td = DISK_LEVEL)).
    - apply persist_table_Ok in Rp as (-> & N & Hreg & _). simpl in *.
      unfold table_registry in Hreg. simpl in Hreg. injection Hreg as ? ? ? ? ? ? ?.
      auto.
    - apply temp_table_Ok in Rp as (-> & N & _ & _ & _ & _ & Hc & _). simpl in *. auto. }
  destruct Hnum as (Hn & Hnum & Hc2).
  assert (Hlook : forall i cd, declared !! i = Some cd ->
            exists cd',
              getMetadataForColumnById (td_tableId td') (Z.of_nat i + 1)
                (set_conn (mkConn (db (sqliteConnector_ c3)) None (fuse (sqliteConnector_ c3))) c3)
              = Some cd'
              /\ registered_as (td_tableId td') (Z.of_nat i + 1) cd cd').
  { intros i cd L. destruct (numbered_lookup _ _ _ _ _ _ Hnum L) as (cd' & L' & Hreg).
    exists cd'. unfold getMetadataForColumnById. simpl. rewrite Hcols.
    replace (Z.of_nat i + 1) with (1 + Z.of_nat i) by lia.
    split; [eapply register_columns_lookup; eassumption|exact Hreg]. }
  split; [exact Hn|]. split; [|split; [|split]].
  - intros i cd L. destruct (Hlook i cd L) as (cd' & L' & Hreg). exists cd'.
    destruct (registered_ids _ _ _ _ Hreg) as [? ?].
    destruct (registered_fields _ _ _ _ Hreg) as (? & ? & ? & ?). auto 10.
  - intros j Hj. unfold getMetadataForColumnById. simpl. rewrite Hcols, <- Hc2.
    apply register_columns_other.
    eapply Forall_impl; [apply (numbered_keys _ _ _ _ Hnum)|]. simpl.
    intros cd [E1 E2] [= _ E3]. apply Hj. rewrite Hn.
    rewrite (numbered_length _ _ _ _ Hnum) in E2. lia.
  - destruct (Hlook (length columns) rowid_cd) as (cd' & L' & Hreg).
    { unfold declared. rewrite lookup_app_r by lia. rewrite Nat.sub_diag. reflexivity. }
    exists cd'. destruct (registered_fields _ _ _ _ Hreg) as (? & ? & ? & ?). auto.
  - unfold declared, system_columns in *. rewrite length_app in Hn.
    destruct (td_hasDeletedCol td); simpl in Hn; [|lia].
    split; [lia|].
    destruct (Hlook (S (length columns)) deleted_cd) as (cd' & L' & Hreg).
    { rewrite lookup_app_r by lia.
      replace (S (length columns) - length columns)%nat with 1%nat by lia. reflexivity. }
    exists cd'. destruct (registered_fields _ _ _ _ Hreg) as (? & ? & ? & ?).
    replace (Z.of_nat (length columns) + 2) with (Z.of_nat (S (length columns)) + 1) by lia.
    auto.
Qed.

End CreateTableClaims.

(** ** Claims on [Catalog::createShardedTable] *)

Section Sharding.
Context `{Headers}.
Import Catalog.

Lemma foldr_max_base (l : list Z) b :
  0 <= b -> foldr Z.max b l = Z.max (foldr Z.max 0 l) b.
Proof. intros Hb. induction l as [|x l IH]; simpl; lia. Qed.

Lemma foldr_max_nonneg (l : list Z) : 0 <= foldr Z.max 0 l.
Proof. induction l as [|x l IH]; simpl; lia. Qed.

Lemma next_rowid_watermark (ids : list Z) :
  foldr Z.max 0 ids < next_rowid ids
  /\ foldr Z.max 0 (ids ++ [next_rowid ids]) = next_rowid ids.
Proof.
  unfold next_rowid. pose proof (foldr_max_nonneg ids).
  split; [lia|]. rewrite foldr_app. simpl. rewrite foldr_max_base by lia. lia.
Qed.

(** What a returning [createTable] does to the registry of tables. *)
Lemma createTable_effect td cols defs isL c td' c' :
  createTable td cols defs isL c = Ok td' c' ->
  td' = td_set_tableId (td_tableId td') (td_set_nColumns (td_nColumns td') td)
  /\ tableDescriptorMapById_ c' = <[td_tableId td' := td']> (tableDescriptorMapById_ c)
  /\ logicalToPhysicalTableMapById_ c' = logicalToPhysicalTableMapById_ c
  /\ mapd_logical_to_physical (db (sqliteConnector_ c'))
     = mapd_logical_to_physical (db (sqliteConnector_ c))
  /\ txn (sqliteConnector_ c) = None
  /\ txn (sqliteConnector_ c') = None
  /\ table_watermark (td_persistenceLevel td) c < td_tableId td'
  /\ table_watermark (td_persistenceLevel td) c' = td_tableId td'.
Proof.
  intros R.
  apply createTable_Ok in R as (columns & cds & dds & c1 & c2 & c3 & Ex & Rb & Rp & Ra & Re).
  cbv zeta in Rp. apply BEGIN_Ok in Rb as [Htx ->]. apply END_Ok in Re as ->.
  apply addTableToMap_Ok in Ra as (_ & Hid & Hl2p & Hnext & Hconn & _).
  unfold table_watermark. simpl. rewrite Hconn, Hid, Hl2p, Hnext.
  destruct (decide (td_persistenceLevel td = DISK_LEVEL)) as [HL|HL].
  - apply persist_table_Ok in Rp as (-> & _ & Hreg & _ & Hids & Hrows). simpl in *.
    unfold table_registry in Hreg. simpl in Hreg. injection Hreg as ? ? ? ? ? ? ?.
    rewrite Hids, Hrows.
    destruct (next_rowid_watermark
                (tr_tableid <$> mapd_tables (db (sqliteConnector_ c)))) as [W1 W2].
    repeat split; try assumption; try congruence.
  - apply temp_table_Ok in Rp as (-> & _ & Hc & _ & Hbyid & Hl & _ & Hn). simpl in *.
    rewrite Hc, Hbyid, Hl, Hn. repeat split; try assumption; try reflexivity; lia.
Qed.

Lemma create_shard_Ok td cols defs acc i c pids c' :
  create_shard td cols defs acc i c = Ok pids c' ->
  exists tdp,
    createTable (td_set_shard (i - 1)
                   (td_set_tableName (generatePhysicalTableName (td_tableName td) i) td))
                cols defs false c = Ok tdp c'
    /\ pids = acc ++ [td_tableId tdp].
Proof. unfold create_shard. intros R. inv_all. eauto. Qed.

(** The loop that creates the physical tables of the shards [shards]. *)
Lemma create_shards_Ok td cols defs shards acc c pids c' :
  foldM (create_shard td cols defs) shards acc c = Ok pids c' ->
  let level := td_persistenceLevel td in
  exists new,
    pids = acc ++ new
    /\ length new = length shards
    /\ table_watermark level c <= table_watermark level c'
    /\ Forall (fun pid => table_watermark level c < pid <= table_watermark level c') new
    /\ NoDup new
    /\ (forall k i pid, shards !! k = Some i -> new !! k = Some pid ->
          exists tdp,
            tableDescriptorMapById_ c' !! pid = Some tdp
            /\ td_tableId tdp = pid
            /\ td_tableName tdp = generatePhysicalTableName (td_tableName td) i
            /\ td_shard tdp = i - 1)
    /\ (forall id, id ∉ new ->
          tableDescriptorMapById_ c' !! id = tableDescriptorMapById_ c !! id)
    /\ logicalToPhysicalTableMapById_ c' = logicalToPhysicalTableMapById_ c
    /\ mapd_logical_to_physical (db (sqliteConnector_ c'))
       = mapd_logical_to_physical (db (sqliteConnector_ c))
    /\ (txn (sqliteConnector_ c) = None -> txn (sqliteConnector_ c') = None).
Proof.
  revert acc c. induction shards as [|i shards IH]; intros acc c R level; simpl in R.
  - inv_all. exists []. rewrite app_nil_r. repeat split; try constructor; try lia; auto.
    intros k i pid L. discriminate L.
  - apply bind_Ok in R as (acc1 & c1 & R1 & R).
    apply create_shard_Ok in R1 as (tdp & R1 & ->).
    apply createTable_effect in R1 as (Etd & Hid & Hl & Hr & _ & Htx & W1 & W2).
    simpl in W1, W2. fold level in W1, W2.
    destruct (IH _ _ R) as (new & -> & Hlen & Wle & Hbound & Hnd & Hlook & Hother & Hl' & Hr' & Htx').
    fold level in Wle, Hbound.
    assert (Hfresh : td_tableId tdp ∉ new).
    { intros Hin. rewrite Forall_forall in Hbound. apply Hbound in Hin. lia. }
    exists (td_tableId tdp :: new). rewrite <- app_assoc. simpl.
    split; [reflexivity|]. split; [congruence|]. split; [lia|]. split; [|split; [|split; [|split]]].
    + constructor; [lia|]. eapply Forall_impl; [exact Hbound|]. simpl. intros; lia.
    + constructor; assumption.
    + intros k j pid Lk Ln. destruct k as [|k]; simpl in Lk, Ln.
      * injection Lk as <-. injection Ln as <-. exists tdp.
        rewrite (Hother _ Hfresh), Hid, lookup_insert_eq.
        split; [reflexivity|]. split; [reflexivity|]. rewrite Etd. split; reflexivity.
      * eapply Hlook; eassumption.
    + intros id Hid'. rewrite not_elem_of_cons in Hid'. destruct Hid' as [Hne Hnew].
      rewrite (Hother _ Hnew), Hid. apply lookup_insert_ne. congruence.
    + repeat split; try congruence. intros _. apply Htx'. exact Htx.
Qed.

Lemma insert_shard_rows logical pids c u c' :
  foldM (fun _ physical => query (insert_logical_to_physical logical physical)) pids tt c
  = Ok u c' ->
  mapd_logical_to_physical (db (sqliteConnector_ c'))
  = mapd_logical_to_physical (db (sqliteConnector_ c)) ++ (pair logical <$> pids).
Proof.
  revert c. induction pids as [|pid pids IH]; intros c R; simpl in R.
  - inv_all. rewrite app_nil_r. reflexivity.
  - apply bind_Ok in R as ([] & c1 & Rq & R).
    apply query_Ok in Rq as (d1 & f1 & [= <-] & ->).
    rewrite (IH _ R). simpl. rewrite <- app_assoc. reflexivity.
Qed.

Lemma updateLogicalToPhysicalTableMap_registry logical :
  keeps (fun c => (tableDescriptorMapById_ c, logicalToPhysicalTableMapById_ c))
        (updateLogicalToPhysicalTableMap logical).
Proof. unfold updateLogicalToPhysicalTableMap. solve_keeps. Qed.

Lemma updateLogicalToPhysicalTableMap_Ok logical pids c u c' :
  updateLogicalToPhysicalTableMap logical c = Ok u c' ->
  logicalToPhysicalTableMapById_ c !! logical = Some pids ->
  mapd_logical_to_physical (db (sqliteConnector_ c'))
  = mapd_logical_to_physical (db (sqliteConnector_ c)) ++ (pair logical <$> pids).
Proof.
  unfold updateLogicalToPhysicalTableMap. intros R L.
  apply bind_Ok in R as (u0 & c0 & Rb & R). apply BEGIN_Ok in Rb as [_ ->].
  apply bind_Ok in R as (u1 & c1 & Rt & Re). apply END_Ok in Re as ->.
  apply try_catch_Ok in Rt as [Rt|(e & s1 & _ & Rt)]; [|inv_all].
  apply bind_Ok in Rt as (o & c2 & Rg & Rt). unfold gets in Rg. injection Rg as <- <-.
  simpl in Rt. rewrite L in Rt.
  apply bind_Ok in Rt as (u2 & c2 & Rc & Rt). apply CHECK_Ok in Rc as [_ ->].
  apply insert_shard_rows in Rt. exact Rt.
Qed.

(** C7: [createShardedTable] with shard count K > 0 creates one logical
    table and K physical tables, K + 1 distinct descriptors, and touches no
    other; the physical table of shard k (k = 1..K) is named
    <logicalName>_shard_#<k> and has shard index k - 1; the K physical
    table ids are recorded, in order, under the id of the logical table,
    in the logical-to-physical map in memory and as rows of
    [mapd_logical_to_physical]. *)
Theorem createShardedTable_creates_shards td cols defs c u c' :
  0 < td_nShards td ->
  createShardedTable td cols defs c = Ok u c' ->
  exists logical physical,
    length physical = Z.to_nat (td_nShards td)
    /\ NoDup (logical :: physical)
    /\ (exists tdl,
          getMetadataForTableById logical c' = Some tdl
          /\ td_tableId tdl = logical
          /\ td_tableName tdl = td_tableName td
          /\ td_shard tdl = td_shard td)
    /\ (forall k pid, physical !! k = Some pid ->
          exists tdp,
            getMetadataForTableById pid c' = Some tdp
            /\ td_tableId tdp = pid
            /\ td_tableName tdp
               = td_tableName td +:+ "_shard_#" +:+ to_string (Z.of_nat k + 1)
            /\ td_shard tdp = Z.of_nat k)
    /\ (forall id, id ∉ logical :: physical ->
          getMetadataForTableById id c' = getMetadataForTableById id c)
    /\ logicalToPhysicalTableMapById_ c !! logical = None
    /\ logicalToPhysicalTableMapById_ c'
       = <[logical := physical]> (logicalToPhysicalTableMapById_ c)
    /\ mapd_logical_to_physical (db (sqliteConnector_ c'))
       = mapd_logical_to_physical (db (sqliteConnector_ c))
         ++ (pair logical <$> physical).
Proof.
  intros HK R. unfold createShardedTable in R.
  destruct (decide _) as [_|_] in R; [inv_all|].
  apply bind_Ok in R as (tdl & c1 & Rl & R).
  apply bind_Ok in R as (physical & c2 & Rs & R).
  apply createTable_effect in Rl as (Etdl & Hid1 & Hl1 & Hr1 & _ & Htx1 & W1 & W1').
  apply create_shards_Ok in Rs
    as (new & Enew & Hlen & Wle & Hbound & Hnd & Hlook & Hother & Hl2 & Hr2 & _).
  simpl in Enew. subst new. rewrite length_seqZ in Hlen.
  destruct (decide (physical = [])) as [->|_] in R.
  { simpl in Hlen. lia. }
  apply bind_Ok in R as (present & c3 & Rp & R). unfold gets in Rp. injection Rp as <- <-.
  apply bind_Ok in R as (u1 & c3 & Rm & R). unfold modify in Rm. injection Rm as _ <-.
  apply bind_Ok in R as (u2 & c4 & Rc & R). apply CHECK_Ok in Rc as [Hfresh ->].
  apply negb_true_iff, bool_decide_eq_false in Hfresh.
  rewrite bool_decide_eq_false_2 in R by exact Hfresh.
  assert (Hnone : logicalToPhysicalTableMapById_ c !! td_tableId tdl = None).
  { rewrite <- Hl1, <- Hl2. apply eq_None_not_Some. exact Hfresh. }
  assert (Hlin : td_tableId tdl ∉ physical).
  { intros Hin. rewrite Forall_forall in Hbound. apply Hbound in Hin. lia. }
  pose proof (keeps_Ok _ _ _ _ _ (updateLogicalToPhysicalTableMap_registry _) R) as Hk.
  simpl in Hk. injection Hk as Hk1 Hk2.
  eapply updateLogicalToPhysicalTableMap_Ok in R; [|simpl; apply lookup_insert_eq].
  simpl in R.
  exists (td_tableId tdl), physical. unfold getMetadataForTableById.
  rewrite Hk1, Hk2, R, Hl2, Hl1, Hr2, Hr1.
  split; [exact Hlen|]. split; [constructor; assumption|].
  split; [|split; [|split; [|split; [|split]]]]; try reflexivity; try assumption.
  - exists tdl. rewrite (Hother _ Hlin), Hid1, lookup_insert_eq.
    split; [reflexivity|]. split; [reflexivity|]. rewrite Etdl. split; reflexivity.
  - intros k pid L. pose proof (lookup_lt_Some _ _ _ L) as Hk.
    destruct (Hlook k (1 + Z.of_nat k) pid) as (tdp & ? & ? & ? & ?);
      [apply lookup_seqZ_lt; lia|exact L|].
    exists tdp. replace (Z.of_nat k + 1) with (1 + Z.of_nat k) by lia.
    repeat split; try assumption. lia.
  - intros id Hid. rewrite not_elem_of_cons in Hid. destruct Hid as [Hne Hnew].
    rewrite (Hother _ Hnew), Hid1. apply lookup_insert_ne. congruence.
Qed.

End Sharding.

(** ** Claims on the reference counts of dictionaries *)

Section Refcounts.
Context `{Headers}.
Import Catalog.

Lemma referencing_delete (d : Z) (key : Z * Z) (cd : ColumnDescriptor)
  (m : gmap (Z * Z) ColumnDescriptor) :
  m !! key = Some cd ->
  if decide (references d cd) then
    referencing_columns d m = S (referencing_columns d (delete key m))
  else referencing_columns d (delete key m) = referencing_columns d m.
Proof.
  intros L. unfold referencing_columns. rewrite map_filter_delete.
  destruct (decide (references d cd)) as [Hr|Hr].
  - rewrite map_size_delete_Some.
    + assert (size (filter (fun kv => references d kv.2) m) <> 0%nat); [|lia].
      apply map_size_ne_0_lookup_2 with key. exists cd.
      apply map_lookup_filter_Some. auto.
    + exists cd. apply map_lookup_filter_Some. auto.
  - rewrite map_size_delete_None; [reflexivity|].
    apply map_lookup_filter_None. right. intros cd' L'. simpl. congruence.
Qed.

Lemma referencing_insert (d : Z) (key : Z * Z) (cd : ColumnDescriptor)
  (m : gmap (Z * Z) ColumnDescriptor) :
  m !! key = None ->
  referencing_columns d (<[key := cd]> m)
  = if decide (references d cd) then S (referencing_columns d m)
    else referencing_columns d m.
Proof.
  intros L. unfold referencing_columns. rewrite map_filter_insert. simpl.
  destruct (decide (references d cd)) as [Hr|Hr].
  - apply map_size_insert_None. apply map_lookup_filter_None. left. exact L.
  - rewrite delete_id by exact L. reflexivity.
Qed.

(** One turn of the loop of [removeTableFromMap]. *)
Lemma remove_column_Ok tid isTemp i c u c' :
  remove_column tid isTemp i c = Ok u c' ->
  exists cd,
    columnDescriptorMapById_ c !! (tid, i) = Some cd
    /\ columnDescriptorMapById_ c' = delete (tid, i) (columnDescriptorMapById_ c)
    /\ currentDB_ c' = currentDB_ c
    /\ let d := ti_comp_param (cd_columnType cd) in
       let ref := (dbId (currentDB_ c), d) in
       if decide (ti_compression (cd_columnType cd) = kENCODING_DICT /\ d <> 0) then
         exists dd,
           dictDescriptorMapByRef_ c !! ref = Some dd
           /\ 1 <= dd_refcount dd
           /\ if decide (dd_refcount dd - 1 = 0) then
                dictDescriptorMapByRef_ c' = delete ref (dictDescriptorMapByRef_ c)
                /\ dict_folders c'
                   = (if isTemp then dict_folders c
                      else dict_folders c ∖ {[dd_dictFolderPath dd]})
              else
                dictDescriptorMapByRef_ c'
                = <[ref := dd_set_refcount (dd_refcount dd - 1) dd]>
                    (dictDescriptorMapByRef_ c)
                /\ dict_folders c' = dict_folders c
       else
         dictDescriptorMapByRef_ c' = dictDescriptorMapByRef_ c
         /\ dict_folders c' = dict_folders c.
Proof.
  unfold remove_column. intros R.
  apply bind_Ok in R as (ocd & c0 & Rg & R). unfold gets in Rg. injection Rg as <- <-.
  apply bind_Ok in R as (cd & c0 & D & R). apply deref_Ok in D as [D ->].
  apply bind_Ok in R as (u0 & c0 & Rm & R). unfold modify in Rm. injection Rm as _ <-.
  exists cd. split; [exact D|]. cbv zeta.
  destruct (decide (ti_compression (cd_columnType cd) = kENCODING_DICT
                    /\ ti_comp_param (cd_columnType cd) <> 0)) as [Hd|Hd].
  - inv_all; simpl in *;
      (split; [reflexivity|]); (split; [reflexivity|]);
      match goal with
      | L : dictDescriptorMapByRef_ c !! _ = Some ?dd, B : bool_decide _ = true |- _ =>
          apply bool_decide_eq_true in B;
          exists dd; split; [exact L|]; split; [exact B|]
      end.
    + rewrite decide_True by assumption. auto.
    + rewrite decide_False by assumption. auto.
  - inv_all. simpl. auto.
Qed.

Lemma dd_set_refcount_id dd : dd_set_refcount (dd_refcount dd) dd = dd.
Proof. destruct dd; reflexivity. Qed.

Lemma released_refl isTemp c : released isTemp c c.
Proof.
  split; [reflexivity|]. split; [reflexivity|]. intros d Hd. cbv zeta.
  split; [lia|]. destruct (dictDescriptorMapByRef_ c !! _) as [dd|] eqn:L; [|reflexivity].
  unfold after_release. rewrite Z.sub_diag, decide_False by lia.
  rewrite Z.sub_0_r, dd_set_refcount_id. split; [reflexivity|discriminate].
Qed.

Lemma after_release_Some k dd dd' :
  after_release k dd = Some dd' ->
  dd' = dd_set_refcount (dd_refcount dd - k) dd
  /\ dd_dictFolderPath dd' = dd_dictFolderPath dd
  /\ dd_refcount dd' = dd_refcount dd - k.
Proof.
  unfold after_release. case_decide; [discriminate|]. intros [= <-]. auto.
Qed.

Lemma released_step isTemp c0 tid i c u c' :
  released isTemp c0 c ->
  remove_column tid isTemp i c = Ok u c' ->
  released isTemp c0 c'.
Proof.
  intros (Hdb & Hfold & Hrel) R.
  apply remove_column_Ok in R as (cd & Lcd & Hcols & Hdb' & Heff). cbv zeta in Heff.
  rewrite Hdb in Heff.
  assert (Hfold' : dict_folders c' ⊆ dict_folders c).
  { destruct (decide _) as [_|_] in Heff.
    - destruct Heff as (dd & _ & _ & Heff). destruct (decide _) as [_|_] in Heff;
        destruct Heff as [_ ->]; [destruct isTemp|]; set_solver.
    - destruct Heff as [_ ->]. reflexivity. }
  split; [congruence|]. split; [set_solver|].
  intros d Hd. cbv zeta. destruct (Hrel d Hd) as [Hle Hdict]. cbv zeta in Hle, Hdict.
  pose proof (referencing_delete d _ _ _ Lcd) as Hcount. rewrite <- Hcols in Hcount.
  destruct (decide (references d cd)) as [Hr|Hr].
  - (* the column removed references [d] *)
    destruct Hr as [Hr1 Hr2].
    rewrite decide_True in Heff by (split; [exact Hr1|congruence]).
    rewrite Hr2 in Heff. destruct Heff as (ddc & Lc & Hge & Heff).
    split; [lia|].
    destruct (dictDescriptorMapByRef_ c0 !! _) as [dd0|] eqn:L0;
      [|congruence].
    destruct Hdict as [Hdict _]. rewrite Lc in Hdict. symmetry in Hdict.
    apply after_release_Some in Hdict as (-> & Hpath & Hrc).
    destruct (decide (dd_refcount _ - 1 = 0)) as [Hz|Hz] in Heff;
      destruct Heff as [-> Hf].
    + rewrite lookup_delete_eq. unfold after_release. rewrite decide_True by (simpl in *; lia).
      split; [reflexivity|]. intros _ ->. rewrite Hf. simpl. set_solver.
    + rewrite lookup_insert_eq. unfold after_release.
      rewrite decide_False by (simpl in *; lia).
      split; [|discriminate]. f_equal. unfold dd_set_refcount. simpl. f_equal. lia.
  - (* the column removed does not reference [d] *)
    split; [lia|].
    assert (Hsame : dictDescriptorMapByRef_ c' !! (dbId (currentDB_ c0), d)
                    = dictDescriptorMapByRef_ c !! (dbId (currentDB_ c0), d)).
    { destruct (decide _) as [[Hd1 Hd2]|_] in Heff.
      - assert (ti_comp_param (cd_columnType cd) <> d)
          by (intros E; apply Hr; split; assumption).
        destruct Heff as (dd & _ & _ & Heff). destruct (decide _) as [_|_] in Heff;
          destruct Heff as [-> _].
        + apply lookup_delete_ne. congruence.
        + apply lookup_insert_ne. congruence.
      - destruct Heff as [-> _]. reflexivity. }
    rewrite Hsame, Hcount.
    destruct (dictDescriptorMapByRef_ c0 !! _) as [dd0|]; [|exact Hdict].
    destruct Hdict as [Hdict Hgone]. split; [exact Hdict|].
    intros Hn Ht. specialize (Hgone Hn Ht). set_solver.
Qed.

Lemma released_loop isTemp c0 tid ids c u c' :
  released isTemp c0 c ->
  foldM (fun _ i => remove_column tid isTemp i) ids tt c = Ok u c' ->
  released isTemp c0 c'
  /\ columnDescriptorMapById_ c'
     = foldl (fun m i => delete (tid, i) m) (columnDescriptorMapById_ c) ids
  /\ Forall (fun i => is_Some (columnDescriptorMapById_ c !! (tid, i))) ids.
Proof.
  revert c. induction ids as [|i ids IH]; intros c Hrel R; simpl in R.
  - inv_all. auto.
  - apply bind_Ok in R as ([] & c1 & R1 & R).
    pose proof (released_step _ _ _ _ _ _ _ Hrel R1) as Hrel1.
    apply remove_column_Ok in R1 as (cd & Lcd & Hcols & _).
    destruct (IH _ Hrel1 R) as (Hrel' & Hcols' & Hall).
    split; [exact Hrel'|]. split; [simpl; rewrite <- Hcols; exact Hcols'|].
    constructor; [eauto|].
    eapply Forall_impl; [exact Hall|]. simpl. intros j [x Hx].
    rewrite Hcols in Hx. apply lookup_delete_Some in Hx as [_ Hx]. eauto.
Qed.

Lemma removeTableFromMap_Ok tableName tableId c u c' :
  removeTableFromMap tableName tableId c = Ok u c' ->
  exists td c1,
    tableDescriptorMapById_ c !! tableId = Some td
    /\ columnDescriptorMapById_ c1 = columnDescriptorMapById_ c
    /\ dictDescriptorMapByRef_ c1 = dictDescriptorMapByRef_ c
    /\ dict_folders c1 = dict_folders c
    /\ currentDB_ c1 = currentDB_ c
    /\ foldM (fun _ i => remove_column tableId
                           (bool_decide (td_persistenceLevel td = CPU_LEVEL)) i)
             (seqZ 1 (td_nColumns td)) tt c1 = Ok u c'.
Proof.
  unfold removeTableFromMap. intros R.
  apply bind_Ok in R as (otd & c0 & Rg & R). unfold gets in Rg. injection Rg as <- <-.
  destruct (tableDescriptorMapById_ c !! tableId) as [td|] eqn:L; [|discriminate].
  exists td.
  inv_all;
    match goal with
    | Hl : foldM _ _ _ ?s = Ok _ _ |- _ =>
        exists s; repeat split; try reflexivity; exact Hl
    end.
Qed.

Lemma lookup_foldl_delete (tid : Z) (ids : list Z)
  (m : gmap (Z * Z) ColumnDescriptor) (key : Z * Z) :
  foldl (fun m i => delete (tid, i) m) m ids !! key
  = if decide (key.1 = tid /\ key.2 ∈ ids) then None else m !! key.
Proof.
  revert m. induction ids as [|i ids IH]; intros m; simpl.
  - rewrite decide_False; [reflexivity|]. intros [_ Hin]. inversion Hin.
  - rewrite IH. destruct key as [t j]. simpl.
    destruct (decide (t = tid /\ j ∈ ids)) as [[-> Hin]|Hn].
    + rewrite decide_True; [reflexivity|]. split; [reflexivity|]. right. exact Hin.
    + destruct (decide ((t, j) = (tid, i))) as [[= -> ->]|Hne].
      * rewrite lookup_delete_eq, decide_True; [reflexivity|]. split; [reflexivity|left].
      * rewrite lookup_delete_ne by congruence.
        rewrite decide_False; [reflexivity|]. intros [-> Hin].
        apply elem_of_cons in Hin as [->|Hin]; [congruence|]. apply Hn. auto.
Qed.

(** X27: when [addReferenceToForeignDict] returns, the dictionary that
    gains a reference is the one of the column that the shared-dictionary
    definition names: the table and the column of the definition are
    registered, the referencing column takes the type of that column, the
    dictionary of that type is registered with a refcount of at least 1,
    and its refcount is one more than before, in memory and in
    [mapd_dictionaries]; no other dictionary, no registry and no other row
    changes.  It does return when the table, the column and the dictionary
    are there, the refcount is at least 1 and the storage does not fail. *)
Theorem addReferenceToForeignDict_increments cd def c :
  (forall cd' c1,
     addReferenceToForeignDict cd def c = Ok cd' c1 ->
     exists td fcd dd,
       getMetadataForTable (get_foreign_table def) c = Some td
       /\ getMetadataForColumn (td_tableId td) (get_foreign_column def) c = Some fcd
       /\ cd' = cd_set_columnType (cd_columnType fcd) cd
       /\ let d := ti_comp_param (cd_columnType fcd) in
          getMetadataForDict d c = Some dd
          /\ 1 <= dd_refcount dd
          /\ dictDescriptorMapByRef_ c1
             = <[(dbId (currentDB_ c), d) := dd_set_refcount (dd_refcount dd + 1) dd]>
                 (dictDescriptorMapByRef_ c)
          /\ mapd_dictionaries (db (sqliteConnector_ c1))
             = bumped d (mapd_dictionaries (db (sqliteConnector_ c)))
          /\ mapd_columns (db (sqliteConnector_ c1))
             = mapd_columns (db (sqliteConnector_ c))
          /\ table_rows (db (sqliteConnector_ c1)) = table_rows (db (sqliteConnector_ c))
          /\ table_registry c1 = table_registry c
          /\ currentDB_ c1 = currentDB_ c)
  /\ (forall td fcd dd,
        getMetadataForTable (get_foreign_table def) c = Some td ->
        getMetadataForColumn (td_tableId td) (get_foreign_column def) c = Some fcd ->
        getMetadataForDict (ti_comp_param (cd_columnType fcd)) c = Some dd ->
        1 <= dd_refcount dd ->
        fuse (sqliteConnector_ c) <> Some 0%nat ->
        exists c1,
          addReferenceToForeignDict cd def c
          = Ok (cd_set_columnType (cd_columnType fcd) cd) c1).
Proof.
  split.
  - intros cd' c1 R. unfold addReferenceToForeignDict, get_foreign_col in R. inv_all.
    match goal with Hq : query _ _ = Ok _ _ |- _ =>
      apply query_Ok in Hq as (d1 & f1 & [= <-] & ->) end.
    match goal with
    | L : dictDescriptorMapByRef_ _ !! _ = Some ?dd, B : bool_decide _ = true |- _ =>
        apply bool_decide_eq_true in B
    end.
    eexists _, _, _. split; [eassumption|]. split; [eassumption|].
    split; [reflexivity|]. cbv zeta. unfold getMetadataForDict. simpl.
    split; [eassumption|]. split; [assumption|]. auto 10.
  - intros td fcd dd Lt Lc Ld Hge Hf.
    unfold getMetadataForDict in Ld.
    unfold addReferenceToForeignDict, get_foreign_col, bind, gets, deref, CHECK, modify, ret.
    rewrite Lt, Lc. simpl. rewrite Ld. rewrite bool_decide_eq_true_2 by exact Hge.
    unfold query, on_conn, conn_exec. simpl.
    destruct (fuse (sqliteConnector_ c)) as [[|n]|]; [congruence| |]; simpl; eauto.
Qed.

(** X28: where the refcount of every dictionary is the number of registered
    columns that reference it, a returning [removeTableFromMap] unregisters
    the columns 1..nColumns of the table and leaves the refcounts exact:
    each dictionary loses as many references as it loses referencing
    columns, one per dictionary-encoded column of the table; when that
    takes the last reference the entry is erased from the in-memory map and
    the dictionary folder removed, unless the table is temporary. *)
Theorem removeTableFromMap_releases c tableName tableId u c1 :
  refcounts_exact c ->
  removeTableFromMap tableName tableId c = Ok u c1 ->
  exists td,
    getMetadataForTableById tableId c = Some td
    /\ (forall i, 1 <= i <= td_nColumns td ->
          is_Some (getMetadataForColumnById tableId i c)
          /\ getMetadataForColumnById tableId i c1 = None)
    /\ (forall t i, ~ (t = tableId /\ 1 <= i <= td_nColumns td) ->
          getMetadataForColumnById t i c1 = getMetadataForColumnById t i c)
    /\ refcounts_exact c1
    /\ (forall d dd,
          d <> 0 -> getMetadataForDict d c = Some dd ->
          let k := Z.of_nat (referencing_columns d (columnDescriptorMapById_ c))
                   - Z.of_nat (referencing_columns d (columnDescriptorMapById_ c1)) in
          0 <= k
          /\ getMetadataForDict d c1 = after_release k dd
          /\ (getMetadataForDict d c1 = None ->
              td_persistenceLevel td <> CPU_LEVEL ->
              dd_dictFolderPath dd ∉ dict_folders c1)).
Proof.
  intros Hexact R.
  apply removeTableFromMap_Ok in R as (td & c0 & Ltd & Ec & Ed & Ef & Edb & R).
  exists td. split; [exact Ltd|].
  assert (Hrel0 : released (bool_decide (td_persistenceLevel td = CPU_LEVEL)) c0 c0)
    by apply released_refl.
  destruct (released_loop _ _ _ _ _ _ _ Hrel0 R) as ((Hdb & Hfold & Hrel) & Hcols & Hall).
  rewrite Ec in Hcols, Hall. rewrite Edb in Hdb.
  unfold getMetadataForColumnById, getMetadataForDict.
  split; [|split; [|split]].
  + intros i Hi. rewrite Forall_forall in Hall. split.
    * apply Hall. apply elem_of_seqZ. lia.
    * rewrite Hcols, lookup_foldl_delete. simpl. apply decide_True.
      split; [reflexivity|]. apply elem_of_seqZ. lia.
  + intros t i Hn. rewrite Hcols, lookup_foldl_delete. simpl. apply decide_False.
    intros [-> Hin]. apply elem_of_seqZ in Hin. apply Hn. split; [reflexivity|lia].
  + intros [db' d] dd1 L1 E1 Enz. simpl in E1, Enz. subst db'. rewrite Hdb in L1.
    destruct (Hrel d Enz) as [Hle Hdict]. cbv zeta in Hle, Hdict.
    rewrite Edb, Ed, Ec in Hdict. rewrite Ec in Hle.
    destruct (dictDescriptorMapByRef_ c !! (dbId (currentDB_ c), d)) as [dd0|] eqn:L0;
      [|rewrite L1 in Hdict; discriminate Hdict].
    destruct Hdict as [Hdict _]. rewrite L1 in Hdict. symmetry in Hdict.
    apply after_release_Some in Hdict as (_ & _ & Hrc).
    specialize (Hexact _ _ L0 eq_refl Enz). simpl in Hexact. simpl. lia.
  + intros d dd Hnz L. cbv zeta. destruct (Hrel d Hnz) as [Hle Hdict].
    cbv zeta in Hle, Hdict. rewrite Edb, Ed, Ec in Hdict. rewrite Ec in Hle.
    rewrite L in Hdict. destruct Hdict as [Hdict Hgone]. rewrite Hdb.
    split; [lia|]. split; [exact Hdict|].
    intros Hn Hlevel. apply Hgone; [exact Hn|].
    apply bool_decide_eq_false. exact Hlevel.
Qed.

End Refcounts.

(** ** The system catalog: transactions and frames *)

Section SysFrames.
Context `{Headers} `{ObjectHeaders}.
Import SysCatalog.

Lemma sys_keeps_on_conn {B} (part : t -> B) f :
  (forall x s, part (set_conn x s) = part s) -> keeps part (on_conn f).
Proof.
  intros E s. unfold on_conn. destruct (f (sqliteConnector_ s)); [apply E|reflexivity].
Qed.

Lemma sys_keeps_query_txn stmt : keeps (fun s => txn (sqliteConnector_ s)) (query stmt).
Proof.
  intros s. unfold query, on_conn, conn_exec.
  destruct (sqliteConnector_ s) as [d tx fu] eqn:Es; simpl.
  destruct fu as [[|n]|]; simpl; rewrite ?Es; try reflexivity;
    destruct (stmt d) eqn:E; simpl; rewrite ?Es; reflexivity.
Qed.

Lemma sys_keeps_query_rows {B} (g : Store -> B) stmt :
  (forall d d', stmt d = Some d' -> g d' = g d) ->
  keeps (fun s => g (db (sqliteConnector_ s))) (query stmt).
Proof.
  intros E s. unfold query, on_conn, conn_exec.
  destruct (sqliteConnector_ s) as [d tx fu] eqn:Es; simpl.
  destruct fu as [[|n]|]; simpl; rewrite ?Es; try reflexivity;
    destruct (stmt d) eqn:Ed; simpl; rewrite ?Es; simpl; try reflexivity; eauto.
Qed.

Lemma sys_query_Ok stmt s u s' :
  query stmt s = Ok u s' ->
  exists d' f', stmt (db (sqliteConnector_ s)) = Some d'
                /\ s' = set_conn (mkConn d' (txn (sqliteConnector_ s)) f') s.
Proof.
  unfold query, on_conn, conn_exec. intros R.
  destruct (fuse (sqliteConnector_ s)) as [[|n]|]; try discriminate;
    destruct (stmt (db (sqliteConnector_ s))) as [d'|]; try discriminate;
    injection R as _ <-; eauto.
Qed.

Lemma sys_BEGIN s :
  BEGIN_TRANSACTION s
  = match txn (sqliteConnector_ s) with
    | None => Ok tt (set_conn (mkConn (db (sqliteConnector_ s))
                                      (Some (db (sqliteConnector_ s)))
                                      (fuse (sqliteConnector_ s))) s)
    | Some _ => Throw sqlite_error s
    end.
Proof.
  unfold BEGIN_TRANSACTION, on_conn, conn_begin.
  destruct (txn (sqliteConnector_ s)); reflexivity.
Qed.

Lemma sys_ROLLBACK s :
  ROLLBACK_TRANSACTION s
  = match txn (sqliteConnector_ s) with
    | Some d => Ok tt (set_conn (mkConn d None (fuse (sqliteConnector_ s))) s)
    | None => Throw sqlite_error s
    end.
Proof.
  unfold ROLLBACK_TRANSACTION, on_conn, conn_rollback.
  destruct (txn (sqliteConnector_ s)); reflexivity.
Qed.

Lemma sys_END s :
  END_TRANSACTION s
  = match txn (sqliteConnector_ s) with
    | Some _ => Ok tt (set_conn (mkConn (db (sqliteConnector_ s)) None
                                        (fuse (sqliteConnector_ s))) s)
    | None => Throw sqlite_error s
    end.
Proof.
  unfold END_TRANSACTION, on_conn, conn_end.
  destruct (txn (sqliteConnector_ s)); reflexivity.
Qed.

(** A throw inside a transaction that was opened on an idle connection
    and keeps the transaction open leaves, after the rollback of
    [execInTransaction], the rows and the connection as they were. *)
Lemma execInTransaction_Throw (m : Sys unit) s e s' :
  keeps (fun s => txn (sqliteConnector_ s)) m ->
  execInTransaction m s = Throw e s' ->
  db (sqliteConnector_ s') = db (sqliteConnector_ s)
  /\ txn (sqliteConnector_ s') = txn (sqliteConnector_ s).
Proof.
  intros K R. unfold execInTransaction in R.
  apply bind_Throw in R as [R|(u & s1 & Rb & R)].
  - rewrite sys_BEGIN in R. destruct (txn (sqliteConnector_ s)) eqn:Et; [|discriminate].
    injection R as _ <-. auto.
  - rewrite sys_BEGIN in Rb. destruct (txn (sqliteConnector_ s)) eqn:Et; [discriminate|].
    injection Rb as _ <-.
    apply bind_Throw in R as [R|(u1 & s2 & Rt & R)].
    + apply try_catch_Throw in R as (e1 & s2 & Rm & Rh).
      pose proof (keeps_Throw _ _ _ _ _ K Rm) as Htx. simpl in Htx.
      apply bind_Throw in Rh as [Rh|(u2 & s3 & Rr & Rh)];
        rewrite sys_ROLLBACK, Htx in *; [discriminate|].
      injection Rr as _ <-. unfold throw in Rh. injection Rh as _ <-. simpl. auto.
    + apply try_catch_Ok in Rt as [Rt|(e1 & s3 & _ & Rh)].
      * pose proof (keeps_Ok _ _ _ _ _ K Rt) as Htx. simpl in Htx.
        rewrite sys_END, Htx in R. discriminate.
      * apply bind_Ok in Rh as (? & ? & _ & Rh). discriminate.
Qed.

End SysFrames.

#[export] Hint Resolve sys_keeps_query_txn : keeps.
#[export] Hint Extern 2 (keeps _ (SysCatalog.on_conn _)) =>
  apply sys_keeps_on_conn; intros; reflexivity : keeps.
#[export] Hint Extern 2 (keeps _ (SysCatalog.query _)) =>
  apply sys_keeps_on_conn; intros; reflexivity : keeps.
#[export] Hint Extern 2 (keeps _ SysCatalog.BEGIN_TRANSACTION) =>
  apply sys_keeps_on_conn; intros; reflexivity : keeps.
#[export] Hint Extern 2 (keeps _ SysCatalog.ROLLBACK_TRANSACTION) =>
  apply sys_keeps_on_conn; intros; reflexivity : keeps.
#[export] Hint Extern 2 (keeps _ SysCatalog.END_TRANSACTION) =>
  apply sys_keeps_on_conn; intros; reflexivity : keeps.
#[export] Hint Extern 3 (keeps (fun s => _ (db (SysCatalog.sqliteConnector_ s))) (SysCatalog.query _)) =>
  apply sys_keeps_query_rows;
  let d := fresh "d" in let d' := fresh "d" in let E := fresh "E" in
  intros d d' E;
  unfold SysCatalog.insert_role, SysCatalog.delete_role, SysCatalog.upsert_permission,
         SysCatalog.delete_permission in E;
  repeat case_decide; simplify_eq; reflexivity : keeps.

Section SysHelpers.
Context `{Headers} `{ObjectHeaders}.
Import SysCatalog.

Lemma loadKey_keeps {B} (part : t -> B) catalog object : keeps part (loadKey catalog object).
Proof. unfold loadKey. solve_keeps. Qed.
#[local] Hint Resolve loadKey_keeps : keeps.

Lemma grantDBObjectPrivileges_unsafe_txn roleName object catalog :
  keeps (fun s => txn (sqliteConnector_ s))
        (grantDBObjectPrivileges_unsafe roleName object catalog).
Proof.
  unfold grantDBObjectPrivileges_unsafe, insertOrUpdateObjectPrivileges, set_role.
  solve_keeps.
Qed.

Lemma grantDBObjectPrivileges_unsafe_users roleName object catalog :
  keeps (fun s => mapd_users (db (sqliteConnector_ s)))
        (grantDBObjectPrivileges_unsafe roleName object catalog).
Proof.
  unfold grantDBObjectPrivileges_unsafe, insertOrUpdateObjectPrivileges, set_role.
  solve_keeps.
Qed.
#[local] Hint Resolve grantDBObjectPrivileges_unsafe_txn
  grantDBObjectPrivileges_unsafe_users : keeps.

Lemma createRole_unsafe_txn roleName userPrivateRole :
  keeps (fun s => txn (sqliteConnector_ s)) (createRole_unsafe roleName userPrivateRole).
Proof.
  unfold createRole_unsafe, insertOrUpdateObjectPrivileges, set_role. solve_keeps.
Qed.

Lemma createRole_unsafe_users roleName userPrivateRole :
  keeps (fun s => mapd_users (db (sqliteConnector_ s)))
        (createRole_unsafe roleName userPrivateRole).
Proof.
  unfold createRole_unsafe, insertOrUpdateObjectPrivileges, set_role. solve_keeps.
Qed.

Lemma grantDefaultPrivilegesToRole_unsafe_txn name issuper :
  keeps (fun s => txn (sqliteConnector_ s)) (grantDefaultPrivilegesToRole_unsafe name issuper).
Proof. unfold grantDefaultPrivilegesToRole_unsafe. solve_keeps. Qed.

Lemma grantDefaultPrivilegesToRole_unsafe_users name issuper :
  keeps (fun s => mapd_users (db (sqliteConnector_ s)))
        (grantDefaultPrivilegesToRole_unsafe name issuper).
Proof. unfold grantDefaultPrivilegesToRole_unsafe. solve_keeps. Qed.

Lemma grantRole_unsafe_txn roleName userName :
  keeps (fun s => txn (sqliteConnector_ s)) (grantRole_unsafe roleName userName).
Proof. unfold grantRole_unsafe, set_userRole. solve_keeps. Qed.

Lemma grantRole_unsafe_users roleName userName :
  keeps (fun s => mapd_users (db (sqliteConnector_ s))) (grantRole_unsafe roleName userName).
Proof. unfold grantRole_unsafe, set_userRole. solve_keeps. Qed.

Lemma revokeRole_unsafe_txn roleName userName :
  keeps (fun s => txn (sqliteConnector_ s)) (revokeRole_unsafe roleName userName).
Proof. unfold revokeRole_unsafe, set_userRole. solve_keeps. Qed.

End SysHelpers.

Section SysTransactions.
Context `{Headers} `{ObjectHeaders}.
Import SysCatalog.

Lemma begun_closed s :
  set_conn (mkConn (db (sqliteConnector_ (begun s))) None (fuse (sqliteConnector_ (begun s))))
           (begun s)
  = set_conn (mkConn (db (sqliteConnector_ s)) None (fuse (sqliteConnector_ s))) s.
Proof. reflexivity. Qed.

Lemma closed_id s :
  txn (sqliteConnector_ s) = None ->
  set_conn (mkConn (db (sqliteConnector_ s)) None (fuse (sqliteConnector_ s))) s = s.
Proof. destruct s as [[d tx f] rm um cp cdb cm]. simpl. intros ->. reflexivity. Qed.

Lemma BEGIN_begun s :
  txn (sqliteConnector_ s) = None -> BEGIN_TRANSACTION s = Ok tt (begun s).
Proof.
  intros E. unfold BEGIN_TRANSACTION, on_conn, conn_begin. rewrite E. reflexivity.
Qed.

Lemma BEGIN_nested s :
  txn (sqliteConnector_ s) <> None -> BEGIN_TRANSACTION s = Throw sqlite_error s.
Proof.
  intros E. unfold BEGIN_TRANSACTION, on_conn, conn_begin.
  destruct (txn (sqliteConnector_ s)); [reflexivity | congruence].
Qed.

(** A body that throws without a change of state leaves no trace of the
    transaction around it. *)
Lemma execInTransaction_rejects (m : Sys unit) s :
  (txn (sqliteConnector_ s) = None -> exists msg, m (begun s) = Throw msg (begun s)) ->
  exists msg, execInTransaction m s = Throw msg s.
Proof.
  intros Hm. destruct (txn (sqliteConnector_ s)) eqn:Et.
  - exists sqlite_error. unfold execInTransaction, bind.
    rewrite BEGIN_nested by congruence. reflexivity.
  - destruct (Hm eq_refl) as [msg Hb]. exists msg.
    unfold execInTransaction, bind, try_catch. rewrite (BEGIN_begun _ Et), Hb.
    unfold ROLLBACK_TRANSACTION, on_conn, conn_rollback, throw. simpl.
    f_equal. apply (closed_id s Et).
Qed.

(** A body that returns without a change of state leaves no trace of the
    transaction around it either. *)
Lemma execInTransaction_noop (m : Sys unit) s :
  txn (sqliteConnector_ s) = None ->
  m (begun s) = Ok tt (begun s) ->
  execInTransaction m s = Ok tt s.
Proof.
  intros Et Hb. unfold execInTransaction, bind, try_catch.
  rewrite (BEGIN_begun _ Et), Hb.
  unfold END_TRANSACTION, on_conn, conn_end. simpl.
  f_equal. apply (closed_id s Et).
Qed.

End SysTransactions.

Section Roles.
Context `{Headers} `{ObjectHeaders}.
Import SysCatalog.

Lemma createRole_unsafe_rejects roleName userPrivateRole s :
  is_Some (getMetadataForRole roleName s)
  \/ (userPrivateRole = false /\ is_Some (getMetadataForUser roleName s)) ->
  exists msg, createRole_unsafe roleName userPrivateRole s = Throw msg s.
Proof.
  intros Hc. unfold createRole_unsafe, bind, gets.
  destruct (negb userPrivateRole
            && bool_decide (is_Some (getMetadataForUser roleName s))) eqn:E.
  - eexists; reflexivity.
  - destruct (bool_decide (is_Some (getMetadataForRole roleName s))) eqn:E2.
    + eexists; reflexivity.
    + exfalso. apply bool_decide_eq_false in E2.
      destruct Hc as [Hr | [-> Hu]]; [tauto|].
      simpl in E. apply bool_decide_eq_false in E. tauto.
Qed.

(** C8, as the code has it: creating a role fails when a role of that
    name exists, and creating a role that is not the private role of a
    user fails as well when a user of that name exists; in both cases an
    exception is thrown and nothing is changed, by [createRole_unsafe] and
    by [createRole], which runs it in a transaction. *)
Theorem createRole_name_taken roleName userPrivateRole s :
  is_Some (getMetadataForRole roleName s)
  \/ (userPrivateRole = false /\ is_Some (getMetadataForUser roleName s)) ->
  (exists msg, createRole_unsafe roleName userPrivateRole s = Throw msg s)
  /\ (exists msg, createRole roleName userPrivateRole s = Throw msg s).
Proof.
  intros Hc. split; [apply createRole_unsafe_rejects, Hc|].
  apply execInTransaction_rejects. intros _.
  apply createRole_unsafe_rejects. exact Hc.
Qed.

(** C9, as the code has it: the check returns a boolean, and changes
    nothing, for a superuser and for a user who has a [UserRole]. *)
Theorem checkPrivileges_returns user privObjects s :
  isSuper user = true \/ is_Some (getMetadataForUserRole (userId user) s) ->
  exists b, checkPrivileges user privObjects s = Ok b s.
Proof.
  intros Hc. unfold checkPrivileges.
  destruct (isSuper user) eqn:Es; [eexists; reflexivity|].
  destruct Hc as [? | [user_rl Hrl]]; [discriminate|].
  unfold bind, gets. rewrite Hrl. eexists; reflexivity.
Qed.

End Roles.

Section Membership.
Context `{Headers} `{ObjectHeaders}.
Import SysCatalog.

Lemma grantRole_unsafe_held roleName userName s user user_rl :
  is_Some (getMetadataForRole roleName s) ->
  getMetadataForUser userName s = Some user ->
  getMetadataForUserRole (userId user) s = Some user_rl ->
  to_upper roleName ∈ groupRole_ user_rl ->
  grantRole_unsafe roleName userName s = Ok tt s.
Proof.
  intros Hr Hu Hrl Hin. unfold grantRole_unsafe, bind, gets.
  rewrite (bool_decide_eq_true_2 _ Hr). simpl. rewrite Hu. simpl. rewrite Hrl.
  unfold ret, UserRole_hasRole. rewrite (bool_decide_eq_true_2 _ Hin). reflexivity.
Qed.

Lemma revokeRole_unsafe_not_held roleName userName s :
  (forall user user_rl,
     getMetadataForUser userName s = Some user ->
     getMetadataForUserRole (userId user) s = Some user_rl ->
     to_upper roleName ∉ groupRole_ user_rl) ->
  exists msg, revokeRole_unsafe roleName userName s = Throw msg s.
Proof.
  intros Hn. unfold revokeRole_unsafe, bind, gets.
  destruct (negb (bool_decide (is_Some (getMetadataForRole roleName s))));
    [eexists; reflexivity|].
  destruct (getMetadataForUser userName s) as [user|] eqn:Hu; [|eexists; reflexivity].
  destruct (getMetadataForUserRole (userId user) s) as [user_rl|] eqn:Hrl;
    [|eexists; reflexivity].
  unfold UserRole_hasRole.
  rewrite (bool_decide_eq_false_2 _ (Hn _ _ eq_refl Hrl)). eexists; reflexivity.
Qed.

(** C5: the roles granted to a user form a set.  Granting a role the user
    holds returns with the state, in memory and in [mapd_roles], as it was;
    revoking a role the user does not hold throws and changes nothing;
    revoking the only role a user holds erases the [UserRole] of the user
    and deletes the row of the membership. *)
Theorem role_membership_set roleName userName s :
  (forall user user_rl,
     is_Some (getMetadataForRole roleName s) ->
     getMetadataForUser userName s = Some user ->
     getMetadataForUserRole (userId user) s = Some user_rl ->
     to_upper roleName ∈ groupRole_ user_rl ->
     grantRole_unsafe roleName userName s = Ok tt s
     /\ (txn (sqliteConnector_ s) = None -> grantRole roleName userName s = Ok tt s))
  /\ ((forall user user_rl,
         getMetadataForUser userName s = Some user ->
         getMetadataForUserRole (userId user) s = Some user_rl ->
         to_upper roleName ∉ groupRole_ user_rl) ->
      (exists msg, revokeRole_unsafe roleName userName s = Throw msg s)
      /\ (exists msg, revokeRole roleName userName s = Throw msg s))
  /\ (forall user user_rl,
        is_Some (getMetadataForRole roleName s) ->
        getMetadataForUser userName s = Some user ->
        getMetadataForUserRole (userId user) s = Some user_rl ->
        groupRole_ user_rl = {[to_upper roleName]} ->
        fuse (sqliteConnector_ s) <> Some 0%nat ->
        exists s',
          revokeRole_unsafe roleName userName s = Ok tt s'
          /\ getMetadataForUserRole (userId user) s' = None
          /\ userRoleMap_ s' = delete (userId user) (userRoleMap_ s)
          /\ roleMap_ s' = roleMap_ s
          /\ mapd_roles (db (sqliteConnector_ s'))
             = filter (fun r => r <> (roleName, userName))
                      (mapd_roles (db (sqliteConnector_ s)))).
Proof.
  split; [|split].
  - intros user user_rl Hr Hu Hrl Hin. split.
    + eapply grantRole_unsafe_held; eassumption.
    + intros Et. apply execInTransaction_noop; [exact Et|].
      eapply grantRole_unsafe_held; eassumption.
  - intros Hn. split; [apply revokeRole_unsafe_not_held, Hn|].
    apply execInTransaction_rejects. intros _.
    apply revokeRole_unsafe_not_held. exact Hn.
  - intros user user_rl Hr Hu Hrl Hg Hf.
    unfold revokeRole_unsafe, bind, gets.
    rewrite (bool_decide_eq_true_2 _ Hr). simpl. rewrite Hu. simpl. rewrite Hrl.
    unfold UserRole_hasRole, UserRole_getMembershipSize, UserRole_revokeRole. simpl.
    rewrite Hg. rewrite bool_decide_eq_true_2 by set_solver.
    rewrite decide_True by (rewrite difference_diag_L; apply size_empty).
    unfold modify, query, on_conn, conn_exec, delete_role. simpl.
    destruct (fuse (sqliteConnector_ s)) as [[|n]|] eqn:Ef; [congruence| |];
      (eexists; split; [reflexivity|]; simpl;
       unfold getMetadataForUserRole; simpl; rewrite lookup_delete_eq; auto).
Qed.

End Membership.

Section PrivilegeChecks.
Context `{Headers} `{ObjectHeaders}.
Import SysCatalog.

Lemma elem_of_granted_roles s user_rl rl :
  rl ∈ granted_roles s user_rl
  <-> exists k, k ∈ groupRole_ user_rl /\ roleMap_ s !! k = Some rl.
Proof.
  unfold granted_roles. rewrite list_elem_of_omap.
  setoid_rewrite elem_of_elements. reflexivity.
Qed.

(** The closure is the union of the entries under the key, and has no
    entry exactly when none of the roles has one. *)
Lemma closure_spec key (roles : list GroupRole) :
  match closure key roles with
  | Some have =>
      (exists rl, rl ∈ roles /\ is_Some (findDbObject key rl))
      /\ forall i, Z.testbit have i = true
           <-> exists rl o, rl ∈ roles /\ findDbObject key rl = Some o
                            /\ Z.testbit (objectPrivs_ o) i = true
  | None => forall rl, rl ∈ roles -> findDbObject key rl = None
  end.
Proof.
  induction roles as [|rl roles IH]; simpl.
  - intros rl Hin. inversion Hin.
  - destruct (findDbObject key rl) as [o|] eqn:Hf.
    + split; [exists rl; split; [left | eauto]|].
      intros i. rewrite Z.lor_spec, orb_true_iff. split.
      * intros [Hi | Hi]; [exists rl, o; split; [left | auto]|].
        destruct (closure key roles) as [have|]; simpl in Hi.
        -- destruct IH as [_ IH]. apply IH in Hi as (rl' & o' & Hin & Hf' & Hb).
           exists rl', o'. split; [right; exact Hin | auto].
        -- rewrite Z.bits_0 in Hi. discriminate.
      * intros (rl' & o' & Hin & Hf' & Hb).
        apply elem_of_cons in Hin as [-> | Hin].
        -- left. congruence.
        -- right. destruct (closure key roles) as [have|]; simpl.
           ++ apply IH. eauto.
           ++ rewrite (IH _ Hin) in Hf'. discriminate.
    + destruct (closure key roles) as [have|].
      * destruct IH as [(rl' & Hin & Hs) IH]. split.
        -- exists rl'. split; [right; exact Hin | exact Hs].
        -- intros i. rewrite IH. split.
           ++ intros (rl'' & o & Hin' & Hf' & Hb). exists rl'', o.
              split; [right; exact Hin' | auto].
           ++ intros (rl'' & o & Hin' & Hf' & Hb).
              apply elem_of_cons in Hin' as [-> | Hin']; [congruence|].
              exists rl'', o. auto.
      * intros rl' Hin. apply elem_of_cons in Hin as [-> | Hin]; auto.
Qed.

Lemma land_all_bits (req have : Z) :
  Z.land req have = req
  <-> forall i, Z.testbit req i = true -> Z.testbit have i = true.
Proof.
  split.
  - intros E i Hi. rewrite <- E, Z.land_spec in Hi.
    apply andb_true_iff in Hi. tauto.
  - intros Hall. apply Z.bits_inj'. intros n _. rewrite Z.land_spec.
    destruct (Z.testbit req n) eqn:Hn; [|reflexivity].
    rewrite (Hall n Hn). reflexivity.
Qed.

Lemma UserRole_checkPrivileges_granted s user_rl object :
  UserRole_checkPrivileges s user_rl object = true <-> granted s user_rl object.
Proof.
  unfold UserRole_checkPrivileges, granted.
  pose proof (closure_spec (objectKey_ object) (granted_roles s user_rl)) as Hc.
  destruct (closure (objectKey_ object) (granted_roles s user_rl)) as [have|].
  - destruct Hc as [(rl & Hin & Hs) Hbits].
    rewrite Z.eqb_eq, land_all_bits. split.
    + intros Hall. split.
      * apply elem_of_granted_roles in Hin as (k & Hk & Hrl). eauto.
      * intros i Hi. apply Hall, Hbits in Hi as (rl' & o & Hin' & Hf & Hb).
        apply elem_of_granted_roles in Hin' as (k & Hk & Hrl). eauto 10.
    + intros [_ Hall] i Hi. apply Hbits.
      destruct (Hall i Hi) as (k & rl' & o & Hk & Hrl & Hf & Hb).
      exists rl', o. split; [apply elem_of_granted_roles; eauto | auto].
  - split; [discriminate|].
    intros [(k & rl & Hk & Hrl & [o Hs]) _].
    rewrite (Hc rl) in Hs; [discriminate|].
    apply elem_of_granted_roles. eauto.
Qed.

Lemma check_each_Forall (check : DBObject -> bool) privObjects :
  check_each check privObjects = true
  <-> Forall (fun object => check object = true) privObjects.
Proof.
  induction privObjects as [|object rest IH]; simpl.
  - split; auto.
  - rewrite Forall_cons. destruct (check object); simpl; [tauto|].
    split; [discriminate | intros [? _]; discriminate].
Qed.

(** C1, as the code has it: a superuser passes every check.  For any other
    user for whom a [UserRole] exists, the check returns without a change
    of state, and it returns true exactly when every object of the list is
    granted: the roles granted to the user have an entry under the key of
    the object, and the union of these entries has every bit the object
    asks for.  The result is false as soon as one object fails, whatever
    follows it in the list.  For a user who is not a superuser and for
    whom no [UserRole] exists, the check returns nothing, whatever the
    list: it stops at [CHECK(user_rl)]. *)
Theorem checkPrivileges_closure user privObjects s :
  (isSuper user = true -> checkPrivileges user privObjects s = Ok true s)
  /\ (forall user_rl,
        isSuper user = false ->
        getMetadataForUserRole (userId user) s = Some user_rl ->
        exists b,
          checkPrivileges user privObjects s = Ok b s
          /\ (b = true <-> Forall (granted s user_rl) privObjects)
          /\ (forall passed object rest,
                privObjects = passed ++ object :: rest ->
                ~ granted s user_rl object ->
                b = false
                /\ checkPrivileges user (passed ++ [object]) s = Ok false s))
  /\ (isSuper user = false ->
      getMetadataForUserRole (userId user) s = None ->
      checkPrivileges user privObjects s = Fatal).
Proof.
  split; [|split].
  - intros Es. unfold checkPrivileges. rewrite Es. reflexivity.
  - intros user_rl Es Hrl.
    assert (Hspec : forall l,
               checkPrivileges user l s
               = Ok (check_each (UserRole_checkPrivileges s user_rl) l) s).
    { intros l. unfold checkPrivileges, bind, gets. rewrite Es, Hrl. reflexivity. }
    assert (Hiff : forall l,
               check_each (UserRole_checkPrivileges s user_rl) l = true
               <-> Forall (granted s user_rl) l).
    { intros l. rewrite check_each_Forall. apply Forall_proper; [|reflexivity].
      intros object. apply UserRole_checkPrivileges_granted. }
    assert (Hfail : forall passed object rest,
               ~ granted s user_rl object ->
               check_each (UserRole_checkPrivileges s user_rl) (passed ++ object :: rest)
               = false).
    { intros passed object rest Hn. apply not_true_is_false. rewrite Hiff.
      rewrite Forall_app, Forall_cons. tauto. }
    eexists. split; [apply Hspec|]. split; [apply Hiff|].
    intros passed object rest -> Hn. split; [apply Hfail, Hn|].
    rewrite Hspec. f_equal. apply Hfail, Hn.
  - intros Es Hrl. unfold checkPrivileges, bind, gets. rewrite Es, Hrl. reflexivity.
Qed.

End PrivilegeChecks.

Section ObjectPrivileges.
Context `{Headers} `{ObjectHeaders}.
Import SysCatalog.

Lemma filter_none {A} (P : A -> Prop) `{!forall x, Decision (P x)} (l : list A) :
  (forall x, x ∈ l -> ~ P x) -> filter P l = [].
Proof.
  induction l as [|a l IH]; intros Hn; [reflexivity|].
  rewrite filter_cons_False by (apply Hn; left).
  apply IH. intros x Hx. apply Hn. right. exact Hx.
Qed.

Lemma ldiff_lor_same (a p : Z) : Z.ldiff (Z.lor a p) p = Z.ldiff a p.
Proof.
  apply Z.bits_inj'. intros n _.
  rewrite !Z.ldiff_spec, Z.lor_spec.
  destruct (Z.testbit a n), (Z.testbit p n); reflexivity.
Qed.

Lemma getPrivileges_fields object rl :
  objectKey_ (getPrivileges object rl) = objectKey_ object
  /\ ownerId_ (getPrivileges object rl) = ownerId_ object
  /\ objectName_ (getPrivileges object rl) = objectName_ object.
Proof. unfold getPrivileges. destruct (findDbObject _ rl); auto. Qed.

Lemma grantDBObjectPrivileges_unsafe_Ok roleName object catalog s rl key :
  roleName <> MAPD_ROOT_USER ->
  getMetadataForRole roleName s = Some rl ->
  resolveKey catalog (objectName_ object) (objectType_ object) (objectKey_ object)
  = Some key ->
  fuse (sqliteConnector_ s) <> Some 0%nat ->
  let rl1 := grantPrivileges (setObjectKey key object) rl in
  let o1 := getPrivileges (resetPrivileges (setObjectKey key object)) rl1 in
  exists s1,
    grantDBObjectPrivileges_unsafe roleName object catalog s = Ok o1 s1
    /\ roleMap_ s1 = <[to_upper roleName := rl1]> (roleMap_ s)
    /\ mapd_object_permissions (db (sqliteConnector_ s1))
       = filter (fun r => ~ (pr_roleName r = roleName /\ pr_key r = key))
                (mapd_object_permissions (db (sqliteConnector_ s)))
         ++ [mkPermRow roleName (userPrivateRole_ rl) key (objectPrivs_ o1)
                       (ownerId_ object) (objectName_ object)]
    /\ fuse (sqliteConnector_ s1) = pred <$> fuse (sqliteConnector_ s).
Proof.
  intros Hroot Hrl Hkey Hf rl1 o1.
  unfold grantDBObjectPrivileges_unsafe. rewrite decide_False by exact Hroot.
  unfold bind, gets. rewrite Hrl. unfold loadKey. rewrite Hkey. unfold ret.
  unfold set_role, modify, insertOrUpdateObjectPrivileges, query, on_conn, conn_exec.
  simpl.
  destruct (fuse (sqliteConnector_ s)) as [[|n]|] eqn:Ef; [congruence| |].
  all: eexists; split; [reflexivity|]; simpl;
    destruct (getPrivileges_fields (resetPrivileges (setObjectKey key object))
                (grantPrivileges (setObjectKey key object) rl)) as (-> & -> & ->);
    simpl; auto.
Qed.

Lemma revokeDBObjectPrivileges_unsafe_Ok roleName object catalog s rl key o :
  roleName <> MAPD_ROOT_USER ->
  getMetadataForRole roleName s = Some rl ->
  resolveKey catalog (objectName_ object) (objectType_ object) (objectKey_ object)
  = Some key ->
  findDbObject key rl = Some o ->
  fuse (sqliteConnector_ s) <> Some 0%nat ->
  let o' := setPrivileges (Z.ldiff (objectPrivs_ o) (objectPrivs_ object)) o in
  let rl' := mkGroupRole (roleName_ rl) (userPrivateRole_ rl)
                         (<[key := o']> (dbObjectMap_ rl)) in
  exists s2,
    revokeDBObjectPrivileges_unsafe roleName object catalog s = Ok tt s2
    /\ roleMap_ s2 = <[to_upper roleName := rl']> (roleMap_ s)
    /\ mapd_object_permissions (db (sqliteConnector_ s2))
       = if hasAny (objectPrivs_ o') then
           filter (fun r => ~ (pr_roleName r = roleName /\ pr_key r = objectKey_ o))
                  (mapd_object_permissions (db (sqliteConnector_ s)))
           ++ [mkPermRow roleName (userPrivateRole_ rl) (objectKey_ o)
                         (objectPrivs_ o') (ownerId_ o) (objectName_ o)]
         else
           filter (fun r => ~ (pr_roleName r = roleName
                               /\ pr_roleType r = userPrivateRole_ rl
                               /\ pr_key r = objectKey_ o))
                  (mapd_object_permissions (db (sqliteConnector_ s))).
Proof.
  intros Hroot Hrl Hkey Ho Hf o' rl'.
  unfold revokeDBObjectPrivileges_unsafe. rewrite decide_False by exact Hroot.
  unfold bind, gets. rewrite Hrl. unfold loadKey. rewrite Hkey. unfold ret.
  unfold revokePrivileges. simpl. rewrite Ho.
  unfold set_role, modify. fold o'.
  destruct (hasAny (objectPrivs_ o')) eqn:Ha;
    unfold insertOrUpdateObjectPrivileges, deleteObjectPrivileges, query, on_conn,
      conn_exec; simpl;
    (destruct (fuse (sqliteConnector_ s)) as [[|n]|] eqn:Ef; [congruence| |]);
    eexists; (split; [reflexivity|]); simpl; simpl in Ha; rewrite Ha; auto.
Qed.

(** C6, as the code has it: a role is granted the privileges [P] of an
    object and the same privileges are then revoked from it.  Both calls
    return, and the role then stores, under the key of the object, the
    privileges it stored before the grant without those of [P].  When none
    are left, which is so when the role held no privilege on the object
    outside [P] before the grant, no row of [mapd_object_permissions]
    records the role and the key; otherwise one row does, with the
    privileges left. *)
Theorem grant_then_revoke roleName object object' catalog s rl key :
  roleName <> MAPD_ROOT_USER ->
  getMetadataForRole roleName s = Some rl ->
  resolveKey catalog (objectName_ object) (objectType_ object) (objectKey_ object)
  = Some key ->
  resolveKey catalog (objectName_ object') (objectType_ object') (objectKey_ object')
  = Some key ->
  objectPrivs_ object' = objectPrivs_ object ->
  (forall o, findDbObject key rl = Some o -> objectKey_ o = key) ->
  (forall n, fuse (sqliteConnector_ s) = Some n -> (2 <= n)%nat) ->
  exists o1 s1 s2 rl2,
    grantDBObjectPrivileges_unsafe roleName object catalog s = Ok o1 s1
    /\ revokeDBObjectPrivileges_unsafe roleName object' catalog s1 = Ok tt s2
    /\ getMetadataForRole roleName s2 = Some rl2
    /\ stored_privileges key rl2
       = Z.ldiff (stored_privileges key rl) (objectPrivs_ object)
    /\ (Z.ldiff (stored_privileges key rl) (objectPrivs_ object) = NONE ->
        stored_privileges key rl2 = NONE /\ permission_rows roleName key s2 = [])
    /\ (Z.ldiff (stored_privileges key rl) (objectPrivs_ object) <> NONE ->
        exists row, permission_rows roleName key s2 = [row]
                    /\ pr_objectPermissions row = stored_privileges key rl2).
Proof.
  intros Hroot Hrl Hkey Hkey' HP Hkeyed Hfuse.
  assert (Hf : fuse (sqliteConnector_ s) <> Some 0%nat).
  { intros E. apply Hfuse in E. lia. }
  destruct (grantDBObjectPrivileges_unsafe_Ok roleName object catalog s rl key
              Hroot Hrl Hkey Hf) as (s1 & Hgrant & Hmap1 & Hrows1 & Hf1).
  set (rl1 := grantPrivileges (setObjectKey key object) rl) in *.
  set (stored := match findDbObject key rl with
                 | Some o => setPrivileges (Z.lor (objectPrivs_ o) (objectPrivs_ object)) o
                 | None => setObjectKey key object
                 end).
  assert (Hs1 : findDbObject key rl1 = Some stored).
  { unfold rl1, grantPrivileges, findDbObject. simpl. apply lookup_insert_eq. }
  assert (Hk1 : objectKey_ stored = key).
  { unfold stored. destruct (findDbObject key rl) as [o|] eqn:Ho; simpl; auto. }
  assert (Hp1 : objectPrivs_ stored
                = Z.lor (stored_privileges key rl) (objectPrivs_ object)).
  { unfold stored, stored_privileges.
    destruct (findDbObject key rl) as [o|]; simpl; reflexivity. }
  assert (Hrl1 : getMetadataForRole roleName s1 = Some rl1).
  { unfold getMetadataForRole. rewrite Hmap1. apply lookup_insert_eq. }
  assert (Hf1' : fuse (sqliteConnector_ s1) <> Some 0%nat).
  { rewrite Hf1. destruct (fuse (sqliteConnector_ s)) as [n|] eqn:Ef; simpl; [|discriminate].
    specialize (Hfuse n eq_refl). intros [= E]. lia. }
  destruct (revokeDBObjectPrivileges_unsafe_Ok roleName object' catalog s1 rl1 key
              stored Hroot Hrl1 Hkey' Hs1 Hf1') as (s2 & Hrevoke & Hmap2 & Hrows2).
  rewrite HP, Hk1 in *. simpl in Hrows2, Hmap2.
  rewrite Hp1, ldiff_lor_same in Hrows2, Hmap2.
  eexists _, s1, s2, _. split; [exact Hgrant|]. split; [exact Hrevoke|].
  split; [unfold getMetadataForRole; rewrite Hmap2; apply lookup_insert_eq|].
  assert (Hst : forall x d, stored_privileges key
            (mkGroupRole x d (<[key := setPrivileges (Z.ldiff (stored_privileges key rl) (objectPrivs_ object)) stored]> (dbObjectMap_ rl1)))
          = Z.ldiff (stored_privileges key rl) (objectPrivs_ object)).
  { intros x d. unfold stored_privileges at 1, findDbObject. simpl.
    rewrite lookup_insert_eq. reflexivity. }
  split; [apply Hst|]. unfold permission_rows. split.
  - intros E. split; [rewrite Hst; exact E|].
    rewrite E in Hrows2. simpl in Hrows2. rewrite Hrows2, Hrows1.
    apply filter_none. intros r Hr [Hn Hk].
    apply list_elem_of_filter in Hr as [Hnot Hr].
    apply elem_of_app in Hr as [Hr | Hr].
    + apply list_elem_of_filter in Hr as [Hnot' _]. tauto.
    + apply list_elem_of_singleton in Hr. subst r. simpl in Hnot. tauto.
  - intros E.
    assert (Ha : hasAny (Z.ldiff (stored_privileges key rl) (objectPrivs_ object)) = true).
    { unfold hasAny. apply negb_true_iff, Z.eqb_neq. exact E. }
    rewrite Ha in Hrows2. rewrite Hrows2, filter_app.
    rewrite (filter_none _ (filter _ _)).
    + eexists. split; [simpl; rewrite filter_cons_True by (simpl; auto); reflexivity|].
      simpl. rewrite Hst. reflexivity.
    + intros r Hr. apply list_elem_of_filter in Hr as [Hnot _]. tauto.
Qed.

End ObjectPrivileges.

Section Users.
Context `{Headers} `{ObjectHeaders}.
Import SysCatalog.

#[local] Hint Resolve createRole_unsafe_txn createRole_unsafe_users
  grantDefaultPrivilegesToRole_unsafe_txn grantDefaultPrivilegesToRole_unsafe_users
  grantRole_unsafe_txn grantRole_unsafe_users : keeps.

Lemma private_role_txn name issuper :
  keeps (fun s => txn (sqliteConnector_ s))
        (createRole_unsafe name true ;;
         grantDefaultPrivilegesToRole_unsafe name issuper ;;
         grantRole_unsafe name name).
Proof. solve_keeps. Qed.

Lemma private_role_users name issuper :
  keeps (fun s => mapd_users (db (sqliteConnector_ s)))
        (createRole_unsafe name true ;;
         grantDefaultPrivilegesToRole_unsafe name issuper ;;
         grantRole_unsafe name name).
Proof. solve_keeps. Qed.

(** Past its two tests, [createUser] is a transaction. *)
Lemma createUser_transaction name passwd issuper s :
  getMetadataForUser name s = None ->
  arePrivilegesOn s && bool_decide (is_Some (getMetadataForRole name s)) = false ->
  createUser name passwd issuper s
  = execInTransaction
      (query (insert_user name passwd issuper) ;;
       if arePrivilegesOn s then
         createRole_unsafe name true ;;
         grantDefaultPrivilegesToRole_unsafe name issuper ;;
         grantRole_unsafe name name
       else ret tt) s.
Proof.
  intros Eu Er. unfold createUser.
  unfold bind at 1, gets at 1. rewrite Eu.
  rewrite bool_decide_eq_false_2 by (intros [? ?]; discriminate).
  unfold bind at 1, gets at 1. unfold bind at 1, gets at 1.
  rewrite Er. reflexivity.
Qed.

Lemma createUser_rejects name passwd issuper s :
  is_Some (getMetadataForUser name s)
  \/ (arePrivilegesOn s = true /\ is_Some (getMetadataForRole name s)) ->
  exists msg, createUser name passwd issuper s = Throw msg s.
Proof.
  intros Hc. unfold createUser. unfold bind at 1, gets at 1.
  destruct (bool_decide (is_Some (getMetadataForUser name s))) eqn:Eu;
    [eexists; reflexivity|].
  unfold bind at 1, gets at 1. unfold bind at 1, gets at 1.
  destruct (arePrivilegesOn s && bool_decide (is_Some (getMetadataForRole name s)))
    eqn:Er; [eexists; reflexivity|].
  exfalso. apply bool_decide_eq_false in Eu.
  destruct Hc as [Hu | [Hon Hr]]; [tauto|].
  rewrite Hon in Er. simpl in Er. apply bool_decide_eq_false in Er. tauto.
Qed.

Lemma select_user_Some name (d : Store) :
  name ∈ ur_name <$> mapd_users d -> is_Some (select_user name d).
Proof.
  intros Hin. apply list_elem_of_fmap in Hin as (r & -> & Hr).
  unfold select_user.
  destruct (filter (fun r0 => ur_name r0 = ur_name r) (mapd_users d)) as [|r' l] eqn:Ef.
  - exfalso. exact (filter_nil_not_elem_of _ _ r Ef eq_refl Hr).
  - simpl. eauto.
Qed.

(** X29: the tables of the system database under [createUser].  It throws,
    and changes nothing, when a user of the name exists and, with the
    privileges on, when a role of the name exists.  However it throws, the
    tables are then as they were before the call, and so is the state of
    the connection: no row of a user, of a role or of a privilege is
    left.  After a call that returned, the table of users holds one row of
    the name, and another call for the name throws and changes nothing.
    What the call leaves in [roleMap_] and [userRoleMap_] when it throws is
    not part of this statement. *)
Theorem createUser_rolls_back_rows name passwd issuper s :
  (is_Some (getMetadataForUser name s)
   \/ (arePrivilegesOn s = true /\ is_Some (getMetadataForRole name s)) ->
   exists msg, createUser name passwd issuper s = Throw msg s)
  /\ (forall msg s',
        createUser name passwd issuper s = Throw msg s' ->
        db (sqliteConnector_ s') = db (sqliteConnector_ s)
        /\ txn (sqliteConnector_ s') = txn (sqliteConnector_ s))
  /\ (forall u s',
        createUser name passwd issuper s = Ok u s' ->
        (exists row,
            filter (fun r => ur_name r = name) (mapd_users (db (sqliteConnector_ s')))
            = [row])
        /\ forall passwd' issuper',
             createUser name passwd' issuper' s'
             = Throw ("User " +:+ name +:+ " already exists.") s').
Proof.
  split; [apply createUser_rejects|].
  destruct (getMetadataForUser name s) as [user|] eqn:Eu.
  { assert (Hr : createUser name passwd issuper s
                 = Throw ("User " +:+ name +:+ " already exists.") s).
    { unfold createUser. unfold bind at 1, gets at 1. rewrite Eu.
      rewrite bool_decide_eq_true_2 by eauto. reflexivity. }
    rewrite Hr. split; [intros msg s' [= _ <-]; auto | intros u s' [=]]. }
  destruct (arePrivilegesOn s && bool_decide (is_Some (getMetadataForRole name s)))
    eqn:Er.
  { assert (Hr : exists msg, createUser name passwd issuper s = Throw msg s).
    { apply createUser_rejects. right. apply andb_true_iff in Er as [-> Er].
      apply bool_decide_eq_true in Er. auto. }
    destruct Hr as [msg0 Hr]. rewrite Hr.
    split; [intros msg s' [= _ <-]; auto | intros u s' [=]]. }
  rewrite (createUser_transaction _ _ _ _ Eu Er). split.
  - intros msg s'. apply execInTransaction_Throw.
    destruct (arePrivilegesOn s); solve_keeps; apply private_role_txn.
  - intros u s' R. unfold execInTransaction in R.
    apply bind_Ok in R as (u0 & s1 & Rb & R).
    apply bind_Ok in R as (u1 & s2 & Rt & Re).
    apply try_catch_Ok in Rt as [Rt|(e1 & s3 & _ & Rh)];
      [|apply bind_Ok in Rh as (? & ? & _ & Rh); discriminate].
    apply bind_Ok in Rt as (u2 & s3 & Rq & Rt).
    apply sys_query_Ok in Rq as (d' & f' & Hins & ->).
    assert (Hu2 : mapd_users (db (sqliteConnector_ s2)) = mapd_users d').
    { destruct (arePrivilegesOn s).
      - apply (keeps_Ok _ _ _ _ _ (private_role_users name issuper)) in Rt. exact Rt.
      - unfold ret in Rt. injection Rt as _ <-. reflexivity. }
    assert (Hu' : mapd_users (db (sqliteConnector_ s')) = mapd_users d').
    { rewrite sys_END in Re. destruct (txn (sqliteConnector_ s2)); [|discriminate].
      injection Re as _ <-. exact Hu2. }
    assert (Hd' : mapd_users d' = mapd_users (db (sqliteConnector_ s1))
                                  ++ [mkUserRow (Catalog.next_rowid
                                                   (ur_userid <$> mapd_users (db (sqliteConnector_ s1))))
                                                name passwd issuper]
                  /\ name ∉ ur_name <$> mapd_users (db (sqliteConnector_ s1))).
    { unfold insert_user in Hins.
      destruct (decide (name ∈ ur_name <$> mapd_users (db (sqliteConnector_ s1))));
        [discriminate|]. injection Hins as <-. auto. }
    destruct Hd' as [Hd' Hfresh]. split.
    + eexists. rewrite Hu', Hd', filter_app.
      rewrite filter_none; [simpl; rewrite filter_cons_True by reflexivity; reflexivity|].
      intros r Hr E. apply Hfresh. apply list_elem_of_fmap. eauto.
    + intros passwd' issuper'. unfold createUser. unfold bind at 1, gets at 1.
      rewrite bool_decide_eq_true_2; [reflexivity|].
      unfold getMetadataForUser. apply fmap_is_Some, select_user_Some.
      rewrite Hu', Hd', fmap_app. apply elem_of_app. right. simpl. left.
Qed.

End Users.


(** ** More on [Catalog::createTable] *)

Section CreateTableMore.
Context `{Headers}.
Import Catalog.

#[local] Hint Resolve persist_column_txn temp_column_conn : keeps.

Lemma BEGIN_Throw c e c' :
  BEGIN_TRANSACTION c = Throw e c' -> c' = c.
Proof.
  unfold BEGIN_TRANSACTION, on_conn. destruct (conn_begin _); [discriminate|].
  intros [= _ <-]. reflexivity.
Qed.

Lemma ROLLBACK_restores c d :
  txn (sqliteConnector_ c) = Some d ->
  ROLLBACK_TRANSACTION c = Ok tt (set_conn (mkConn d None (fuse (sqliteConnector_ c))) c).
Proof.
  intros Et. unfold ROLLBACK_TRANSACTION, on_conn, conn_rollback. rewrite Et. reflexivity.
Qed.

Lemma persist_body_txn td columns defs isL :
  keeps (fun c => txn (sqliteConnector_ c))
        (query (insert_table td) ;;
         tid <- select (select_tableid (td_tableName td)) ;;
         tid <- deref tid ;;
         let td := td_set_tableId tid td in
         st <- foldM (persist_column td defs isL) columns (1, [], []) ;;
         let '(_, cds, dds) := st in
         (if td_isView td then query (insert_view (td_tableId td) (td_viewSQL td))
          else ret tt) ;;
         ret (td, cds, dds)).
Proof. repeat (solve_keeps; cbv zeta). Qed.

(** A throw of the branch for the tables on disk: the transaction is rolled
    back. *)
Lemma persist_table_Throw td columns defs isL c e c' d :
  txn (sqliteConnector_ c) = Some d ->
  persist_table td columns defs isL c = Throw e c' ->
  e = sliced /\ db (sqliteConnector_ c') = d /\ txn (sqliteConnector_ c') = None.
Proof.
  intros Et R. unfold persist_table in R.
  apply try_catch_Throw in R as (e1 & c1 & Rb & Rh).
  pose proof (keeps_Throw _ _ _ _ _ (persist_body_txn td columns defs isL) Rb) as Htx.
  simpl in Htx. rewrite Et in Htx.
  unfold bind in Rh. rewrite (ROLLBACK_restores _ _ Htx) in Rh.
  unfold throw in Rh. injection Rh as <- <-. auto.
Qed.

Lemma temp_table_conn td columns : keeps sqliteConnector_ (temp_table td columns).
Proof. unfold temp_table. repeat (solve_keeps; cbv zeta). Qed.

Lemma add_column_conn td cd : keeps sqliteConnector_ (add_column td cd).
Proof. unfold add_column, setDeletedColumnUnlocked. solve_keeps. Qed.

Lemma add_dict_conn dd : keeps sqliteConnector_ (add_dict dd).
Proof. unfold add_dict. solve_keeps. Qed.

#[local] Hint Resolve add_column_conn add_dict_conn : keeps.

Lemma addTableToMap_conn td cds dds : keeps sqliteConnector_ (addTableToMap td cds dds).
Proof. unfold addTableToMap. solve_keeps. Qed.

Lemma remove_column_conn tid isTemp i : keeps sqliteConnector_ (remove_column tid isTemp i).
Proof. unfold remove_column. solve_keeps. Qed.

#[local] Hint Resolve remove_column_conn : keeps.

Lemma removeTableFromMap_conn name tid : keeps sqliteConnector_ (removeTableFromMap name tid).
Proof. unfold removeTableFromMap. solve_keeps. Qed.

Lemma updateMetadata_keeps {B} (part : t -> B) : keeps part updateMetadata.
Proof. unfold updateMetadata. solve_keeps. Qed.

End CreateTableMore.


Section CreateTableFailure.
Context `{Headers}.
Import Catalog.

Lemma END_not_Throw c d e c' :
  txn (sqliteConnector_ c) = Some d -> END_TRANSACTION c = Throw e c' -> False.
Proof.
  intros Et. unfold END_TRANSACTION, on_conn, conn_end. rewrite Et. discriminate.
Qed.

(** The handler of the second [try] of [createTable]. *)
Lemma createTable_handler_Throw td c d e c' :
  txn (sqliteConnector_ c) = Some d ->
  (ROLLBACK_TRANSACTION ;;
   removeTableFromMap (td_tableName td) (td_tableId td) ;;
   (throw sliced : Cat unit)) c = Throw e c' ->
  db (sqliteConnector_ c') = d /\ txn (sqliteConnector_ c') = None.
Proof.
  intros Et R. unfold bind at 1 in R. rewrite (ROLLBACK_restores _ _ Et) in R.
  assert (K : keeps sqliteConnector_
                (removeTableFromMap (td_tableName td) (td_tableId td) ;;
                 (throw sliced : Cat unit))).
  { apply keeps_bind; [apply removeTableFromMap_conn | intros; apply keeps_throw]. }
  apply (keeps_Throw _ _ _ _ _ K) in R. rewrite R. simpl. auto.
Qed.

(** X1: whenever [createTable] throws, the rows of the catalog database are
    what they were before the call; for a table on disk the connection is
    left without an open transaction, as it must have been to start. *)
Theorem createTable_Throw_rows td cols defs isLogicalTable c e c' :
  createTable td cols defs isLogicalTable c = Throw e c' ->
  db (sqliteConnector_ c') = db (sqliteConnector_ c)
  /\ (td_persistenceLevel td = DISK_LEVEL ->
      txn (sqliteConnector_ c') = txn (sqliteConnector_ c)).
Proof.
  unfold createTable. destruct (expand_columns cols []) as [msg|columns].
  { intros [= _ <-]. auto. }
  cbv zeta. intros R.
  apply bind_Throw in R as [R|(u & c1 & Rb & R)].
  { apply BEGIN_Throw in R. subst. auto. }
  apply BEGIN_Ok in Rb as [Et ->].
  set (c1 := set_conn _ c) in R.
  assert (Et1 : txn (sqliteConnector_ c1) = Some (db (sqliteConnector_ c))) by reflexivity.
  apply bind_Throw in R as [R|([[td' cds] dds] & c2 & Rp & R)].
  - destruct (decide _) as [Hd|Hd] in R.
    + apply (persist_table_Throw _ _ _ _ _ _ _ _ Et1) in R as (_ & -> & ->). auto.
    + apply (keeps_Throw _ _ _ _ _ (temp_table_conn _ _)) in R. rewrite R. simpl.
      split; [reflexivity|]. simpl in Hd. tauto.
  - assert (Et2 : txn (sqliteConnector_ c2) = Some (db (sqliteConnector_ c))).
    { destruct (decide _) as [Hd|Hd] in Rp.
      - apply persist_table_Ok in Rp as (_ & _ & _ & -> & _). exact Et1.
      - apply (keeps_Ok _ _ _ _ _ (temp_table_conn _ _)) in Rp. rewrite Rp. exact Et1. }
    assert (K : keeps sqliteConnector_ (addTableToMap td' cds dds ;; updateMetadata)).
    { apply keeps_bind; [apply addTableToMap_conn | intros; apply updateMetadata_keeps]. }
    apply bind_Throw in R as [R|(u1 & c3 & Rt & R)].
    + apply try_catch_Throw in R as (e1 & s1 & Rm & Rh).
      apply (keeps_Throw _ _ _ _ _ K) in Rm.
      eapply createTable_handler_Throw in Rh as [-> ->]; [auto|].
      rewrite Rm. exact Et2.
    + exfalso. apply try_catch_Ok in Rt as [Rt|(e1 & s1 & _ & Rh)].
      * apply (keeps_Ok _ _ _ _ _ K) in Rt.
        apply bind_Throw in R as [R|(u2 & c4 & _ & R)]; [|discriminate].
        eapply END_not_Throw; [|exact R]. rewrite Rt. exact Et2.
      * apply bind_Ok in Rh as (? & ? & _ & Rh).
        apply bind_Ok in Rh as (? & ? & _ & Rh). discriminate.
Qed.

End CreateTableFailure.


Section CreateTableSuccess.
Context `{Headers}.
Import Catalog.

(** X2: a table that [createTable] returns is registered under its name and
    under its id, which is the next row id of [mapd_tables] for a table on
    disk and the counter of temporary ids otherwise; the descriptor is the
    one passed in with the id and the column count filled in, and the
    tables of other names and ids are found as before. *)
Theorem createTable_registers td cols defs isLogicalTable c td' c' :
  createTable td cols defs isLogicalTable c = Ok td' c' ->
  td' = td_set_tableId (td_tableId td') (td_set_nColumns (td_nColumns td') td)
  /\ td_tableId td'
     = (if decide (td_persistenceLevel td = DISK_LEVEL)
        then next_rowid (tr_tableid <$> mapd_tables (db (sqliteConnector_ c)))
        else nextTempTableId_ c)
  /\ getMetadataForTable (td_tableName td) c' = Some td'
  /\ getMetadataForTableById (td_tableId td') c' = Some td'
  /\ (forall name, to_upper name <> to_upper (td_tableName td) ->
        getMetadataForTable name c' = getMetadataForTable name c)
  /\ (forall id, id <> td_tableId td' ->
        getMetadataForTableById id c' = getMetadataForTableById id c).
Proof.
  intros R.
  apply createTable_Ok in R as (columns & cds & dds & c1 & c2 & c3 & Ex & Rb & Rp & Ra & Re).
  cbv zeta in Rp.
  apply BEGIN_Ok in Rb as [_ ->]. apply END_Ok in Re as ->.
  apply addTableToMap_Ok in Ra as (Hn & Hi & _).
  assert (Hp : td' = td_set_tableId (td_tableId td')
                       (td_set_nColumns (Z.of_nat (length (columns ++ system_columns td))) td)
               /\ td_tableId td'
                  = (if decide (td_persistenceLevel td = DISK_LEVEL)
                     then next_rowid (tr_tableid <$> mapd_tables (db (sqliteConnector_ c)))
                     else nextTempTableId_ c)
               /\ tableDescriptorMap_ c2 = tableDescriptorMap_ c
               /\ tableDescriptorMapById_ c2 = tableDescriptorMapById_ c).
  { destruct (decide _) as [Hd|Hd] in Rp; simpl in Hd.
    - apply persist_table_Ok in Rp as (-> & _ & Hreg & _). simpl in *.
      rewrite decide_True by exact Hd.
      unfold table_registry in Hreg. simpl in Hreg. injection Hreg as ? ? ? ? ? ? ?.
      auto.
    - apply temp_table_Ok in Rp as (-> & _ & _ & ? & ? & _). simpl in *.
      rewrite decide_False by exact Hd. auto. }
  destruct Hp as (Etd & Eid & Hn2 & Hi2).
  assert (Ename : td_tableName td' = td_tableName td) by (rewrite Etd; reflexivity).
  assert (Encol : td_nColumns td' = Z.of_nat (length (columns ++ system_columns td)))
    by (rewrite Etd; reflexivity).
  unfold getMetadataForTable, getMetadataForTableById. simpl.
  rewrite Hn, Hi, Hn2, Hi2, Ename.
  split; [rewrite Encol; exact Etd|]. split; [exact Eid|].
  split; [apply lookup_insert_eq|]. split; [apply lookup_insert_eq|].
  split; intros x Hx; apply lookup_insert_ne; congruence.
Qed.

(** X3: a table that is not on disk is never written to the catalog
    database: when [createTable] returns, the connection is as it was, and
    the counter of temporary table ids has advanced by one. *)
Theorem createTable_temporary td cols defs isLogicalTable c td' c' :
  td_persistenceLevel td <> DISK_LEVEL ->
  createTable td cols defs isLogicalTable c = Ok td' c' ->
  sqliteConnector_ c' = sqliteConnector_ c
  /\ td_tableId td' = nextTempTableId_ c
  /\ nextTempTableId_ c' = nextTempTableId_ c + 1.
Proof.
  intros Hd R.
  apply createTable_Ok in R as (columns & cds & dds & c1 & c2 & c3 & Ex & Rb & Rp & Ra & Re).
  cbv zeta in Rp. rewrite decide_False in Rp by exact Hd.
  apply BEGIN_Ok in Rb as [Et ->]. apply END_Ok in Re as ->.
  apply addTableToMap_Ok in Ra as (_ & _ & _ & Hnext & Hconn & _).
  apply temp_table_Ok in Rp as (-> & _ & Hconn2 & _ & _ & _ & _ & Hnext2).
  simpl in *. rewrite Hconn, Hconn2, Hnext, Hnext2. simpl.
  split; [|auto]. destruct (sqliteConnector_ c) as [d tx f]. simpl in *. subst tx.
  reflexivity.
Qed.

(** X4: a table on disk whose name is taken by a row of [mapd_tables] is
    refused: [createTable] throws, and the catalog is exactly as it was. *)
Theorem createTable_name_taken td cols defs isLogicalTable c :
  td_persistenceLevel td = DISK_LEVEL ->
  td_tableName td ∈ tr_name <$> mapd_tables (db (sqliteConnector_ c)) ->
  txn (sqliteConnector_ c) = None ->
  exists msg, createTable td cols defs isLogicalTable c = Throw msg c.
Proof.
  intros Hd Hin Et. unfold createTable.
  destruct (expand_columns cols []) as [msg|columns]; [eexists; reflexivity|].
  cbv zeta. exists sliced.
  unfold bind at 1. unfold BEGIN_TRANSACTION, on_conn, conn_begin. rewrite Et.
  unfold bind at 1. rewrite decide_True by exact Hd.
  unfold persist_table, try_catch, bind at 1.
  assert (Hq : forall c0, db (sqliteConnector_ c0) = db (sqliteConnector_ c) ->
             query (insert_table (td_set_nColumns
                                    (Z.of_nat (length (columns ++ system_columns td))) td))
                   c0 = Throw sqlite_error c0).
  { intros c0 E0. unfold query, on_conn, conn_exec, insert_table. rewrite E0. simpl.
    rewrite decide_True by exact Hin.
    destruct (fuse (sqliteConnector_ c0)) as [[|n]|]; reflexivity. }
  rewrite Hq by reflexivity.
  unfold bind, ROLLBACK_TRANSACTION, on_conn, conn_rollback, throw. simpl.
  f_equal. destruct c as [[d tx f] ? ? ? ? ? ? ? ? ? ? ? ? ? ? ? ?]. simpl in *.
  subst tx. reflexivity.
Qed.

End CreateTableSuccess.


Section TemporaryGeometry.
Context `{Headers}.
Import Catalog.

Lemma expand_columns_keeps_declared cols : forall acc,
  Forall (fun cd => cd_columnName cd <> "rowid"
                    /\ (IS_GEO (ti_type (cd_columnType cd)) = true
                        -> is_Some (geo_columns cd))) cols ->
  exists columns,
    expand_columns cols acc = inr columns
    /\ (forall cd, cd ∈ acc \/ cd ∈ cols -> cd ∈ columns).
Proof.
  induction cols as [|cd cols IH]; intros acc Hall; simpl.
  - exists acc. split; [reflexivity|]. intros cd [?|Hin]; [assumption|inversion Hin].
  - apply Forall_cons in Hall as [[Hname Hgeo] Hall].
    rewrite decide_False by exact Hname.
    destruct (IS_GEO (ti_type (cd_columnType cd))) eqn:Eg.
    + destruct (Hgeo eq_refl) as [l El]. rewrite El.
      destruct (IH (acc ++ l) Hall) as (columns & E & Hin). exists columns.
      split; [exact E|]. intros x [Hx|Hx]; apply Hin.
      * left. apply elem_of_app. auto.
      * apply elem_of_cons in Hx as [->|Hx]; [|auto].
        left. apply elem_of_app. right. unfold geo_columns in El.
        destruct (ti_type (cd_columnType cd)); simplify_eq; left.
    + destruct (IH (acc ++ [cd]) Hall) as (columns & E & Hin). exists columns.
      split; [exact E|]. intros x [Hx|Hx]; apply Hin.
      * left. apply elem_of_app. auto.
      * apply elem_of_cons in Hx as [->|Hx]; [|auto].
        left. apply elem_of_app. right. left.
Qed.

(** The loop over the columns of a temporary table stops at the first
    column of a geometry type. *)
Lemma temp_columns_geometry td columns : forall st c,
  Exists (fun cd => IS_GEO (ti_type (cd_columnType cd)) = true) columns ->
  exists c',
    foldM (temp_column td) columns st c
    = Throw "Geometry types in temporary tables are not supported." c'.
Proof.
  induction columns as [|cd columns IH]; intros [[k cds] dds] c Hex.
  - inversion Hex.
  - simpl. unfold bind at 1. unfold temp_column at 1.
    destruct (IS_GEO (ti_type (cd_columnType cd))) eqn:Eg; [eexists; reflexivity|].
    apply Exists_cons in Hex as [Hex|Hex]; [congruence|].
    destruct (decide (ti_compression (cd_columnType cd) = kENCODING_DICT));
      unfold bind, gets, modify, ret; apply IH; exact Hex.
Qed.

(** X5: a table that is not on disk and declares a column of a geometry
    type is refused after the transaction was opened: [createTable] throws,
    registers no table and writes no row, but the id of a temporary table
    is used up and the transaction is left open. *)
Theorem createTable_temporary_geometry td cols defs isLogicalTable c :
  td_persistenceLevel td <> DISK_LEVEL ->
  txn (sqliteConnector_ c) = None ->
  Forall (fun cd => cd_columnName cd <> "rowid"
                    /\ (IS_GEO (ti_type (cd_columnType cd)) = true
                        -> is_Some (geo_columns cd))) cols ->
  Exists (fun cd => IS_GEO (ti_type (cd_columnType cd)) = true) cols ->
  exists c',
    createTable td cols defs isLogicalTable c
    = Throw "Geometry types in temporary tables are not supported." c'
    /\ db (sqliteConnector_ c') = db (sqliteConnector_ c)
    /\ txn (sqliteConnector_ c') = Some (db (sqliteConnector_ c))
    /\ tableDescriptorMap_ c' = tableDescriptorMap_ c
    /\ tableDescriptorMapById_ c' = tableDescriptorMapById_ c
    /\ columnDescriptorMapById_ c' = columnDescriptorMapById_ c
    /\ nextTempTableId_ c' = nextTempTableId_ c + 1.
Proof.
  intros Hd Et Hall Hex.
  destruct (expand_columns_keeps_declared cols [] Hall) as (columns & Ex & Hin).
  assert (Hex' : Exists (fun cd => IS_GEO (ti_type (cd_columnType cd)) = true)
                        (columns ++ system_columns td)).
  { apply Exists_exists in Hex as (cd & Hcd & Hg). apply Exists_exists.
    exists cd. split; [|exact Hg]. apply elem_of_app. left. apply Hin. right.
    exact Hcd. }
  unfold createTable. rewrite Ex. cbv zeta.
  unfold bind at 1. unfold BEGIN_TRANSACTION, on_conn, conn_begin. rewrite Et.
  unfold bind at 1. rewrite decide_False by exact Hd.
  unfold temp_table. unfold bind at 1, gets at 1. unfold bind at 1, modify at 1.
  cbv zeta. unfold bind at 1.
  match goal with
  | |- context [foldM (temp_column ?td0) ?l ?st ?s] =>
      destruct (temp_columns_geometry td0 l st s Hex') as (c' & R);
      pose proof (keeps_Throw _ _ _ _ _
                    (keeps_foldM table_registry _ l st
                       (fun b a => temp_column_registry _ b a)) R) as Hreg;
      pose proof (keeps_Throw _ _ _ _ _
                    (keeps_foldM sqliteConnector_ _ l st
                       (fun b a => temp_column_conn _ b a)) R) as Hconn
  end.
  rewrite R. exists c'. split; [reflexivity|].
  unfold table_registry in Hreg. simpl in Hreg, Hconn.
  injection Hreg as ? ? ? ? ? ? ?. rewrite Hconn. simpl. auto 10.
Qed.

End TemporaryGeometry.


Section Unregister.
Context `{Headers}.
Import Catalog.

Lemma remove_column_tables tid isTemp i :
  keeps (fun c => (tableDescriptorMap_ c, tableDescriptorMapById_ c,
                   deletedColumnPerTable_ c, logicalToPhysicalTableMapById_ c,
                   sqliteConnector_ c))
        (remove_column tid isTemp i).
Proof. unfold remove_column. solve_keeps. Qed.

Lemma removeTableFromMap_tables tableName tableId c u c' :
  removeTableFromMap tableName tableId c = Ok u c' ->
  exists td,
    tableDescriptorMapById_ c !! tableId = Some td
    /\ tableDescriptorMap_ c' = delete (to_upper tableName) (tableDescriptorMap_ c)
    /\ tableDescriptorMapById_ c' = delete tableId (tableDescriptorMapById_ c)
    /\ deletedColumnPerTable_ c'
       = (if td_hasDeletedCol td then delete tableId (deletedColumnPerTable_ c)
          else deletedColumnPerTable_ c)
    /\ logicalToPhysicalTableMapById_ c' = logicalToPhysicalTableMapById_ c
    /\ sqliteConnector_ c' = sqliteConnector_ c.
Proof.
  unfold removeTableFromMap. intros R.
  apply bind_Ok in R as (otd & c0 & Rg & R). unfold gets in Rg. injection Rg as <- <-.
  destruct (tableDescriptorMapById_ c !! tableId) as [td|] eqn:L; [|discriminate].
  exists td. split; [reflexivity|].
  inv_all;
    match goal with
    | Hl : foldM _ _ _ ?s = Ok _ _ |- _ =>
        pose proof (keeps_Ok _ _ _ _ _
                      (keeps_foldM _ _ _ _ (fun b a => remove_column_tables _ _ a)) Hl)
          as Hk; simpl in Hk; injection Hk as -> -> -> -> ->
    end; auto.
Qed.

(** X6: [removeTableFromMap] of an id that is not registered throws, and
    changes nothing; when it returns, the table is found neither under
    the id nor under the name passed, its delete marker is forgotten, the
    other tables are found as before, and the catalog database is not
    touched. *)
Theorem removeTableFromMap_unregisters tableName tableId c :
  (getMetadataForTableById tableId c = None ->
   removeTableFromMap tableName tableId c
   = Throw ("Table " +:+ tableName +:+ " does not exist.") c)
  /\ (forall u c',
        removeTableFromMap tableName tableId c = Ok u c' ->
        getMetadataForTableById tableId c' = None
        /\ getMetadataForTable tableName c' = None
        /\ (forall td, getMetadataForTableById tableId c = Some td ->
              td_hasDeletedCol td = true -> td_tableId td = tableId ->
              getDeletedColumn td c' = None)
        /\ (forall id, id <> tableId ->
              getMetadataForTableById id c' = getMetadataForTableById id c)
        /\ (forall name, to_upper name <> to_upper tableName ->
              getMetadataForTable name c' = getMetadataForTable name c)
        /\ sqliteConnector_ c' = sqliteConnector_ c).
Proof.
  split.
  - unfold getMetadataForTableById, removeTableFromMap, bind, gets. intros ->. reflexivity.
  - intros u c' R.
    apply removeTableFromMap_tables in R as (td & L & Hn & Hi & Hd & _ & Hc).
    unfold getMetadataForTableById, getMetadataForTable, getDeletedColumn.
    rewrite Hn, Hi, Hd, L.
    split; [apply lookup_delete_eq|]. split; [apply lookup_delete_eq|].
    split; [intros td0 [= <-] -> <-; apply lookup_delete_eq|].
    split; [intros; apply lookup_delete_ne; congruence|].
    split; [intros; apply lookup_delete_ne; congruence|exact Hc].
Qed.

End Unregister.


Section DeletedColumn.
Context `{Headers}.
Import Catalog.

Lemma add_dict_deleted dd : keeps deletedColumnPerTable_ (add_dict dd).
Proof. unfold add_dict. solve_keeps. Qed.

Lemma add_dict_columns dd : keeps columnDescriptorMapById_ (add_dict dd).
Proof. unfold add_dict. solve_keeps. Qed.

Lemma temp_table_deleted td columns : keeps deletedColumnPerTable_ (temp_table td columns).
Proof.
  unfold temp_table. repeat (solve_keeps; cbv zeta).
  all: unfold temp_column; repeat (solve_keeps; cbv zeta).
Qed.

Lemma add_column_Ok td cd c u c' :
  add_column td cd c = Ok u c' ->
  (cd_isDeletedCol cd = false /\ deletedColumnPerTable_ c' = deletedColumnPerTable_ c)
  \/ (cd_isDeletedCol cd = true /\ td_hasDeletedCol td = true
      /\ deletedColumnPerTable_ c !! td_tableId td = None
      /\ deletedColumnPerTable_ c' = <[td_tableId td := cd]> (deletedColumnPerTable_ c)).
Proof.
  unfold add_column, setDeletedColumnUnlocked. intros R.
  destruct (cd_isDeletedCol cd) eqn:Ed; inv_all; simpl in *.
  - right. repeat split; try assumption.
    match goal with
    | Hn : negb (bool_decide _) = true |- _ =>
        apply negb_true_iff, bool_decide_eq_false in Hn;
        apply eq_None_not_Some; exact Hn
    end.
  - left. auto.
Qed.

(** Once a table has its delete marker, the loop of [addTableToMap] takes
    no other. *)
Lemma add_columns_marked td cds : forall c c' x,
  foldM (fun _ cd => add_column td cd) cds tt c = Ok tt c' ->
  deletedColumnPerTable_ c !! td_tableId td = Some x ->
  deletedColumnPerTable_ c' = deletedColumnPerTable_ c
  /\ Forall (fun cd => cd_isDeletedCol cd = false) cds.
Proof.
  induction cds as [|cd cds IH]; intros c c' x R L; simpl in R.
  - unfold ret in R. injection R as <-. auto.
  - apply bind_Ok in R as ([] & c1 & Ra & R).
    apply add_column_Ok in Ra as [[Ed E1]|(_ & _ & Hnone & _)]; [|congruence].
    rewrite <- E1 in L. destruct (IH _ _ _ R L) as [E2 Hall].
    split; [congruence | constructor; assumption].
Qed.

Lemma add_columns_marker td cds : forall c c',
  foldM (fun _ cd => add_column td cd) cds tt c = Ok tt c' ->
  (Forall (fun cd => cd_isDeletedCol cd = false) cds
   /\ deletedColumnPerTable_ c' = deletedColumnPerTable_ c)
  \/ (exists before cd after,
        cds = before ++ cd :: after
        /\ Forall (fun cd => cd_isDeletedCol cd = false) (before ++ after)
        /\ cd_isDeletedCol cd = true
        /\ td_hasDeletedCol td = true
        /\ deletedColumnPerTable_ c !! td_tableId td = None
        /\ deletedColumnPerTable_ c' = <[td_tableId td := cd]> (deletedColumnPerTable_ c)).
Proof.
  induction cds as [|cd cds IH]; intros c c' R; simpl in R.
  - unfold ret in R. injection R as <-. left. auto.
  - apply bind_Ok in R as ([] & c1 & Ra & R).
    apply add_column_Ok in Ra as [[Ed E1]|(Ed & Hv & Hnone & E1)].
    + destruct (IH _ _ R) as [[Hall E2]|(before & cd0 & after & -> & Hall & ? & ? & ? & E2)].
      * left. split; [constructor; assumption | congruence].
      * right. exists (cd :: before), cd0, after.
        split; [reflexivity|]. split; [simpl; constructor; assumption|].
        rewrite <- E1. auto.
    + eapply add_columns_marked in R as [E2 Hall]; [|rewrite E1; apply lookup_insert_eq].
      right. exists [], cd, cds. simpl. rewrite E2, E1. auto 10.
Qed.

(** The marker of a new table in [deletedColumnPerTable_]. *)
Lemma createTable_marker td cols defs isLogicalTable c td' c' :
  createTable td cols defs isLogicalTable c = Ok td' c' ->
  if td_hasDeletedCol td then
    exists cd,
      deletedColumnPerTable_ c !! td_tableId td' = None
      /\ deletedColumnPerTable_ c' = <[td_tableId td' := cd]> (deletedColumnPerTable_ c)
      /\ getMetadataForColumnById (td_tableId td') (td_nColumns td') c' = Some cd
      /\ cd_columnName cd = "$deleted$"
      /\ cd_isSystemCol cd = true
      /\ cd_isDeletedCol cd = true
      /\ cd_columnId cd = td_nColumns td'
  else deletedColumnPerTable_ c' = deletedColumnPerTable_ c.
Proof.
  intros R.
  apply createTable_Ok in R as (columns & cds & dds & c1 & c2 & c3 & Ex & Rb & Rp & Ra & Re).
  cbv zeta in Rp. set (declared := columns ++ system_columns td) in *.
  apply BEGIN_Ok in Rb as [_ ->]. apply END_Ok in Re as ->.
  assert (Hp : td' = td_set_tableId (td_tableId td')
                       (td_set_nColumns (Z.of_nat (length declared)) td)
               /\ numbered (td_tableId td') 1 declared cds
               /\ deletedColumnPerTable_ c2 = deletedColumnPerTable_ c).
  { destruct (decide _) as [Hd|Hd] in Rp.
    - apply persist_table_Ok in Rp as (-> & N & Hreg & _). simpl in *.
      unfold table_registry in Hreg. simpl in Hreg. injection Hreg as ? ? ? ? ? ? ?.
      auto.
    - pose proof (keeps_Ok _ _ _ _ _ (temp_table_deleted _ _) Rp) as Hk.
      apply temp_table_Ok in Rp as (-> & N & _). simpl in *. auto. }
  destruct Hp as (Etd & Hnum & Hdel2).
  assert (Ever : td_hasDeletedCol td' = td_hasDeletedCol td) by (rewrite Etd; reflexivity).
  assert (Encol : td_nColumns td' = Z.of_nat (length declared)) by (rewrite Etd; reflexivity).
  unfold addTableToMap in Ra.
  apply bind_Ok in Ra as ([] & c4 & Rm & Ra). unfold modify in Rm. injection Rm as <-.
  apply bind_Ok in Ra as ([] & c5 & Rc & Rd).
  pose proof (keeps_Ok _ _ _ _ _
                (keeps_foldM deletedColumnPerTable_ _ _ _ (fun b a => add_dict_deleted a)) Rd)
    as Hdel3.
  pose proof (keeps_Ok _ _ _ _ _
                (keeps_foldM columnDescriptorMapById_ _ _ _
                   (fun b a => add_dict_columns a)) Rd) as Hcol3.
  pose proof (add_columns_byId _ _ _ _ Rc) as Hcols.
  apply add_columns_marker in Rc. simpl in Rc, Hcols.
  unfold getMetadataForColumnById. simpl.
  rewrite Hdel3, Hcol3, Hcols.
  destruct (td_hasDeletedCol td) eqn:Ev.
  - (* the marker is the last declared column *)
    assert (Hlast : declared !! (length columns + 1)%nat = Some deleted_cd).
    { unfold declared, system_columns. rewrite Ev.
      rewrite lookup_app_r by lia. replace (length columns + 1 - length columns)%nat
        with 1%nat by lia. reflexivity. }
    assert (Hlen : length declared = (length columns + 2)%nat).
    { unfold declared, system_columns. rewrite Ev, length_app. simpl. lia. }
    destruct (numbered_lookup _ _ _ _ _ _ Hnum Hlast) as (cd' & L' & Hreg).
    pose proof (register_columns_lookup (columnDescriptorMapById_ c2) _ _ _ _ _ _ Hnum L')
      as Hlk.
    replace (1 + Z.of_nat (length columns + 1)) with (td_nColumns td') in Hreg, Hlk
      by (rewrite Encol, Hlen; lia).
    assert (Hflag : cd_isDeletedCol cd' = true /\ cd_columnName cd' = "$deleted$"
                    /\ cd_isSystemCol cd' = true /\ cd_columnId cd' = td_nColumns td').
    { rewrite Hreg. simpl. auto. }
    destruct Hflag as (Hf1 & Hf2 & Hf3 & Hf4).
    destruct Rc as [[Hall _]|(before & cd0 & after & Ecds & Hall & Hd0 & _ & Hnone & Ed)].
    { exfalso. apply list_elem_of_lookup_2 in L'. rewrite Forall_forall in Hall.
      apply Hall in L'. congruence. }
    assert (cd0 = cd').
    { apply list_elem_of_lookup_2 in L'. rewrite Ecds in L'.
      apply elem_of_app in L' as [Hin|Hin].
      - rewrite Forall_forall in Hall. rewrite (Hall cd') in Hf1; [discriminate|].
        apply elem_of_app. auto.
      - apply elem_of_cons in Hin as [->|Hin]; [reflexivity|].
        rewrite Forall_forall in Hall. rewrite (Hall cd') in Hf1; [discriminate|].
        apply elem_of_app. auto. }
    subst cd0. rewrite Ed, <- Hdel2. simpl in Hnone.
    exists cd'. auto 10.
  - destruct Rc as [[_ Ed]|(before & cd0 & after & _ & _ & _ & Hv & _)].
    + rewrite Ed, <- Hdel2. reflexivity.
    + rewrite Ever in Hv. discriminate.
Qed.

(** X7: when [createTable] returns a versioned table, [getDeletedColumn]
    of the descriptor registered for the table finds its delete marker,
    the system column [$deleted$] registered under the last column id, and
    the markers of the other tables are as before; for a table that is not
    versioned no marker changes. *)
Theorem createTable_deleted_column td cols defs isLogicalTable c td' c' :
  createTable td cols defs isLogicalTable c = Ok td' c' ->
  if td_hasDeletedCol td then
    (exists registered cd,
       getMetadataForTableById (td_tableId td') c' = Some registered
       /\ getDeletedColumn registered c' = Some cd
       /\ getMetadataForColumnById (td_tableId td') (td_nColumns td') c' = Some cd
       /\ cd_columnName cd = "$deleted$"
       /\ cd_isSystemCol cd = true
       /\ cd_isDeletedCol cd = true
       /\ cd_columnId cd = td_nColumns td')
    /\ (forall t, td_tableId t <> td_tableId td' ->
          getDeletedColumn t c' = getDeletedColumn t c)
  else forall t, getDeletedColumn t c' = getDeletedColumn t c.
Proof.
  intros R. pose proof (createTable_marker _ _ _ _ _ _ _ R) as Hm.
  apply createTable_effect in R as (_ & Hid & _).
  unfold getDeletedColumn. destruct (td_hasDeletedCol td).
  - destruct Hm as (cd & _ & Ed & Hcol & Hflags). rewrite Ed. split.
    + exists td', cd. unfold getMetadataForTableById.
      rewrite Hid, !lookup_insert_eq. auto 10.
    + intros t Ht. apply lookup_insert_ne. congruence.
  - intros t. rewrite Hm. reflexivity.
Qed.

End DeletedColumn.


Section PhysicalTables.
Context `{Headers}.
Import Catalog.

(** What [createShardedTable] leaves in the registries. *)
Lemma createShardedTable_Ok td cols defs c u c' :
  0 < td_nShards td ->
  createShardedTable td cols defs c = Ok u c' ->
  exists tdl physical,
    tableDescriptorMapById_ c' !! td_tableId tdl = Some tdl
    /\ td_tableName tdl = td_tableName td
    /\ length physical = Z.to_nat (td_nShards td)
    /\ logicalToPhysicalTableMapById_ c' !! td_tableId tdl = Some physical
    /\ (forall k pid, physical !! k = Some pid ->
          exists tdp,
            tableDescriptorMapById_ c' !! pid = Some tdp
            /\ td_tableId tdp = pid
            /\ td_tableName tdp
               = generatePhysicalTableName (td_tableName td) (Z.of_nat k + 1)
            /\ td_shard tdp = Z.of_nat k).
Proof.
  intros HK R. unfold createShardedTable in R.
  destruct (decide _) as [_|_] in R; [inv_all|].
  apply bind_Ok in R as (tdl & c1 & Rl & R).
  apply bind_Ok in R as (physical & c2 & Rs & R).
  apply createTable_effect in Rl as (Etdl & Hid1 & Hl1 & Hr1 & _ & Htx1 & W1 & W1').
  apply create_shards_Ok in Rs
    as (new & Enew & Hlen & Wle & Hbound & Hnd & Hlook & Hother & Hl2 & Hr2 & _).
  simpl in Enew. subst new. rewrite length_seqZ in Hlen.
  destruct (decide (physical = [])) as [->|_] in R.
  { simpl in Hlen. lia. }
  apply bind_Ok in R as (present & c3 & Rp & R). unfold gets in Rp. injection Rp as <- <-.
  apply bind_Ok in R as (u1 & c3 & Rm & R). unfold modify in Rm. injection Rm as _ <-.
  apply bind_Ok in R as (u2 & c4 & Rc & R). apply CHECK_Ok in Rc as [Hfresh ->].
  apply negb_true_iff, bool_decide_eq_false in Hfresh.
  rewrite bool_decide_eq_false_2 in R by exact Hfresh.
  assert (Hlin : td_tableId tdl ∉ physical).
  { intros Hin. rewrite Forall_forall in Hbound. apply Hbound in Hin. lia. }
  pose proof (keeps_Ok _ _ _ _ _ (updateLogicalToPhysicalTableMap_registry _) R) as Hk.
  simpl in Hk. injection Hk as Hk1 Hk2.
  exists tdl, physical. rewrite Hk1, Hk2.
  split; [rewrite (Hother _ Hlin), Hid1; apply lookup_insert_eq|].
  split; [rewrite Etdl; reflexivity|]. split; [exact Hlen|].
  split; [apply lookup_insert_eq|].
  intros k pid L. pose proof (lookup_lt_Some _ _ _ L) as Hlt.
  destruct (Hlook k (1 + Z.of_nat k) pid) as (tdp & ? & ? & ? & ?);
    [apply lookup_seqZ_lt; lia|exact L|].
  exists tdp. replace (Z.of_nat k + 1) with (1 + Z.of_nat k) by lia.
  repeat split; try assumption. lia.
Qed.

(** X8: for a table without shards [getPhysicalTablesDescriptors] returns
    the descriptor it was given.  After [createShardedTable] with K > 0
    shards it returns, for the logical table, the K physical tables in the
    order of their shards: the k-th (from 0) is registered, is named
    <name>_shard_#<k+1> and has shard index k. *)
Theorem getPhysicalTablesDescriptors_shards td cols defs c u c' :
  (logicalToPhysicalTableMapById_ c !! td_tableId td = None ->
   getPhysicalTablesDescriptors td c = Ok [Some td] c)
  /\ (0 < td_nShards td ->
      createShardedTable td cols defs c = Ok u c' ->
      exists tdl tds,
        getMetadataForTableById (td_tableId tdl) c' = Some tdl
        /\ td_tableName tdl = td_tableName td
        /\ getPhysicalTablesDescriptors tdl c' = Ok tds c'
        /\ length tds = Z.to_nat (td_nShards td)
        /\ forall k otd, tds !! k = Some otd ->
             exists tdp,
               otd = Some tdp
               /\ getMetadataForTableById (td_tableId tdp) c' = Some tdp
               /\ td_tableName tdp
                  = td_tableName td +:+ "_shard_#" +:+ to_string (Z.of_nat k + 1)
               /\ td_shard tdp = Z.of_nat k).
Proof.
  split.
  - intros L. unfold getPhysicalTablesDescriptors, bind, gets. rewrite L. reflexivity.
  - intros HK R.
    destruct (createShardedTable_Ok _ _ _ _ _ _ HK R)
      as (tdl & physical & Hl & Hname & Hlen & Hmap & Hphys).
    exists tdl, ((fun i => getMetadataForTableById i c') <$> physical).
    split; [exact Hl|]. split; [exact Hname|]. split.
    { unfold getPhysicalTablesDescriptors, bind, gets. rewrite Hmap.
      assert (physical <> []) by (intros ->; simpl in Hlen; lia).
      rewrite bool_decide_eq_false_2 by assumption. reflexivity. }
    split; [rewrite length_fmap; exact Hlen|].
    intros k otd L. rewrite list_lookup_fmap in L.
    destruct (physical !! k) as [pid|] eqn:Lk; [|discriminate]. simpl in L.
    injection L as <-.
    destruct (Hphys k pid Lk) as (tdp & Lp & Hid & Hn & Hs).
    exists tdp. unfold getMetadataForTableById. rewrite Hid.
    split; [exact Lp|]. split; [exact Lp|]. split; [exact Hn | exact Hs].
Qed.

End PhysicalTables.


Section ColumnListing.
Context `{Headers}.
Import Catalog.

Variable get_physical_cols : SQLTypeInfo -> Z.

Lemma fetch_columns_sublist tid fS fV fP ids : forall skip acc c l c',
  fetch_columns get_physical_cols tid fS fV fP ids skip acc c = Ok l c' ->
  c' = c
  /\ exists new,
       l = acc ++ new
       /\ new `sublist_of` omap (fun i => getMetadataForColumnById tid i c) ids
       /\ Forall (fun cd => (fS = false -> cd_isSystemCol cd = false)
                            /\ (fV = false -> cd_isVirtualCol cd = false)) new.
Proof.
  induction ids as [|i ids IH]; intros skip acc c l c' R; simpl in R.
  - unfold ret in R. injection R as <- <-. split; [reflexivity|].
    exists []. rewrite app_nil_r. split; [reflexivity|]. split; [constructor|constructor].
  - assert (Hskip : forall new,
               new `sublist_of` omap (fun i => getMetadataForColumnById tid i c) ids ->
               new `sublist_of` omap (fun i => getMetadataForColumnById tid i c) (i :: ids)).
    { intros new Hs. simpl. destruct (getMetadataForColumnById tid i c);
        [apply sublist_cons|]; exact Hs. }
    destruct (negb fP && bool_decide (0 < skip)).
    { apply IH in R as (-> & new & -> & Hs & Hall). split; [reflexivity|].
      exists new. auto. }
    apply bind_Ok in R as (ocd & c1 & Rg & R). unfold gets in Rg. injection Rg as <- <-.
    apply bind_Ok in R as (cd & c1 & Rd & R). apply deref_Ok in Rd as [L ->].
    destruct (negb fS && cd_isSystemCol cd) eqn:Es.
    { apply IH in R as (-> & new & -> & Hs & Hall). split; [reflexivity|].
      exists new. auto. }
    destruct (negb fV && cd_isVirtualCol cd) eqn:Ev.
    { apply IH in R as (-> & new & -> & Hs & Hall). split; [reflexivity|].
      exists new. auto. }
    apply IH in R as (-> & new & -> & Hs & Hall). split; [reflexivity|].
    exists (cd :: new). rewrite <- app_assoc. split; [reflexivity|]. split.
    + simpl. rewrite L. apply sublist_skip. exact Hs.
    + constructor; [|exact Hall]. split; intros ->; simpl in *; assumption.
Qed.

Lemma fetch_columns_all tid fS fV ids : forall skip acc c,
  Forall (fun i => is_Some (getMetadataForColumnById tid i c)) ids ->
  fetch_columns get_physical_cols tid fS fV true ids skip acc c
  = Ok (acc ++ filter (fun cd => (fS = false -> cd_isSystemCol cd = false)
                                 /\ (fV = false -> cd_isVirtualCol cd = false))
                      (omap (fun i => getMetadataForColumnById tid i c) ids)) c.
Proof.
  induction ids as [|i ids IH]; intros skip acc c Hall; simpl.
  - rewrite app_nil_r. reflexivity.
  - apply Forall_cons in Hall as [[cd L] Hall].
    unfold bind, gets. rewrite L. simpl.
    destruct (decide ((fS = false -> cd_isSystemCol cd = false)
                      /\ (fV = false -> cd_isVirtualCol cd = false))) as [Ha|Hn].
    + rewrite filter_cons_True by exact Ha. destruct Ha as [Ha1 Ha2].
      destruct fS, fV; simpl; rewrite ?Ha1, ?Ha2 by reflexivity; simpl;
        rewrite IH by exact Hall; rewrite <- app_assoc; reflexivity.
    + rewrite filter_cons_False by exact Hn.
      destruct fS, fV, (cd_isSystemCol cd) eqn:Es, (cd_isVirtualCol cd) eqn:Ev; simpl;
        try (exfalso; apply Hn; split; intros; congruence);
        rewrite IH by exact Hall; reflexivity.
Qed.

Lemma fetch_columns_missing tid fS fV ids : forall skip acc c,
  Exists (fun i => getMetadataForColumnById tid i c = None) ids ->
  fetch_columns get_physical_cols tid fS fV true ids skip acc c = Fatal.
Proof.
  induction ids as [|i ids IH]; intros skip acc c Hex; [inversion Hex|].
  simpl. unfold bind, gets.
  destruct (getMetadataForColumnById tid i c) as [cd|] eqn:L; [|reflexivity].
  apply Exists_cons in Hex as [Hex|Hex]; [congruence|]. simpl.
  destruct (negb fS && cd_isSystemCol cd); [apply IH, Hex|].
  destruct (negb fV && cd_isVirtualCol cd); apply IH, Hex.
Qed.

Lemma getAllColumnMetadataForTable_all td acc fS fV c :
  (forall i, 1 <= i <= td_nColumns td ->
     is_Some (getMetadataForColumnById (td_tableId td) i c)) ->
  getAllColumnMetadataForTable get_physical_cols td acc fS fV true c
  = Ok (acc ++ filter (fun cd => (fS = false -> cd_isSystemCol cd = false)
                                 /\ (fV = false -> cd_isVirtualCol cd = false))
                      (omap (fun i => getMetadataForColumnById (td_tableId td) i c)
                            (seqZ 1 (td_nColumns td)))) c.
Proof.
  intros Hall. unfold getAllColumnMetadataForTable. apply fetch_columns_all.
  apply Forall_forall. intros i Hi. apply elem_of_seqZ in Hi. apply Hall. lia.
Qed.

(** X9: [getAllColumnMetadataForTable] changes nothing and appends to the
    list it is given columns registered for the table under the ids 1 to
    [nColumns], in the order of their ids and each at most once; none of
    them is a system column unless system columns are asked for, none a
    virtual column unless virtual columns are asked for.  When physical
    columns are asked for, it returns every such column, and stops the
    program if an id in the range has no column. *)
Theorem getAllColumnMetadataForTable_filters td acc fS fV c :
  let registered :=
    omap (fun i => getMetadataForColumnById (td_tableId td) i c)
         (seqZ 1 (td_nColumns td)) in
  let asked := fun cd => (fS = false -> cd_isSystemCol cd = false)
                         /\ (fV = false -> cd_isVirtualCol cd = false) in
  (forall fP l c',
     getAllColumnMetadataForTable get_physical_cols td acc fS fV fP c = Ok l c' ->
     c' = c
     /\ exists new, l = acc ++ new /\ new `sublist_of` registered /\ Forall asked new)
  /\ ((forall i, 1 <= i <= td_nColumns td ->
         is_Some (getMetadataForColumnById (td_tableId td) i c)) ->
      getAllColumnMetadataForTable get_physical_cols td acc fS fV true c
      = Ok (acc ++ filter asked registered) c)
  /\ ((exists i, 1 <= i <= td_nColumns td
                 /\ getMetadataForColumnById (td_tableId td) i c = None) ->
      getAllColumnMetadataForTable get_physical_cols td acc fS fV true c = Fatal).
Proof.
  cbv zeta. unfold getAllColumnMetadataForTable. split; [|split].
  - intros fP l c'. apply fetch_columns_sublist.
  - intros Hall. apply (getAllColumnMetadataForTable_all td acc fS fV c Hall).
  - intros (i & Hi & L). apply fetch_columns_missing. apply Exists_exists.
    exists i. split; [apply elem_of_seqZ; lia | exact L].
Qed.

End ColumnListing.


Section CreatedColumns.
Context `{Headers}.
Import Catalog.

Variable get_physical_cols : SQLTypeInfo -> Z.

Lemma omap_all_Some {A B} (f : A -> option B) (l : list A) : forall new : list B,
  f <$> l = Some <$> new -> omap f l = new.
Proof.
  induction l as [|a l IH]; intros [|b new] E; simpl in *; try discriminate; auto.
  injection E as Ea E. rewrite Ea. f_equal. apply IH. exact E.
Qed.

Lemma filter_all {A} (P : A -> Prop) `{!forall x, Decision (P x)} (l : list A) :
  (forall x, x ∈ l -> P x) -> filter P l = l.
Proof.
  induction l as [|a l IH]; intros Hall; [reflexivity|].
  rewrite filter_cons_True by (apply Hall; left).
  f_equal. apply IH. intros x Hx. apply Hall. right. exact Hx.
Qed.

Lemma numbered_registered m tid k columns new :
  numbered tid k columns new ->
  omap (fun i => register_columns m new !! (tid, i)) (seqZ k (Z.of_nat (length new)))
  = new.
Proof.
  intros Hnum. apply omap_all_Some. apply list_eq. intros i.
  rewrite !list_lookup_fmap.
  destruct (new !! i) as [cd'|] eqn:L; simpl.
  - pose proof (lookup_lt_Some _ _ _ L) as Hlt.
    rewrite lookup_seqZ_lt by lia. simpl. f_equal.
    apply (register_columns_lookup m _ _ _ _ _ _ Hnum L).
  - apply lookup_ge_None in L. rewrite lookup_seqZ_ge by lia. reflexivity.
Qed.

Lemma numbered_names tid columns : forall k new,
  numbered tid k columns new ->
  cd_columnName <$> new = cd_columnName <$> columns
  /\ cd_columnId <$> new = seqZ k (Z.of_nat (length columns))
  /\ Forall (fun cd => cd_tableId cd = tid) new
  /\ cd_isSystemCol <$> new = cd_isSystemCol <$> columns
  /\ cd_isVirtualCol <$> new = cd_isVirtualCol <$> columns.
Proof.
  induction columns as [|cd columns IH]; intros k [|cd' new] Hn; simpl in Hn;
    try contradiction.
  - repeat split; constructor.
  - destruct Hn as [Hr Hn]. destruct (IH _ _ Hn) as (E1 & E2 & E3 & E4 & E5).
    destruct (registered_ids _ _ _ _ Hr) as [Ht Hk].
    destruct (registered_fields _ _ _ _ Hr) as (Hname & Hs & Hv & _).
    rewrite !fmap_cons, E1, E2, E4, E5, Hname, Hk, Hs, Hv.
    split; [reflexivity|]. split.
    { replace (Z.of_nat (length (cd :: columns)))
        with (Z.succ (Z.of_nat (length columns))) by (simpl; lia).
      rewrite (seqZ_cons k) by lia. do 2 f_equal; lia. }
    split; [constructor; assumption|]. split; reflexivity.
Qed.

(** X10: the columns of a table that [createTable] returned, listed by
    [getAllColumnMetadataForTable] with the system, virtual and physical
    columns, are the declared columns (geometry columns with their
    physical columns) in the declared order, then [rowid], then
    [$deleted$] if the table is versioned, under the ids 1, 2, ...; listed
    without the system and virtual columns, they are the declared columns,
    provided none of these is itself marked system or virtual. *)
Theorem createTable_lists_columns td cols defs isLogicalTable c td' c' :
  createTable td cols defs isLogicalTable c = Ok td' c' ->
  exists columns l,
    expand_columns cols [] = inr columns
    /\ getAllColumnMetadataForTable get_physical_cols td' [] true true true c' = Ok l c'
    /\ cd_columnName <$> l
       = (cd_columnName <$> columns) ++ (cd_columnName <$> system_columns td)
    /\ cd_columnId <$> l = seqZ 1 (td_nColumns td')
    /\ Forall (fun cd => cd_tableId cd = td_tableId td') l
    /\ (Forall (fun cd => cd_isSystemCol cd = false /\ cd_isVirtualCol cd = false)
               columns ->
        getAllColumnMetadataForTable get_physical_cols td' [] false false true c'
        = Ok (take (length columns) l) c').
Proof.
  intros R.
  apply createTable_Ok in R as (columns & cds & dds & c1 & c2 & c3 & Ex & Rb & Rp & Ra & Re).
  cbv zeta in Rp. set (declared := columns ++ system_columns td) in *.
  apply BEGIN_Ok in Rb as [_ ->]. apply END_Ok in Re as ->.
  apply addTableToMap_Ok in Ra as (_ & _ & _ & _ & _ & Hcols).
  assert (Hp : td_nColumns td' = Z.of_nat (length declared)
               /\ numbered (td_tableId td') 1 declared cds).
  { destruct (decide _) as [Hd|Hd] in Rp.
    - apply persist_table_Ok in Rp as (-> & N & _). simpl in *. auto.
    - apply temp_table_Ok in Rp as (-> & N & _). simpl in *. auto. }
  destruct Hp as [Encol Hnum].
  pose proof (numbered_length _ _ _ _ Hnum) as Hlen.
  destruct (numbered_names _ _ _ _ Hnum) as (En & Ei & Et & Es & Ev).
  set (c' := set_conn _ c3).
  assert (Hreg : omap (fun i => getMetadataForColumnById (td_tableId td') i c')
                      (seqZ 1 (td_nColumns td')) = cds).
  { unfold getMetadataForColumnById, c'. simpl. rewrite Hcols, Encol, <- Hlen.
    apply numbered_registered with (columns := declared). exact Hnum. }
  assert (Hall : forall i, 1 <= i <= td_nColumns td' ->
             is_Some (getMetadataForColumnById (td_tableId td') i c')).
  { intros i Hi. unfold getMetadataForColumnById, c'. simpl. rewrite Hcols.
    destruct (lookup_lt_is_Some_2 cds (Z.to_nat (i - 1))) as [cd' L]; [lia|].
    exists cd'. replace i with (1 + Z.of_nat (Z.to_nat (i - 1))) by lia.
    apply (register_columns_lookup _ _ _ _ _ _ _ Hnum L). }
  pose proof (getAllColumnMetadataForTable_all get_physical_cols td' [] true true c' Hall)
    as Hfull.
  pose proof (getAllColumnMetadataForTable_all get_physical_cols td' [] false false c' Hall)
    as Huser.
  rewrite Hreg in Hfull, Huser. simpl in Hfull, Huser.
  exists columns, cds. split; [exact Ex|]. split.
  { rewrite Hfull. f_equal. apply filter_all. intros cd _.
    split; discriminate. }
  split; [rewrite En; unfold declared; apply fmap_app|].
  split; [rewrite Ei, Encol; reflexivity|]. split; [exact Et|].
  intros Huc. rewrite Huser. f_equal.
  (* the registered columns are the declared ones, then the system columns *)
  assert (Esplit : cds = take (length columns) cds ++ drop (length columns) cds)
    by (symmetry; apply take_drop).
  rewrite Esplit at 1. rewrite filter_app.
  assert (Hs1 : cd_isSystemCol <$> take (length columns) cds = cd_isSystemCol <$> columns).
  { rewrite fmap_take, Es. unfold declared. rewrite fmap_app, take_app_length'; [reflexivity|].
    rewrite length_fmap. reflexivity. }
  assert (Hv1 : cd_isVirtualCol <$> take (length columns) cds = cd_isVirtualCol <$> columns).
  { rewrite fmap_take, Ev. unfold declared. rewrite fmap_app, take_app_length'; [reflexivity|].
    rewrite length_fmap. reflexivity. }
  assert (Hs2 : cd_isSystemCol <$> drop (length columns) cds
                = cd_isSystemCol <$> system_columns td).
  { rewrite fmap_drop, Es. unfold declared. rewrite fmap_app, drop_app_length'; [reflexivity|].
    rewrite length_fmap. reflexivity. }
  rewrite (filter_all _ (take _ _)), (filter_none _ (drop _ _)).
  - apply app_nil_r.
  - intros cd Hin [Hsys _]. specialize (Hsys eq_refl).
    apply (list_elem_of_fmap_2 cd_isSystemCol) in Hin. rewrite Hs2, Hsys in Hin.
    unfold system_columns in Hin. destruct (td_hasDeletedCol td); simpl in Hin;
      repeat (apply elem_of_cons in Hin as [Hin|Hin]; [discriminate|]); inversion Hin.
  - intros cd Hin.
    assert (Hsys : cd_isSystemCol cd ∈ cd_isSystemCol <$> columns)
      by (rewrite <- Hs1; apply list_elem_of_fmap_2; exact Hin).
    assert (Hvir : cd_isVirtualCol cd ∈ cd_isVirtualCol <$> columns)
      by (rewrite <- Hv1; apply list_elem_of_fmap_2; exact Hin).
    apply list_elem_of_fmap in Hsys as (x & Ex1 & Hx).
    apply list_elem_of_fmap in Hvir as (y & Ey1 & Hy).
    rewrite Forall_forall in Huc.
    destruct (Huc x Hx) as [? _]. destruct (Huc y Hy) as [_ ?].
    split; intros _; congruence.
Qed.

End CreatedColumns.


(** ** The rows of the columns of a new table *)

Section ColumnRows.
Context `{Headers}.
Import Catalog.

Lemma persist_column_row td defs isL k cds dds cd c st' c' :
  persist_column td defs isL (k, cds, dds) cd c = Ok st' c' ->
  exists cd',
    cd_columnName cd' = cd_columnName cd
    /\ mapd_columns (db (sqliteConnector_ c'))
       = mapd_columns (db (sqliteConnector_ c)) ++ [column_row (td_tableId td) k cd']
    /\ ~ Exists (fun r => cr_tableid r = td_tableId td
                          /\ (cr_columnid r = k \/ cr_name r = cd_columnName cd))
                (mapd_columns (db (sqliteConnector_ c)))
    /\ exists dds', st' = (k + 1, cds ++ [cd_set_ids (td_tableId td) k cd'], dds').
Proof.
  unfold persist_column. intros R.
  apply bind_Ok in R as ([cd1 dds1] & c1 & R1 & R).
  assert (K : mapd_columns (db (sqliteConnector_ c1))
              = mapd_columns (db (sqliteConnector_ c))).
  { eapply (keeps_Ok (fun c => mapd_columns (db (sqliteConnector_ c)))); [|exact R1].
    unfold setColumnSharedDictionary, setColumnDictionary, addReferenceToForeignDict,
      get_foreign_col.
    repeat (solve_keeps; cbv zeta). }
  assert (N : cd_columnName cd1 = cd_columnName cd).
  { destruct (decide _) in R1.
    - apply bind_Ok in R1 as ([[b cd2] dds2] & c2 & Rs & R1).
      apply setColumnSharedDictionary_retyped in Rs.
      destruct b.
      + unfold ret in R1. injection R1 as <- _ _. rewrite Rs. reflexivity.
      + apply setColumnDictionary_retyped in R1. rewrite R1, Rs. reflexivity.
    - unfold ret in R1. injection R1 as <- _ _. reflexivity. }
  apply bind_Ok in R as ([] & c2 & Rq & R). unfold ret in R. injection R as <- <-.
  apply query_Ok in Rq as (d' & f' & Es & ->).
  unfold insert_column in Es. destruct (decide _) as [|Hn] in Es; [discriminate|].
  injection Es as <-. simpl. exists cd1. rewrite K.
  split; [exact N|]. split; [reflexivity|]. split; [|eauto].
  rewrite K in Hn. simpl in Hn. rewrite N in Hn. exact Hn.
Qed.

Lemma persist_columns_rows td defs isL columns : forall k cds dds c k' cds' dds' c',
  foldM (persist_column td defs isL) columns (k, cds, dds) c = Ok (k', cds', dds') c' ->
  exists rows,
    mapd_columns (db (sqliteConnector_ c')) = mapd_columns (db (sqliteConnector_ c)) ++ rows
    /\ cr_name <$> rows = cd_columnName <$> columns
    /\ cr_columnid <$> rows = seqZ k (Z.of_nat (length columns))
    /\ Forall (fun r => cr_tableid r = td_tableId td) rows
    /\ NoDup (cr_name <$> rows)
    /\ (forall r, r ∈ mapd_columns (db (sqliteConnector_ c)) ->
                  cr_tableid r = td_tableId td -> cr_name r ∉ cr_name <$> rows).
Proof.
  induction columns as [|cd columns IH]; intros k cds dds c k' cds' dds' c' R; simpl in R.
  - unfold ret in R. injection R as _ _ _ <-. exists []. rewrite app_nil_r.
    repeat split; try reflexivity; try constructor. intros r _ _ Hin. inversion Hin.
  - apply bind_Ok in R as (st1 & c1 & R1 & R).
    apply persist_column_row in R1 as (cd' & N & Hrows & Hfresh & dds1 & ->).
    apply IH in R as (rows & Hrows' & Hnames & Hids & Htid & Hnd & Hold).
    exists (column_row (td_tableId td) k cd' :: rows).
    rewrite Hrows', Hrows, <- app_assoc, !fmap_cons, Hnames, Hids.
    change (cr_name (column_row (td_tableId td) k cd')) with (cd_columnName cd').
    change (cr_columnid (column_row (td_tableId td) k cd')) with k.
    split; [reflexivity|]. split; [rewrite N; reflexivity|].
    split.
    { replace (Z.of_nat (length (cd :: columns)))
        with (Z.succ (Z.of_nat (length columns))) by (simpl; lia).
      rewrite (seqZ_cons k) by lia. f_equal. f_equal; lia. }
    split; [constructor; [reflexivity|exact Htid]|].
    rewrite <- Hnames. split.
    { apply NoDup_cons. split; [|exact Hnd].
      apply (Hold (column_row (td_tableId td) k cd')); [|reflexivity].
      rewrite Hrows. apply elem_of_app. right. left. }
    intros r Hr Ht Hin. apply elem_of_cons in Hin as [E|Hin].
    + apply Hfresh. apply Exists_exists. exists r. split; [exact Hr|].
      split; [exact Ht|]. right. rewrite E, N. reflexivity.
    + apply (Hold r); [|exact Ht|exact Hin]. rewrite Hrows. apply elem_of_app. auto.
Qed.

Lemma persist_table_columns td columns defs isL c td' cds dds c' :
  persist_table td columns defs isL c = Ok (td', cds, dds) c' ->
  exists rows,
    mapd_columns (db (sqliteConnector_ c')) = mapd_columns (db (sqliteConnector_ c)) ++ rows
    /\ cr_name <$> rows = cd_columnName <$> columns
    /\ cr_columnid <$> rows = seqZ 1 (Z.of_nat (length columns))
    /\ Forall (fun r => cr_tableid r = td_tableId td') rows
    /\ NoDup (cr_name <$> rows)
    /\ (forall r, r ∈ mapd_columns (db (sqliteConnector_ c)) ->
                  cr_tableid r = td_tableId td' -> cr_name r ∉ cr_name <$> rows).
Proof.
  unfold persist_table, select. intros R.
  apply try_catch_Ok in R as [R|(e & s1 & _ & R)];
    [|apply bind_Ok in R as (? & ? & _ & R); discriminate].
  apply bind_Ok in R as ([] & c1 & Rins & R).
  apply query_Ok in Rins as (d1 & f1 & Eins & ->).
  assert (Ecols : mapd_columns d1 = mapd_columns (db (sqliteConnector_ c))).
  { unfold insert_table in Eins. destruct (decide _) in Eins; [discriminate|].
    injection Eins as <-. reflexivity. }
  apply bind_Ok in R as (otid & c2 & Rg & R). unfold gets in Rg.
  injection Rg as Eo E2. subst c2 otid.
  apply bind_Ok in R as (tid & c2 & Rd & R). apply deref_Ok in Rd as [_ E2]. subst c2.
  cbv zeta in R.
  apply bind_Ok in R as ([[k1 cds1] dds1] & c2 & Rl & R).
  apply persist_columns_rows in Rl as (rows & Hrows & Hrest).
  simpl in Hrows, Hrest.
  assert (Efin : c' = c2 \/ exists d3 f3,
             insert_view tid (td_viewSQL td) (db (sqliteConnector_ c2)) = Some d3
             /\ c' = set_conn (mkConn d3 (txn (sqliteConnector_ c2)) f3) c2).
  { apply bind_Ok in R as ([] & c3 & Rv & R). unfold ret in R. injection R as _ _ _ <-.
    simpl in Rv. destruct (td_isView td).
    - apply query_Ok in Rv as (d3 & f3 & E3 & ->). right. eauto.
    - unfold ret in Rv. injection Rv as <-. left. reflexivity. }
  assert (Etd : td' = td_set_tableId tid td).
  { apply bind_Ok in R as ([] & c3 & Rv & R). unfold ret in R. injection R as <- _ _ _.
    reflexivity. }
  subst td'. simpl.
  assert (Ecols' : mapd_columns (db (sqliteConnector_ c'))
                   = mapd_columns (db (sqliteConnector_ c2))).
  { destruct Efin as [->|(d3 & f3 & E3 & ->)]; [reflexivity|].
    unfold insert_view in E3. simpl. injection E3 as <-. reflexivity. }
  exists rows. rewrite Ecols', Hrows, Ecols. split; [reflexivity|].
  rewrite Ecols in Hrest. exact Hrest.
Qed.

(** X25: when [createTable] returns for a table on disk, [mapd_columns] has
    gained one row per column of the table, in the order of the columns
    and under the column ids 1, 2, ..., and the names of these columns
    (declared, physical, [rowid], [$deleted$]) are pairwise distinct: a
    table with two columns of one name is not created. *)
Theorem createTable_distinct_columns td cols defs isLogicalTable c td' c' :
  td_persistenceLevel td = DISK_LEVEL ->
  createTable td cols defs isLogicalTable c = Ok td' c' ->
  exists columns rows,
    expand_columns cols [] = inr columns
    /\ NoDup (cd_columnName <$> (columns ++ system_columns td))
    /\ mapd_columns (db (sqliteConnector_ c'))
       = mapd_columns (db (sqliteConnector_ c)) ++ rows
    /\ cr_name <$> rows = cd_columnName <$> (columns ++ system_columns td)
    /\ cr_columnid <$> rows = seqZ 1 (td_nColumns td')
    /\ Forall (fun r => cr_tableid r = td_tableId td') rows.
Proof.
  intros Hd R.
  apply createTable_Ok in R as (columns & cds & dds & c1 & c2 & c3 & Ex & Rb & Rp & Ra & Re).
  cbv zeta in Rp. rewrite decide_True in Rp by exact Hd.
  apply BEGIN_Ok in Rb as [_ ->]. apply END_Ok in Re as ->.
  pose proof (keeps_Ok _ _ _ _ _ (addTableToMap_conn _ _ _) Ra) as Hc.
  pose proof Rp as Rp'.
  apply persist_table_Ok in Rp' as (Etd & _).
  apply persist_table_columns in Rp as (rows & Hrows & Hnames & Hids & Htid & Hnd & _).
  exists columns, rows. simpl in *. rewrite Hc.
  split; [exact Ex|]. split; [rewrite <- Hnames; exact Hnd|].
  split; [exact Hrows|]. split; [exact Hnames|]. split; [|exact Htid].
  rewrite Hids, Etd. reflexivity.
Qed.

End ColumnRows.

(** ** A temporary table, created and removed *)

Section TemporaryRoundTrip.
Context `{Headers}.
Import Catalog.

Lemma catalog_ext (c1 c2 : t) :
  sqliteConnector_ c1 = sqliteConnector_ c2 ->
  tableDescriptorMap_ c1 = tableDescriptorMap_ c2 ->
  tableDescriptorMapById_ c1 = tableDescriptorMapById_ c2 ->
  columnDescriptorMap_ c1 = columnDescriptorMap_ c2 ->
  columnDescriptorMapById_ c1 = columnDescriptorMapById_ c2 ->
  deletedColumnPerTable_ c1 = deletedColumnPerTable_ c2 ->
  nextTempTableId_ c1 = nextTempTableId_ c2 ->
  (dictDescriptorMapByRef_ c1, logicalToPhysicalTableMapById_ c1, nextTempDictId_ c1,
   dict_folders c1, remote_dicts c1, currentDB_ c1, basePath_ c1, string_dict_hosts_ c1,
   g_aggregator c1, calcite_down c1)
  = (dictDescriptorMapByRef_ c2, logicalToPhysicalTableMapById_ c2, nextTempDictId_ c2,
     dict_folders c2, remote_dicts c2, currentDB_ c2, basePath_ c2, string_dict_hosts_ c2,
     g_aggregator c2, calcite_down c2) ->
  c1 = c2.
Proof. destruct c1, c2. simpl. intros. simplify_eq. reflexivity. Qed.

(** Lookups in a map after a loop of erasures and after a loop of
    insertions. *)
Lemma lookup_erased `{Countable K} {A B} (f : B -> K) (l : list B)
  (m : gmap K A) x :
  foldl (fun m b => delete (f b) m) m l !! x
  = if decide (x ∈ f <$> l) then None else m !! x.
Proof.
  revert m. induction l as [|b l IH]; intros m.
  - destruct (decide _) as [Hin|_]; [inversion Hin|reflexivity].
  - change (foldl (fun m b => delete (f b) m) (delete (f b) m) l !! x
            = if decide (x ∈ f b :: (f <$> l)) then None else m !! x).
    rewrite IH.
    destruct (decide (x ∈ f <$> l)) as [Hin|Hin];
      destruct (decide (x ∈ f b :: (f <$> l))) as [Hc|Hc]; try reflexivity.
    + exfalso. apply Hc. right. exact Hin.
    + apply elem_of_cons in Hc as [->|Hc]; [apply lookup_delete_eq|contradiction].
    + apply lookup_delete_ne. intros <-. apply Hc. left.
Qed.

Lemma lookup_inserted_ne `{Countable K} {A} (g : A -> K) (l : list A)
  (m : gmap K A) x :
  x ∉ g <$> l -> foldl (fun m a => <[g a := a]> m) m l !! x = m !! x.
Proof.
  revert m. induction l as [|a l IH]; intros m Hn; [reflexivity|].
  rewrite fmap_cons in Hn. apply not_elem_of_cons in Hn as [Hne Hn].
  change (foldl (fun m a => <[g a := a]> m) (<[g a := a]> m) l !! x = m !! x).
  rewrite IH by exact Hn. apply lookup_insert_ne. congruence.
Qed.

Lemma erased_inserted `{Countable K} {A B} (f : B -> K) (g : A -> K)
  (keys : list B) (l : list A) (m : gmap K A) :
  (forall x, x ∈ f <$> keys -> m !! x = None) ->
  (forall x, x ∈ g <$> l -> x ∈ f <$> keys) ->
  foldl (fun m b => delete (f b) m) (foldl (fun m a => <[g a := a]> m) m l) keys = m.
Proof.
  intros Hfresh Hsub. apply map_eq. intros x. rewrite lookup_erased.
  destruct (decide (x ∈ f <$> keys)) as [Hin|Hin].
  - symmetry. apply Hfresh. exact Hin.
  - apply lookup_inserted_ne. intros Hc. apply Hin, Hsub, Hc.
Qed.

(** The loop of a temporary table over columns without dictionaries. *)
Lemma temp_columns_plain td columns : forall k cds dds c st' c',
  Forall (fun cd => ti_compression (cd_columnType cd) <> kENCODING_DICT) columns ->
  foldM (temp_column td) columns (k, cds, dds) c = Ok st' c' ->
  c' = c
  /\ exists new,
       st' = (k + Z.of_nat (length columns), cds ++ new, dds)
       /\ numbered (td_tableId td) k columns new
       /\ Forall (fun cd => ti_compression (cd_columnType cd) <> kENCODING_DICT) new.
Proof.
  induction columns as [|cd columns IH]; intros k cds dds c st' c' Hp R; simpl in R.
  - unfold ret in R. injection R as <- <-. split; [reflexivity|].
    exists []. rewrite app_nil_r, Z.add_0_r. repeat split. constructor.
  - apply Forall_cons in Hp as [Hcd Hp].
    apply bind_Ok in R as (st1 & c1 & R1 & R).
    unfold temp_column in R1.
    destruct (IS_GEO _) in R1; [discriminate|].
    rewrite decide_False in R1 by exact Hcd.
    apply bind_Ok in R1 as ([cd1 dds1] & c2 & Rr & R1). unfold ret in Rr, R1.
    injection Rr as E1 E2 E3. subst cd1 dds1 c2. injection R1 as E1 E2. subst st1 c1.
    apply IH in R as (-> & new & -> & Hnum & Hnew); [|exact Hp].
    split; [reflexivity|].
    exists (cd_set_ids (td_tableId td) k cd :: new).
    split.
    { replace (k + Z.of_nat (length (cd :: columns)))
        with (k + 1 + Z.of_nat (length columns)) by (simpl length; lia).
      rewrite <- app_assoc. reflexivity. }
    split; [split; [|exact Hnum]|constructor; [exact Hcd|exact Hnew]].
    destruct cd; reflexivity.
Qed.

Lemma expand_columns_prefix cols : forall acc columns,
  expand_columns cols acc = inr columns -> exists rest, columns = acc ++ rest.
Proof.
  induction cols as [|cd cols IH]; intros acc columns E; simpl in E.
  - injection E as <-. exists []. symmetry. apply app_nil_r.
  - destruct (decide _) in E; [discriminate|].
    destruct (IS_GEO _) in E.
    + destruct (geo_columns cd) as [l|] in E; [|discriminate].
      apply IH in E as [rest ->]. exists (l ++ rest). symmetry. apply app_assoc.
    + apply IH in E as [rest ->]. exists ([cd] ++ rest). symmetry. apply app_assoc.
Qed.

Lemma expand_columns_plain cols : forall acc columns,
  expand_columns cols acc = inr columns ->
  Forall (fun cd => IS_GEO (ti_type (cd_columnType cd)) = false) columns ->
  columns = acc ++ cols.
Proof.
  induction cols as [|cd cols IH]; intros acc columns E Hg; simpl in E.
  - injection E as <-. symmetry. apply app_nil_r.
  - destruct (decide _) in E; [discriminate|].
    destruct (IS_GEO _) eqn:Eg in E.
    + exfalso. unfold geo_columns in E.
      assert (Hin : exists l, expand_columns cols (acc ++ cd :: l) = inr columns).
      { destruct (ti_type (cd_columnType cd)); try discriminate; eauto. }
      destruct Hin as [l Hin]. apply expand_columns_prefix in Hin as [rest ->].
      rewrite Forall_forall in Hg. rewrite (Hg cd) in Eg; [discriminate|].
      apply elem_of_app. left. apply elem_of_app. right. left.
    + apply IH in E; [|exact Hg]. rewrite E, <- app_assoc. reflexivity.
Qed.

Lemma temp_columns_no_geometry td columns : forall st c st' c',
  foldM (temp_column td) columns st c = Ok st' c' ->
  Forall (fun cd => IS_GEO (ti_type (cd_columnType cd)) = false) columns.
Proof.
  intros st c st' c' R. apply Forall_forall. intros cd Hin.
  destruct (IS_GEO (ti_type (cd_columnType cd))) eqn:Eg; [|reflexivity].
  exfalso. destruct (temp_columns_geometry td columns st c) as [c2 Ht].
  - apply Exists_exists. eauto.
  - rewrite Ht in R. discriminate.
Qed.

(** What is neither a registry of tables or columns nor the counter of
    temporary table ids. *)
Let rest_of (c : t) :=
  (dictDescriptorMapByRef_ c, logicalToPhysicalTableMapById_ c, nextTempDictId_ c,
   dict_folders c, remote_dicts c, currentDB_ c, basePath_ c, string_dict_hosts_ c,
   g_aggregator c, calcite_down c).

Lemma add_column_rest td cd :
  keeps (fun c => (rest_of c, sqliteConnector_ c, tableDescriptorMap_ c,
                   tableDescriptorMapById_ c, nextTempTableId_ c))
        (add_column td cd).
Proof. unfold add_column, setDeletedColumnUnlocked. solve_keeps. Qed.

Lemma add_columns_byName td cds : forall c c',
  foldM (fun _ cd => add_column td cd) cds tt c = Ok tt c' ->
  columnDescriptorMap_ c'
  = foldl (fun m cd => <[(cd_tableId cd, to_upper (cd_columnName cd)) := cd]> m)
          (columnDescriptorMap_ c) cds.
Proof.
  induction cds as [|cd cds IH]; intros c c' R; simpl in R.
  - unfold ret in R. injection R as <-. reflexivity.
  - apply bind_Ok in R as ([] & c1 & R1 & R). rewrite (IH _ _ R). simpl. f_equal.
    unfold add_column in R1.
    apply bind_Ok in R1 as ([] & c2 & Rm & R1). unfold modify in Rm. injection Rm as <-.
    assert (K : columnDescriptorMap_ c1 = columnDescriptorMap_ (register_column cd c)).
    { eapply (keeps_Ok columnDescriptorMap_); [|exact R1].
      unfold setDeletedColumnUnlocked. solve_keeps. }
    rewrite K. reflexivity.
Qed.

(** The loop of [removeTableFromMap] over columns without dictionaries. *)
Lemma remove_columns_plain tid isTemp cds : forall k c,
  (forall j cd, cds !! j = Some cd ->
     columnDescriptorMapById_ c !! (tid, k + Z.of_nat j) = Some cd) ->
  Forall (fun cd => ti_compression (cd_columnType cd) <> kENCODING_DICT) cds ->
  foldM (fun _ i => remove_column tid isTemp i) (seqZ k (Z.of_nat (length cds))) tt c
  = Ok tt (set_columns
             (foldl (fun m cd => delete (tid, to_upper (cd_columnName cd)) m)
                    (columnDescriptorMap_ c) cds)
             (foldl (fun m i => delete (tid, i) m)
                    (columnDescriptorMapById_ c) (seqZ k (Z.of_nat (length cds))))
             c).
Proof.
  induction cds as [|cd cds IH]; intros k c Hl Hp.
  - simpl. unfold ret. f_equal. destruct c; reflexivity.
  - apply Forall_cons in Hp as [Hcd Hp].
    replace (Z.of_nat (length (cd :: cds))) with (Z.succ (Z.of_nat (length cds)))
      by (simpl length; lia).
    rewrite seqZ_cons by lia. rewrite Z.pred_succ.
    change (foldM ?f (?x :: ?l) ?b) with (b' <- f b x ;; foldM f l b').
    assert (R1 : remove_column tid isTemp k c
                 = Ok tt (set_columns
                            (delete (tid, to_upper (cd_columnName cd))
                                    (columnDescriptorMap_ c))
                            (delete (tid, k) (columnDescriptorMapById_ c)) c)).
    { unfold remove_column. unfold bind at 1. unfold gets at 1.
      pose proof (Hl 0%nat cd eq_refl) as L. rewrite Z.add_0_r in L. rewrite L.
      unfold bind at 1. unfold deref at 1. unfold ret at 1.
      unfold bind at 1. unfold modify at 1.
      rewrite decide_False by tauto. reflexivity. }
    unfold bind at 1. rewrite R1.
    rewrite IH.
    + simpl. reflexivity.
    + intros j cd' Hj. simpl. rewrite lookup_delete_ne.
      * replace (Z.succ k + Z.of_nat j) with (k + Z.of_nat (S j)) by lia.
        apply Hl. exact Hj.
      * intros E. injection E as E. lia.
    + exact Hp.
Qed.

Lemma addTableToMap_plain td cds c u c' :
  addTableToMap td cds [] c = Ok u c' ->
  tableDescriptorMap_ c' = <[to_upper (td_tableName td) := td]> (tableDescriptorMap_ c)
  /\ tableDescriptorMapById_ c' = <[td_tableId td := td]> (tableDescriptorMapById_ c)
  /\ columnDescriptorMap_ c'
     = foldl (fun m cd => <[(cd_tableId cd, to_upper (cd_columnName cd)) := cd]> m)
             (columnDescriptorMap_ c) cds
  /\ columnDescriptorMapById_ c' = register_columns (columnDescriptorMapById_ c) cds
  /\ rest_of c' = rest_of c
  /\ sqliteConnector_ c' = sqliteConnector_ c
  /\ nextTempTableId_ c' = nextTempTableId_ c.
Proof.
  unfold addTableToMap. intros R.
  apply bind_Ok in R as ([] & c0 & R0 & R). unfold modify in R0. injection R0 as <-.
  apply bind_Ok in R as ([] & c1 & Rc & Rd). simpl in Rd. unfold ret in Rd.
  injection Rd as _ <-.
  pose proof (add_columns_byName _ _ _ _ Rc) as Hn.
  pose proof (add_columns_byId _ _ _ _ Rc) as Hi.
  pose proof (keeps_Ok _ _ _ _ _ (keeps_foldM _ _ cds tt (fun _ cd => add_column_rest td cd))
                Rc) as K.
  simpl in *. injection K as ? ? ? ? ? ? ? ? ? ? ? ? ? ?.
  unfold rest_of. repeat split; congruence.
Qed.

(** X26: [removeTableFromMap] undoes [createTable] for a temporary table
    without dictionary-encoded columns: when neither the name nor the next
    temporary id is in use in the registries of tables and columns,
    removing the table just created gives back the catalog [createTable]
    started from, but for the counter of temporary table ids, which has
    advanced by one. *)
Theorem removeTableFromMap_undoes_createTable td cols defs isLogicalTable c td' c' :
  td_persistenceLevel td <> DISK_LEVEL ->
  Forall (fun cd => ti_compression (cd_columnType cd) <> kENCODING_DICT)
         (cols ++ system_columns td) ->
  getMetadataForTable (td_tableName td) c = None ->
  getMetadataForTableById (nextTempTableId_ c) c = None ->
  (forall i, getMetadataForColumnById (nextTempTableId_ c) i c = None) ->
  (forall name, getMetadataForColumn (nextTempTableId_ c) name c = None) ->
  (g_aggregator c = true -> string_dict_hosts_ c <> []) ->
  createTable td cols defs isLogicalTable c = Ok td' c' ->
  removeTableFromMap (td_tableName td) (td_tableId td') c'
  = Ok tt (set_nextTemp (nextTempTableId_ c + 1) (nextTempDictId_ c) c).
Proof.
  intros Hlevel Hplain Hname Hid Hcid Hcname Hagg R.
  pose proof (createTable_marker _ _ _ _ _ _ _ R) as Hm.
  apply createTable_Ok in R as (columns & cds & dds & c1 & c2 & c3 & Ex & Rb & Rp & Ra & Re).
  cbv zeta in Rp. rewrite decide_False in Rp by exact Hlevel.
  apply BEGIN_Ok in Rb as [Et ->]. apply END_Ok in Re as ->.
  (* the temporary table is numbered *)
  unfold temp_table in Rp.
  apply bind_Ok in Rp as (tid & c4 & Rg & Rp). unfold gets in Rg.
  injection Rg as Etid E4. subst c4 tid.
  apply bind_Ok in Rp as ([] & c4 & Rmod & Rp). unfold modify in Rmod.
  injection Rmod as E4. subst c4. cbv zeta in Rp.
  apply bind_Ok in Rp as ([[k1 cds1] dds1] & c4 & Rl & Rp). unfold ret in Rp.
  injection Rp as Etd Ecds Edds E4. subst c4 cds1 dds1.
  pose proof (temp_columns_no_geometry _ _ _ _ _ _ Rl) as Hgeo.
  apply Forall_app in Hgeo as [Hgeo _].
  apply expand_columns_plain in Ex; [|exact Hgeo]. simpl in Ex. subst columns.
  apply temp_columns_plain in Rl as (E2 & new & Est & Hnum & Hnew); [|exact Hplain].
  injection Est as _ Ecds Edds. simpl in Ecds. subst c2 cds dds.
  simpl in Hnum, Ra.
  set (tid := nextTempTableId_ c) in *.
  set (all := cols ++ system_columns td) in *.
  assert (Eid' : td_tableId td' = tid) by (rewrite <- Etd; reflexivity).
  assert (Encol : td_nColumns td' = Z.of_nat (length new)).
  { rewrite <- Etd. simpl. f_equal. symmetry. apply (numbered_length _ _ _ _ Hnum). }
  assert (Ever : td_hasDeletedCol td' = td_hasDeletedCol td) by (rewrite <- Etd; reflexivity).
  assert (Elevel : td_persistenceLevel td' = td_persistenceLevel td)
    by (rewrite <- Etd; reflexivity).
  destruct (numbered_names _ _ _ _ Hnum) as (_ & Hids & Htid & _).
  apply addTableToMap_plain in Ra as (Htn & Hti & Hcn & Hci & Hrest & Hconn & Hnext).
  simpl in Htn, Hti, Hcn, Hci, Hrest, Hconn, Hnext. rewrite Eid' in *.
  assert (Ename : td_tableName td' = td_tableName td) by (rewrite <- Etd; reflexivity).
  rewrite Ename in Htn.
  set (c'' := set_conn _ c3) in *.
  assert (Hdel : deletedColumnPerTable_ c''
                 = (if td_hasDeletedCol td
                    then deletedColumnPerTable_ c''
                    else deletedColumnPerTable_ c)
                 /\ (td_hasDeletedCol td = true ->
                     is_Some (deletedColumnPerTable_ c'' !! tid)
                     /\ delete tid (deletedColumnPerTable_ c'') = deletedColumnPerTable_ c)).
  { destruct (td_hasDeletedCol td).
    - destruct Hm as (cd & Hnone & Ed & _). split; [reflexivity|]. intros _.
      rewrite Ed. split; [rewrite lookup_insert_eq; eauto|].
      rewrite delete_insert_id by exact Hnone. reflexivity.
    - split; [exact Hm|discriminate]. }
  destruct Hdel as [Hdel0 Hdel1].
  (* the removal runs *)
  unfold removeTableFromMap.
  rewrite (bind_run (gets (fun c => tableDescriptorMapById_ c !! tid)) _ c''
                    (Some td') c'').
  2:{ unfold gets. f_equal. change (tableDescriptorMapById_ c'')
        with (tableDescriptorMapById_ c3). rewrite Hti. apply lookup_insert_eq. }
  cbv beta iota zeta.
  assert (Rmark :
    (if td_hasDeletedCol td'
     then present <- gets (fun c => bool_decide (is_Some (deletedColumnPerTable_ c !! tid))) ;;
          modify (fun c => set_deletedColumns (delete tid (deletedColumnPerTable_ c)) c) ;;
          CHECK present
     else ret tt) c''
    = Ok tt (set_deletedColumns (deletedColumnPerTable_ c) c'')).
  { rewrite Ever. destruct (td_hasDeletedCol td).
    - destruct (Hdel1 eq_refl) as [Hs Hd]. unfold bind, gets, modify, CHECK.
      rewrite (bool_decide_eq_true_2 _ Hs), Hd. reflexivity.
    - unfold ret. f_equal. rewrite <- Hdel0. destruct c''; reflexivity. }
  rewrite (bind_run _ _ _ _ _ Rmark).
  set (s1 := set_deletedColumns _ c'').
  rewrite (bind_run (modify _) _ s1 tt _ eq_refl).
  set (s2 := set_tables _ _ s1).
  rewrite (bind_run (gets g_aggregator) _ s2 _ _ eq_refl).
  rewrite (bind_run (gets string_dict_hosts_) _ s2 _ _ eq_refl).
  assert (Erest : rest_of s2 = rest_of c) by exact Hrest.
  unfold rest_of in Erest. injection Erest as Ed El Ent Ef Er Edb Eb Eh Eg Ecal.
  rewrite (bind_run (CHECK _) _ s2 tt s2).
  2:{ unfold CHECK. change (g_aggregator s2) with (g_aggregator c3).
      change (string_dict_hosts_ s2) with (string_dict_hosts_ c3).
      rewrite Eg, Eh. destruct (g_aggregator c); [|reflexivity].
      rewrite bool_decide_eq_false_2 by (apply Hagg; reflexivity). reflexivity. }
  rewrite Encol.
  rewrite (remove_columns_plain tid _ new 1 s2).
  - f_equal. apply catalog_ext; simpl.
    + rewrite Hconn. simpl. destruct (sqliteConnector_ c) as [d tx fu]. simpl in *.
      subst tx. reflexivity.
    + rewrite Htn. apply delete_insert_id. exact Hname.
    + rewrite Hti. apply delete_insert_id. exact Hid.
    + rewrite Hcn.
      apply (erased_inserted
               (fun cd => (tid, to_upper (cd_columnName cd)))
               (fun cd => (cd_tableId cd, to_upper (cd_columnName cd)))).
      * intros x Hx. apply list_elem_of_fmap in Hx as (cd & -> & _). apply Hcname.
      * intros x Hx. apply list_elem_of_fmap in Hx as (cd & -> & Hin).
        apply list_elem_of_fmap. exists cd. split; [|exact Hin].
        rewrite Forall_forall in Htid. rewrite (Htid cd Hin). reflexivity.
    + rewrite Hci. unfold register_columns.
      apply (erased_inserted (fun i => (tid, i))
                                 (fun cd => (cd_tableId cd, cd_columnId cd))).
      * intros x Hx. apply list_elem_of_fmap in Hx as (i & -> & _). apply Hcid.
      * intros x Hx. apply list_elem_of_fmap in Hx as (cd & -> & Hin).
        apply list_elem_of_fmap. exists (cd_columnId cd).
        rewrite Forall_forall in Htid. rewrite (Htid cd Hin). split; [reflexivity|].
        rewrite <- (numbered_length _ _ _ _ Hnum) in Hids. rewrite <- Hids.
        apply list_elem_of_fmap. eauto.
    + reflexivity.
    + exact Hnext.
    + congruence.
  - intros j cd Hj. change (columnDescriptorMapById_ s2) with (columnDescriptorMapById_ c3).
    rewrite Hci. apply (register_columns_lookup _ _ _ _ _ _ _ Hnum Hj).
  - exact Hnew.
Qed.

End TemporaryRoundTrip.

(** ** Renaming tables and columns *)

Section Rename.
Context `{Headers}.
Import Catalog.

(** A single statement run in a transaction of its own, as the renaming
    functions do, and what follows it. *)
Lemma statement_in_transaction_Ok {A} stmt (k : Cat A) c a c' :
  (BEGIN_TRANSACTION ;;
   try_catch (query stmt) (fun e => ROLLBACK_TRANSACTION ;; throw e) ;;
   END_TRANSACTION ;; k) c = Ok a c' ->
  exists d' f',
    txn (sqliteConnector_ c) = None
    /\ stmt (db (sqliteConnector_ c)) = Some d'
    /\ k (set_conn (mkConn d' None f') c) = Ok a c'.
Proof.
  intros R.
  apply bind_Ok in R as ([] & c1 & Rb & R). apply BEGIN_Ok in Rb as [Et ->].
  apply bind_Ok in R as ([] & c2 & Rq & R).
  apply try_catch_Ok in Rq as [Rq|(e & c3 & _ & Rh)];
    [|apply bind_Ok in Rh as (? & ? & _ & Rh); discriminate].
  apply query_Ok in Rq as (d' & f' & Es & ->).
  apply bind_Ok in R as ([] & c3 & Re & R). apply END_Ok in Re as ->.
  exists d', f'. simpl in *. auto.
Qed.

Lemma statement_in_transaction_Throw {A} stmt (k : Cat A) c :
  txn (sqliteConnector_ c) = None ->
  stmt (db (sqliteConnector_ c)) = None ->
  (BEGIN_TRANSACTION ;;
   try_catch (query stmt) (fun e => ROLLBACK_TRANSACTION ;; throw e) ;;
   k) c = Throw sqlite_error c.
Proof.
  intros Et Es. unfold bind at 1. unfold BEGIN_TRANSACTION, on_conn, conn_begin.
  rewrite Et. unfold bind at 1, try_catch.
  unfold query, on_conn, conn_exec. simpl. rewrite Es.
  assert (E : forall (f : option nat) g (r : outcome t unit),
             match match f with Some 0%nat => None | _ => @None (SqliteConnector Store) end
             with Some x => g x | None => r end = r).
  { intros [[|n]|] g r; reflexivity. }
  rewrite E. unfold bind, ROLLBACK_TRANSACTION, on_conn, conn_rollback, throw. simpl.
  f_equal. destruct c as [[d tx f] ? ? ? ? ? ? ? ? ? ? ? ? ? ? ? ?]. simpl in *.
  subst tx. reflexivity.
Qed.

(** X11: when [renamePhysicalTable] returns, the row of the table in
    [mapd_tables] carries the new name, the descriptor that was found
    under the old name is found under the new name with the new name and
    is no longer found under the old one, the same descriptor shows the
    new name under its id, and the other names and ids are as before. *)
Theorem renamePhysicalTable_renames td newTableName c u c' :
  renamePhysicalTable td newTableName c = Ok u c' ->
  exists changeTd,
    getMetadataForTable (td_tableName td) c = Some changeTd
    /\ rename_table_row newTableName (td_tableId td) (db (sqliteConnector_ c))
       = Some (db (sqliteConnector_ c'))
    /\ txn (sqliteConnector_ c') = None
    /\ getMetadataForTable newTableName c'
       = Some (td_set_tableName newTableName changeTd)
    /\ (to_upper (td_tableName td) <> to_upper newTableName ->
        getMetadataForTable (td_tableName td) c' = None)
    /\ (forall name,
          to_upper name <> to_upper (td_tableName td) ->
          to_upper name <> to_upper newTableName ->
          getMetadataForTable name c' = getMetadataForTable name c)
    /\ (is_Some (getMetadataForTableById (td_tableId changeTd) c) ->
        getMetadataForTableById (td_tableId changeTd) c'
        = Some (td_set_tableName newTableName changeTd))
    /\ (forall id, id <> td_tableId changeTd ->
          getMetadataForTableById id c' = getMetadataForTableById id c).
Proof.
  unfold renamePhysicalTable. intros R.
  apply statement_in_transaction_Ok in R as (d' & f' & Et & Es & R).
  apply bind_Ok in R as (it & c4 & Rg & R). unfold gets in Rg. injection Rg as <- <-.
  apply bind_Ok in R as ([] & c4 & Rc & R). apply CHECK_Ok in Rc as [Hsome ->].
  apply bind_Ok in R as ([] & c4 & Ru & R). apply updateMetadata_Ok in Ru as ->.
  apply bind_Ok in R as (changeTd & c4 & Rd & R). apply deref_Ok in Rd as [L ->].
  apply bind_Ok in R as ([] & c4 & Rm & R). unfold modify in Rm. injection Rm as <-.
  apply updateMetadata_Ok in R as ->.
  simpl in *. exists changeTd.
  unfold getMetadataForTable, getMetadataForTableById. simpl.
  split; [exact L|]. split; [exact Es|]. split; [reflexivity|].
  split; [apply lookup_insert_eq|].
  split; [intros Hne; rewrite lookup_insert_ne by congruence; apply lookup_delete_eq|].
  split; [intros name H1 H2; rewrite lookup_insert_ne by congruence;
          apply lookup_delete_ne; congruence|].
  split.
  - intros [d Ld]. rewrite lookup_alter_eq, Ld. reflexivity.
  - intros id Hne. apply lookup_alter_ne. congruence.
Qed.

(** X12: a table on disk is not renamed to the name of another table of
    [mapd_tables]: [renamePhysicalTable] throws, and the catalog is exactly
    as it was. *)
Theorem renamePhysicalTable_name_taken td newTableName c r r' :
  txn (sqliteConnector_ c) = None ->
  r ∈ mapd_tables (db (sqliteConnector_ c)) -> tr_tableid r = td_tableId td ->
  r' ∈ mapd_tables (db (sqliteConnector_ c)) -> tr_tableid r' <> td_tableId td ->
  tr_name r' = newTableName ->
  renamePhysicalTable td newTableName c = Throw sqlite_error c.
Proof.
  intros Et Hr Hid Hr' Hid' Hname. unfold renamePhysicalTable.
  apply statement_in_transaction_Throw; [exact Et|].
  unfold rename_table_row.
  rewrite decide_False.
  - rewrite decide_True; [reflexivity|]. left. apply list_elem_of_fmap.
    exists r'. split; [auto|]. apply list_elem_of_filter. auto.
  - intros Hnil. eapply (filter_nil_not_elem_of _ _ r Hnil); [exact Hid | exact Hr].
Qed.

(** X13: when [renameColumn] returns, the row of the column in
    [mapd_columns] carries the new name, the descriptor that was found
    under the old name of the column is found under the new name with the
    new name and is no longer found under the old one, the same descriptor
    shows the new name under its id, and the other columns are as before;
    a new name that another column of the table has in [mapd_columns] makes
    [renameColumn] throw with the catalog exactly as it was. *)
Theorem renameColumn_renames td cd newColumnName c :
  (forall u c',
     renameColumn td cd newColumnName c = Ok u c' ->
     exists changeCd,
       getMetadataForColumn (td_tableId td) (cd_columnName cd) c = Some changeCd
       /\ rename_column_row newColumnName (td_tableId td) (cd_columnId cd)
                            (db (sqliteConnector_ c))
          = Some (db (sqliteConnector_ c'))
       /\ getMetadataForColumn (td_tableId td) newColumnName c'
          = Some (cd_set_columnName newColumnName changeCd)
       /\ (to_upper (cd_columnName cd) <> to_upper newColumnName ->
           getMetadataForColumn (td_tableId td) (cd_columnName cd) c' = None)
       /\ (forall t name,
             (t, to_upper name) <> (td_tableId td, to_upper (cd_columnName cd)) ->
             (t, to_upper name) <> (td_tableId td, to_upper newColumnName) ->
             getMetadataForColumn t name c' = getMetadataForColumn t name c)
       /\ (is_Some (getMetadataForColumnById (cd_tableId changeCd)
                                             (cd_columnId changeCd) c) ->
           getMetadataForColumnById (cd_tableId changeCd) (cd_columnId changeCd) c'
           = Some (cd_set_columnName newColumnName changeCd))
       /\ (forall t i,
             (t, i) <> (cd_tableId changeCd, cd_columnId changeCd) ->
             getMetadataForColumnById t i c' = getMetadataForColumnById t i c))
  /\ (forall r r',
        txn (sqliteConnector_ c) = None ->
        r ∈ mapd_columns (db (sqliteConnector_ c)) ->
        cr_tableid r = td_tableId td -> cr_columnid r = cd_columnId cd ->
        r' ∈ mapd_columns (db (sqliteConnector_ c)) ->
        cr_tableid r' = td_tableId td -> cr_columnid r' <> cd_columnId cd ->
        cr_name r' = newColumnName ->
        renameColumn td cd newColumnName c = Throw sqlite_error c).
Proof.
  split.
  - unfold renameColumn. intros u c' R.
    apply statement_in_transaction_Ok in R as (d' & f' & Et & Es & R).
    apply bind_Ok in R as (it & c4 & Rg & R). unfold gets in Rg. injection Rg as <- <-.
    apply bind_Ok in R as ([] & c4 & Rc & R). apply CHECK_Ok in Rc as [Hsome ->].
    apply bind_Ok in R as ([] & c4 & Ru & R). apply updateMetadata_Ok in Ru as ->.
    apply bind_Ok in R as (changeCd & c4 & Rd & R). apply deref_Ok in Rd as [L ->].
    apply bind_Ok in R as ([] & c4 & Rm & R). unfold modify in Rm. injection Rm as <-.
    apply updateMetadata_Ok in R as ->.
    simpl in *. exists changeCd.
    unfold getMetadataForColumn, getMetadataForColumnById. simpl.
    split; [exact L|]. split; [exact Es|].
    split; [apply lookup_insert_eq|].
    split; [intros Hne; rewrite lookup_insert_ne by congruence; apply lookup_delete_eq|].
    split; [intros t name H1 H2; rewrite lookup_insert_ne by congruence;
            apply lookup_delete_ne; congruence|].
    split.
    + intros [d Ld]. rewrite lookup_alter_eq, Ld. reflexivity.
    + intros t i Hne. apply lookup_alter_ne. congruence.
  - intros r r' Et Hr Ht Hi Hr' Ht' Hi' Hname. unfold renameColumn.
    apply statement_in_transaction_Throw; [exact Et|].
    unfold rename_column_row. rewrite decide_False.
    + rewrite decide_True; [reflexivity|]. left. apply list_elem_of_fmap.
      exists r'. split; [auto|]. apply list_elem_of_filter. auto.
    + intros Hnil.
      eapply (filter_nil_not_elem_of _ _ r Hnil); [split; assumption | exact Hr].
Qed.

End Rename.


Section RenameShards.
Context `{Headers}.
Import Catalog.

(** The index of tables by id holds each descriptor under its own id. *)
Let keyed (c : t) : Prop :=
  forall id td, getMetadataForTableById id c = Some td -> td_tableId td = id.

Lemma rename_table_row_rows newTableName tableId d d' :
  rename_table_row newTableName tableId d = Some d' ->
  mapd_tables d'
  = (fun r => if decide (tr_tableid r = tableId) then renamed_row newTableName r else r)
      <$> mapd_tables d.
Proof.
  unfold rename_table_row. cbv zeta.
  destruct (decide (filter _ _ = [])) as [Hnil|_].
  - intros [= <-]. symmetry. rewrite <- (list_fmap_id (mapd_tables d)) at 2.
    apply list_fmap_ext. intros n r Hr. unfold id. rewrite decide_False; [reflexivity|].
    intros E. apply list_elem_of_lookup_2 in Hr.
    exact (filter_nil_not_elem_of _ _ r Hnil E Hr).
  - destruct (decide _); [discriminate|]. intros [= <-]. reflexivity.
Qed.

Lemma renamePhysicalTable_Ok td newTableName c u c' :
  renamePhysicalTable td newTableName c = Ok u c' ->
  exists changeTd,
    rename_table_row newTableName (td_tableId td) (db (sqliteConnector_ c))
    = Some (db (sqliteConnector_ c'))
    /\ tableDescriptorMapById_ c'
       = alter (fun _ => td_set_tableName newTableName changeTd) (td_tableId changeTd)
               (tableDescriptorMapById_ c)
    /\ logicalToPhysicalTableMapById_ c' = logicalToPhysicalTableMapById_ c.
Proof.
  unfold renamePhysicalTable. intros R.
  apply statement_in_transaction_Ok in R as (d' & f' & Et & Es & R).
  apply bind_Ok in R as (it & c4 & Rg & R). unfold gets in Rg. injection Rg as <- <-.
  apply bind_Ok in R as ([] & c4 & Rc & R). apply CHECK_Ok in Rc as [Hsome ->].
  apply bind_Ok in R as ([] & c4 & Ru & R). apply updateMetadata_Ok in Ru as ->.
  apply bind_Ok in R as (changeTd & c4 & Rd & R). apply deref_Ok in Rd as [L ->].
  apply bind_Ok in R as ([] & c4 & Rm & R). unfold modify in Rm. injection Rm as <-.
  apply updateMetadata_Ok in R as ->.
  simpl in *. exists changeTd. auto.
Qed.

Lemma renamePhysicalTable_keyed td newTableName c u c' :
  renamePhysicalTable td newTableName c = Ok u c' -> keyed c -> keyed c'.
Proof.
  intros R K. apply renamePhysicalTable_Ok in R as (changeTd & _ & Hm & _).
  intros id t. unfold getMetadataForTableById. rewrite Hm.
  destruct (decide (id = td_tableId changeTd)) as [->|Hne].
  - rewrite lookup_alter_eq.
    destruct (tableDescriptorMapById_ c !! td_tableId changeTd); [|discriminate].
    intros [= <-]. reflexivity.
  - rewrite lookup_alter_ne by congruence. apply K.
Qed.

(** The rows after the loop of [renameTable] over the shards [ids],
    numbered from [i + 1]. *)
Lemma rename_shards_rows newTableName ids : forall i c j c',
  foldM (rename_shard newTableName) ids i c = Ok j c' ->
  keyed c -> NoDup ids ->
  keyed c'
  /\ logicalToPhysicalTableMapById_ c' = logicalToPhysicalTableMapById_ c
  /\ Forall2 (fun r r' =>
                r' = renamed_row (tr_name r') r
                /\ (forall k id, ids !! k = Some id -> tr_tableid r = id ->
                      tr_name r'
                      = generatePhysicalTableName newTableName (i + Z.of_nat k + 1))
                /\ (tr_tableid r ∉ ids -> r' = r))
             (mapd_tables (db (sqliteConnector_ c)))
             (mapd_tables (db (sqliteConnector_ c'))).
Proof.
  induction ids as [|id ids IH]; intros i c j c' R K Hnd.
  - simpl in R. unfold ret in R. injection R as _ <-.
    split; [exact K|]. split; [reflexivity|].
    apply Forall2_same_length_lookup. split; [reflexivity|].
    intros n r r' L L'. rewrite L in L'. injection L' as <-.
    split; [destruct r; reflexivity|]. split; [|reflexivity].
    intros k id Hk. rewrite lookup_nil in Hk. discriminate.
  - simpl in R. apply bind_Ok in R as (i1 & c1 & R1 & R).
    unfold rename_shard in R1.
    apply bind_Ok in R1 as (otd & c2 & Rg & R1). unfold gets in Rg.
    injection Rg as Eo E2. subst c2 otd.
    apply bind_Ok in R1 as (phys & c2 & Rd & R1). apply deref_Ok in Rd as [L E2]. subst c2.
    apply bind_Ok in R1 as ([] & c2 & Rr & R1). unfold ret in R1.
    injection R1 as Ei E2. subst c2 i1.
    apply NoDup_cons in Hnd as [Hid Hnd].
    pose proof (renamePhysicalTable_keyed _ _ _ _ _ Rr K) as K1.
    pose proof (K _ _ L) as Eid.
    apply renamePhysicalTable_Ok in Rr as (changeTd & Hrow & _ & Hl2p).
    apply rename_table_row_rows in Hrow. rewrite Eid in Hrow.
    destruct (IH _ _ _ _ R K1 Hnd) as (K' & Hl2p' & Hrows).
    split; [exact K'|]. split; [congruence|].
    rewrite Hrow in Hrows. apply Forall2_fmap_l in Hrows.
    eapply Forall2_impl; [exact Hrows|].
    intros r r' (Hr' & Hshard & Hother). simpl in *.
    destruct (decide (tr_tableid r = id)) as [Er|Er].
    + assert (Hsame : r' = renamed_row (generatePhysicalTableName newTableName (i + 1)) r).
      { apply Hother. simpl. rewrite Er. exact Hid. }
      split; [rewrite Hsame; reflexivity|]. split.
      * intros [|k] id' Hk Eid'.
        -- rewrite Hsame. simpl. f_equal. lia.
        -- exfalso. simpl in Hk. apply Hid. rewrite <- Er, Eid'.
           eapply list_elem_of_lookup_2. exact Hk.
      * intros Hn. exfalso. apply Hn. rewrite Er. left.
    + split; [exact Hr'|]. split.
      * intros [|k] id' Hk Eid'.
        -- simpl in Hk. injection Hk as <-. contradiction.
        -- simpl in Hk. rewrite (Hshard k id' Hk Eid'). f_equal. lia.
      * intros Hn. apply Hother. intros Hin. apply Hn. right. exact Hin.
Qed.

(** X14: when [renameTable] returns for a table with shards, whose ids are
    distinct and registered each under its own id, every row of
    [mapd_tables] is as before up to its name: the row of the logical
    table carries the new name, the row of the k-th shard the name
    [<new name>_shard_#<k>], and the rows of the other tables are
    untouched. *)
Theorem renameTable_renames_shards td newTableName c u c' physicalTables :
  (forall id t, getMetadataForTableById id c = Some t -> td_tableId t = id) ->
  logicalToPhysicalTableMapById_ c !! td_tableId td = Some physicalTables ->
  NoDup (td_tableId td :: physicalTables) ->
  renameTable td newTableName c = Ok u c' ->
  physicalTables <> []
  /\ Forall2 (fun r r' =>
                r' = renamed_row (tr_name r') r
                /\ (tr_tableid r = td_tableId td -> tr_name r' = newTableName)
                /\ (forall k id, physicalTables !! k = Some id -> tr_tableid r = id ->
                      tr_name r'
                      = generatePhysicalTableName newTableName (Z.of_nat k + 1))
                /\ (tr_tableid r ∉ td_tableId td :: physicalTables -> r' = r))
             (mapd_tables (db (sqliteConnector_ c)))
             (mapd_tables (db (sqliteConnector_ c'))).
Proof.
  intros K Hl Hnd R. unfold renameTable in R.
  apply bind_Ok in R as (it & c0 & Rg & R). unfold gets in Rg.
  injection Rg as Eit E0. subst c0 it. rewrite Hl in R.
  apply bind_Ok in R as ([] & c1 & Rl & R).
  apply bind_Ok in Rl as ([] & c0 & Rc & Rl). apply CHECK_Ok in Rc as [Hne E0]. subst c0.
  apply bind_Ok in Rl as (j & c0 & Rf & Rl). unfold ret in Rl.
  injection Rl as E0. subst c0.
  apply NoDup_cons in Hnd as [Htd Hnd].
  destruct (rename_shards_rows _ _ _ _ _ _ Rf K Hnd) as (_ & _ & Hrows).
  apply renamePhysicalTable_Ok in R as (changeTd & Hrow & _).
  apply rename_table_row_rows in Hrow.
  split.
  { intros E. rewrite E in Hne. rewrite bool_decide_eq_true_2 in Hne by reflexivity.
    discriminate. }
  rewrite Hrow. apply Forall2_fmap_r.
  eapply Forall2_impl; [exact Hrows|].
  intros r r' (Hr' & Hshard & Hother). simpl.
  assert (Eid : tr_tableid r' = tr_tableid r) by (rewrite Hr'; reflexivity).
  rewrite Eid.
  destruct (decide (tr_tableid r = td_tableId td)) as [Er|Er].
  - assert (Hsame : r' = r).
    { apply Hother. rewrite Er. exact Htd. }
    subst r'. split; [reflexivity|]. split; [reflexivity|]. split.
    + intros k id Hk Ek. exfalso. apply Htd. rewrite <- Er, Ek.
      eapply list_elem_of_lookup_2. exact Hk.
    + intros Hn. exfalso. apply Hn. rewrite Er. left.
  - split; [exact Hr'|]. split; [contradiction|]. split.
    + intros k id Hk Ek. rewrite (Hshard k id Hk Ek). f_equal.
    + intros Hn. apply Hother. intros Hin. apply Hn. right. exact Hin.
Qed.

End RenameShards.


(** ** Roles and users of the system catalog, dropped and altered *)

Section DropRole.
Context `{Headers} `{ObjectHeaders}.
Import SysCatalog.

(** A statement the storage does not refuse. *)
Lemma sys_query_run stmt s d' :
  fuse (sqliteConnector_ s) <> Some 0%nat ->
  stmt (db (sqliteConnector_ s)) = Some d' ->
  query stmt s
  = Ok tt (set_conn (mkConn d' (txn (sqliteConnector_ s))
                            (pred <$> fuse (sqliteConnector_ s))) s).
Proof.
  intros Hf Es. unfold query, on_conn, conn_exec. rewrite Es.
  destruct (fuse (sqliteConnector_ s)) as [[|n]|]; [congruence| |]; reflexivity.
Qed.

Lemma createRole_unsafe_Ok roleName userPrivateRole s u s' :
  createRole_unsafe roleName userPrivateRole s = Ok u s' ->
  let dbObject :=
    setObjectKey (mkKey DatabaseDBObjectType 0 (-1))
                 (DBObject_named (dbName (currentDB_ s)) DatabaseDBObjectType) in
  getMetadataForRole roleName s = None
  /\ roleMap_ s'
     = <[to_upper roleName :=
           grantPrivileges dbObject (mkGroupRole roleName userPrivateRole ∅)]>
         (roleMap_ s)
  /\ userRoleMap_ s' = userRoleMap_ s
  /\ mapd_users (db (sqliteConnector_ s')) = mapd_users (db (sqliteConnector_ s))
  /\ mapd_roles (db (sqliteConnector_ s')) = mapd_roles (db (sqliteConnector_ s))
  /\ mapd_object_permissions (db (sqliteConnector_ s'))
     = filter (fun r => ~ (pr_roleName r = roleName /\ pr_key r = objectKey_ dbObject))
              (mapd_object_permissions (db (sqliteConnector_ s)))
       ++ [mkPermRow roleName userPrivateRole (objectKey_ dbObject) NONE 0
                     (dbName (currentDB_ s))]
  /\ txn (sqliteConnector_ s') = txn (sqliteConnector_ s)
  /\ fuse (sqliteConnector_ s') = pred <$> fuse (sqliteConnector_ s)
  /\ fuse (sqliteConnector_ s) <> Some 0%nat
  /\ check_privileges_ s' = check_privileges_ s
  /\ currentDB_ s' = currentDB_ s
  /\ mapd_cat_map_ s' = mapd_cat_map_ s.
Proof.
  unfold createRole_unsafe, set_role, insertOrUpdateObjectPrivileges. intros R. cbv zeta.
  apply bind_Ok in R as (user & s0 & Rg & R). unfold gets in Rg. injection Rg as <- <-.
  destruct (negb userPrivateRole && _) in R; [discriminate|].
  apply bind_Ok in R as (rl & s0 & Rg & R). unfold gets in Rg. injection Rg as <- <-.
  destruct (bool_decide (is_Some (getMetadataForRole roleName s))) eqn:Er; [discriminate|].
  apply bool_decide_eq_false in Er.
  inv_all.
  match goal with
  | Hq : query _ _ = Ok _ _, Hr : ~ is_Some (getMetadataForRole roleName ?st) |- _ =>
      unfold query, on_conn, conn_exec, upsert_permission in Hq; simpl in Hq;
      destruct (fuse (sqliteConnector_ st)) as [[|n]|] eqn:Ef; try discriminate;
      simplify_eq; simpl; rewrite ?insert_insert_eq;
      (split; [apply eq_None_not_Some; assumption|]); repeat split; congruence
  end.
Qed.

Lemma dropRole_unsafe_Ok roleName s u s' :
  dropRole_unsafe roleName s = Ok u s' ->
  is_Some (getMetadataForRole roleName s)
  /\ roleMap_ s' = delete (to_upper roleName) (roleMap_ s)
  /\ userRoleMap_ s' = userRoleMap_ s
  /\ mapd_users (db (sqliteConnector_ s')) = mapd_users (db (sqliteConnector_ s))
  /\ mapd_roles (db (sqliteConnector_ s'))
     = filter (fun r => r.1 <> roleName) (mapd_roles (db (sqliteConnector_ s)))
  /\ mapd_object_permissions (db (sqliteConnector_ s'))
     = filter (fun r => pr_roleName r <> roleName)
              (mapd_object_permissions (db (sqliteConnector_ s)))
  /\ txn (sqliteConnector_ s') = txn (sqliteConnector_ s)
  /\ check_privileges_ s' = check_privileges_ s
  /\ currentDB_ s' = currentDB_ s
  /\ mapd_cat_map_ s' = mapd_cat_map_ s.
Proof.
  unfold dropRole_unsafe. intros R.
  apply bind_Ok in R as (rl & s0 & Rg & R). unfold gets in Rg. injection Rg as <- <-.
  apply bind_Ok in R as ([] & s0 & Rc & R). apply CHECK_Ok in Rc as [Hsome ->].
  apply bool_decide_eq_true in Hsome.
  apply bind_Ok in R as ([] & s0 & Rm & R). unfold modify in Rm. injection Rm as <-.
  apply bind_Ok in R as ([] & s0 & Rq & R).
  apply sys_query_Ok in Rq as (d1 & f1 & E1 & ->).
  apply sys_query_Ok in R as (d2 & f2 & E2 & ->).
  unfold delete_roles_of_role in E1. unfold delete_permissions_of_role in E2.
  simpl in *. simplify_eq. simpl. auto 10.
Qed.

Lemma dropRole_unsafe_run roleName s :
  is_Some (getMetadataForRole roleName s) ->
  (forall n, fuse (sqliteConnector_ s) = Some n -> (2 <= n)%nat) ->
  exists s', dropRole_unsafe roleName s = Ok tt s'
             /\ fuse (sqliteConnector_ s') = pred <$> (pred <$> fuse (sqliteConnector_ s)).
Proof.
  intros Hsome Hf. unfold dropRole_unsafe, bind, gets, CHECK, modify.
  rewrite bool_decide_eq_true_2 by exact Hsome.
  unfold query, on_conn, conn_exec, delete_roles_of_role, delete_permissions_of_role.
  simpl. destruct (fuse (sqliteConnector_ s)) as [[|[|n]]|] eqn:Ef;
    try (specialize (Hf _ eq_refl); lia); simpl; eexists; split; reflexivity.
Qed.

(** X15: [dropRole_unsafe] of a role that does not exist stops the program
    at [CHECK(rl)]; when it returns, the role is not found any more, the
    other roles are found as before, no row of [mapd_roles] and none of
    [mapd_object_permissions] carries the role name, and the remaining
    rows and the users are as before. *)
Theorem dropRole_unsafe_erases roleName s :
  (getMetadataForRole roleName s = None -> dropRole_unsafe roleName s = Fatal)
  /\ (forall u s',
        dropRole_unsafe roleName s = Ok u s' ->
        getMetadataForRole roleName s' = None
        /\ (forall other, to_upper other <> to_upper roleName ->
              getMetadataForRole other s' = getMetadataForRole other s)
        /\ mapd_roles (db (sqliteConnector_ s'))
           = filter (fun r => r.1 <> roleName) (mapd_roles (db (sqliteConnector_ s)))
        /\ mapd_object_permissions (db (sqliteConnector_ s'))
           = filter (fun r => pr_roleName r <> roleName)
                    (mapd_object_permissions (db (sqliteConnector_ s)))
        /\ mapd_users (db (sqliteConnector_ s')) = mapd_users (db (sqliteConnector_ s))).
Proof.
  split.
  - intros L. unfold dropRole_unsafe, bind, gets, CHECK. rewrite L.
    rewrite bool_decide_eq_false_2 by (intros [? ?]; discriminate). reflexivity.
  - intros u s' R.
    apply dropRole_unsafe_Ok in R as (_ & Hm & _ & Hu & Hr & Hp & _).
    unfold getMetadataForRole. rewrite Hm.
    split; [apply lookup_delete_eq|].
    split; [intros other Hne; apply lookup_delete_ne; congruence|]. auto.
Qed.

(** X16: [dropRole_unsafe] undoes [createRole_unsafe]: when no row of the
    system database carried the role name before the role was created,
    dropping the role right after leaves the roles in memory and the three
    tables as they were before it was created. *)
Theorem dropRole_undoes_createRole roleName userPrivateRole s u s1 :
  Forall (fun r => r.1 <> roleName) (mapd_roles (db (sqliteConnector_ s))) ->
  Forall (fun r => pr_roleName r <> roleName)
         (mapd_object_permissions (db (sqliteConnector_ s))) ->
  (forall n, fuse (sqliteConnector_ s) = Some n -> (3 <= n)%nat) ->
  createRole_unsafe roleName userPrivateRole s = Ok u s1 ->
  exists s2,
    dropRole_unsafe roleName s1 = Ok tt s2
    /\ roleMap_ s2 = roleMap_ s
    /\ userRoleMap_ s2 = userRoleMap_ s
    /\ db (sqliteConnector_ s2) = db (sqliteConnector_ s)
    /\ txn (sqliteConnector_ s2) = txn (sqliteConnector_ s).
Proof.
  intros Hroles Hperms Hf R.
  apply createRole_unsafe_Ok in R
    as (Hnone & Hm1 & Hu1 & Hus1 & Hr1 & Hp1 & Ht1 & Hf1 & _). cbv zeta in *.
  destruct (dropRole_unsafe_run roleName s1) as (s2 & R2 & _).
  { unfold getMetadataForRole. rewrite Hm1, lookup_insert_eq. eauto. }
  { intros n Hn. rewrite Hf1 in Hn.
    destruct (fuse (sqliteConnector_ s)) as [m|] eqn:Ef; [|discriminate].
    specialize (Hf _ eq_refl). simpl in Hn. injection Hn as <-. lia. }
  exists s2. split; [exact R2|].
  apply dropRole_unsafe_Ok in R2 as (_ & Hm2 & Hu2 & Hus2 & Hr2 & Hp2 & Ht2 & _).
  split; [rewrite Hm2, Hm1; apply delete_insert_id; exact Hnone|].
  split; [congruence|]. split; [|congruence].
  destruct (db (sqliteConnector_ s2)) as [us2 rs2 ps2], (db (sqliteConnector_ s)) as [us rs ps].
  simpl in *. f_equal.
  - congruence.
  - rewrite Hr2, Hr1. apply filter_all. intros r Hr.
    rewrite Forall_forall in Hroles. auto.
  - rewrite Hp2, Hp1, filter_app. simpl.
    rewrite filter_cons_False by (simpl; tauto). rewrite filter_nil, app_nil_r.
    rewrite (filter_all (fun r => ~ (pr_roleName r = roleName /\ _))).
    + apply filter_all. intros r Hr. rewrite Forall_forall in Hperms. auto.
    + intros r Hr [Hn _]. rewrite Forall_forall in Hperms. exact (Hperms r Hr Hn).
Qed.

End DropRole.


Section RoleGrants.
Context `{Headers} `{ObjectHeaders}.
Import SysCatalog.

(** The user's handle on roles after a role is added: a fresh handle for a
    user who had none. *)
Lemma grantRole_unsafe_Ok roleName userName s u s' :
  grantRole_unsafe roleName userName s = Ok u s' ->
  exists user,
    is_Some (getMetadataForRole roleName s)
    /\ getMetadataForUser userName s = Some user
    /\ let user_rl := default (mkUserRole (userId user) userName ∅)
                              (getMetadataForUserRole (userId user) s) in
       ((to_upper roleName ∈ groupRole_ user_rl -> s' = s)
       /\ (to_upper roleName ∉ groupRole_ user_rl ->
           userRoleMap_ s'
           = <[userId user := UserRole_grantRole (to_upper roleName) user_rl]>
               (userRoleMap_ s)
           /\ roleMap_ s' = roleMap_ s
           /\ ((roleName, userName) ∉ mapd_roles (db (sqliteConnector_ s)))
           /\ db (sqliteConnector_ s')
              = mkStore (mapd_users (db (sqliteConnector_ s)))
                        (mapd_roles (db (sqliteConnector_ s)) ++ [(roleName, userName)])
                        (mapd_object_permissions (db (sqliteConnector_ s)))
           /\ txn (sqliteConnector_ s') = txn (sqliteConnector_ s)
           /\ fuse (sqliteConnector_ s') = pred <$> fuse (sqliteConnector_ s)
           /\ fuse (sqliteConnector_ s) <> Some 0%nat
           /\ check_privileges_ s' = check_privileges_ s
           /\ currentDB_ s' = currentDB_ s
           /\ mapd_cat_map_ s' = mapd_cat_map_ s)).
Proof.
  unfold grantRole_unsafe, set_userRole. intros R.
  apply bind_Ok in R as (rl & s0 & Rg & R). unfold gets in Rg. injection Rg as <- <-.
  destruct (bool_decide (is_Some (getMetadataForRole roleName s))) eqn:Er;
    [|discriminate]. apply bool_decide_eq_true in Er. simpl in R.
  apply bind_Ok in R as (user & s0 & Rg & R). unfold gets in Rg. injection Rg as <- <-.
  destruct (getMetadataForUser userName s) as [user|] eqn:Eu; [|discriminate].
  exists user. split; [exact Er|]. split; [reflexivity|].
  apply bind_Ok in R as (ourl & s0 & Rg & R). unfold gets in Rg. injection Rg as <- <-.
  destruct (getMetadataForUserRole (userId user) s) as [user_rl|] eqn:El; simpl.
  - apply bind_Ok in R as (x & s0 & Rr & R). unfold ret in Rr. injection Rr as <- <-.
    unfold UserRole_hasRole in R.
    destruct (bool_decide (to_upper roleName ∈ groupRole_ user_rl)) eqn:Eh.
    + apply bool_decide_eq_true in Eh. unfold ret in R. simplify_eq.
      split; [intros _; reflexivity | tauto].
    + apply bool_decide_eq_false in Eh. split; [tauto|]. intros _.
      apply bind_Ok in R as ([] & s0 & Rm & R). unfold modify in Rm. injection Rm as <-.
      unfold query, on_conn, conn_exec, insert_role in R. simpl in R.
      destruct (fuse (sqliteConnector_ s)) as [[|n]|] eqn:Ef; try discriminate;
        destruct (decide ((roleName, userName) ∈ mapd_roles (db (sqliteConnector_ s))));
        try discriminate; simplify_eq; simpl; repeat split; auto; discriminate.
  - apply bind_Ok in R as (x & s0 & Rr & R).
    apply bind_Ok in Rr as ([] & s1 & Rm & Rr). unfold modify in Rm. injection Rm as <-.
    unfold ret in Rr. injection Rr as <- <-.
    unfold UserRole_hasRole in R. simpl in R.
    rewrite bool_decide_eq_false_2 in R by set_solver.
    split; [set_solver|]. intros _.
    apply bind_Ok in R as ([] & s0 & Rm & R). unfold modify in Rm. injection Rm as <-.
    unfold query, on_conn, conn_exec, insert_role in R. simpl in R.
    destruct (fuse (sqliteConnector_ s)) as [[|n]|] eqn:Ef; try discriminate;
      destruct (decide ((roleName, userName) ∈ mapd_roles (db (sqliteConnector_ s))));
      try discriminate; simplify_eq; simpl; rewrite insert_insert_eq;
      repeat split; auto; discriminate.
Qed.

Lemma revokeRole_unsafe_run roleName userName s user user_rl :
  is_Some (getMetadataForRole roleName s) ->
  getMetadataForUser userName s = Some user ->
  getMetadataForUserRole (userId user) s = Some user_rl ->
  to_upper roleName ∈ groupRole_ user_rl ->
  fuse (sqliteConnector_ s) <> Some 0%nat ->
  let left := UserRole_revokeRole (to_upper roleName) user_rl in
  revokeRole_unsafe roleName userName s
  = Ok tt
       (set_conn
          (mkConn
             (mkStore (mapd_users (db (sqliteConnector_ s)))
                      (filter (fun r => r <> (roleName, userName))
                              (mapd_roles (db (sqliteConnector_ s))))
                      (mapd_object_permissions (db (sqliteConnector_ s))))
             (txn (sqliteConnector_ s)) (pred <$> fuse (sqliteConnector_ s)))
          (set_userRoleMap
             (if decide (UserRole_getMembershipSize left = 0%nat)
              then delete (userId user) (userRoleMap_ s)
              else <[userId user := left]> (userRoleMap_ s))
             s)).
Proof.
  intros Hr Hu Hl Hin Hf. cbv zeta. unfold revokeRole_unsafe, bind, gets.
  rewrite (bool_decide_eq_true_2 _ Hr). simpl. rewrite Hu. simpl. rewrite Hl.
  unfold UserRole_hasRole. rewrite (bool_decide_eq_true_2 _ Hin).
  unfold set_userRole, modify, query, on_conn, conn_exec, delete_role.
  destruct (decide (UserRole_getMembershipSize
                      (UserRole_revokeRole (to_upper roleName) user_rl) = 0%nat))
    as [Hz|Hz];
    simpl; destruct (fuse (sqliteConnector_ s)) as [[|n]|]; try congruence; reflexivity.
Qed.

(** X17: when [grantRole_unsafe] returns, [isRoleGrantedToUser] answers yes
    for the user and the role; it throws, and changes nothing, when the
    role or the user does not exist.  When [revokeRole_unsafe] returns,
    [isRoleGrantedToUser] answers no, and no row of [mapd_roles] records
    the membership. *)
Theorem isRoleGrantedToUser_follows roleName userName s :
  (forall u s',
     grantRole_unsafe roleName userName s = Ok u s' ->
     exists user,
       getMetadataForUser userName s = Some user
       /\ isRoleGrantedToUser (userId user) roleName s' = true)
  /\ (getMetadataForRole roleName s = None \/ getMetadataForUser userName s = None ->
      exists msg, grantRole_unsafe roleName userName s = Throw msg s)
  /\ (forall u s',
        revokeRole_unsafe roleName userName s = Ok u s' ->
        exists user,
          getMetadataForUser userName s = Some user
          /\ isRoleGrantedToUser (userId user) roleName s = true
          /\ isRoleGrantedToUser (userId user) roleName s' = false
          /\ (roleName, userName) ∉ mapd_roles (db (sqliteConnector_ s'))).
Proof.
  split; [|split].
  - intros u s' R. apply grantRole_unsafe_Ok in R as (user & [rl Hr] & Hu & Hin & Hout).
    exists user. split; [exact Hu|]. unfold isRoleGrantedToUser.
    destruct (decide (to_upper roleName ∈
                groupRole_ (default (mkUserRole (userId user) userName ∅)
                                    (getMetadataForUserRole (userId user) s))))
      as [Hi|Hn].
    + rewrite (Hin Hi). rewrite Hr.
      destruct (getMetadataForUserRole (userId user) s) as [user_rl|]; simpl in Hi.
      * unfold UserRole_hasRole. apply bool_decide_eq_true_2. exact Hi.
      * set_solver.
    + destruct (Hout Hn) as (Hm & Hrm & _). unfold getMetadataForUserRole, getMetadataForRole.
      unfold getMetadataForRole in Hr. rewrite Hm, Hrm, lookup_insert_eq, Hr.
      unfold UserRole_hasRole, UserRole_grantRole. simpl.
      apply bool_decide_eq_true_2. set_solver.
  - intros Hc. unfold grantRole_unsafe, bind, gets.
    destruct (getMetadataForRole roleName s) as [rl|] eqn:Hr.
    + rewrite bool_decide_eq_true_2 by eauto. simpl.
      destruct Hc as [?|Hu]; [discriminate|]. rewrite Hu. eexists; reflexivity.
    + rewrite bool_decide_eq_false_2 by (intros [? ?]; discriminate).
      eexists; reflexivity.
  - intros u s' R.
    assert (Hpre : exists user user_rl,
               is_Some (getMetadataForRole roleName s)
               /\ getMetadataForUser userName s = Some user
               /\ getMetadataForUserRole (userId user) s = Some user_rl
               /\ to_upper roleName ∈ groupRole_ user_rl
               /\ fuse (sqliteConnector_ s) <> Some 0%nat).
    { unfold revokeRole_unsafe, bind, gets in R.
      destruct (bool_decide (is_Some (getMetadataForRole roleName s))) eqn:Er;
        [|discriminate]. apply bool_decide_eq_true in Er. simpl in R.
      destruct (getMetadataForUser userName s) as [user|] eqn:Eu; [|discriminate].
      destruct (getMetadataForUserRole (userId user) s) as [user_rl|] eqn:El;
        [|discriminate].
      unfold UserRole_hasRole in R.
      destruct (bool_decide (to_upper roleName ∈ groupRole_ user_rl)) eqn:Eh;
        [|discriminate]. apply bool_decide_eq_true in Eh.
      exists user, user_rl. split; [exact Er|]. split; [reflexivity|].
      split; [exact El|]. split; [exact Eh|]. intros Ef.
      unfold set_userRole, modify, query, on_conn, conn_exec in R.
      destruct (decide _) in R; simpl in R; rewrite Ef in R; discriminate. }
    destruct Hpre as (user & user_rl & Hr & Hu & Hl & Hin & Hf).
    rewrite (revokeRole_unsafe_run _ _ _ _ _ Hr Hu Hl Hin Hf) in R.
    injection R as E. subst s'. exists user. split; [exact Hu|].
    destruct Hr as [rl Hr].
    unfold isRoleGrantedToUser, getMetadataForUserRole, getMetadataForRole in *.
    rewrite Hl, Hr. simpl. split.
    { unfold UserRole_hasRole. apply bool_decide_eq_true_2. exact Hin. }
    split.
    + destruct (decide _); simpl.
      * rewrite lookup_delete_eq. reflexivity.
      * rewrite lookup_insert_eq, Hr. unfold UserRole_hasRole, UserRole_revokeRole.
        simpl. apply bool_decide_eq_false_2. set_solver.
    + intros Hin'. apply list_elem_of_filter in Hin' as [Hne _]. congruence.
Qed.

(** X18: [revokeRole_unsafe] undoes [grantRole_unsafe]: a role that the user
    did not hold is granted and then revoked, and the handles of the users
    on their roles and the three tables are as before the grant (a handle
    that exists before the grant is taken to hold a role, as every handle
    that these functions leave does). *)
Theorem revokeRole_undoes_grantRole roleName userName s u s1 :
  (forall user user_rl,
     getMetadataForUser userName s = Some user ->
     getMetadataForUserRole (userId user) s = Some user_rl ->
     (to_upper roleName ∉ groupRole_ user_rl) /\ groupRole_ user_rl <> ∅) ->
  (forall n, fuse (sqliteConnector_ s) = Some n -> (2 <= n)%nat) ->
  grantRole_unsafe roleName userName s = Ok u s1 ->
  exists s2,
    revokeRole_unsafe roleName userName s1 = Ok tt s2
    /\ userRoleMap_ s2 = userRoleMap_ s
    /\ roleMap_ s2 = roleMap_ s
    /\ db (sqliteConnector_ s2) = db (sqliteConnector_ s)
    /\ txn (sqliteConnector_ s2) = txn (sqliteConnector_ s).
Proof.
  intros Hpre Hf R.
  apply grantRole_unsafe_Ok in R as (user & Hr & Hu & _ & Hout). cbv zeta in Hout.
  set (old := default (mkUserRole (userId user) userName ∅)
                      (getMetadataForUserRole (userId user) s)) in *.
  assert (Hn : to_upper roleName ∉ groupRole_ old).
  { unfold old. destruct (getMetadataForUserRole (userId user) s) as [user_rl|] eqn:El.
    - simpl. apply (Hpre _ _ Hu El).
    - simpl. set_solver. }
  destruct (Hout Hn) as (Hm & Hrm & Hrow & Hdb & Htx & Hfu & Hf0 & _).
  assert (Hu1 : getMetadataForUser userName s1 = Some user).
  { unfold getMetadataForUser in *. rewrite Hdb. exact Hu. }
  assert (Hr1 : is_Some (getMetadataForRole roleName s1)).
  { unfold getMetadataForRole in *. rewrite Hrm. exact Hr. }
  assert (Hl1 : getMetadataForUserRole (userId user) s1
                = Some (UserRole_grantRole (to_upper roleName) old)).
  { unfold getMetadataForUserRole. rewrite Hm. apply lookup_insert_eq. }
  assert (Hf1 : fuse (sqliteConnector_ s1) <> Some 0%nat).
  { rewrite Hfu. destruct (fuse (sqliteConnector_ s)) as [n|] eqn:Ef; [|discriminate].
    specialize (Hf _ eq_refl). simpl. intros [= E]. lia. }
  eexists. split.
  { apply (revokeRole_unsafe_run _ _ _ _ _ Hr1 Hu1 Hl1); [|exact Hf1].
    unfold UserRole_grantRole. simpl. set_solver. }
  simpl. rewrite Hm, Hrm, Hdb, Htx. simpl.
  assert (Eset : groupRole_ (UserRole_revokeRole (to_upper roleName)
                               (UserRole_grantRole (to_upper roleName) old))
                 = groupRole_ old).
  { unfold UserRole_revokeRole, UserRole_grantRole. simpl.
    apply leibniz_equiv. set_solver. }
  split; [|split; [reflexivity|split; [|reflexivity]]].
  - unfold UserRole_getMembershipSize. rewrite Eset.
    unfold old in *. destruct (getMetadataForUserRole (userId user) s) as [user_rl|] eqn:El.
    + simpl in *. destruct (Hpre _ _ Hu El) as [_ Hne].
      rewrite decide_False by (intros E; apply size_empty_inv in E;
                               apply leibniz_equiv in E; contradiction).
      rewrite insert_insert_eq. apply insert_id.
      unfold getMetadataForUserRole in El. rewrite El. f_equal.
      destruct user_rl as [i n g]. unfold UserRole_revokeRole, UserRole_grantRole.
      simpl in *. f_equal. apply leibniz_equiv. set_solver.
    + rewrite decide_True by reflexivity.
      apply delete_insert_id. exact El.
  - rewrite filter_app.
    rewrite (filter_cons_False _ (roleName, userName)) by (intros E; apply E; reflexivity).
    rewrite filter_nil, app_nil_r.
    rewrite filter_all by (intros r Hin E; subst r; contradiction).
    destruct (db (sqliteConnector_ s)); reflexivity.
Qed.

End RoleGrants.


Section UserCreation.
Context `{Headers} `{ObjectHeaders}.
Import SysCatalog.

Lemma grantDBObjectPrivileges_unsafe_inv roleName object catalog s o s' :
  grantDBObjectPrivileges_unsafe roleName object catalog s = Ok o s' ->
  exists rl key row,
    roleName <> MAPD_ROOT_USER
    /\ getMetadataForRole roleName s = Some rl
    /\ resolveKey catalog (objectName_ object) (objectType_ object) (objectKey_ object)
       = Some key
    /\ roleMap_ s' = <[to_upper roleName := grantPrivileges (setObjectKey key object) rl]>
                       (roleMap_ s)
    /\ userRoleMap_ s' = userRoleMap_ s
    /\ mapd_users (db (sqliteConnector_ s')) = mapd_users (db (sqliteConnector_ s))
    /\ mapd_roles (db (sqliteConnector_ s')) = mapd_roles (db (sqliteConnector_ s))
    /\ pr_roleName row = roleName /\ pr_key row = key
    /\ mapd_object_permissions (db (sqliteConnector_ s'))
       = filter (fun r => ~ (pr_roleName r = roleName /\ pr_key r = key))
                (mapd_object_permissions (db (sqliteConnector_ s))) ++ [row]
    /\ txn (sqliteConnector_ s') = txn (sqliteConnector_ s)
    /\ fuse (sqliteConnector_ s') = pred <$> fuse (sqliteConnector_ s)
    /\ fuse (sqliteConnector_ s) <> Some 0%nat
    /\ check_privileges_ s' = check_privileges_ s
    /\ currentDB_ s' = currentDB_ s
    /\ mapd_cat_map_ s' = mapd_cat_map_ s.
Proof.
  unfold grantDBObjectPrivileges_unsafe. intros R.
  destruct (decide (roleName = MAPD_ROOT_USER)) as [|Hroot]; [discriminate|].
  apply bind_Ok in R as (orl & s0 & Rg & R). unfold gets in Rg. injection Rg as <- <-.
  destruct (getMetadataForRole roleName s) as [rl|] eqn:Hrl; [|discriminate].
  apply bind_Ok in R as (ob & s0 & Rk & R). unfold loadKey in Rk.
  destruct (resolveKey catalog _ _ _) as [key|] eqn:Hkey; [|discriminate].
  unfold ret in Rk. injection Rk as <- <-.
  apply bind_Ok in R as ([] & s0 & Rm & R). unfold set_role, modify in Rm.
  injection Rm as <-.
  apply bind_Ok in R as ([] & s0 & Rq & R). unfold ret in R. injection R as <- <-.
  unfold insertOrUpdateObjectPrivileges, query, on_conn, conn_exec, upsert_permission in Rq.
  simpl in Rq.
  destruct (getPrivileges_fields (resetPrivileges (setObjectKey key object))
              (grantPrivileges (setObjectKey key object) rl)) as (Ek & _ & _).
  simpl in Ek.
  exists rl, key. eexists.
  destruct (fuse (sqliteConnector_ s)) as [[|n]|] eqn:Ef; try discriminate;
    injection Rq as <-; simpl; rewrite Ek;
    (split; [exact Hroot|]); (split; [reflexivity|]); (split; [reflexivity|]);
    (split; [reflexivity|]); (split; [reflexivity|]); (split; [reflexivity|]);
    (split; [reflexivity|]); (split; [|split; [|split; [reflexivity|]]]);
    try reflexivity; repeat split; try congruence.
Qed.

Lemma select_user_new name pw su (d : Store) :
  name ∉ ur_name <$> mapd_users d ->
  select_user name
    (mkStore (mapd_users d ++ [mkUserRow (Catalog.next_rowid (ur_userid <$> mapd_users d))
                                         name pw su])
             (mapd_roles d) (mapd_object_permissions d))
  = Some (mkUserRow (Catalog.next_rowid (ur_userid <$> mapd_users d)) name pw su).
Proof.
  intros Hn. unfold select_user. simpl. rewrite filter_app.
  rewrite (filter_none _ (mapd_users d)).
  - simpl. rewrite filter_cons_True by reflexivity. reflexivity.
  - intros r Hr E. apply Hn. apply list_elem_of_fmap. eauto.
Qed.

Lemma filter_upsert_other (name : string) (key : DBObjectKey) row (l : list PermRow) :
  pr_roleName row = name ->
  filter (fun r => pr_roleName r <> name)
         (filter (fun r => ~ (pr_roleName r = name /\ pr_key r = key)) l ++ [row])
  = filter (fun r => pr_roleName r <> name) l.
Proof.
  intros Hrow. rewrite filter_app.
  rewrite (filter_cons_False _ row) by (intros E; apply E; exact Hrow).
  rewrite filter_nil, app_nil_r.
  induction l as [|r l IH]; [reflexivity|].
  destruct (decide (pr_roleName r = name)) as [E|E].
  - rewrite (filter_cons_False (fun r => pr_roleName r <> name) r l)
      by (intros Hn; apply Hn; exact E).
    destruct (decide (pr_key r = key)) as [Ek|Ek].
    + rewrite filter_cons_False by (intros Hn; apply Hn; auto). exact IH.
    + rewrite filter_cons_True by (intros [_ ?]; contradiction).
      rewrite filter_cons_False by (intros Hn; apply Hn; exact E). exact IH.
  - rewrite filter_cons_True by (intros [? _]; contradiction).
    rewrite !(filter_cons_True (fun r => pr_roleName r <> name)) by exact E.
    f_equal. exact IH.
Qed.

Lemma createUser_Ok name pw su s u s' :
  createUser name pw su s = Ok u s' ->
  let uid := Catalog.next_rowid (ur_userid <$> mapd_users (db (sqliteConnector_ s))) in
  getMetadataForUser name s = None
  /\ (name ∉ ur_name <$> mapd_users (db (sqliteConnector_ s)))
  /\ txn (sqliteConnector_ s) = None
  /\ txn (sqliteConnector_ s') = None
  /\ mapd_users (db (sqliteConnector_ s'))
     = mapd_users (db (sqliteConnector_ s)) ++ [mkUserRow uid name pw su]
  /\ (fuse (sqliteConnector_ s) = None -> fuse (sqliteConnector_ s') = None)
  /\ check_privileges_ s' = check_privileges_ s
  /\ currentDB_ s' = currentDB_ s
  /\ mapd_cat_map_ s' = mapd_cat_map_ s
  /\ if arePrivilegesOn s then
       getMetadataForRole name s = None
       /\ (exists rl, roleMap_ s' = <[to_upper name := rl]> (roleMap_ s)
                      /\ roleName_ rl = name /\ userPrivateRole_ rl = true)
       /\ filter (fun r => pr_roleName r <> name)
                 (mapd_object_permissions (db (sqliteConnector_ s')))
          = filter (fun r => pr_roleName r <> name)
                   (mapd_object_permissions (db (sqliteConnector_ s)))
       /\ (getMetadataForUserRole uid s = None ->
           userRoleMap_ s'
           = <[uid := mkUserRole uid name {[to_upper name]}]> (userRoleMap_ s)
           /\ mapd_roles (db (sqliteConnector_ s'))
              = mapd_roles (db (sqliteConnector_ s)) ++ [(name, name)])
     else
       roleMap_ s' = roleMap_ s
       /\ userRoleMap_ s' = userRoleMap_ s
       /\ mapd_roles (db (sqliteConnector_ s')) = mapd_roles (db (sqliteConnector_ s))
       /\ mapd_object_permissions (db (sqliteConnector_ s'))
          = mapd_object_permissions (db (sqliteConnector_ s)).
Proof.
  intros R. cbv zeta.
  assert (Eu : getMetadataForUser name s = None).
  { destruct (getMetadataForUser name s) eqn:E; [|reflexivity].
    destruct (createUser_rejects name pw su s) as [msg Hm]; [left; eauto|].
    rewrite Hm in R. discriminate. }
  assert (Er : arePrivilegesOn s && bool_decide (is_Some (getMetadataForRole name s))
               = false).
  { destruct (arePrivilegesOn s) eqn:Eon; [|reflexivity]. simpl.
    apply bool_decide_eq_false_2. intros Hs.
    destruct (createUser_rejects name pw su s) as [msg Hm]; [right; auto|].
    rewrite Hm in R. discriminate. }
  rewrite (createUser_transaction _ _ _ _ Eu Er) in R.
  unfold execInTransaction in R.
  apply bind_Ok in R as ([] & s0 & Rb & R). rewrite sys_BEGIN in Rb.
  destruct (txn (sqliteConnector_ s)) eqn:Et; [discriminate|]. injection Rb as <-.
  apply bind_Ok in R as ([] & s2 & Rt & Re).
  apply try_catch_Ok in Rt as [Rt|(e & s3 & _ & Rh)];
    [|apply bind_Ok in Rh as (? & ? & _ & Rh); discriminate].
  apply bind_Ok in Rt as ([] & s3 & Rq & Rt).
  unfold query, on_conn, conn_exec, insert_user in Rq. simpl in Rq.
  destruct (decide (name ∈ ur_name <$> mapd_users (db (sqliteConnector_ s))))
    as [|Hfresh] in Rq;
    [destruct (fuse (sqliteConnector_ s)) as [[|?]|]; discriminate|].
  assert (Hs3 : exists f3,
             s3 = set_conn
                    (mkConn
                       (mkStore (mapd_users (db (sqliteConnector_ s))
                                 ++ [mkUserRow (Catalog.next_rowid
                                                  (ur_userid <$> mapd_users (db (sqliteConnector_ s))))
                                               name pw su])
                                (mapd_roles (db (sqliteConnector_ s)))
                                (mapd_object_permissions (db (sqliteConnector_ s))))
                       (Some (db (sqliteConnector_ s))) f3) s
             /\ (fuse (sqliteConnector_ s) = None -> f3 = None)).
  { destruct (fuse (sqliteConnector_ s)) as [[|n]|]; try discriminate;
      injection Rq as <-; eexists; split; try reflexivity; discriminate. }
  clear Rq. destruct Hs3 as (f3 & -> & Hf3).
  rewrite sys_END in Re.
  destruct (txn (sqliteConnector_ s2)) eqn:Et2; [|discriminate].
  injection Re as Es'. subst s'.
  simpl. split; [exact Eu|]. split; [exact Hfresh|]. split; [reflexivity|].
  split; [reflexivity|].
  destruct (arePrivilegesOn s) eqn:Eon.
  - simpl in Er. apply bool_decide_eq_false in Er.
    apply bind_Ok in Rt as ([] & s4 & Rc & Rt).
    apply bind_Ok in Rt as ([] & s5 & Rd & Rg).
    apply createRole_unsafe_Ok in Rc
      as (_ & Hm4 & Hu4 & Hus4 & Hr4 & Hp4 & Ht4 & Hf4 & _ & Hc4 & Hd4 & Hcm4).
    cbv zeta in *. simpl in *.
    unfold grantDefaultPrivilegesToRole_unsafe in Rd.
    apply bind_Ok in Rd as (dn & s6 & Rx & Rd). unfold gets in Rx.
    injection Rx as Edn E6. subst s6 dn.
    apply bind_Ok in Rd as (oc & s6 & Rx & Rd). unfold gets in Rx.
    injection Rx as Eoc E6. subst s6 oc.
    apply bind_Ok in Rd as (cat & s6 & Rx & Rd). apply deref_Ok in Rx as [_ E6]. subst s6.
    apply bind_Ok in Rd as (ob & s6 & Rx & Rd). unfold loadKey in Rx.
    destruct (resolveKey cat _ _ _) in Rx; [|discriminate].
    unfold ret in Rx. injection Rx as Eob E6. subst s6 ob.
    apply bind_Ok in Rd as (ob' & s6 & Rd & Rx). unfold ret in Rx.
    injection Rx as E6. subst s6.
    apply grantDBObjectPrivileges_unsafe_inv in Rd
      as (rl5 & key5 & row5 & _ & Hl5 & _ & Hm5 & Hu5 & Hus5 & Hr5 & Hrow5 & _ & Hp5
          & Ht5 & Hf5 & _ & Hc5 & Hd5 & Hcm5).
    apply grantRole_unsafe_Ok in Rg as (user & _ & Hu6 & Hin6 & Hout6).
    assert (Euser : user = mkUser (Catalog.next_rowid
                                     (ur_userid <$> mapd_users (db (sqliteConnector_ s))))
                                  name pw su su).
    { unfold getMetadataForUser in Hu6.
      assert (Esel : select_user name (db (sqliteConnector_ s5))
                     = select_user name
                         (mkStore (mapd_users (db (sqliteConnector_ s))
                                   ++ [mkUserRow (Catalog.next_rowid
                                                    (ur_userid <$> mapd_users (db (sqliteConnector_ s))))
                                                 name pw su])
                                  (mapd_roles (db (sqliteConnector_ s)))
                                  (mapd_object_permissions (db (sqliteConnector_ s))))).
      { unfold select_user. rewrite Hus5, Hus4. reflexivity. }
      rewrite Esel, (select_user_new _ _ _ _ Hfresh) in Hu6. simpl in Hu6.
      injection Hu6 as <-. reflexivity. }
    subst user. simpl in *.
    assert (Hrole : forall s7, roleMap_ s7 = roleMap_ s5 ->
               exists rl, roleMap_ s7 = <[to_upper name := rl]> (roleMap_ s)
                          /\ roleName_ rl = name /\ userPrivateRole_ rl = true).
    { intros s7 E7. eexists. split.
      - rewrite E7, Hm5, Hm4, insert_insert_eq. reflexivity.
      - unfold getMetadataForRole in Hl5. rewrite Hm4, lookup_insert_eq in Hl5.
        injection Hl5 as <-. split; reflexivity. }
    assert (Hperm5 : filter (fun r => pr_roleName r <> name)
                            (mapd_object_permissions (db (sqliteConnector_ s5)))
                     = filter (fun r => pr_roleName r <> name)
                              (mapd_object_permissions (db (sqliteConnector_ s)))).
    { rewrite Hp5, (filter_upsert_other _ _ _ _ Hrow5), Hp4.
      apply filter_upsert_other. reflexivity. }
    destruct (decide (to_upper name ∈
                groupRole_ (default (mkUserRole (Catalog.next_rowid
                                       (ur_userid <$> mapd_users (db (sqliteConnector_ s))))
                                       name ∅)
                              (getMetadataForUserRole
                                 (Catalog.next_rowid
                                    (ur_userid <$> mapd_users (db (sqliteConnector_ s))))
                                 s5)))) as [Hi|Hn].
    + specialize (Hin6 Hi). subst s2. simpl.
      split; [rewrite Hus5, Hus4; reflexivity|].
      split.
      { intros Ef. rewrite Hf5, Hf4. simpl. rewrite (Hf3 Ef). reflexivity. }
      split; [congruence|]. split; [congruence|]. split; [congruence|].
      split; [apply eq_None_not_Some; exact Er|].
      split; [apply Hrole; reflexivity|]. split; [exact Hperm5|].
      intros Hnone. exfalso.
      unfold getMetadataForUserRole in Hi, Hnone. rewrite Hu5, Hu4 in Hi. simpl in Hi.
      rewrite Hnone in Hi. simpl in Hi. set_solver.
    + destruct (Hout6 Hn) as (Hm7 & Hrm7 & _ & Hdb7 & Ht7 & Hf7 & _ & Hc7 & Hd7 & Hcm7).
      rewrite Hdb7. simpl.
      split; [rewrite Hus5, Hus4; reflexivity|].
      split.
      { intros Ef. rewrite Hf7, Hf5, Hf4. simpl. rewrite (Hf3 Ef). reflexivity. }
      split; [congruence|]. split; [congruence|]. split; [congruence|].
      split; [apply eq_None_not_Some; exact Er|].
      split; [apply Hrole; exact Hrm7|]. split; [exact Hperm5|].
      intros Hnone. unfold getMetadataForUserRole in Hnone |- *.
      rewrite Hm7. unfold getMetadataForUserRole. rewrite Hu5, Hu4. simpl.
      rewrite Hnone. simpl. unfold UserRole_grantRole. simpl.
      rewrite Hr5, Hr4. split; [|reflexivity].
      f_equal. f_equal. apply leibniz_equiv. set_solver.
  - unfold ret in Rt. injection Rt as <-. simpl.
    split; [reflexivity|]. split; [exact Hf3|]. auto 10.
Qed.

End UserCreation.


Section DropUser.
Context `{Headers} `{ObjectHeaders}.
Import SysCatalog.

Lemma next_rowid_fresh (ids : list Z) : Catalog.next_rowid ids ∉ ids.
Proof.
  assert (Hle : forall x, x ∈ ids -> x <= foldr Z.max 0 ids).
  { induction ids as [|a l IH]; intros x Hx; [inversion Hx|].
    apply elem_of_cons in Hx as [->|Hx]; simpl; [lia|].
    specialize (IH x Hx). lia. }
  intros Hin. apply Hle in Hin. unfold Catalog.next_rowid in Hin. lia.
Qed.

Lemma fmap_inj_on {A B} (f : A -> B) (l : list A) x y :
  NoDup (f <$> l) -> x ∈ l -> y ∈ l -> f x = f y -> x = y.
Proof.
  induction l as [|a l IH]; intros Hnd Hx Hy E; [inversion Hx|].
  rewrite fmap_cons in Hnd. apply NoDup_cons in Hnd as [Ha Hnd].
  apply elem_of_cons in Hx as [->|Hx]; apply elem_of_cons in Hy as [->|Hy].
  - reflexivity.
  - exfalso. apply Ha. rewrite E. apply list_elem_of_fmap. eauto.
  - exfalso. apply Ha. rewrite <- E. apply list_elem_of_fmap. eauto.
  - apply IH; assumption.
Qed.

Lemma head_filter_elem {A} (P : A -> Prop) `{!forall x, Decision (P x)} (l : list A) r :
  head (filter P l) = Some r -> r ∈ l /\ P r.
Proof.
  intros Hh. assert (Hin : r ∈ filter P l).
  { destruct (filter P l) as [|a l']; [discriminate|].
    injection Hh as ->. left. }
  apply list_elem_of_filter in Hin as [? ?]. auto.
Qed.

Lemma getMetadataForUser_row name s user :
  getMetadataForUser name s = Some user ->
  exists r, r ∈ mapd_users (db (sqliteConnector_ s))
            /\ ur_name r = name /\ ur_userid r = userId user.
Proof.
  unfold getMetadataForUser, select_user. intros Hu.
  destruct (head _) as [r|] eqn:Hh; [|discriminate].
  injection Hu as <-. apply head_filter_elem in Hh as [Hin Hn]. eauto.
Qed.

(** The effect of [DELETE FROM mapd_users WHERE userid = ...] on the
    lookup by name, in a table where names and ids are unique. *)
Lemma select_user_deleted name (d : Store) r users' :
  NoDup (ur_name <$> mapd_users d) ->
  select_user name d = Some r ->
  users' = filter (fun x => ur_userid x <> ur_userid r) (mapd_users d) ->
  forall roles perms, select_user name (mkStore users' roles perms) = None.
Proof.
  intros Hnd Hsel -> roles perms. unfold select_user in *. simpl.
  apply head_filter_elem in Hsel as [Hin Hn].
  rewrite filter_none; [reflexivity|].
  intros x Hx Hxn. apply list_elem_of_filter in Hx as [Hid Hx].
  apply Hid. f_equal. apply (fmap_inj_on ur_name _ _ _ Hnd Hx Hin). congruence.
Qed.

Lemma select_user_kept n (d : Store) r users' :
  NoDup (ur_userid <$> mapd_users d) ->
  r ∈ mapd_users d -> ur_name r <> n ->
  users' = filter (fun x => ur_userid x <> ur_userid r) (mapd_users d) ->
  forall roles perms, select_user n (mkStore users' roles perms) = select_user n d.
Proof.
  intros Hnd Hin Hn -> roles perms. unfold select_user. simpl. f_equal.
  assert (Hall : forall x, x ∈ mapd_users d -> ur_name x = n ->
                           ur_userid x <> ur_userid r).
  { intros x Hx En Eid. apply Hn. rewrite <- En. f_equal. symmetry.
    apply (fmap_inj_on ur_userid _ _ _ Hnd Hx Hin Eid). }
  clear Hnd Hin. induction (mapd_users d) as [|a l IH]; [reflexivity|].
  destruct (decide (ur_name a = n)) as [E|E].
  - rewrite (filter_cons_True (fun x => ur_userid x <> ur_userid r))
      by (apply Hall; [left|exact E]).
    rewrite !(filter_cons_True (fun x => ur_name x = n)) by exact E.
    f_equal. apply IH. intros x Hx. apply Hall. right. exact Hx.
  - rewrite (filter_cons_False (fun x => ur_name x = n) a l) by exact E.
    destruct (decide (ur_userid a <> ur_userid r)) as [E'|E'].
    + rewrite filter_cons_True by exact E'. rewrite filter_cons_False by exact E.
      apply IH. intros x Hx. apply Hall. right. exact Hx.
    + rewrite filter_cons_False by exact E'.
      apply IH. intros x Hx. apply Hall. right. exact Hx.
Qed.

Lemma select_user_other n (d : Store) row roles perms :
  ur_name row <> n ->
  select_user n (mkStore (mapd_users d ++ [row]) roles perms) = select_user n d.
Proof.
  intros Hn. unfold select_user. simpl. rewrite filter_app.
  rewrite (filter_cons_False _ row) by exact Hn.
  rewrite filter_nil, app_nil_r. reflexivity.
Qed.

Lemma createUser_finds name pw su s u s' :
  createUser name pw su s = Ok u s' ->
  getMetadataForUser name s'
  = Some (mkUser (Catalog.next_rowid (ur_userid <$> mapd_users (db (sqliteConnector_ s))))
                 name pw su su).
Proof.
  intros R. apply createUser_Ok in R as (_ & Hfresh & _ & _ & Hus & _).
  cbv zeta in Hus.
  unfold getMetadataForUser, select_user. rewrite Hus, filter_app.
  rewrite filter_none.
  - rewrite filter_cons_True by reflexivity. reflexivity.
  - intros x Hx En. apply Hfresh. apply list_elem_of_fmap. eauto.
Qed.

(** X19: a returning [createUser] has added the user under a fresh id, and
    leaves the other users as they were; with RBAC on, the user has a
    private role of the same name, and, when no [UserRole] was left under
    the new id, that role is granted to the user and recorded as the row
    [(name, name)] of [mapd_roles]; with RBAC off, roles and grants are
    not touched. *)
Theorem createUser_creates name pw su s u s' :
  createUser name pw su s = Ok u s' ->
  let uid := Catalog.next_rowid (ur_userid <$> mapd_users (db (sqliteConnector_ s))) in
  getMetadataForUser name s = None
  /\ (uid ∉ ur_userid <$> mapd_users (db (sqliteConnector_ s)))
  /\ getMetadataForUser name s' = Some (mkUser uid name pw su su)
  /\ (forall n, n <> name -> getMetadataForUser n s' = getMetadataForUser n s)
  /\ (arePrivilegesOn s = true ->
      hasRole name true s' = true
      /\ (forall rn, to_upper rn <> to_upper name ->
            getMetadataForRole rn s' = getMetadataForRole rn s)
      /\ (getMetadataForUserRole uid s = None ->
          isRoleGrantedToUser uid name s' = true
          /\ (forall i, i <> uid ->
                getMetadataForUserRole i s' = getMetadataForUserRole i s)
          /\ mapd_roles (db (sqliteConnector_ s'))
             = mapd_roles (db (sqliteConnector_ s)) ++ [(name, name)]))
  /\ (arePrivilegesOn s = false ->
      roleMap_ s' = roleMap_ s
      /\ userRoleMap_ s' = userRoleMap_ s
      /\ mapd_roles (db (sqliteConnector_ s')) = mapd_roles (db (sqliteConnector_ s))
      /\ mapd_object_permissions (db (sqliteConnector_ s'))
         = mapd_object_permissions (db (sqliteConnector_ s))).
Proof.
  intros R. cbv zeta. pose proof (createUser_finds _ _ _ _ _ _ R) as Hfound.
  apply createUser_Ok in R
    as (Hnone & Hfresh & _ & _ & Hus & _ & _ & _ & _ & Hrb). cbv zeta in Hus, Hrb.
  split; [exact Hnone|]. split; [apply next_rowid_fresh|].
  split; [exact Hfound|].
  split.
  { intros n Hn. unfold getMetadataForUser. f_equal.
    unfold select_user. rewrite Hus, filter_app.
    rewrite (filter_cons_False _ (mkUserRow _ _ _ _)) by (simpl; congruence).
    rewrite filter_nil, app_nil_r. reflexivity. }
  destruct (arePrivilegesOn s); (split; [|intros E; try discriminate E]).
  - intros _. destruct Hrb as (Hr & (rl & Hm & Hrn & Hpr) & _ & Hu).
    split; [|split].
    + unfold hasRole, getMetadataForRole. rewrite Hm, lookup_insert_eq, Hpr.
      apply bool_decide_eq_true_2. reflexivity.
    + intros rn Hrn'. unfold getMetadataForRole. rewrite Hm.
      apply lookup_insert_ne. congruence.
    + intros Hur. destruct (Hu Hur) as [Hum Hro]. split; [|split].
      * unfold isRoleGrantedToUser, getMetadataForUserRole, getMetadataForRole.
        rewrite Hum, Hm, !lookup_insert_eq. unfold UserRole_hasRole. simpl.
        apply bool_decide_eq_true_2. set_solver.
      * intros i Hi. unfold getMetadataForUserRole. rewrite Hum.
        apply lookup_insert_ne. congruence.
      * exact Hro.
  - intros E; discriminate E.
  - exact Hrb.
Qed.

Lemma dropUserRole_run userName s user :
  getMetadataForUser userName s = Some user ->
  exists s', dropUserRole userName s = Ok tt s'
             /\ userRoleMap_ s' = delete (userId user) (userRoleMap_ s)
             /\ sqliteConnector_ s' = sqliteConnector_ s
             /\ roleMap_ s' = roleMap_ s
             /\ check_privileges_ s' = check_privileges_ s
             /\ currentDB_ s' = currentDB_ s
             /\ mapd_cat_map_ s' = mapd_cat_map_ s.
Proof.
  intros Hu. unfold dropUserRole, bind, gets. rewrite Hu.
  destruct (getMetadataForUserRole (userId user) s) as [rl|] eqn:Er.
  - rewrite bool_decide_eq_true_2 by eauto. unfold modify.
    eexists. split; [reflexivity|]. simpl. auto 10.
  - rewrite bool_decide_eq_false_2 by (intros [? ?]; discriminate).
    eexists. split; [reflexivity|]. unfold getMetadataForUserRole in Er.
    rewrite delete_id by exact Er. auto 10.
Qed.

Lemma dropUser_Ok name s u s' :
  dropUser name s = Ok u s' ->
  exists user,
    getMetadataForUser name s = Some user
    /\ txn (sqliteConnector_ s) = None
    /\ txn (sqliteConnector_ s') = None
    /\ mapd_users (db (sqliteConnector_ s'))
       = filter (fun r => ur_userid r <> userId user)
                (mapd_users (db (sqliteConnector_ s)))
    /\ check_privileges_ s' = check_privileges_ s
    /\ currentDB_ s' = currentDB_ s
    /\ mapd_cat_map_ s' = mapd_cat_map_ s
    /\ if arePrivilegesOn s then
         is_Some (getMetadataForRole name s)
         /\ roleMap_ s' = delete (to_upper name) (roleMap_ s)
         /\ userRoleMap_ s' = delete (userId user) (userRoleMap_ s)
         /\ mapd_roles (db (sqliteConnector_ s'))
            = filter (fun r => r.2 <> name)
                     (filter (fun r => r.1 <> name)
                             (mapd_roles (db (sqliteConnector_ s))))
         /\ mapd_object_permissions (db (sqliteConnector_ s'))
            = filter (fun r => pr_roleName r <> name)
                     (mapd_object_permissions (db (sqliteConnector_ s)))
       else
         roleMap_ s' = roleMap_ s
         /\ userRoleMap_ s' = userRoleMap_ s
         /\ mapd_roles (db (sqliteConnector_ s'))
            = mapd_roles (db (sqliteConnector_ s))
         /\ mapd_object_permissions (db (sqliteConnector_ s'))
            = mapd_object_permissions (db (sqliteConnector_ s)).
Proof.
  unfold dropUser. intros R.
  apply bind_Ok in R as ([] & s0 & Rb & R). rewrite sys_BEGIN in Rb.
  destruct (txn (sqliteConnector_ s)) eqn:Et; [discriminate|].
  injection Rb as E0. subst s0.
  apply bind_Ok in R as ([] & s2 & Rt & Re).
  apply try_catch_Ok in Rt as [Rt|(e & s3 & _ & Rh)];
    [|apply bind_Ok in Rh as (? & ? & _ & Rh); discriminate].
  rewrite sys_END in Re.
  destruct (txn (sqliteConnector_ s2)) eqn:Et2; [|discriminate].
  injection Re as Es'. subst s'.
  apply bind_Ok in Rt as (on & s3 & Rg & Rt). unfold gets in Rg.
  injection Rg as Eon E3. subst s3 on.
  apply bind_Ok in Rt as ([] & s3 & Rif & Rt).
  apply bind_Ok in Rt as (user & s4 & Rg & Rt). unfold gets in Rg.
  injection Rg as Eu E4. subst s4 user.
  destruct (getMetadataForUser name s3) as [user|] eqn:Eu3; [|discriminate].
  apply bind_Ok in Rt as ([] & s4 & Rq1 & Rq2).
  apply sys_query_Ok in Rq1 as (d1 & f1 & E1 & ->).
  apply sys_query_Ok in Rq2 as (d2 & f2 & E2 & ->).
  unfold delete_user in E1. unfold delete_privileges in E2. simpl in *.
  injection E1 as <-. injection E2 as <-. simpl in *.
  unfold arePrivilegesOn in *. simpl in Rif.
  destruct (check_privileges_ s) eqn:Eon.
  - apply bind_Ok in Rif as (user0 & s5 & Rg & Rif). unfold gets in Rg.
    injection Rg as Eu E5. subst s5 user0.
    destruct (bool_decide _) eqn:Hb in Rif.
    + apply bool_decide_eq_true in Hb as [user0 Hu0].
      assert (Hu : getMetadataForUser name s = Some user0) by exact Hu0. clear Hu0.
      apply bind_Ok in Rif as ([] & s5 & Rd & Rif).
      apply bind_Ok in Rif as ([] & s6 & Rr & Rq).
      apply dropRole_unsafe_Ok in Rd
        as (Hrl & Hm5 & Hu5 & Hus5 & Hr5 & Hp5 & Ht5 & Hc5 & Hd5 & Hcm5).
      assert (Hu5' : getMetadataForUser name s5 = Some user0).
      { unfold getMetadataForUser, select_user. rewrite Hus5. exact Hu. }
      destruct (dropUserRole_run _ _ _ Hu5')
        as (s6' & Rr' & Hum6 & Hc6 & Hm6 & Hcp6 & Hd6 & Hcm6).
      rewrite Rr' in Rr. injection Rr as E6. subst s6'.
      apply sys_query_Ok in Rq as (d3 & f3 & E3 & ->).
      unfold delete_roles_of_user in E3. injection E3 as <-.
      assert (Euser : Some user = Some user0).
      { rewrite <- Eu3, <- Hu. unfold getMetadataForUser, select_user. simpl.
        rewrite Hc6, Hus5. reflexivity. }
      injection Euser as Euser. subst user0. exists user. simpl.
      rewrite Hc6, Hus5, Hr5, Hp5. simpl in *.
      unfold getMetadataForRole in *. simpl in *.
      split; [exact Hu|]. split; [reflexivity|]. split; [reflexivity|].
      split; [reflexivity|]. split; [congruence|]. split; [congruence|].
      split; [congruence|]. split; [exact Hrl|]. split; [congruence|].
      split; [congruence|]. split; reflexivity.
    + apply bool_decide_eq_false in Hb.
      unfold ret in Rif. injection Rif as E3. subst s3.
      exfalso. apply Hb. exists user. exact Eu3.
  - unfold ret in Rif. injection Rif as E3. subst s3. exists user.
    unfold getMetadataForUser in Eu3 |- *. simpl in *. auto 12.
Qed.

(** X20: [dropUser] of a name that is no user throws "User ... does not
    exist." and leaves the catalog exactly as it was; whenever it throws,
    the system database and the state of its transaction are the ones
    before the call. *)
Theorem dropUser_throws name s :
  (txn (sqliteConnector_ s) = None ->
   getMetadataForUser name s = None ->
   dropUser name s = Throw ("User " +:+ name +:+ " does not exist.") s)
  /\ (forall e s', dropUser name s = Throw e s' ->
        db (sqliteConnector_ s') = db (sqliteConnector_ s)
        /\ txn (sqliteConnector_ s') = txn (sqliteConnector_ s)).
Proof.
  split.
  - intros Et Eu. unfold dropUser. unfold bind at 1. rewrite (BEGIN_begun _ Et).
    unfold bind at 1. unfold try_catch.
    assert (Eb : getMetadataForUser name (begun s) = None) by exact Eu.
    unfold bind at 1. unfold gets at 1. unfold bind at 1.
    assert (Eif : (if arePrivilegesOn (begun s)
                   then user <- gets (getMetadataForUser name) ;;
                        (if bool_decide (is_Some user)
                         then dropRole_unsafe name ;; dropUserRole name ;;
                              query (delete_roles_of_user name)
                         else ret ())
                   else ret ()) (begun s) = Ok tt (begun s)).
    { destruct (arePrivilegesOn (begun s)); [|reflexivity].
      unfold bind, gets. rewrite Eb.
      rewrite bool_decide_eq_false_2 by (intros [? ?]; discriminate). reflexivity. }
    rewrite Eif. unfold bind at 1, gets at 1. rewrite Eb.
    unfold throw, bind. rewrite sys_ROLLBACK. simpl. f_equal. apply (closed_id s Et).
  - intros e s' R. change (dropUser name) with
      (execInTransaction
         (on <- gets arePrivilegesOn ;;
          (if on : bool then
             user <- gets (getMetadataForUser name) ;;
             if bool_decide (is_Some user) then
               dropRole_unsafe name ;; dropUserRole name ;;
               query (delete_roles_of_user name)
             else ret tt
           else ret tt) ;;
          user <- gets (getMetadataForUser name) ;;
          match user with
          | None => throw ("User " +:+ name +:+ " does not exist.")
          | Some user =>
              query (delete_user (SysCatalog.userId user)) ;;
              query (delete_privileges (SysCatalog.userId user))
          end)) in R.
    apply execInTransaction_Throw in R; [exact R|].
    unfold dropRole_unsafe, dropUserRole. repeat (solve_keeps; cbv zeta).
Qed.

(** X21: with RBAC on, [dropUser] of a user who has no private role stops
    the program at the assertion [CHECK(rl)] of [dropRole_unsafe]. *)
Theorem dropUser_needs_private_role name s :
  txn (sqliteConnector_ s) = None ->
  arePrivilegesOn s = true ->
  is_Some (getMetadataForUser name s) ->
  getMetadataForRole name s = None ->
  dropUser name s = Fatal.
Proof.
  intros Et Eon Hu Hr. unfold dropUser. unfold bind at 1. rewrite (BEGIN_begun _ Et).
  unfold bind at 1. unfold try_catch.
  unfold bind at 1. unfold gets at 1.
  change (arePrivilegesOn (begun s)) with (arePrivilegesOn s). rewrite Eon.
  unfold bind at 1. unfold bind at 1. unfold gets at 1.
  change (getMetadataForUser name (begun s)) with (getMetadataForUser name s).
  rewrite bool_decide_eq_true_2 by exact Hu.
  unfold bind at 1. unfold dropRole_unsafe. unfold bind at 1, gets at 1.
  change (getMetadataForRole name (begun s)) with (getMetadataForRole name s).
  rewrite Hr. unfold bind at 1.
  rewrite bool_decide_eq_false_2 by (intros [? ?]; discriminate). reflexivity.
Qed.

(** X22: in a table of users where names and ids are unique, a returning
    [dropUser] leaves no user of the name and the other users as they
    were; with RBAC on, the private role and the [UserRole] of the user
    are not found any more, no row of [mapd_roles] names the user in
    either column and no row of [mapd_object_permissions] carries the
    name, while the other roles are found as before. *)
Theorem dropUser_removes name s u s' :
  NoDup (ur_name <$> mapd_users (db (sqliteConnector_ s))) ->
  NoDup (ur_userid <$> mapd_users (db (sqliteConnector_ s))) ->
  dropUser name s = Ok u s' ->
  exists user,
    getMetadataForUser name s = Some user
    /\ getMetadataForUser name s' = None
    /\ (forall n, n <> name -> getMetadataForUser n s' = getMetadataForUser n s)
    /\ (arePrivilegesOn s = true ->
        getMetadataForRole name s' = None
        /\ getMetadataForUserRole (userId user) s' = None
        /\ (forall rn, to_upper rn <> to_upper name ->
              getMetadataForRole rn s' = getMetadataForRole rn s)
        /\ (forall i, i <> userId user ->
              getMetadataForUserRole i s' = getMetadataForUserRole i s)
        /\ (forall r, r ∈ mapd_roles (db (sqliteConnector_ s')) <->
                      r ∈ mapd_roles (db (sqliteConnector_ s))
                      /\ r.1 <> name /\ r.2 <> name)
        /\ (forall r, r ∈ mapd_object_permissions (db (sqliteConnector_ s')) <->
                      r ∈ mapd_object_permissions (db (sqliteConnector_ s))
                      /\ pr_roleName r <> name)).
Proof.
  intros Hn Hi R.
  apply dropUser_Ok in R as (user & Hu & _ & _ & Hus & _ & _ & _ & Hrb).
  exists user. split; [exact Hu|].
  unfold getMetadataForUser in Hu.
  destruct (select_user name (db (sqliteConnector_ s))) as [row|] eqn:Esel;
    [|discriminate]. injection Hu as <-. simpl in *.
  pose proof (head_filter_elem _ _ _ Esel) as [Hin Hname].
  split.
  { unfold getMetadataForUser.
    assert (E : select_user name (db (sqliteConnector_ s')) = None).
    { destruct (db (sqliteConnector_ s')) as [us ro pe] eqn:Ed. simpl in Hus.
      exact (select_user_deleted name _ row us Hn Esel Hus ro pe). }
    rewrite E. reflexivity. }
  split.
  { intros n Hne. unfold getMetadataForUser. f_equal.
    destruct (db (sqliteConnector_ s')) as [us ro pe] eqn:Ed. simpl in Hus.
    apply (select_user_kept n _ row us Hi Hin); [congruence|exact Hus]. }
  intros Eon. rewrite Eon in Hrb. destruct Hrb as (_ & Hm & Hum & Hro & Hpe).
  unfold getMetadataForRole, getMetadataForUserRole. rewrite Hm, Hum.
  split; [apply lookup_delete_eq|]. split; [apply lookup_delete_eq|].
  split; [intros rn Hrn; apply lookup_delete_ne; congruence|].
  split; [intros i Hne; apply lookup_delete_ne; congruence|].
  split.
  - intros r. rewrite Hro, !list_elem_of_filter. tauto.
  - intros r. rewrite Hpe, list_elem_of_filter. tauto.
Qed.

End DropUser.


Section UserRoundTrip.
Context `{Headers} `{ObjectHeaders}.
Import SysCatalog.

Lemma sys_ext (s1 s2 : t) :
  db (sqliteConnector_ s1) = db (sqliteConnector_ s2) ->
  txn (sqliteConnector_ s1) = txn (sqliteConnector_ s2) ->
  fuse (sqliteConnector_ s1) = fuse (sqliteConnector_ s2) ->
  roleMap_ s1 = roleMap_ s2 ->
  userRoleMap_ s1 = userRoleMap_ s2 ->
  check_privileges_ s1 = check_privileges_ s2 ->
  currentDB_ s1 = currentDB_ s2 ->
  mapd_cat_map_ s1 = mapd_cat_map_ s2 ->
  s1 = s2.
Proof.
  destruct s1 as [[d1 t1 f1] ? ? ? ? ?], s2 as [[d2 t2 f2] ? ? ? ? ?]. simpl.
  intros. congruence.
Qed.

Lemma store_ext (d1 d2 : Store) :
  mapd_users d1 = mapd_users d2 ->
  mapd_roles d1 = mapd_roles d2 ->
  mapd_object_permissions d1 = mapd_object_permissions d2 ->
  d1 = d2.
Proof. destruct d1, d2. simpl. intros. congruence. Qed.

Lemma dropUser_run name s user :
  txn (sqliteConnector_ s) = None ->
  fuse (sqliteConnector_ s) = None ->
  getMetadataForUser name s = Some user ->
  (arePrivilegesOn s = true -> is_Some (getMetadataForRole name s)) ->
  exists s', dropUser name s = Ok tt s' /\ fuse (sqliteConnector_ s') = None.
Proof.
  intros Et Ef Hu Hr. unfold dropUser.
  rewrite (bind_run _ _ _ _ _ (BEGIN_begun _ Et)).
  assert (Hif : exists s1,
             (if arePrivilegesOn (begun s)
              then user <- gets (getMetadataForUser name) ;;
                   (if bool_decide (is_Some user)
                    then dropRole_unsafe name ;; dropUserRole name ;;
                         query (delete_roles_of_user name)
                    else ret ())
              else ret ()) (begun s) = Ok tt s1
             /\ txn (sqliteConnector_ s1) = Some (db (sqliteConnector_ s))
             /\ fuse (sqliteConnector_ s1) = None
             /\ mapd_users (db (sqliteConnector_ s1))
                = mapd_users (db (sqliteConnector_ s))).
  { change (arePrivilegesOn (begun s)) with (arePrivilegesOn s).
    destruct (arePrivilegesOn s) eqn:Eon.
    - unfold bind at 1, gets at 1.
      change (getMetadataForUser name (begun s)) with (getMetadataForUser name s).
      rewrite bool_decide_eq_true_2 by eauto.
      destruct (dropRole_unsafe_run name (begun s)) as (s3 & R3 & Hf3);
        [exact (Hr eq_refl)|simpl; rewrite Ef; discriminate|].
      simpl in Hf3. rewrite Ef in Hf3. simpl in Hf3.
      rewrite (bind_run _ _ _ _ _ R3).
      apply dropRole_unsafe_Ok in R3 as (_ & _ & _ & Hus3 & _ & _ & Ht3 & _).
      simpl in Hus3, Ht3.
      assert (Hu3 : getMetadataForUser name s3 = Some user).
      { unfold getMetadataForUser, select_user. rewrite Hus3. exact Hu. }
      destruct (dropUserRole_run _ _ _ Hu3) as (s4 & R4 & _ & Hc4 & _).
      rewrite (bind_run _ _ _ _ _ R4).
      rewrite (sys_query_run (delete_roles_of_user name) s4 _
                 ltac:(rewrite Hc4, Hf3; discriminate) eq_refl).
      eexists. split; [reflexivity|]. simpl. rewrite Hc4, Ht3, Hf3, Hus3. auto.
    - eexists. split; [reflexivity|]. simpl. auto. }
  destruct Hif as (s1 & Rif & Ht1 & Hf1 & Hus1).
  unfold try_catch. unfold bind at 1. cbv beta.
  rewrite (bind_run (gets arePrivilegesOn) _ (begun s) _ _ eq_refl).
  rewrite (bind_run _ _ _ _ _ Rif).
  rewrite (bind_run (gets (getMetadataForUser name)) _ s1 _ _ eq_refl).
  assert (Hu1 : getMetadataForUser name s1 = Some user).
  { unfold getMetadataForUser, select_user. rewrite Hus1. exact Hu. }
  rewrite Hu1.
  rewrite (bind_run _ _ _ _ _
             (sys_query_run (delete_user (userId user)) s1 _
                ltac:(rewrite Hf1; discriminate) eq_refl)).
  erewrite (sys_query_run (delete_privileges (userId user)));
    [|simpl; rewrite Hf1; discriminate|reflexivity].
  rewrite sys_END. simpl. rewrite Ht1.
  eexists. split; [reflexivity|]. simpl. rewrite Hf1. reflexivity.
Qed.

(** X23: [dropUser] undoes [createUser]: when no statement fails and, with
    RBAC on, nothing was left over of an earlier user of the name (no
    [UserRole] under the new id, no row of [mapd_roles] or of
    [mapd_object_permissions] that names it), dropping the user just
    created gives back the catalog [createUser] started from. *)
Theorem dropUser_undoes_createUser name pw su s u s1 :
  fuse (sqliteConnector_ s) = None ->
  (arePrivilegesOn s = true ->
   getMetadataForUserRole
     (Catalog.next_rowid (ur_userid <$> mapd_users (db (sqliteConnector_ s)))) s = None
   /\ (forall r, r ∈ mapd_roles (db (sqliteConnector_ s)) -> r.1 <> name /\ r.2 <> name)
   /\ (forall r, r ∈ mapd_object_permissions (db (sqliteConnector_ s)) ->
                 pr_roleName r <> name)) ->
  createUser name pw su s = Ok u s1 ->
  dropUser name s1 = Ok tt s.
Proof.
  intros Ef Hclean R.
  pose proof (createUser_finds _ _ _ _ _ _ R) as Hu1.
  pose proof (next_rowid_fresh (ur_userid <$> mapd_users (db (sqliteConnector_ s))))
    as Hfresh.
  apply createUser_Ok in R
    as (Hnone & _ & Et & Et1 & Hus & Hf1 & Hc1 & Hd1 & Hcm1 & Hrb).
  cbv zeta in Hus, Hrb. specialize (Hf1 Ef).
  assert (Eon1 : arePrivilegesOn s1 = arePrivilegesOn s) by exact Hc1.
  destruct (dropUser_run name s1 _ Et1 Hf1 Hu1) as (s2 & R2 & Hf2).
  { rewrite Eon1. intros Eon. rewrite Eon in Hrb.
    destruct Hrb as (_ & (rl & Hm & _) & _). exists rl.
    unfold getMetadataForRole. rewrite Hm. apply lookup_insert_eq. }
  rewrite R2. f_equal.
  apply dropUser_Ok in R2 as (user & Hu & _ & Et2 & Hus2 & Hc2 & Hd2 & Hcm2 & Hrb2).
  rewrite Hu1 in Hu. injection Hu as <-. simpl in Hus2.
  assert (Eusers : mapd_users (db (sqliteConnector_ s2))
                   = mapd_users (db (sqliteConnector_ s))).
  { rewrite Hus2, Hus, filter_app.
    rewrite (filter_cons_False _ (mkUserRow _ _ _ _)) by (simpl; tauto).
    rewrite filter_nil, app_nil_r. apply filter_all.
    intros x Hx E. apply Hfresh. rewrite <- E. apply list_elem_of_fmap. eauto. }
  rewrite Eon1 in Hrb2.
  destruct (arePrivilegesOn s) eqn:Eon.
  - destruct (Hclean eq_refl) as (Hur & Hro & Hpe).
    destruct Hrb as (Hr & (rl & Hm & _ & _) & Hp1 & Hgr).
    destruct (Hgr Hur) as [Hum1 Hro1].
    destruct Hrb2 as (_ & Hm2 & Hum2 & Hro2 & Hpe2). simpl in Hum2.
    apply sys_ext; try congruence.
    + apply store_ext; [exact Eusers| |].
      * rewrite Hro2, Hro1, filter_app.
        rewrite (filter_cons_False _ (name, name)) by (simpl; tauto).
        rewrite filter_nil, app_nil_r.
        rewrite (filter_all _ (mapd_roles _)) by (intros x Hx; apply Hro; exact Hx).
        apply filter_all. intros x Hx. apply Hro. exact Hx.
      * rewrite Hpe2, Hp1. apply filter_all. exact Hpe.
    + rewrite Hm2, Hm. apply delete_insert_id. exact Hr.
    + rewrite Hum2, Hum1. apply delete_insert_id. exact Hur.
  - destruct Hrb as (Hm & Hum & Hro & Hpe).
    destruct Hrb2 as (Hm2 & Hum2 & Hro2 & Hpe2).
    apply sys_ext; try congruence.
    apply store_ext; congruence.
Qed.

End UserRoundTrip.


Section AlterUser.
Context `{Headers} `{ObjectHeaders}.
Import SysCatalog.

Lemma head_filter_fmap {A} (P : A -> Prop) `{!forall x, Decision (P x)}
  (f : A -> A) (l : list A) :
  (forall x, P (f x) <-> P x) ->
  head (filter P (f <$> l)) = f <$> head (filter P l).
Proof.
  intros Hf. induction l as [|a l IH]; [reflexivity|].
  rewrite fmap_cons. destruct (decide (P a)) as [Ha|Ha].
  - rewrite (filter_cons_True P (f a)) by (apply Hf; exact Ha).
    rewrite (filter_cons_True P a) by exact Ha. reflexivity.
  - rewrite (filter_cons_False P (f a)) by (rewrite Hf; exact Ha).
    rewrite (filter_cons_False P a) by exact Ha. exact IH.
Qed.

Lemma update_user_Ok userid pw su s u s' :
  query (update_user userid pw su) s = Ok u s' ->
  (forall name,
      getMetadataForUser name s'
      = (fun user =>
           if decide (userId user = userid)
           then mkUser (userId user) (userName user) (default (passwd user) pw)
                       (default (isSuper user) su) (default (isReallySuper user) su)
           else user) <$> getMetadataForUser name s)
  /\ (userid ∉ ur_userid <$> mapd_users (db (sqliteConnector_ s)) ->
      db (sqliteConnector_ s') = db (sqliteConnector_ s))
  /\ mapd_roles (db (sqliteConnector_ s')) = mapd_roles (db (sqliteConnector_ s))
  /\ mapd_object_permissions (db (sqliteConnector_ s'))
     = mapd_object_permissions (db (sqliteConnector_ s))
  /\ txn (sqliteConnector_ s') = txn (sqliteConnector_ s)
  /\ roleMap_ s' = roleMap_ s
  /\ userRoleMap_ s' = userRoleMap_ s.
Proof.
  intros R. apply sys_query_Ok in R as (d' & f' & E & ->).
  unfold update_user in E. injection E as <-. simpl.
  split; [|split; [|auto 10]].
  - intros name. unfold getMetadataForUser, select_user. simpl.
    rewrite head_filter_fmap by (intros x; destruct (decide _); reflexivity).
    destruct (head _) as [r|]; [|reflexivity]. simpl.
    destruct (decide (ur_userid r = userid)); reflexivity.
  - intros Hn. destruct (db (sqliteConnector_ s)) as [us ro pe]. simpl in *.
    f_equal. induction us as [|a l IH]; [reflexivity|].
    rewrite fmap_cons. rewrite fmap_cons in Hn.
    apply not_elem_of_cons in Hn as [Ha Hn].
    rewrite decide_False by congruence. f_equal. apply IH. exact Hn.
Qed.

(** X24: a returning [alterUser] changes, for the user of the given id, the
    password and the superuser flag for which a value is passed, and keeps
    the other one; the other users, the roles and the grants are as
    before.  For an id that no user has it returns with the system
    database unchanged, and with two null pointers it does nothing.  The
    new password is the one [checkPasswordForUser] accepts afterwards. *)
Theorem alterUser_updates userid pw su s u s' :
  alterUser userid pw su s = Ok u s' ->
  (forall name,
      getMetadataForUser name s'
      = (fun user =>
           if decide (userId user = userid)
           then mkUser (userId user) (userName user) (default (passwd user) pw)
                       (default (isSuper user) su) (default (isReallySuper user) su)
           else user) <$> getMetadataForUser name s)
  /\ (forall name user p,
        getMetadataForUser name s' = Some user -> userId user = userid ->
        pw = Some p ->
        forall p', checkPasswordForUser p' user = bool_decide (p' = p))
  /\ (userid ∉ ur_userid <$> mapd_users (db (sqliteConnector_ s)) ->
      db (sqliteConnector_ s') = db (sqliteConnector_ s))
  /\ (pw = None -> su = None -> s' = s)
  /\ mapd_roles (db (sqliteConnector_ s')) = mapd_roles (db (sqliteConnector_ s))
  /\ mapd_object_permissions (db (sqliteConnector_ s'))
     = mapd_object_permissions (db (sqliteConnector_ s))
  /\ txn (sqliteConnector_ s') = txn (sqliteConnector_ s)
  /\ roleMap_ s' = roleMap_ s
  /\ userRoleMap_ s' = userRoleMap_ s.
Proof.
  intros R.
  assert (Hq : (forall name,
      getMetadataForUser name s'
      = (fun user =>
           if decide (userId user = userid)
           then mkUser (userId user) (userName user) (default (passwd user) pw)
                       (default (isSuper user) su) (default (isReallySuper user) su)
           else user) <$> getMetadataForUser name s)
  /\ (userid ∉ ur_userid <$> mapd_users (db (sqliteConnector_ s)) ->
      db (sqliteConnector_ s') = db (sqliteConnector_ s))
  /\ mapd_roles (db (sqliteConnector_ s')) = mapd_roles (db (sqliteConnector_ s))
  /\ mapd_object_permissions (db (sqliteConnector_ s'))
     = mapd_object_permissions (db (sqliteConnector_ s))
  /\ txn (sqliteConnector_ s') = txn (sqliteConnector_ s)
  /\ roleMap_ s' = roleMap_ s
  /\ userRoleMap_ s' = userRoleMap_ s
  /\ (pw = None -> su = None -> s' = s)).
  { unfold alterUser in R. destruct pw as [p|], su as [b|];
      try (apply update_user_Ok in R as (A & B & C & D & E & F & G);
           repeat split; try assumption; intros; discriminate).
    unfold ret in R. injection R as E. subst s'.
    repeat split; try reflexivity.
    intros name. destruct (getMetadataForUser name s) as [[i n p b b']|];
      [|reflexivity]. simpl. destruct (decide _); reflexivity. }
  destruct Hq as (A & B & C & D & E & F & G & I).
  repeat split; try assumption.
  intros name user p Hu Hid -> p'. rewrite A in Hu.
  destruct (getMetadataForUser name s) as [user0|]; [|discriminate].
  simpl in Hu. injection Hu as <-.
  destruct (decide (userId user0 = userid)) as [Ei|Ei]; [|contradiction].
  unfold checkPasswordForUser. simpl.
  destruct (decide (p <> p')) as [Hp|Hp].
  - symmetry. apply bool_decide_eq_false_2. congruence.
  - symmetry. apply bool_decide_eq_true_2. destruct (decide (p' = p)) as [E1|E1];
      [exact E1|exfalso; apply Hp; congruence].
Qed.

End AlterUser.

(** * The model on the sample states

    The statements above, applied to the sample catalogs under the sample
    instance of the header parameters. *)

#[local] Existing Instance sample_headers.
#[local] Existing Instance sample_object_headers.

Section CatalogExamples.
Import Catalog.

(** A column list that declares [rowid] after another column. *)
Lemma createTable_rowid_reserved_witness :
  let cols := [column "a" int_type; column "rowid" int_type] in
  Exists (fun cd => cd_columnName cd = "rowid") cols
  /\ exists msg,
       createTable (sample_table "t" 0 false DISK_LEVEL) cols [] true sample_catalog
       = Throw msg sample_catalog.
Proof.
  assert (E : Exists (fun cd => cd_columnName cd = "rowid")
                     [column "a" int_type; column "rowid" int_type]).
  { right. left. reflexivity. }
  split; [exact E|].
  destruct (createTable_rowid_reserved (sample_table "t" 0 false DISK_LEVEL) _ []
              true sample_catalog E) as (msg & R & _).
  exists msg. exact R.
Defined.

(** The versioned table [t(a, b)]: four columns, [rowid] the third. *)
Lemma createTable_column_ids_witness :
  exists td' c',
    createTable (sample_table "t" 0 true DISK_LEVEL) two_columns [] true sample_catalog
    = Ok td' c'
    /\ td_nColumns td' = 4
    /\ (cd_columnName <$> getMetadataForColumnById (td_tableId td') 3 c') = Some "rowid".
Proof.
  assert (R : { r | createTable (sample_table "t" 0 true DISK_LEVEL) two_columns []
                                true sample_catalog = Ok r.1 r.2 }).
  { eexists (_, _). vm_compute. reflexivity. }
  destruct R as [[td' c'] R]. simpl in R. exists td', c'. split; [exact R|].
  destruct (createTable_column_ids _ _ _ _ _ _ _ R)
    as (columns & E & _ & _ & _ & (rowid & L & N & _) & Hn & _).
  vm_compute in E. injection E as <-.
  change (getMetadataForColumnById (td_tableId td') 3 c' = Some rowid) in L.
  change (td_nColumns td' = 4) in Hn.
  split; [exact Hn|]. rewrite L. simpl. f_equal. exact N.
Defined.

(** The table [t] in two shards. *)
Lemma createShardedTable_creates_shards_witness :
  0 < td_nShards (sample_table "t" 2 true DISK_LEVEL)
  /\ exists c' logical physical,
       createShardedTable (sample_table "t" 2 true DISK_LEVEL) two_columns []
                          sample_catalog = Ok tt c'
       /\ length physical = 2%nat
       /\ logicalToPhysicalTableMapById_ c' !! logical = Some physical.
Proof.
  assert (K : 0 < td_nShards (sample_table "t" 2 true DISK_LEVEL)) by (simpl; lia).
  split; [exact K|].
  assert (R : { c' | createShardedTable (sample_table "t" 2 true DISK_LEVEL) two_columns
                                        [] sample_catalog = Ok tt c' }).
  { eexists. vm_compute. reflexivity. }
  destruct R as [c' R]. 
  destruct (createShardedTable_creates_shards _ _ _ _ _ _ K R)
    as (logical & physical & Hlen & _ & _ & _ & _ & _ & Hmap & _).
  exists c', logical, physical. split; [exact R|]. split; [exact Hlen|].
  rewrite Hmap. apply lookup_insert_eq.
Defined.

(** The column [x] of a new table takes the dictionary of [t.b], whose
    refcount goes from 1 to 2. *)
Lemma addReferenceToForeignDict_increments_witness :
  exists cd' c1 dd,
    addReferenceToForeignDict (column "x" dict_text_type) (mkSharedDict "x" "t" "b")
                              catalog_with_table = Ok cd' c1
    /\ getMetadataForDict 1 catalog_with_table = Some dd
    /\ dd_refcount dd = 1
    /\ getMetadataForDict 1 c1 = Some (dd_set_refcount 2 dd).
Proof.
  assert (Lt : { td | getMetadataForTable "t" catalog_with_table = Some td
                      /\ td_tableId td = 1 }).
  { eexists. split; [vm_compute; reflexivity|reflexivity]. }
  destruct Lt as (td & Lt & Etid).
  assert (Lc : { fcd | getMetadataForColumn 1 "b" catalog_with_table = Some fcd
                       /\ ti_comp_param (cd_columnType fcd) = 1 }).
  { eexists. split; [vm_compute; reflexivity|reflexivity]. }
  destruct Lc as (fcd & Lc & Eparam).
  assert (Ld : { dd | getMetadataForDict 1 catalog_with_table = Some dd
                      /\ dd_refcount dd = 1 }).
  { eexists. split; [vm_compute; reflexivity|reflexivity]. }
  destruct Ld as (dd & Ld & Erc).
  assert (Hf : fuse (sqliteConnector_ catalog_with_table) <> Some 0%nat).
  { vm_compute. discriminate. }
  pose proof (addReferenceToForeignDict_increments
                (column "x" dict_text_type) (mkSharedDict "x" "t" "b")
                catalog_with_table) as [Hshape Hreturns].
  destruct (Hreturns td fcd dd) as [c1 R].
  { exact Lt. }
  { rewrite Etid. exact Lc. }
  { rewrite Eparam. exact Ld. }
  { rewrite Erc. lia. }
  { exact Hf. }
  exists (cd_set_columnType (cd_columnType fcd) (column "x" dict_text_type)), c1, dd.
  split; [exact R|]. split; [exact Ld|]. split; [exact Erc|].
  destruct (Hshape _ _ R) as (td' & fcd' & dd' & Lt' & Lc' & _ & Hd).
  cbv zeta in Hd.
  change (get_foreign_table (mkSharedDict "x" "t" "b")) with "t" in Lt'.
  change (get_foreign_column (mkSharedDict "x" "t" "b")) with "b" in Lc'.
  rewrite Lt in Lt'. injection Lt' as <-.
  rewrite Etid, Lc in Lc'. injection Lc' as <-.
  rewrite Eparam in Hd.
  destruct Hd as (Ld' & _ & Hmap & _ & _ & _ & _ & Hdb).
  rewrite Ld in Ld'. injection Ld' as <-.
  assert (G : forall d c, getMetadataForDict d c
                          = dictDescriptorMapByRef_ c !! (dbId (currentDB_ c), d))
    by reflexivity.
  rewrite G, Hdb, Hmap, lookup_insert_eq, Erc. reflexivity.
Defined.

(** The catalog where [t.b] and [v.x] share a dictionary of refcount 2, and
    the removal of the table [v]: the dictionary stays, with refcount 1. *)
Lemma removeTableFromMap_releases_witness :
  refcounts_exact catalog_with_shared_dict
  /\ (dd_refcount <$> getMetadataForDict 1 catalog_with_shared_dict) = Some 2
  /\ exists c1,
       removeTableFromMap "v" 2 catalog_with_shared_dict = Ok tt c1
       /\ refcounts_exact c1
       /\ (dd_refcount <$> getMetadataForDict 1 c1) = Some 1.
Proof.
  assert (E : refcounts_exact catalog_with_shared_dict).
  { apply (bool_decide_unpack _). vm_compute. exact I. }
  split; [exact E|]. split; [vm_compute; reflexivity|].
  assert (R : { c1 | removeTableFromMap "v" 2 catalog_with_shared_dict = Ok tt c1
                     /\ (dd_refcount <$> getMetadataForDict 1 c1) = Some 1 }).
  { eexists. split; [vm_compute; reflexivity|vm_compute; reflexivity]. }
  destruct R as (c1 & R & Hrc). exists c1. split; [exact R|].
  destruct (removeTableFromMap_releases _ _ _ _ _ E R)
    as (td & _ & _ & _ & Hexact & _).
  split; [exact Hexact|exact Hrc].
Defined.

(** C3: the table [t] has the one column, [b], that references its
    dictionary, whose refcount is 1.  A table [v] is created whose column
    [x] shares that dictionary, and the storage fails at the [INSERT] of
    the row of [x], after [addReferenceToForeignDict] has counted the
    reference.  [createTable] throws; the rows are rolled back and nothing
    of [v] is registered, so [b] is still the only column that references
    the dictionary; the refcount in memory stays at 2.  When [t] is removed
    afterwards, no column references the dictionary any more, and its entry
    and its folder are still there. *)
Theorem createTable_failure_keeps_refcount :
  let v := sample_table "v" 0 false DISK_LEVEL in
  exists msg c' dd dd' c'',
    refcounts_exact catalog_with_table
    /\ getMetadataForDict 1 catalog_with_table = Some dd
    /\ dd_refcount dd = 1
    /\ referencing_columns 1 (columnDescriptorMapById_ catalog_with_table) = 1%nat
    /\ createTable v [column "x" dict_text_type] shares_b true
                   (failing_catalog 2 catalog_with_table) = Throw msg c'
    /\ db (sqliteConnector_ c') = db (sqliteConnector_ catalog_with_table)
    /\ getMetadataForTable "v" c' = None
    /\ columnDescriptorMapById_ c' = columnDescriptorMapById_ catalog_with_table
    /\ getMetadataForDict 1 c' = Some dd'
    /\ dd_refcount dd' = 2
    /\ referencing_columns 1 (columnDescriptorMapById_ c') = 1%nat
    /\ ~ refcounts_exact c'
    /\ removeTableFromMap "t" 1 c' = Ok tt c''
    /\ referencing_columns 1 (columnDescriptorMapById_ c'') = 0%nat
    /\ is_Some (getMetadataForDict 1 c'')
    /\ dd_dictFolderPath dd ∈ dict_folders c''.
Proof.
  cbv zeta. eexists _, _, _, _, _.
  split; [apply (bool_decide_unpack _); vm_compute; exact I|].
  split; [vm_compute; reflexivity|].
  split; [reflexivity|].
  split; [vm_compute; reflexivity|].
  split; [vm_compute; reflexivity|].
  split; [vm_compute; reflexivity|].
  split; [vm_compute; reflexivity|].
  split; [vm_compute; reflexivity|].
  split; [vm_compute; reflexivity|].
  split; [reflexivity|].
  split; [vm_compute; reflexivity|].
  split; [intros E; apply (bool_decide_pack _) in E; vm_compute in E; exact E|].
  split; [vm_compute; reflexivity|].
  split; [vm_compute; reflexivity|].
  split; [vm_compute; eauto|].
  apply (bool_decide_unpack _). vm_compute. exact I.
Qed.

(** The same without a failure of the storage: the second column of [v]
    repeats the name of the first, and its row is refused by
    [unique(tableid, name)]. *)
Example createTable_duplicate_column_keeps_refcount :
  let v := sample_table "v" 0 false DISK_LEVEL in
  exists msg c' dd',
    createTable v [column "x" dict_text_type; column "x" int_type] shares_b true
                catalog_with_table = Throw msg c'
    /\ db (sqliteConnector_ c') = db (sqliteConnector_ catalog_with_table)
    /\ getMetadataForTable "v" c' = None
    /\ columnDescriptorMapById_ c' = columnDescriptorMapById_ catalog_with_table
    /\ getMetadataForDict 1 c' = Some dd'
    /\ dd_refcount dd' = 2
    /\ referencing_columns 1 (columnDescriptorMapById_ c') = 1%nat.
Proof.
  cbv zeta. eexists _, _, _.
  split; [vm_compute; reflexivity|].
  split; [vm_compute; reflexivity|].
  split; [vm_compute; reflexivity|].
  split; [vm_compute; reflexivity|].
  split; [vm_compute; reflexivity|].
  split; [reflexivity|].
  vm_compute. reflexivity.
Qed.

(** The other handler of [createTable] undoes the count: when the metadata
    of the new table cannot be passed on, [removeTableFromMap] releases the
    reference of [x], and the refcount is 1 again. *)
Example createTable_calcite_failure_restores_refcount :
  let v := sample_table "v" 0 false DISK_LEVEL in
  exists msg c' dd',
    createTable v [column "x" dict_text_type] shares_b true
                (without_calcite catalog_with_table) = Throw msg c'
    /\ db (sqliteConnector_ c') = db (sqliteConnector_ catalog_with_table)
    /\ getMetadataForTable "v" c' = None
    /\ columnDescriptorMapById_ c' = columnDescriptorMapById_ catalog_with_table
    /\ getMetadataForDict 1 c' = Some dd'
    /\ dd_refcount dd' = 1
    /\ refcounts_exact c'.
Proof.
  cbv zeta. eexists _, _, _.
  split; [vm_compute; reflexivity|].
  split; [vm_compute; reflexivity|].
  split; [vm_compute; reflexivity|].
  split; [vm_compute; reflexivity|].
  split; [vm_compute; reflexivity|].
  split; [reflexivity|].
  apply (bool_decide_unpack _). vm_compute. exact I.
Qed.
End CatalogExamples.

Section PrivilegeExamples.
Import SysCatalog.

(** [bob], granted the privileges 1 and 2 on the database, asks for each. *)
Lemma checkPrivileges_closure_witness :
  exists user_rl,
    isSuper bob = false
    /\ getMetadataForUserRole (userId bob) sys_with_grant = Some user_rl
    /\ checkPrivileges bob [on_database 1; on_database 2] sys_with_grant
       = Ok true sys_with_grant
    /\ Forall (granted sys_with_grant user_rl)
              [on_database 1; on_database 2].
Proof.
  assert (L : { user_rl | getMetadataForUserRole (userId bob) sys_with_grant
                          = Some user_rl }).
  { eexists. vm_compute. reflexivity. }
  destruct L as [user_rl L]. exists user_rl.
  split; [reflexivity|]. split; [exact L|].
  destruct (proj1 (proj2 (checkPrivileges_closure
                            bob [on_database 1; on_database 2] sys_with_grant))
                  user_rl eq_refl L) as (b & R & Hiff & _).
  assert (Hb : b = true).
  { vm_compute in R. injection R as <-. reflexivity. }
  subst b. split; [exact R|]. apply Hiff. reflexivity.
Defined.
End PrivilegeExamples.

Section SysCatalogExamples.
Import SysCatalog.

(** The root user exists; the storage fails on the third statement of the
    creation of [bob]; [bob] is created, and cannot be created again. *)
Lemma createUser_rolls_back_rows_witness :
  is_Some (getMetadataForUser "mapd" sample_sys)
  /\ (exists msg, createUser "mapd" "pw" false sample_sys = Throw msg sample_sys)
  /\ (exists msg s',
        createUser "bob" "pw" false (failing_sys 2) = Throw msg s'
        /\ db (sqliteConnector_ s') = db (sqliteConnector_ (failing_sys 2)))
  /\ createUser "bob" "pw" false sample_sys = Ok tt sys_with_bob
  /\ createUser "bob" "pw2" true sys_with_bob
     = Throw "User bob already exists." sys_with_bob.
Proof.
  assert (U : is_Some (getMetadataForUser "mapd" sample_sys)).
  { vm_compute. eauto. }
  split; [exact U|]. split.
  { apply (proj1 (createUser_rolls_back_rows "mapd" "pw" false sample_sys)).
    left. exact U. }
  split.
  { assert (R : { r | createUser "bob" "pw" false (failing_sys 2) = Throw r.1 r.2 }).
    { eexists (_, _). vm_compute. reflexivity. }
    destruct R as [[msg s'] R]. simpl in R. exists msg, s'. split; [exact R|].
    apply (proj1 (proj2 (createUser_rolls_back_rows "bob" "pw" false (failing_sys 2)))
                 msg s' R). }
  assert (R : createUser "bob" "pw" false sample_sys = Ok tt sys_with_bob).
  { vm_compute. reflexivity. }
  split; [exact R|].
  apply (proj2 (proj2 (createUser_rolls_back_rows "bob" "pw" false sample_sys))
               tt sys_with_bob R).
Defined.

(** [bob] holds the private role [bob] only; the root user holds none. *)
Lemma role_membership_set_witness :
  exists user_rl,
    getMetadataForUserRole (userId bob) sys_with_bob = Some user_rl
    /\ to_upper "bob" ∈ groupRole_ user_rl
    /\ grantRole "bob" "bob" sys_with_bob = Ok tt sys_with_bob
    /\ (exists msg, revokeRole "bob" "mapd" sys_with_bob = Throw msg sys_with_bob)
    /\ exists s', revokeRole_unsafe "bob" "bob" sys_with_bob = Ok tt s'
                  /\ getMetadataForUserRole (userId bob) s' = None.
Proof.
  assert (L : { user_rl | getMetadataForUserRole (userId bob) sys_with_bob
                          = Some user_rl
                          /\ groupRole_ user_rl = {[to_upper "bob"]} }).
  { eexists. split; vm_compute; reflexivity. }
  destruct L as (user_rl & L & G). exists user_rl.
  assert (Hin : to_upper "bob" ∈ groupRole_ user_rl).
  { rewrite G. apply elem_of_singleton. reflexivity. }
  assert (Hr : is_Some (getMetadataForRole "bob" sys_with_bob)).
  { vm_compute. eauto. }
  assert (Hu : getMetadataForUser "bob" sys_with_bob = Some bob).
  { vm_compute. reflexivity. }
  split; [exact L|]. split; [exact Hin|].
  destruct (role_membership_set "bob" "bob" sys_with_bob) as (Hgrant & _ & Hlast).
  destruct (role_membership_set "bob" "mapd" sys_with_bob) as (_ & Hrevoke & _).
  split.
  { apply (Hgrant bob user_rl Hr Hu L Hin). reflexivity. }
  split.
  { apply Hrevoke. intros user user_rl' Hu' L'.
    vm_compute in Hu'. injection Hu' as <-. vm_compute in L'. discriminate. }
  destruct (Hlast bob user_rl Hr Hu L G) as (s' & R & N & _).
  { vm_compute. discriminate. }
  exists s'. split; [exact R | exact N].
Defined.

(** A role named as an existing role, and a role that is not private
    named as an existing user. *)
Lemma createRole_name_taken_witness :
  is_Some (getMetadataForRole "bob" sys_with_bob)
  /\ (exists msg, createRole "bob" false sys_with_bob = Throw msg sys_with_bob)
  /\ (exists msg, createRole "mapd" false sample_sys = Throw msg sample_sys).
Proof.
  assert (Hr : is_Some (getMetadataForRole "bob" sys_with_bob)).
  { vm_compute. eauto. }
  split; [exact Hr|]. split.
  - apply (createRole_name_taken "bob" false sys_with_bob). left. exact Hr.
  - apply (createRole_name_taken "mapd" false sample_sys). right.
    split; [reflexivity | vm_compute; eauto].
Defined.

(** A private role is created under the name of an existing user: this is
    how [createUser] gives each user a private role. *)
Lemma createRole_private_role_of_user :
  is_Some (getMetadataForUser "mapd" sample_sys)
  /\ (exists s', createRole "mapd" true sample_sys = Ok tt s')
  /\ ~ (exists msg s', createRole "mapd" true sample_sys = Throw msg s').
Proof.
  split; [vm_compute; eauto|].
  assert (R : { s' | createRole "mapd" true sample_sys = Ok tt s' }).
  { eexists. vm_compute. reflexivity. }
  destruct R as [s' R]. split; [exists s'; exact R|].
  intros (msg & s'' & E). rewrite R in E. discriminate.
Qed.

(** [bob] has a [UserRole]; the check of a privilege that was not granted
    returns. *)
Lemma checkPrivileges_returns_witness :
  is_Some (getMetadataForUserRole (userId bob) sys_with_grant)
  /\ exists b, checkPrivileges bob [on_database 4] sys_with_grant = Ok b sys_with_grant.
Proof.
  assert (L : is_Some (getMetadataForUserRole (userId bob) sys_with_grant)).
  { vm_compute. eauto. }
  split; [exact L|].
  apply (checkPrivileges_returns bob [on_database 4] sys_with_grant). right. exact L.
Defined.

(** A user who is not a superuser and has no [UserRole]: the check stops at
    [CHECK(user_rl)] and returns nothing. *)
Lemma checkPrivileges_without_UserRole :
  isSuper bob = false
  /\ getMetadataForUserRole (userId bob) sample_sys = None
  /\ checkPrivileges bob [on_database 1] sample_sys = Fatal
  /\ ~ (exists b s', checkPrivileges bob [on_database 1] sample_sys = Ok b s').
Proof.
  split; [reflexivity|]. split; [reflexivity|].
  assert (R : checkPrivileges bob [on_database 1] sample_sys = Fatal) by reflexivity.
  split; [exact R|]. intros (b & s' & E). rewrite R in E. discriminate.
Qed.

(** [bob] was created with his private role, which is then revoked from
    him: it was his only role, so his [UserRole] is erased.  He is still a
    user, and no privilege on the database is granted to him; the check of
    such a privilege does not return false, it returns nothing. *)
Lemma checkPrivileges_after_last_revoke :
  exists s',
    revokeRole_unsafe "bob" "bob" sys_with_bob = Ok tt s'
    /\ getMetadataForUser "bob" s' = Some bob
    /\ isSuper bob = false
    /\ getMetadataForUserRole (userId bob) s' = None
    /\ checkPrivileges bob [on_database 1] s' = Fatal
    /\ checkPrivileges bob [on_database 1] s' <> Ok false s'
    /\ ~ (exists b s'', checkPrivileges bob [on_database 1] s' = Ok b s'').
Proof.
  assert (R : { s' | revokeRole_unsafe "bob" "bob" sys_with_bob = Ok tt s' }).
  { eexists. vm_compute. reflexivity. }
  destruct R as [s' R]. exists s'. split; [exact R|].
  assert (E : s' = state_after (revokeRole_unsafe "bob" "bob" sys_with_bob) sample_sys).
  { rewrite R. reflexivity. }
  assert (F : checkPrivileges bob [on_database 1] s' = Fatal).
  { rewrite E. vm_compute. reflexivity. }
  split; [rewrite E; vm_compute; reflexivity|].
  split; [reflexivity|].
  split; [rewrite E; vm_compute; reflexivity|].
  split; [exact F|].
  split; [rewrite F; discriminate|].
  intros (b & s'' & C). rewrite F in C. discriminate C.
Qed.

(** The private role of [bob] holds no privilege on the database; it is
    granted the privileges 3, which are then revoked. *)
Lemma grant_then_revoke_witness :
  exists rl s1 s2 rl2 o1,
    getMetadataForRole "bob" sys_with_bob = Some rl
    /\ stored_privileges (mkKey 1 1 (-1)) rl = NONE
    /\ grantDBObjectPrivileges_unsafe "bob" (database_privilege 3) sample_catalog
                                      sys_with_bob = Ok o1 s1
    /\ revokeDBObjectPrivileges_unsafe "bob" (database_privilege 3) sample_catalog s1
       = Ok tt s2
    /\ getMetadataForRole "bob" s2 = Some rl2
    /\ stored_privileges (mkKey 1 1 (-1)) rl2 = NONE
    /\ permission_rows "bob" (mkKey 1 1 (-1)) s2 = [].
Proof.
  assert (L : { rl | getMetadataForRole "bob" sys_with_bob = Some rl
                     /\ stored_privileges (mkKey 1 1 (-1)) rl = NONE
                     /\ forall o, findDbObject (mkKey 1 1 (-1)) rl = Some o ->
                                  objectKey_ o = mkKey 1 1 (-1) }).
  { eexists. split; [vm_compute; reflexivity|]. split; [vm_compute; reflexivity|].
    intros o Ho. vm_compute in Ho. injection Ho as <-. reflexivity. }
  destruct L as (rl & L & S0 & Hkeyed).
  destruct (grant_then_revoke "bob" (database_privilege 3) (database_privilege 3)
              sample_catalog sys_with_bob rl (mkKey 1 1 (-1)))
    as (o1 & s1 & s2 & rl2 & Rg & Rr & L2 & _ & Hempty & _);
    [discriminate | exact L | reflexivity | reflexivity | reflexivity | exact Hkeyed
    | intros n Hn; vm_compute in Hn; discriminate |].
  destruct Hempty as [S2 Hrows]; [rewrite S0; reflexivity|].
  exists rl, s1, s2, rl2, o1. auto 10.
Defined.
(** The private role of [bob] holds the privileges 3 on the database; it
    is granted the privilege 4, which is then revoked: the role still holds
    the privileges 3, and their row is written, not deleted. *)
Lemma grant_then_revoke_keeps_the_rest :
  exists rl o1 s1 s2 rl2 row,
    getMetadataForRole "bob" sys_with_grant = Some rl
    /\ stored_privileges (mkKey 1 1 (-1)) rl = 3
    /\ grantDBObjectPrivileges_unsafe "bob" (database_privilege 4) sample_catalog
                                      sys_with_grant = Ok o1 s1
    /\ revokeDBObjectPrivileges_unsafe "bob" (database_privilege 4) sample_catalog s1
       = Ok tt s2
    /\ getMetadataForRole "bob" s2 = Some rl2
    /\ stored_privileges (mkKey 1 1 (-1)) rl2 = 3
    /\ stored_privileges (mkKey 1 1 (-1)) rl2 <> NONE
    /\ permission_rows "bob" (mkKey 1 1 (-1)) s2 = [row]
    /\ pr_objectPermissions row = 3.
Proof.
  eexists _, _, _, _, _, _.
  split; [vm_compute; reflexivity|]. split; [vm_compute; reflexivity|].
  split; [vm_compute; reflexivity|]. split; [vm_compute; reflexivity|].
  split; [vm_compute; reflexivity|]. split; [vm_compute; reflexivity|].
  split; [vm_compute; discriminate|]. split; [vm_compute; reflexivity|].
  reflexivity.
Qed.

(** C2: the storage fails at the last statement of the creation of [bob],
    the [INSERT] into [mapd_roles].  [createUser] throws; the tables are
    rolled back and hold no user [bob]; the private role of [bob] and the
    [UserRole] made for him stay in [roleMap_] and [userRoleMap_], where
    neither was before the call.  Another call for [bob] then throws,
    whatever the state of the storage: the name is the name of a role. *)
Theorem createUser_failure_in_memory :
  exists msg s',
    createUser "bob" "pw" false (failing_sys 3) = Throw msg s'
    /\ db (sqliteConnector_ s') = db (sqliteConnector_ (failing_sys 3))
    /\ txn (sqliteConnector_ s') = None
    /\ getMetadataForUser "bob" s' = None
    /\ getMetadataForRole "bob" (failing_sys 3) = None
    /\ userRoleMap_ (failing_sys 3) = ∅
    /\ is_Some (getMetadataForRole "bob" s')
    /\ (exists user_rl,
          getMetadataForUserRole 1 s' = Some user_rl
          /\ userName_ user_rl = "bob"
          /\ UserRole_hasRole (to_upper "bob") user_rl = true)
    /\ forall f,
         let retry := set_conn (mkConn (db (sqliteConnector_ s')) None f) s' in
         createUser "bob" "pw" false retry
         = Throw ("User name bob is same as one of role names. "
                  +:+ "User and role names should be unique.") retry.
Proof.
  eexists _, _. split; [vm_compute; reflexivity|].
  split; [reflexivity|]. split; [reflexivity|]. split; [reflexivity|].
  split; [reflexivity|]. split; [reflexivity|].
  split; [vm_compute; eauto|].
  split; [eexists; split; [vm_compute; reflexivity|]; split; vm_compute; reflexivity|].
  intros f. vm_compute. reflexivity.
Qed.

(** After that failure, and with the storage at work again, the next user
    created is given the id that [bob] had for a moment, and with it the
    [UserRole] left behind: [carol] is granted the private role of [bob],
    who is no user. *)
Example createUser_after_failure :
  exists msg s' s'' carol,
    createUser "bob" "pw" false (failing_sys 3) = Throw msg s'
    /\ createUser "carol" "pw" false
         (set_conn (mkConn (db (sqliteConnector_ s')) None None) s') = Ok tt s''
    /\ getMetadataForUser "bob" s'' = None
    /\ getMetadataForUser "carol" s'' = Some carol
    /\ isRoleGrantedToUser (userId carol) "bob" s'' = true.
Proof.
  eexists _, _, _, _. split; [vm_compute; reflexivity|].
  split; [vm_compute; reflexivity|]. split; [vm_compute; reflexivity|].
  split; [vm_compute; reflexivity|]. vm_compute. reflexivity.
Qed.

End SysCatalogExamples.


Section MoreCatalogExamples.
Import Catalog.

(** A second table of the name [t]. *)
Lemma createTable_Throw_rows_witness :
  exists e c',
    createTable (sample_table "t" 0 false DISK_LEVEL) two_columns [] true
                catalog_with_table = Throw e c'
    /\ db (sqliteConnector_ c') = db (sqliteConnector_ catalog_with_table)
    /\ txn (sqliteConnector_ c') = None.
Proof.
  assert (R : { r | createTable (sample_table "t" 0 false DISK_LEVEL) two_columns []
                                true catalog_with_table = Throw r.1 r.2 }).
  { eexists (_, _). vm_compute. reflexivity. }
  destruct R as [[e c'] R]. simpl in R. exists e, c'. split; [exact R|].
  destruct (createTable_Throw_rows _ _ _ _ _ _ _ R) as [Hdb Htxn].
  split; [exact Hdb|]. exact (Htxn eq_refl).
Defined.

(** The table [t], the first of the sample catalog. *)
Lemma createTable_registers_witness :
  exists td' c',
    createTable (sample_table "t" 0 true DISK_LEVEL) two_columns [] true sample_catalog
    = Ok td' c'
    /\ td_tableId td' = 1
    /\ getMetadataForTable "t" c' = Some td'
    /\ getMetadataForTableById 1 c' = Some td'.
Proof.
  assert (R : { r | createTable (sample_table "t" 0 true DISK_LEVEL) two_columns []
                                true sample_catalog = Ok r.1 r.2 }).
  { eexists (_, _). vm_compute. reflexivity. }
  destruct R as [[td' c'] R]. simpl in R. exists td', c'. split; [exact R|].
  destruct (createTable_registers _ _ _ _ _ _ _ R) as (_ & Hid & Hn & Hi & _).
  change (td_tableId td' = 1) in Hid.
  split; [exact Hid|]. split; [exact Hn|]. rewrite <- Hid. exact Hi.
Defined.

(** A temporary table [t]. *)
Lemma createTable_temporary_witness :
  td_persistenceLevel (sample_table "t" 0 false CPU_LEVEL) <> DISK_LEVEL
  /\ exists td' c',
       createTable (sample_table "t" 0 false CPU_LEVEL) two_columns [] true
                   sample_catalog = Ok td' c'
       /\ sqliteConnector_ c' = sqliteConnector_ sample_catalog
       /\ td_tableId td' = 1073741824.
Proof.
  assert (Hl : td_persistenceLevel (sample_table "t" 0 false CPU_LEVEL) <> DISK_LEVEL)
    by (simpl; discriminate).
  split; [exact Hl|].
  assert (R : { r | createTable (sample_table "t" 0 false CPU_LEVEL) two_columns []
                                true sample_catalog = Ok r.1 r.2 }).
  { eexists (_, _). vm_compute. reflexivity. }
  destruct R as [[td' c'] R]. simpl in R. exists td', c'. split; [exact R|].
  destruct (createTable_temporary _ _ _ _ _ _ _ Hl R) as (Hc & Hid & _).
  split; [exact Hc | exact Hid].
Defined.

(** The name [t] in the catalog that has the table. *)
Lemma createTable_name_taken_witness :
  td_persistenceLevel (sample_table "t" 0 false DISK_LEVEL) = DISK_LEVEL
  /\ ("t" ∈ tr_name <$> mapd_tables (db (sqliteConnector_ catalog_with_table)))
  /\ txn (sqliteConnector_ catalog_with_table) = None
  /\ exists msg,
       createTable (sample_table "t" 0 false DISK_LEVEL) two_columns [] true
                   catalog_with_table = Throw msg catalog_with_table.
Proof.
  assert (Hin : "t" ∈ tr_name <$> mapd_tables (db (sqliteConnector_ catalog_with_table))).
  { vm_compute. left. }
  split; [reflexivity|]. split; [exact Hin|]. split; [reflexivity|].
  exact (createTable_name_taken (sample_table "t" 0 false DISK_LEVEL) two_columns []
           true catalog_with_table eq_refl Hin eq_refl).
Defined.

(** A temporary table with a column of points. *)
Lemma createTable_temporary_geometry_witness :
  let cols := [column "a" int_type; column "p" point_type] in
  td_persistenceLevel (sample_table "g" 0 false CPU_LEVEL) <> DISK_LEVEL
  /\ Exists (fun cd => IS_GEO (ti_type (cd_columnType cd)) = true) cols
  /\ exists c',
       createTable (sample_table "g" 0 false CPU_LEVEL) cols [] true sample_catalog
       = Throw "Geometry types in temporary tables are not supported." c'
       /\ txn (sqliteConnector_ c') = Some (db (sqliteConnector_ sample_catalog)).
Proof.
  cbv zeta.
  assert (Hl : td_persistenceLevel (sample_table "g" 0 false CPU_LEVEL) <> DISK_LEVEL)
    by (simpl; discriminate).
  assert (Hall : Forall (fun cd => cd_columnName cd <> "rowid"
                                   /\ (IS_GEO (ti_type (cd_columnType cd)) = true
                                       -> is_Some (geo_columns cd)))
                        [column "a" int_type; column "p" point_type]).
  { repeat constructor; simpl; try discriminate. eexists. reflexivity. }
  assert (Hex : Exists (fun cd => IS_GEO (ti_type (cd_columnType cd)) = true)
                       [column "a" int_type; column "p" point_type]).
  { right. left. reflexivity. }
  split; [exact Hl|]. split; [exact Hex|].
  destruct (createTable_temporary_geometry (sample_table "g" 0 false CPU_LEVEL) _ []
              true sample_catalog Hl eq_refl Hall Hex) as (c' & R & _ & Ht & _).
  exists c'. split; [exact R | exact Ht].
Defined.

(** The table [t] unregistered, and an id that no table has. *)
Lemma removeTableFromMap_unregisters_witness :
  getMetadataForTableById 7 sample_catalog = None
  /\ removeTableFromMap "x" 7 sample_catalog
     = Throw "Table x does not exist." sample_catalog
  /\ exists c',
       removeTableFromMap "t" 1 catalog_with_table = Ok tt c'
       /\ getMetadataForTableById 1 c' = None
       /\ getMetadataForTable "t" c' = None.
Proof.
  split; [reflexivity|]. split.
  - exact (proj1 (removeTableFromMap_unregisters "x" 7 sample_catalog) eq_refl).
  - assert (R : { c' | removeTableFromMap "t" 1 catalog_with_table = Ok tt c' }).
    { eexists. vm_compute. reflexivity. }
    destruct R as [c' R]. exists c'. split; [exact R|].
    destruct (proj2 (removeTableFromMap_unregisters "t" 1 catalog_with_table) _ _ R)
      as (Hi & Hn & _).
    split; [exact Hi | exact Hn].
Defined.

(** The versioned table [t(a, b)]: the marker is its fourth column. *)
Lemma createTable_deleted_column_witness :
  exists td' c' registered cd,
    createTable (sample_table "t" 0 true DISK_LEVEL) two_columns [] true sample_catalog
    = Ok td' c'
    /\ getMetadataForTableById (td_tableId td') c' = Some registered
    /\ getDeletedColumn registered c' = Some cd
    /\ cd_columnName cd = "$deleted$".
Proof.
  assert (R : { r | createTable (sample_table "t" 0 true DISK_LEVEL) two_columns []
                                true sample_catalog = Ok r.1 r.2 }).
  { eexists (_, _). vm_compute. reflexivity. }
  destruct R as [[td' c'] R]. simpl in R.
  pose proof (createTable_deleted_column _ _ _ _ _ _ _ R) as Hd.
  simpl in Hd. destruct Hd as ((registered & cd & Hr & Hg & _ & Hn & _) & _).
  exists td', c', registered, cd. split; [exact R|]. split; [exact Hr|].
  split; [exact Hg | exact Hn].
Defined.

(** The table [t] in two shards, and the table [t] without shards. *)
Lemma getPhysicalTablesDescriptors_shards_witness :
  logicalToPhysicalTableMapById_ catalog_with_table !! td_tableId registered_t = None
  /\ getPhysicalTablesDescriptors registered_t catalog_with_table
     = Ok [Some registered_t] catalog_with_table
  /\ 0 < td_nShards (sample_table "t" 2 true DISK_LEVEL)
  /\ exists c' tdl tds,
       createShardedTable (sample_table "t" 2 true DISK_LEVEL) two_columns []
                          sample_catalog = Ok tt c'
       /\ getPhysicalTablesDescriptors tdl c' = Ok tds c'
       /\ length tds = 2%nat.
Proof.
  assert (K : 0 < td_nShards (sample_table "t" 2 true DISK_LEVEL)) by (simpl; lia).
  assert (R : { c' | createShardedTable (sample_table "t" 2 true DISK_LEVEL) two_columns
                                        [] sample_catalog = Ok tt c' }).
  { eexists. vm_compute. reflexivity. }
  destruct R as [c' R].
  assert (L : logicalToPhysicalTableMapById_ catalog_with_table
                !! td_tableId registered_t = None) by (vm_compute; reflexivity).
  split; [exact L|]. split.
  - exact (proj1 (getPhysicalTablesDescriptors_shards registered_t two_columns []
                    catalog_with_table tt catalog_with_table) L).
  - split; [exact K|].
    destruct (proj2 (getPhysicalTablesDescriptors_shards _ _ _ _ _ _) K R)
      as (tdl & tds & _ & _ & Hg & Hlen & _).
    exists c', tdl, tds. split; [exact R|]. split; [exact Hg | exact Hlen].
Defined.

(** The columns of [t] without the system columns, and a descriptor that
    claims a fifth column. *)
Lemma getAllColumnMetadataForTable_filters_witness :
  (forall i, 1 <= i <= td_nColumns registered_t ->
     is_Some (getMetadataForColumnById (td_tableId registered_t) i catalog_with_table))
  /\ (exists l,
        getAllColumnMetadataForTable (fun _ => 0) registered_t [] false false true
                                     catalog_with_table = Ok l catalog_with_table
        /\ cd_columnName <$> l = ["a"; "b"])
  /\ getAllColumnMetadataForTable (fun _ => 0) (td_set_nColumns 5 registered_t) []
                                  false false true catalog_with_table = Fatal.
Proof.
  assert (Hall : forall i, 1 <= i <= td_nColumns registered_t ->
            is_Some (getMetadataForColumnById (td_tableId registered_t) i
                                              catalog_with_table)).
  { intros i Hi. change (td_nColumns registered_t) with 4 in Hi.
    assert (Ei : i = 1 \/ i = 2 \/ i = 3 \/ i = 4) by lia.
    destruct Ei as [-> | [-> | [-> | ->]]]; eexists; vm_compute; reflexivity. }
  split; [exact Hall|].
  destruct (getAllColumnMetadataForTable_filters (fun _ => 0) registered_t [] false false
              catalog_with_table) as (_ & Hfull & _).
  destruct (getAllColumnMetadataForTable_filters (fun _ => 0)
              (td_set_nColumns 5 registered_t) [] false false catalog_with_table)
    as (_ & _ & Hmiss).
  split.
  - eexists. split; [exact (Hfull Hall)|]. vm_compute. reflexivity.
  - apply Hmiss. exists 5. split; [simpl; lia|]. vm_compute. reflexivity.
Defined.

(** The versioned table [t(a, b)] lists [a], [b], [rowid], [$deleted$]. *)
Lemma createTable_lists_columns_witness :
  exists td' c' l,
    createTable (sample_table "t" 0 true DISK_LEVEL) two_columns [] true sample_catalog
    = Ok td' c'
    /\ getAllColumnMetadataForTable (fun _ => 0) td' [] true true true c' = Ok l c'
    /\ cd_columnName <$> l = ["a"; "b"; "rowid"; "$deleted$"].
Proof.
  assert (R : { r | createTable (sample_table "t" 0 true DISK_LEVEL) two_columns []
                                true sample_catalog = Ok r.1 r.2 }).
  { eexists (_, _). vm_compute. reflexivity. }
  destruct R as [[td' c'] R]. simpl in R.
  destruct (createTable_lists_columns (fun _ => 0) _ _ _ _ _ _ _ R)
    as (columns & l & E & Hl & Hn & _).
  vm_compute in E. injection E as <-.
  exists td', c', l. split; [exact R|]. split; [exact Hl | exact Hn].
Defined.

(** The table [t] renamed to [v]. *)
Lemma renamePhysicalTable_renames_witness :
  exists c',
    renamePhysicalTable registered_t "v" catalog_with_table = Ok tt c'
    /\ getMetadataForTable "v" c' = Some (td_set_tableName "v" registered_t)
    /\ getMetadataForTable "t" c' = None.
Proof.
  assert (R : { c' | renamePhysicalTable registered_t "v" catalog_with_table
                     = Ok tt c' }).
  { eexists. vm_compute. reflexivity. }
  destruct R as [c' R]. exists c'. split; [exact R|].
  destruct (renamePhysicalTable_renames _ _ _ _ _ R)
    as (changeTd & Hc & _ & _ & Hnew & Hold & _).
  assert (E : changeTd = registered_t).
  { vm_compute in Hc. injection Hc as <-. reflexivity. }
  subst changeTd. split; [exact Hnew|]. apply Hold. vm_compute. discriminate.
Defined.

(** The table [t] is not renamed to [u], the name of the second table. *)
Lemma renamePhysicalTable_name_taken_witness :
  exists r r',
    txn (sqliteConnector_ catalog_with_two_tables) = None
    /\ r ∈ mapd_tables (db (sqliteConnector_ catalog_with_two_tables))
    /\ tr_tableid r = td_tableId registered_t
    /\ r' ∈ mapd_tables (db (sqliteConnector_ catalog_with_two_tables))
    /\ tr_tableid r' <> td_tableId registered_t
    /\ tr_name r' = "u"
    /\ renamePhysicalTable registered_t "u" catalog_with_two_tables
       = Throw sqlite_error catalog_with_two_tables.
Proof.
  assert (L : { rs | mapd_tables (db (sqliteConnector_ catalog_with_two_tables))
                     = [rs.1; rs.2] }).
  { eexists (_, _). vm_compute. reflexivity. }
  destruct L as [[r r'] L]. cbn [fst snd] in L.
  assert (Hr : r ∈ mapd_tables (db (sqliteConnector_ catalog_with_two_tables)))
    by (rewrite L; left).
  assert (Hr' : r' ∈ mapd_tables (db (sqliteConnector_ catalog_with_two_tables)))
    by (rewrite L; right; left).
  assert (Hid : tr_tableid r = td_tableId registered_t).
  { vm_compute in L. injection L as <- _. vm_compute. reflexivity. }
  assert (Hid' : tr_tableid r' <> td_tableId registered_t).
  { vm_compute in L. injection L as _ <-. vm_compute. discriminate. }
  assert (Hn : tr_name r' = "u").
  { vm_compute in L. injection L as _ <-. vm_compute. reflexivity. }
  assert (Ht : txn (sqliteConnector_ catalog_with_two_tables) = None)
    by (vm_compute; reflexivity).
  exists r, r'.
  split; [exact Ht|]. split; [exact Hr|]. split; [exact Hid|]. split; [exact Hr'|].
  split; [exact Hid'|]. split; [exact Hn|].
  exact (renamePhysicalTable_name_taken registered_t "u" catalog_with_two_tables r r'
           Ht Hr Hid Hr' Hid' Hn).
Defined.

(** The column [a] of [t] renamed to [c], and not renamed to [b]. *)
Lemma renameColumn_renames_witness :
  (exists c',
     renameColumn registered_t registered_a "c" catalog_with_table = Ok tt c'
     /\ getMetadataForColumn 1 "c" c' = Some (cd_set_columnName "c" registered_a)
     /\ getMetadataForColumn 1 "a" c' = None)
  /\ renameColumn registered_t registered_a "b" catalog_with_table
     = Throw sqlite_error catalog_with_table.
Proof.
  split.
  - assert (R : { c' | renameColumn registered_t registered_a "c" catalog_with_table
                       = Ok tt c' }).
    { eexists. vm_compute. reflexivity. }
    destruct R as [c' R]. exists c'. split; [exact R|].
    destruct (proj1 (renameColumn_renames registered_t registered_a "c"
                       catalog_with_table) _ _ R)
      as (changeCd & Hc & _ & Hnew & Hold & _).
    assert (E : changeCd = registered_a).
    { vm_compute in Hc. injection Hc as <-. reflexivity. }
    subst changeCd. split; [exact Hnew|]. apply Hold. vm_compute. discriminate.
  - assert (L : { rs | take 2 (mapd_columns (db (sqliteConnector_ catalog_with_table)))
                       = [rs.1; rs.2] }).
    { eexists (_, _). vm_compute. reflexivity. }
    destruct L as [[r r'] L]. cbn [fst snd] in L.
    assert (Hsub : forall x, x ∈ [r; r'] ->
                     x ∈ mapd_columns (db (sqliteConnector_ catalog_with_table))).
    { intros x Hx. rewrite <- L in Hx. apply (subseteq_take 2). exact Hx. }
    assert (Ht : txn (sqliteConnector_ catalog_with_table) = None)
      by (vm_compute; reflexivity).
    apply (proj2 (renameColumn_renames registered_t registered_a "b"
                    catalog_with_table) r r' Ht).
    + apply Hsub. left.
    + vm_compute in L. injection L as <- _. vm_compute. reflexivity.
    + vm_compute in L. injection L as <- _. vm_compute. reflexivity.
    + apply Hsub. right. left.
    + vm_compute in L. injection L as _ <-. vm_compute. reflexivity.
    + vm_compute in L. injection L as _ <-. vm_compute. discriminate.
    + vm_compute in L. injection L as _ <-. vm_compute. reflexivity.
Defined.

(** The table [t] in two shards, renamed to [v]. *)
Lemma renameTable_renames_shards_witness :
  (forall id t, getMetadataForTableById id catalog_with_shards = Some t ->
                td_tableId t = id)
  /\ logicalToPhysicalTableMapById_ catalog_with_shards
       !! td_tableId registered_sharded_t = Some [2; 3]
  /\ NoDup (td_tableId registered_sharded_t :: [2; 3])
  /\ exists c',
       renameTable registered_sharded_t "v" catalog_with_shards = Ok tt c'
       /\ forall r', r' ∈ mapd_tables (db (sqliteConnector_ c')) ->
                     tr_tableid r' = 2 ->
                     tr_name r' = generatePhysicalTableName "v" 1.
Proof.
  assert (L : logicalToPhysicalTableMapById_ catalog_with_shards
                !! td_tableId registered_sharded_t = Some [2; 3]).
  { vm_compute. reflexivity. }
  assert (K : forall id t, getMetadataForTableById id catalog_with_shards = Some t ->
                           td_tableId t = id).
  { assert (Hall : map_Forall (fun id t => td_tableId t = id)
                              (tableDescriptorMapById_ catalog_with_shards)).
    { apply (bool_decide_unpack _). vm_compute. exact I. }
    assert (E : forall id c, getMetadataForTableById id c
                             = tableDescriptorMapById_ c !! id) by reflexivity.
    intros id t Ht. rewrite E in Ht. exact (Hall id t Ht). }
  assert (Hnd : NoDup (td_tableId registered_sharded_t :: [2; 3])).
  { apply (bool_decide_unpack _). vm_compute. exact I. }
  assert (R : { c' | renameTable registered_sharded_t "v" catalog_with_shards
                     = Ok tt c' }).
  { eexists. vm_compute. reflexivity. }
  destruct R as [c' R].
  split; [exact K|]. split; [exact L|]. split; [exact Hnd|].
  exists c'. split; [exact R|].
  destruct (renameTable_renames_shards _ _ _ _ _ _ K L Hnd R) as [_ Hrows].
  intros r' Hin Hid. apply list_elem_of_lookup_1 in Hin as [i Li].
  destruct (Forall2_lookup_r _ _ _ _ _ Hrows Li) as (r & _ & Hr' & _ & Hshard & _).
  apply (Hshard 0%nat 2 eq_refl). rewrite <- Hid, Hr'. reflexivity.
Defined.

End MoreCatalogExamples.

Section MoreSysCatalogExamples.
Import SysCatalog.

(** The private role of [bob] dropped, and a role that does not exist. *)
Lemma dropRole_unsafe_erases_witness :
  getMetadataForRole "nobody" sample_sys = None
  /\ dropRole_unsafe "nobody" sample_sys = Fatal
  /\ exists s',
       dropRole_unsafe "bob" sys_with_bob = Ok tt s'
       /\ getMetadataForRole "bob" s' = None.
Proof.
  split; [reflexivity|]. split.
  - exact (proj1 (dropRole_unsafe_erases "nobody" sample_sys) eq_refl).
  - assert (R : { s' | dropRole_unsafe "bob" sys_with_bob = Ok tt s' }).
    { eexists. vm_compute. reflexivity. }
    destruct R as [s' R]. exists s'. split; [exact R|].
    exact (proj1 (proj2 (dropRole_unsafe_erases "bob" sys_with_bob) _ _ R)).
Defined.

(** The role [analyst], created and dropped again. *)
Lemma dropRole_undoes_createRole_witness :
  Forall (fun r => r.1 <> "analyst") (mapd_roles (db (sqliteConnector_ sys_with_bob)))
  /\ Forall (fun r => pr_roleName r <> "analyst")
            (mapd_object_permissions (db (sqliteConnector_ sys_with_bob)))
  /\ exists s1 s2,
       createRole_unsafe "analyst" false sys_with_bob = Ok tt s1
       /\ dropRole_unsafe "analyst" s1 = Ok tt s2
       /\ roleMap_ s2 = roleMap_ sys_with_bob
       /\ db (sqliteConnector_ s2) = db (sqliteConnector_ sys_with_bob).
Proof.
  assert (H1 : Forall (fun r => r.1 <> "analyst")
                      (mapd_roles (db (sqliteConnector_ sys_with_bob)))).
  { apply (bool_decide_unpack _). vm_compute. exact I. }
  assert (H2 : Forall (fun r => pr_roleName r <> "analyst")
                      (mapd_object_permissions (db (sqliteConnector_ sys_with_bob)))).
  { apply (bool_decide_unpack _). vm_compute. exact I. }
  assert (H3 : forall n, fuse (sqliteConnector_ sys_with_bob) = Some n -> (3 <= n)%nat).
  { intros n E. vm_compute in E. discriminate. }
  split; [exact H1|]. split; [exact H2|].
  assert (R : { s1 | createRole_unsafe "analyst" false sys_with_bob = Ok tt s1 }).
  { eexists. vm_compute. reflexivity. }
  destruct R as [s1 R].
  destruct (dropRole_undoes_createRole "analyst" false sys_with_bob tt s1 H1 H2 H3 R)
    as (s2 & R2 & Hm & _ & Hdb & _).
  exists s1, s2. auto.
Defined.

(** The role [analyst] granted to [bob]; a role that does not exist; the
    private role of [bob] revoked. *)
Lemma isRoleGrantedToUser_follows_witness :
  (exists s',
     grantRole_unsafe "analyst" "bob" sys_with_role = Ok tt s'
     /\ isRoleGrantedToUser 1 "analyst" s' = true)
  /\ getMetadataForRole "analyst" sys_with_bob = None
  /\ (exists msg, grantRole_unsafe "analyst" "bob" sys_with_bob = Throw msg sys_with_bob)
  /\ (exists s',
        revokeRole_unsafe "bob" "bob" sys_with_bob = Ok tt s'
        /\ isRoleGrantedToUser 1 "bob" sys_with_bob = true
        /\ isRoleGrantedToUser 1 "bob" s' = false).
Proof.
  assert (Hn : getMetadataForRole "analyst" sys_with_bob = None)
    by (vm_compute; reflexivity).
  split; [|split; [exact Hn|split]].
  - assert (R : { s' | grantRole_unsafe "analyst" "bob" sys_with_role = Ok tt s' }).
    { eexists. vm_compute. reflexivity. }
    destruct R as [s' R]. exists s'. split; [exact R|].
    destruct (proj1 (isRoleGrantedToUser_follows "analyst" "bob" sys_with_role) _ _ R)
      as (user & Hu & Hg).
    vm_compute in Hu. injection Hu as <-. exact Hg.
  - exact (proj1 (proj2 (isRoleGrantedToUser_follows "analyst" "bob" sys_with_bob))
             (or_introl Hn)).
  - assert (R : { s' | revokeRole_unsafe "bob" "bob" sys_with_bob = Ok tt s' }).
    { eexists. vm_compute. reflexivity. }
    destruct R as [s' R]. exists s'. split; [exact R|].
    destruct (proj2 (proj2 (isRoleGrantedToUser_follows "bob" "bob" sys_with_bob)) _ _ R)
      as (user & Hu & Hb & Ha & _).
    vm_compute in Hu. injection Hu as <-. split; [exact Hb | exact Ha].
Defined.

(** The role [analyst], granted to [bob] and revoked again. *)
Lemma revokeRole_undoes_grantRole_witness :
  (forall user user_rl,
     getMetadataForUser "bob" sys_with_role = Some user ->
     getMetadataForUserRole (userId user) sys_with_role = Some user_rl ->
     (to_upper "analyst" ∉ groupRole_ user_rl) /\ groupRole_ user_rl <> ∅)
  /\ exists s1 s2,
       grantRole_unsafe "analyst" "bob" sys_with_role = Ok tt s1
       /\ revokeRole_unsafe "analyst" "bob" s1 = Ok tt s2
       /\ userRoleMap_ s2 = userRoleMap_ sys_with_role
       /\ db (sqliteConnector_ s2) = db (sqliteConnector_ sys_with_role).
Proof.
  assert (H1 : forall user user_rl,
             getMetadataForUser "bob" sys_with_role = Some user ->
             getMetadataForUserRole (userId user) sys_with_role = Some user_rl ->
             (to_upper "analyst" ∉ groupRole_ user_rl) /\ groupRole_ user_rl <> ∅).
  { intros user user_rl Hu Hr. vm_compute in Hu. injection Hu as <-.
    cbn [userId] in Hr.
    assert (E : getMetadataForUserRole 1 sys_with_role
                = Some (mkUserRole 1 "bob" {["BOB"]})) by (vm_compute; reflexivity).
    rewrite E in Hr. injection Hr as <-. cbn [groupRole_].
    split; apply (bool_decide_unpack _); vm_compute; exact I. }
  assert (H2 : forall n, fuse (sqliteConnector_ sys_with_role) = Some n -> (2 <= n)%nat).
  { intros n E. vm_compute in E. discriminate. }
  split; [exact H1|].
  assert (R : { s1 | grantRole_unsafe "analyst" "bob" sys_with_role = Ok tt s1 }).
  { eexists. vm_compute. reflexivity. }
  destruct R as [s1 R].
  destruct (revokeRole_undoes_grantRole "analyst" "bob" sys_with_role tt s1 H1 H2 R)
    as (s2 & R2 & Hu & _ & Hdb & _).
  exists s1, s2. auto.
Defined.

(** The user [bob] of the sample system catalog. *)
Lemma createUser_creates_witness :
  exists s',
    createUser "bob" "pw" false sample_sys = Ok tt s'
    /\ getMetadataForUser "bob" s' = Some bob
    /\ hasRole "bob" true s' = true
    /\ isRoleGrantedToUser 1 "bob" s' = true.
Proof.
  assert (R : { s' | createUser "bob" "pw" false sample_sys = Ok tt s' }).
  { eexists. vm_compute. reflexivity. }
  destruct R as [s' R]. exists s'. split; [exact R|].
  destruct (createUser_creates _ _ _ _ _ _ R) as (_ & _ & Hu & _ & Hon & _).
  destruct (Hon eq_refl) as (Hh & _ & Hg).
  destruct (Hg eq_refl) as (Hi & _).
  split; [exact Hu|]. split; [exact Hh | exact Hi].
Defined.

(** A name that is no user, and a storage that fails at the first
    statement of dropping [bob]. *)
Lemma dropUser_throws_witness :
  let failing :=
    set_conn (mkConn (db (sqliteConnector_ sys_with_bob)) None (Some 0%nat))
             sys_with_bob in
  getMetadataForUser "nobody" sample_sys = None
  /\ dropUser "nobody" sample_sys = Throw "User nobody does not exist." sample_sys
  /\ exists e s',
       dropUser "bob" failing = Throw e s'
       /\ db (sqliteConnector_ s') = db (sqliteConnector_ failing).
Proof.
  cbv zeta. split; [reflexivity|]. split.
  - exact (proj1 (dropUser_throws "nobody" sample_sys) eq_refl eq_refl).
  - assert (R : { r | dropUser "bob"
                        (set_conn (mkConn (db (sqliteConnector_ sys_with_bob)) None
                                          (Some 0%nat)) sys_with_bob)
                      = Throw r.1 r.2 }).
    { eexists (_, _). vm_compute. reflexivity. }
    destruct R as [[e s'] R]. cbn [fst snd] in R. exists e, s'. split; [exact R|].
    exact (proj1 (proj2 (dropUser_throws "bob" _) _ _ R)).
Defined.

(** The user [mapd] of the sample system catalog has no private role. *)
Lemma dropUser_needs_private_role_witness :
  txn (sqliteConnector_ sample_sys) = None
  /\ arePrivilegesOn sample_sys = true
  /\ is_Some (getMetadataForUser "mapd" sample_sys)
  /\ getMetadataForRole "mapd" sample_sys = None
  /\ dropUser "mapd" sample_sys = Fatal.
Proof.
  assert (Hu : is_Some (getMetadataForUser "mapd" sample_sys)).
  { eexists. vm_compute. reflexivity. }
  split; [reflexivity|]. split; [reflexivity|]. split; [exact Hu|].
  split; [reflexivity|].
  exact (dropUser_needs_private_role "mapd" sample_sys eq_refl eq_refl Hu eq_refl).
Defined.

(** The user [bob] dropped. *)
Lemma dropUser_removes_witness :
  NoDup (ur_name <$> mapd_users (db (sqliteConnector_ sys_with_bob)))
  /\ NoDup (ur_userid <$> mapd_users (db (sqliteConnector_ sys_with_bob)))
  /\ exists s',
       dropUser "bob" sys_with_bob = Ok tt s'
       /\ getMetadataForUser "bob" s' = None
       /\ getMetadataForRole "bob" s' = None
       /\ getMetadataForUser "mapd" s' = getMetadataForUser "mapd" sys_with_bob.
Proof.
  assert (H1 : NoDup (ur_name <$> mapd_users (db (sqliteConnector_ sys_with_bob)))).
  { apply (bool_decide_unpack _). vm_compute. exact I. }
  assert (H2 : NoDup (ur_userid <$> mapd_users (db (sqliteConnector_ sys_with_bob)))).
  { apply (bool_decide_unpack _). vm_compute. exact I. }
  split; [exact H1|]. split; [exact H2|].
  assert (R : { s' | dropUser "bob" sys_with_bob = Ok tt s' }).
  { eexists. vm_compute. reflexivity. }
  destruct R as [s' R]. exists s'. split; [exact R|].
  destruct (dropUser_removes "bob" sys_with_bob tt s' H1 H2 R)
    as (user & _ & Hu & Hother & Hon).
  destruct (Hon eq_refl) as (Hr & _).
  split; [exact Hu|]. split; [exact Hr|]. apply Hother. discriminate.
Defined.

(** The user [bob], created and dropped again. *)
Lemma dropUser_undoes_createUser_witness :
  fuse (sqliteConnector_ sample_sys) = None
  /\ exists s1,
       createUser "bob" "pw" false sample_sys = Ok tt s1
       /\ dropUser "bob" s1 = Ok tt sample_sys.
Proof.
  split; [reflexivity|].
  assert (R : { s1 | createUser "bob" "pw" false sample_sys = Ok tt s1 }).
  { eexists. vm_compute. reflexivity. }
  destruct R as [s1 R]. exists s1. split; [exact R|].
  apply (dropUser_undoes_createUser "bob" "pw" false sample_sys tt s1 eq_refl);
    [|exact R].
  intros _. split; [vm_compute; reflexivity|].
  split; intros r Hr; vm_compute in Hr; inversion Hr.
Defined.

(** A new password for [bob]. *)
Lemma alterUser_updates_witness :
  exists s',
    alterUser 1 (Some "new") None sys_with_bob = Ok tt s'
    /\ getMetadataForUser "bob" s' = Some (mkUser 1 "bob" "new" false false)
    /\ checkPasswordForUser "new" (mkUser 1 "bob" "new" false false) = true
    /\ checkPasswordForUser "pw" (mkUser 1 "bob" "new" false false) = false.
Proof.
  assert (R : { s' | alterUser 1 (Some "new") None sys_with_bob = Ok tt s' }).
  { eexists. vm_compute. reflexivity. }
  destruct R as [s' R]. exists s'. split; [exact R|].
  destruct (alterUser_updates _ _ _ _ _ _ R) as (Hall & Hpw & _).
  assert (Hu : getMetadataForUser "bob" s' = Some (mkUser 1 "bob" "new" false false)).
  { rewrite (Hall "bob"). vm_compute. reflexivity. }
  split; [exact Hu|].
  split; [rewrite (Hpw "bob" _ "new" Hu eq_refl eq_refl) |
          rewrite (Hpw "bob" _ "new" Hu eq_refl eq_refl)]; vm_compute; reflexivity.
Defined.

End MoreSysCatalogExamples.

Section ColumnRowsExamples.
Import Catalog.

(** The rows of the columns of the versioned table [t(a, b)]. *)
Lemma createTable_distinct_columns_witness :
  td_persistenceLevel (sample_table "t" 0 true DISK_LEVEL) = DISK_LEVEL
  /\ exists td' c' rows,
       createTable (sample_table "t" 0 true DISK_LEVEL) two_columns [] true sample_catalog
       = Ok td' c'
       /\ mapd_columns (db (sqliteConnector_ c'))
          = mapd_columns (db (sqliteConnector_ sample_catalog)) ++ rows
       /\ cr_name <$> rows = ["a"; "b"; "rowid"; "$deleted$"]
       /\ NoDup (cr_name <$> rows).
Proof.
  split; [reflexivity|].
  assert (R : { r | createTable (sample_table "t" 0 true DISK_LEVEL) two_columns []
                                true sample_catalog = Ok r.1 r.2 }).
  { eexists (_, _). vm_compute. reflexivity. }
  destruct R as [[td' c'] R]. cbn [fst snd] in R.
  destruct (createTable_distinct_columns (sample_table "t" 0 true DISK_LEVEL) _ _ _ _ _ _
              eq_refl R)
    as (columns & rows & E & Hnd & Hrows & Hnames & _).
  vm_compute in E. injection E as <-.
  exists td', c', rows. split; [exact R|]. split; [exact Hrows|].
  split; [exact Hnames|]. rewrite Hnames. exact Hnd.
Defined.

(** A temporary versioned table [t(a int)], created and removed. *)
Lemma removeTableFromMap_undoes_createTable_witness :
  let td := sample_table "t" 0 true CPU_LEVEL in
  let cols := [column "a" int_type] in
  td_persistenceLevel td <> DISK_LEVEL
  /\ Forall (fun cd => ti_compression (cd_columnType cd) <> kENCODING_DICT)
            (cols ++ system_columns td)
  /\ getMetadataForTable "t" sample_catalog = None
  /\ exists td' c',
       createTable td cols [] true sample_catalog = Ok td' c'
       /\ removeTableFromMap "t" (td_tableId td') c'
          = Ok tt (set_nextTemp (nextTempTableId_ sample_catalog + 1)
                                (nextTempDictId_ sample_catalog) sample_catalog).
Proof.
  cbv zeta.
  assert (H1 : td_persistenceLevel (sample_table "t" 0 true CPU_LEVEL) <> DISK_LEVEL)
    by (simpl; discriminate).
  assert (H2 : Forall (fun cd => ti_compression (cd_columnType cd) <> kENCODING_DICT)
                      ([column "a" int_type]
                       ++ system_columns (sample_table "t" 0 true CPU_LEVEL))).
  { apply (bool_decide_unpack _). vm_compute. exact I. }
  assert (H3 : getMetadataForTable "t" sample_catalog = None) by (vm_compute; reflexivity).
  split; [exact H1|]. split; [exact H2|]. split; [exact H3|].
  assert (R : { r | createTable (sample_table "t" 0 true CPU_LEVEL)
                                [column "a" int_type] [] true sample_catalog
                    = Ok r.1 r.2 }).
  { eexists (_, _). vm_compute. reflexivity. }
  destruct R as [[td' c'] R]. cbn [fst snd] in R. exists td', c'. split; [exact R|].
  apply (removeTableFromMap_undoes_createTable _ _ [] true sample_catalog td' c' H1 H2 H3);
    [ | | | |exact R].
  - apply lookup_empty.
  - intros i. apply lookup_empty.
  - intros name. apply lookup_empty.
  - intros E. discriminate E.
Defined.

End ColumnRowsExamples.
